(** * NVRHI validation layer: a shallow embedding of [validation-device.cpp]

    The validation layer ([nvrhi::validation::DeviceWrapper]) is a decorator
    over an [IDevice].  Every method checks its arguments, reports problems
    through the device's [IMessageCallback] and either returns a neutral
    failure value or forwards to the wrapped device.

    Conventions of the embedding:
    - [uint32_t] / [uint64_t] values are [Z], with the wrap-around of the
      C++ arithmetic written out ([wrap64]);
    - [std::unordered_set<BindingLocation>] is a [gset BindingLocation]; the
      loops of the three set helpers are folds over the iterated set;
    - a call on the wrapped device and a call of [IMessageCallback::message]
      are events of a trace; a method of the wrapper is a computation in the
      monad [M], which carries the trace and how the call ended;
    - the text of a message is kept as the list of its lines, each line a
      [Finding] naming the rule that produced it (the rendering with
      [operator<<] is not modelled);
    - [assert] is live: no configuration of the repository's build defines
      [NDEBUG], so a failed assertion aborts the call ([Aborted]). *)

From stdpp Require Import base decidable countable gmap sets fin_sets list strings.
From Stdlib Require Import ZArith Lia.

Local Open Scope Z_scope.

(** ** Machine integers *)

Definition wrap32 (z : Z) : Z := z mod 2 ^ 32.
Definition wrap64 (z : Z) : Z := z mod 2 ^ 64.
Definition UINT32_MAX : Z := 2 ^ 32 - 1.
Definition UINT64_MAX : Z := 2 ^ 64 - 1.

Definition is_uint64 (z : Z) : Prop := 0 <= z <= UINT64_MAX.

(** ** Enumerations *)

Inductive GraphicsAPI := D3D11 | D3D12 | VULKAN.

Inductive MessageSeverity := Info | Warning | Error | Fatal.

Inductive Feature :=
| Feature_ComputeQueue
| Feature_ConservativeRasterization
| Feature_ConstantBufferRanges
| Feature_CopyQueue
| Feature_ShaderSpecializations
| Feature_VirtualResources.

(** An [enum class] can hold values outside its enumerators; the [default:]
    labels of the source handle them, [Unrecognized] stands for them. *)
Inductive TextureDimension :=
| TD_Unknown
| Texture1D | Texture1DArray
| Texture2D | Texture2DArray
| TextureCube | TextureCubeArray
| Texture2DMS | Texture2DMSArray
| Texture3D
| TD_Unrecognized (raw : Z).

Inductive ResourceType :=
| RT_None
| Texture_SRV | Texture_UAV
| TypedBuffer_SRV | TypedBuffer_UAV
| StructuredBuffer_SRV | StructuredBuffer_UAV
| RawBuffer_SRV | RawBuffer_UAV
| ConstantBuffer | VolatileConstantBuffer
| Sampler
| RayTracingAccelStruct
| PushConstants
| SamplerFeedbackTexture_UAV
| RT_Count
| RT_Unrecognized (raw : Z).

Inductive GraphicsResourceType := SRV | GSampler | UAV | CB.

Inductive CpuAccessMode := CpuNone | CpuRead | CpuWrite.

#[global] Instance GraphicsAPI_eq_dec : EqDecision GraphicsAPI.
Proof. solve_decision. Defined.
#[global] Instance TextureDimension_eq_dec : EqDecision TextureDimension.
Proof. solve_decision. Defined.
#[global] Instance ResourceType_eq_dec : EqDecision ResourceType.
Proof. solve_decision. Defined.
#[global] Instance GraphicsResourceType_eq_dec : EqDecision GraphicsResourceType.
Proof. solve_decision. Defined.
#[global] Instance CpuAccessMode_eq_dec : EqDecision CpuAccessMode.
Proof. solve_decision. Defined.
#[global] Instance Feature_eq_dec : EqDecision Feature.
Proof. solve_decision. Defined.

Definition GraphicsResourceType_to_nat (t : GraphicsResourceType) : nat :=
  match t with SRV => 0 | GSampler => 1 | UAV => 2 | CB => 3 end%nat.
Definition GraphicsResourceType_of_nat (n : nat) : GraphicsResourceType :=
  match n with O => SRV | 1%nat => GSampler | 2%nat => UAV | _ => CB end.

#[global] Instance GraphicsResourceType_countable : Countable GraphicsResourceType.
Proof.
  apply (inj_countable' GraphicsResourceType_to_nat GraphicsResourceType_of_nat).
  by intros [].
Defined.

(** [ShaderType] is a bit mask ([Vertex = 0x1], [Pixel = 0x10], ...); a
    layout's [visibility] is tested against a stage with [&]. *)
Definition ShaderType := Z.
Definition ShaderType_None : ShaderType := 0.
Definition ShaderType_Compute : ShaderType := 0x20.
Definition ShaderType_All : ShaderType := 0x3FFF.

Definition visibleTo (visibility stage : ShaderType) : bool :=
  negb (Z.land visibility stage =? 0).

(** ** Binding locations, ranges and summaries ([validation-backend.h]) *)

Record BindingLocation := mkLocation {
  loc_type : GraphicsResourceType;
  loc_registerSpace : Z;
  loc_slot : Z;
  loc_arrayElement : Z
}.

#[global] Instance BindingLocation_eq_dec : EqDecision BindingLocation.
Proof. solve_decision. Defined.

#[global] Instance BindingLocation_countable : Countable BindingLocation.
Proof.
  apply (inj_countable'
    (fun l => (loc_type l, loc_registerSpace l, loc_slot l, loc_arrayElement l))
    (fun '(t, r, s, a) => mkLocation t r s a)).
  by intros [].
Defined.

Abbreviation BindingLocationSet := (gset BindingLocation).

(** Modelled from the spec: the declaration of [Range] is in
    [validation-backend.h]; "A Range is empty exactly when no slot was ever
    added to it (min initialized above max)". *)
Record Range := mkRange { r_min : Z; r_max : Z }.

Definition Range_init : Range := mkRange UINT32_MAX 0.

Module Range.
Definition add (r : Range) (item : Z) : Range :=
  mkRange (Z.min (r_min r) item) (Z.max (r_max r) item).

Definition empty (r : Range) : bool := r_max r <? r_min r.

Definition overlapsWith (r other : Range) : bool :=
  negb (empty r) && negb (empty other)
  && (r_min other <=? r_max r) && (r_min r <=? r_max other).
End Range.

Record BindingSummary := mkSummary {
  locations : BindingLocationSet;
  numVolatileCBs : Z;
  rangeSRV : Range;
  rangeSampler : Range;
  rangeUAV : Range;
  rangeCB : Range
}.

Definition BindingSummary_init : BindingSummary :=
  mkSummary ∅ 0 Range_init Range_init Range_init Range_init.

Module Summary.
Definition any (b : BindingSummary) : bool :=
  negb (bool_decide (locations b = ∅)).

Definition overlapsWith (b other : BindingSummary) : bool :=
  Range.overlapsWith (rangeSRV b) (rangeSRV other)
  || Range.overlapsWith (rangeSampler b) (rangeSampler other)
  || Range.overlapsWith (rangeUAV b) (rangeUAV other)
  || Range.overlapsWith (rangeCB b) (rangeCB other).
End Summary.

(** ** The set helpers

    Each helper is the loop of the source: a fold over the set that the
    range-[for] iterates. *)

Definition SetDifference (a b : BindingLocationSet) : BindingLocationSet :=
  set_fold (fun item result => result ∖ {[ item ]}) a b.

Definition SetIntersection (a b : BindingLocationSet) : BindingLocationSet :=
  set_fold (fun item result =>
              if decide (item ∈ b) then {[ item ]} ∪ result else result) ∅ a.

Definition SetUnionInplace (a b : BindingLocationSet) : BindingLocationSet :=
  set_fold (fun item a' => {[ item ]} ∪ a') a b.

(** ** Descriptors and objects ([nvrhi.h]) *)

(** [ResourceStates] and [Format] are kept as their numeric values;
    [ResourceStates::Unknown] and [Format::UNKNOWN] are both 0. *)
Definition ResourceStates := Z.
Definition ResourceStates_Unknown : ResourceStates := 0.
Definition Format := Z.
Definition Format_UNKNOWN : Format := 0.

Record TextureDesc := mkTextureDesc {
  td_width : Z;
  td_height : Z;
  td_depth : Z;
  td_arraySize : Z;
  td_mipLevels : Z;
  td_sampleCount : Z;
  td_dimension : TextureDimension;
  td_debugName : string;
  td_isUAV : bool;
  td_isVirtual : bool;
  td_initialState : ResourceStates;
  td_keepInitialState : bool
}.

Record BufferDesc := mkBufferDesc {
  bd_byteSize : Z;
  bd_structStride : Z;
  bd_maxVersions : Z;
  bd_debugName : string;
  bd_format : Format;
  bd_canHaveUAVs : bool;
  bd_canHaveTypedViews : bool;
  bd_canHaveRawViews : bool;
  bd_isVertexBuffer : bool;
  bd_isIndexBuffer : bool;
  bd_isConstantBuffer : bool;
  bd_isDrawIndirectArgs : bool;
  bd_isAccelStructBuildInput : bool;
  bd_isAccelStructStorage : bool;
  bd_isShaderBindingTable : bool;
  bd_isVolatile : bool;
  bd_isVirtual : bool;
  bd_initialState : ResourceStates;
  bd_keepInitialState : bool;
  bd_cpuAccess : CpuAccessMode
}.

Record HeapDesc := mkHeapDesc {
  hd_capacity : Z;
  hd_debugName : string
}.

Record MemoryRequirements := mkMemReq {
  mr_size : Z;
  mr_alignment : Z
}.

Record AccelStructDesc := mkAccelStructDesc {
  asd_topLevelMaxInstances : Z;
  asd_buildFlags : Z;
  asd_debugName : string;
  asd_isVirtual : bool;
  asd_isTopLevel : bool
}.

Record TextureSubresourceSet := mkSubresources {
  baseMipLevel : Z;
  numMipLevels : Z;
  baseArraySlice : Z;
  numArraySlices : Z
}.

Record BufferRange := mkBufferRange {
  byteOffset : Z;
  byteSize : Z
}.

(** The objects behind the interface pointers.  The first field of a
    backend object is its identity.  [AccelStructWrapper] is the validation
    layer's own implementation of [rt::IAccelStruct]; [underlying] is the
    handle it owns. *)
Record ITexture := mkTexture {
  tex_id : Z;
  tex_desc : TextureDesc
}.

Record IBuffer := mkBuffer {
  buf_id : Z;
  buf_desc : BufferDesc
}.

Inductive IAccelStruct :=
| BackendAccelStruct (id : Z) (desc : AccelStructDesc)
| AccelStructWrapper (underlying : IAccelStruct)
    (isTopLevel allowUpdate allowCompaction : bool) (maxInstances : Z).

Inductive IResource :=
| ResTexture (t : ITexture)
| ResBuffer (b : IBuffer)
| ResSampler (id : Z)
| ResSamplerFeedbackTexture (id : Z)
| ResAccelStruct (a : IAccelStruct).

(** Modelled from the spec: [AccelStructWrapper::getDesc] is declared in
    [validation-backend.h]; the wrappers are "transparent wrappers around
    acceleration structures", so the descriptor of a wrapper is that of
    the object it wraps. *)
Fixpoint AccelStruct_getDesc (a : IAccelStruct) : AccelStructDesc :=
  match a with
  | BackendAccelStruct _ desc => desc
  | AccelStructWrapper underlying _ _ _ _ => AccelStruct_getDesc underlying
  end.

(** A pointer or handle is an [option]: [None] is [nullptr]. *)
Abbreviation ResourceHandle := (option IResource).

Record Heap := mkHeap {
  heap_id : Z;
  heap_desc : HeapDesc
}.

Record BindingLayoutItem := mkLayoutItem {
  li_slot : Z;
  li_type : ResourceType;
  li_size : Z
}.

Record BindingLayoutDesc := mkLayoutDesc {
  ld_visibility : ShaderType;
  ld_registerSpace : Z;
  ld_registerSpaceIsDescriptorSet : bool;
  ld_bindings : list BindingLayoutItem
}.

Record BindlessLayoutDesc := mkBindlessDesc {
  bl_visibility : ShaderType;
  bl_firstSlot : Z;
  bl_maxCapacity : Z;
  bl_registerSpaces : list BindingLayoutItem
}.

(** [IBindingLayout::getDesc] is null for a bindless layout and
    [getBindlessDesc] is null for a regular one. *)
Inductive BindingLayout :=
| Layout (id : Z) (desc : BindingLayoutDesc)
| Bindless (id : Z) (desc : BindlessLayoutDesc).

Definition BindingLayout_getDesc (l : BindingLayout) : option BindingLayoutDesc :=
  match l with Layout _ d => Some d | Bindless _ _ => None end.

Definition BindingLayout_getBindlessDesc (l : BindingLayout) : option BindlessLayoutDesc :=
  match l with Layout _ _ => None | Bindless _ d => Some d end.

(** In the source [subresources] and [range] share a union; the model keeps
    one field for each. *)
Record BindingSetItem := mkSetItem {
  si_resourceHandle : ResourceHandle;
  si_slot : Z;
  si_arrayElement : Z;
  si_type : ResourceType;
  si_dimension : TextureDimension;
  si_format : Format;
  si_subresources : TextureSubresourceSet;
  si_range : BufferRange
}.

Record BindingSetDesc := mkSetDesc {
  sd_bindings : list BindingSetItem
}.

Record ShaderDesc := mkShaderDesc {
  sh_shaderType : ShaderType;
  sh_debugName : string;
  sh_entryName : string
}.

Record Shader := mkShader {
  shader_id : Z;
  shader_desc : ShaderDesc
}.

Record ComputePipelineDesc := mkComputePipelineDesc {
  cp_CS : option Shader;
  cp_bindingLayouts : list (option BindingLayout)
}.

(** ** Messages *)

(** One line of a message: the rule that failed and the values the source
    prints with it. *)
Inductive Finding :=
(* createTexture *)
| F_UnknownTextureDimension
| F_ExtentsMustNotBeZero
| F_HeightMustBe1
| F_DepthMustBe1
| F_ArraySizeMustBe1
| F_ArraySizeMustBe6
| F_ArraySizeMustBeMultipleOf6
| F_SampleCountMustBe1
| F_SampleCountMustBe248
| F_MultisampledUAV
| F_NoVirtualResources
| F_InitialStateUnknown
(* sampler feedback *)
| F_ApiDoesNotSupport (api : GraphicsAPI)
(* memory binding *)
| F_ResourceIsNull
| F_HeapIsNull
| F_NotVirtual
| F_DoesNotFit (offset size capacity : Z)
| F_InvalidAlignment (alignment offset : Z)
(* createBuffer *)
| F_VolatileNotConstant
| F_VolatileMaxVersions0
| F_VolatileUnsupportedUsage
| F_VolatileCpuAccess
(* binding summaries and pipelines *)
| F_InvalidLayoutItemType (t : ResourceType)
| F_LayoutIsNull (slot : nat)
| F_DuplicateHeader
| F_DuplicateBindings (stage : ShaderType) (locs : BindingLocationSet)
| F_OverlapHeader
| F_OverlappingRanges (stage : ShaderType) (srv sampler uav cb : bool)
| F_RegisterSpaceTooLarge (layoutIndex : nat) (space : Z)
| F_RegisterSpaceReused (layoutIndex : nat) (space : Z) (previous : Z)
| F_MixedRegisterSpaceSemantics
| F_TooManyPushConstantBlocks (count : Z)
| F_PushConstantsTooLarge (size : Z)
| F_ComputeShaderIsNull
| F_UnexpectedShaderType (expected actual : ShaderType)
(* bindless layouts *)
| F_VisibilityNone
| F_NoRegisterSpaces
| F_MaxCapacity0
| F_BindlessVolatileCB (slot : Z)
| F_BindlessSampler (slot : Z)
| F_BindlessPushConstants (slot : Z)
| F_BindlessInvalidType (slot : Z)
(* binding sets *)
| F_NoLayout
| F_LayoutIsBindless
| F_DeclaredNotBound (locs : BindingLocationSet)
| F_BoundNotDeclared (locs : BindingLocationSet)
| F_SetDuplicates (locs : BindingLocationSet)
| F_NoneInBindingSet
| F_NullTexture
| F_EmptySubresourceSet
| F_TextureNotUAV
| F_IncompatibleDimension
| F_NullBuffer
| F_NoTypedViews
| F_NoStructStride
| F_NoRawViews
| F_BufferNotUAV
| F_NotConstantBuffer
| F_VolatileAsRegular
| F_RegularAsVolatile
| F_BothFormatsUnknown
| F_NoConstantBufferRanges
| F_OffsetMisaligned (offset : Z)
| F_SizeMisaligned (size : Z)
| F_VolatilePartiallyBound
| F_NullSampler
| F_NullAccelStruct
| F_PushConstantsInTable
| F_PushConstantsWithResource
| F_PushConstantsSize0
| F_UnrecognizedResourceType
(* acceleration structures *)
| F_TlasCompaction
| F_UpdateAndCompaction.

(** ** The wrapped device and the trace of a call *)

Inductive BackendCall :=
| Call_getGraphicsAPI
| Call_queryFeatureSupport (f : Feature)
| Call_createTexture (d : TextureDesc)
| Call_createSamplerFeedbackTexture (paired : option ITexture)
| Call_createSamplerFeedbackForNativeTexture (paired : option ITexture)
| Call_getTextureMemoryRequirements (t : ITexture)
| Call_bindTextureMemory (t : ITexture) (h : Heap) (offset : Z)
| Call_createBuffer (d : BufferDesc)
| Call_getBufferMemoryRequirements (b : IBuffer)
| Call_bindBufferMemory (b : IBuffer) (h : Heap) (offset : Z)
| Call_createComputePipeline (d : ComputePipelineDesc)
| Call_createBindlessLayout (d : BindlessLayoutDesc)
| Call_createBindingSet (d : BindingSetDesc) (layout : BindingLayout)
| Call_writeDescriptorTable (table : Z) (item : BindingSetItem)
| Call_createAccelStruct (d : AccelStructDesc)
| Call_getAccelStructMemoryRequirements (a : IAccelStruct)
| Call_bindAccelStructMemory (a : IAccelStruct) (h : Heap) (offset : Z).

Inductive Event :=
| Backend (c : BackendCall)
| Message (severity : MessageSeverity) (text : list Finding).

(** The wrapped [IDevice]: what each of its methods returns.  The device
    answers statelessly, so each method is a function of its arguments. *)
Record IDevice := mkDevice {
  dev_getGraphicsAPI : GraphicsAPI;
  dev_queryFeatureSupport : Feature -> bool;
  dev_createTexture : TextureDesc -> option ITexture;
  dev_createSamplerFeedbackTexture : option ITexture -> option Z;
  dev_createSamplerFeedbackForNativeTexture : option ITexture -> option Z;
  dev_getTextureMemoryRequirements : ITexture -> MemoryRequirements;
  dev_bindTextureMemory : ITexture -> Heap -> Z -> bool;
  dev_createBuffer : BufferDesc -> option IBuffer;
  dev_getBufferMemoryRequirements : IBuffer -> MemoryRequirements;
  dev_bindBufferMemory : IBuffer -> Heap -> Z -> bool;
  dev_createComputePipeline : ComputePipelineDesc -> option Z;
  dev_createBindlessLayout : BindlessLayoutDesc -> option BindingLayout;
  dev_createBindingSet : BindingSetDesc -> BindingLayout -> option Z;
  dev_writeDescriptorTable : Z -> BindingSetItem -> bool;
  dev_createAccelStruct : AccelStructDesc -> option IAccelStruct;
  dev_getAccelStructMemoryRequirements : IAccelStruct -> MemoryRequirements;
  dev_bindAccelStructMemory : IAccelStruct -> Heap -> Z -> bool
}.

(** How a call ended: it returned [a]; it ran into undefined behaviour (a
    null or mistyped pointer was dereferenced); an [assert] failed and
    aborted the program; or the model's fuel ran out before it returned. *)
Inductive outcome (A : Type) :=
| Done (a : A)
| Undefined
| Aborted
| OutOfFuel.
Arguments Done {A} a.
Arguments Undefined {A}.
Arguments Aborted {A}.
Arguments OutOfFuel {A}.

Definition M (A : Type) : Type := outcome A * list Event.

Definition ret {A} (a : A) : M A := (Done a, []).

Definition bind {A B} (m : M A) (f : A -> M B) : M B :=
  match m with
  | (Done a, t) => let '(r, t') := f a in (r, t ++ t')
  | (Undefined, t) => (Undefined, t)
  | (Aborted, t) => (Aborted, t)
  | (OutOfFuel, t) => (OutOfFuel, t)
  end.

Definition emit (e : Event) : M unit := (Done tt, [e]).
Definition undefined {A} : M A := (Undefined, []).

(** [assert(c)]: nothing happens when [c] holds, the program is aborted
    when it does not. *)
Definition aborted {A} : M A := (Aborted, []).
Definition assert_ (c : bool) : M unit := if c then ret tt else aborted.

Declare Scope vl_scope.
Delimit Scope vl_scope with vl.
Notation "x <- c1 ;; c2" := (bind c1 (fun x => c2))
  (at level 100, c1 at next level, right associativity) : vl_scope.
Notation "' pat <- c1 ;; c2" := (bind c1 (fun pat => c2))
  (at level 100, pat pattern, c1 at next level, right associativity) : vl_scope.
Notation "c1 ;; c2" := (bind c1 (fun _ => c2))
  (at level 100, right associativity) : vl_scope.
Local Open Scope vl_scope.

Definition result {A} (m : M A) : outcome A := fst m.
Definition trace {A} (m : M A) : list Event := snd m.

(** The calls on the wrapped device and the messages of a trace. *)
Definition backendCalls (t : list Event) : list BackendCall :=
  omap (fun e => match e with Backend c => Some c | Message _ _ => None end) t.

Definition messages (t : list Event) : list (MessageSeverity * list Finding) :=
  omap (fun e => match e with Backend _ => None | Message s x => Some (s, x) end) t.

Fixpoint forM {A B} (f : A -> B -> M B) (l : list A) (b : B) : M B :=
  match l with
  | [] => ret b
  | x :: l' => b' <- f x b ;; forM f l' b'
  end.

(** [returns m Q]: the call [m] returns, with a value and a trace that
    satisfy [Q]. *)
Definition returns {A} (m : M A) (Q : A -> list Event -> Prop) : Prop :=
  exists a t, m = (Done a, t) /\ Q a t.

(** [confined m T Q]: every event of [m] satisfies [T], however [m] ends,
    and the value satisfies [Q] when [m] returns. *)
Definition confined {A} (m : M A) (T : Event -> Prop) (Q : A -> Prop) : Prop :=
  Forall T (trace m) /\ forall a, result m = Done a -> Q a.

(** The findings of the messages of a trace. *)
Definition findings (t : list Event) : list Finding :=
  concat (map snd (messages t)).

(** The calls of a trace that reach [m_Device->createTexture]. *)
Definition createTextureCalls (t : list Event) : list TextureDesc :=
  omap (fun c => match c with Call_createTexture d => Some d | _ => None end)
       (backendCalls t).


(** ** Sample devices and descriptors *)

Module Samples.

Definition memReq (size alignment : Z) : MemoryRequirements :=
  mkMemReq size alignment.

(** A device of the given API that supports every feature, creates every
    object it is asked for and reports [req] as the memory requirement of
    every resource. *)
Definition device (api : GraphicsAPI) (req : MemoryRequirements) : IDevice :=
  mkDevice api (fun _ => true)
    (fun d => Some (mkTexture 1 d))
    (fun _ => Some 2) (fun _ => Some 3)
    (fun _ => req) (fun _ _ _ => true)
    (fun d => Some (mkBuffer 4 d))
    (fun _ => req) (fun _ _ _ => true)
    (fun _ => Some 5)
    (fun d => Some (Bindless 6 d))
    (fun _ _ => Some 7)
    (fun _ _ => true)
    (fun d => Some (BackendAccelStruct 8 d))
    (fun _ => req) (fun _ _ _ => true).

Definition d3d11 : IDevice := device D3D11 (memReq 256 256).
Definition d3d12 : IDevice := device D3D12 (memReq 256 256).
Definition vulkan : IDevice := device VULKAN (memReq 256 256).

Definition textureName (d : TextureDesc) : string := "Texture".
Definition bufferName (d : BufferDesc) : string := "Buffer".

(** [BindingLayoutItem::getArraySize] as [nvrhi.h] has it. *)
Definition arraySize (item : BindingLayoutItem) : Z :=
  if bool_decide (li_type item = PushConstants) then 1 else li_size item.

(** [c_MaxBindingLayouts], [c_MaxPushConstantSize] and
    [c_ConstantBufferOffsetSizeAlignment]. *)
Definition maxBindingLayouts : Z := 5.
Definition maxPushConstantSize : Z := 128.
Definition constantBufferAlignment : Z := 256.

(** [AllowUpdate = 1], [AllowCompaction = 2]. *)
Definition allowUpdate : Z := 1.
Definition allowCompaction : Z := 2.

(** A 1-D texture that breaks three rules at once: height, array size and
    sample count. *)
Definition texture1D_bad : TextureDesc :=
  mkTextureDesc 4 2 1 2 1 3 Texture1D "t" false false 0 false.

(** A volatile constant buffer with one version, no CPU access and no other
    usage; [keepInitialState] is a parameter. *)
Definition volatileCB (keepInitialState : bool) : BufferDesc :=
  mkBufferDesc 256 0 1 "cb" 0 false false false false false true false false
    false false true false 0 keepInitialState CpuNone.

Definition volatileVB : BufferDesc :=
  mkBufferDesc 256 0 1 "vb" 0 false false false true false true false false
    false false true false 0 false CpuNone.

Definition tlasCompaction : AccelStructDesc :=
  mkAccelStructDesc 16 allowCompaction "tlas" false true.

Definition blasUpdate : AccelStructDesc :=
  mkAccelStructDesc 0 allowUpdate "blas" false false.

Definition noSubresources : TextureSubresourceSet := mkSubresources 0 1 0 1.
Definition wholeRange : BufferRange := mkBufferRange 0 0.

(** A binding-set item of the given class with a null resource. *)
Definition nullItem (type : ResourceType) : BindingSetItem :=
  mkSetItem None 0 0 type TD_Unknown 0 noSubresources wholeRange.

Definition resolveSubresources (s : TextureSubresourceSet) (d : TextureDesc)
    (singleMipLevel : bool) : TextureSubresourceSet := s.
Definition isEntireBuffer (r : BufferRange) (d : BufferDesc) : bool := true.
Definition resolveRange (r : BufferRange) (d : BufferDesc) : BufferRange := r.

(** Layouts visible to every stage, in register space 0, each declaring
    one texture SRV. *)
Definition srvLayout (id slot : Z) : BindingLayout :=
  Layout id (mkLayoutDesc ShaderType_All 0 false [mkLayoutItem slot Texture_SRV 1]).

Definition computeShader : Shader :=
  mkShader 1 (mkShaderDesc ShaderType_Compute "cs" "main").

Definition virtualTexture : ITexture :=
  mkTexture 1 (mkTextureDesc 4 4 1 1 1 1 Texture2D "t" false true 0 false).
Definition virtualBuffer : IBuffer :=
  mkBuffer 4 (mkBufferDesc 256 0 0 "b" 0 false false false false false false
                false false false false false true 0 false CpuNone).
Definition virtualAccelStruct : IAccelStruct :=
  BackendAccelStruct 8 (mkAccelStructDesc 0 0 "as" true false).
Definition heap64k : Heap := mkHeap 9 (mkHeapDesc 65536 "heap").

End Samples.

(** * The rest of the device interface

    The methods of [DeviceWrapper] that the definitions above do not reach:
    heaps, staging textures, memory requirements, shader specializations,
    graphics and meshlet pipelines, regular binding layouts, descriptor
    tables, opacity micromaps, cluster operations and command lists.  Their
    messages and their calls on the wrapped device come on top of those
    above; a trace of these methods holds events of both kinds.

    Left out are the methods that only forward their arguments, and
    [executeCommandLists], whose checks depend on the state kept by
    [CommandListWrapper] ([validation-commandlist.cpp]). *)

(** ** Descriptors and objects ([nvrhi.h]) *)

Definition ShaderType_Vertex : ShaderType := 0x1.
Definition ShaderType_Hull : ShaderType := 0x2.
Definition ShaderType_Domain : ShaderType := 0x4.
Definition ShaderType_Geometry : ShaderType := 0x8.
Definition ShaderType_Pixel : ShaderType := 0x10.
Definition ShaderType_Amplification : ShaderType := 0x40.
Definition ShaderType_Mesh : ShaderType := 0x80.

Inductive CommandQueue :=
| Queue_Graphics | Queue_Compute | Queue_Copy | Queue_Count
| Queue_Unrecognized (raw : Z).

Record DepthStencilState := mkDepthStencilState {
  depthTestEnable : bool;
  depthWriteEnable : bool;
  stencilEnable : bool;
  stencilWriteMask : Z
}.

Record RasterState := mkRasterState {
  conservativeRasterEnable : bool
}.

Record RenderState := mkRenderState {
  depthStencilState : DepthStencilState;
  rasterState : RasterState
}.

(** [fa_valid] is what [FramebufferAttachment::valid] returns. *)
Record FramebufferAttachment := mkAttachment {
  fa_valid : bool;
  fa_isReadOnly : bool
}.

Record FramebufferDesc := mkFramebufferDesc {
  depthAttachment : FramebufferAttachment
}.

Record Framebuffer := mkFramebuffer {
  fb_id : Z;
  fb_desc : FramebufferDesc
}.

Record GraphicsPipelineDesc := mkGraphicsPipelineDesc {
  gp_VS : option Shader;
  gp_HS : option Shader;
  gp_DS : option Shader;
  gp_GS : option Shader;
  gp_PS : option Shader;
  gp_bindingLayouts : list (option BindingLayout);
  gp_renderState : RenderState
}.

Record MeshletPipelineDesc := mkMeshletPipelineDesc {
  mp_AS : option Shader;
  mp_MS : option Shader;
  mp_PS : option Shader;
  mp_bindingLayouts : list (option BindingLayout);
  mp_renderState : RenderState
}.

(** The two pointers of [rt::OpacityMicromapDesc] that are checked. *)
Record OpacityMicromapDesc := mkOpacityMicromapDesc {
  omm_inputBuffer : option IBuffer;
  omm_perOmmDescs : option IBuffer
}.

Inductive OperationType :=
| Op_Move | Op_ClasBuild | Op_ClasBuildTemplates | Op_ClasInstantiateTemplates
| Op_BlasBuild
| Op_Unrecognized (raw : Z).

Inductive OperationMode :=
| Mode_ImplicitDestinations | Mode_ExplicitDestinations | Mode_GetSizes
| Mode_Unrecognized (raw : Z).

Record OperationClasParams := mkClasParams {
  clas_vertexFormat : Format;
  clas_maxGeometryIndex : Z;
  clas_maxUniqueGeometryCount : Z;
  clas_maxTriangleCount : Z;
  clas_maxVertexCount : Z;
  clas_maxTotalTriangleCount : Z;
  clas_maxTotalVertexCount : Z;
  clas_minPositionTruncateBitCount : Z
}.

Record OperationParams := mkOperationParams {
  op_type : OperationType;
  op_mode : OperationMode;
  op_clas : OperationClasParams
}.

Record OperationSizeInfo := mkOperationSizeInfo {
  resultMaxSizeInBytes : Z;
  scratchSizeInBytes : Z
}.

Record CommandListParameters := mkCommandListParameters {
  enableImmediateExecution : bool;
  queueType : CommandQueue
}.

(** [CommandListWrapper] is the validation layer's own [ICommandList]. *)
Inductive ICommandList :=
| BackendCommandList (id : Z) (desc : CommandListParameters)
| CommandListWrapper (underlying : ICommandList)
    (isImmediate : bool) (queue : CommandQueue).

#[global] Instance CommandQueue_eq_dec : EqDecision CommandQueue.
Proof. solve_decision. Defined.
#[global] Instance OperationType_eq_dec : EqDecision OperationType.
Proof. solve_decision. Defined.
#[global] Instance OperationMode_eq_dec : EqDecision OperationMode.
Proof. solve_decision. Defined.

(** ** Messages and calls *)

Inductive FindingExt :=
(* heaps and memory requirements *)
| G_HeapCapacity0
| G_TextureIsNull
| G_TextureZeroSize (debugName : string)
| G_BufferIsNull
| G_BufferZeroSize (debugName : string)
| G_AccelStructIsNull
(* shader specializations *)
| G_NoShaderSpecializations (api : GraphicsAPI)
| G_NoConstants
| G_BaseShaderIsNull
(* render state *)
| G_FramebufferIsNull
| G_NoDepthAttachment
| G_DepthAttachmentReadOnly
| G_NoConservativeRaster
(* binding layouts *)
| G_LayoutVisibilityNone
| G_LayoutDuplicates (locs : BindingLocationSet)
| G_TooManyVolatileCBs (count : Z)
| G_PushConstantSize0
| G_PushConstantTooLarge (size : Z)
| G_PushConstantNotMultipleOf4 (size : Z)
| G_VolatileCBArray (size : Z)
| G_NoneItems (count : Z)
| G_ZeroSizeItems (count : Z)
| G_PushConstantBlocks (count : Z)
| G_RegisterSpaceUnsupported (space : Z) (api : GraphicsAPI)
(* descriptor tables and opacity micromaps *)
| G_TableNeedsBindlessLayout
| G_InputBufferIsNull
| G_PerOmmDescsIsNull
| G_OpacityMicromapNotCreated
(* cluster operations *)
| G_UnknownOperationMode (type : OperationType)
| G_InvalidVertexFormat (type : OperationType)
| G_MaxGeometryIndex (type : OperationType)
| G_MinPositionTruncateBitCount (type : OperationType)
| G_MaxTriangleCount (type : OperationType)
| G_MaxVertexCount (type : OperationType)
| G_TriangleCountOverTotal (type : OperationType)
| G_VertexCountOverTotal (type : OperationType)
| G_UniqueGeometryOverTriangles (type : OperationType)
(* command lists *)
| G_NoComputeQueue
| G_NoCopyQueue.

Inductive BackendCallExt :=
| Call_createHeap (d : HeapDesc)
| Call_createStagingTexture (d : TextureDesc) (cpuAccess : CpuAccessMode)
| Call_createShaderSpecialization (baseShader : Shader) (constants : list Z)
    (numConstants : Z)
| Call_createGraphicsPipeline (d : GraphicsPipelineDesc) (fb : option Framebuffer)
| Call_createMeshletPipeline (d : MeshletPipelineDesc) (fb : option Framebuffer)
| Call_createBindingLayout (d : BindingLayoutDesc)
| Call_createDescriptorTable (layout : BindingLayout)
| Call_createOpacityMicromap (d : OpacityMicromapDesc)
| Call_getClusterOperationSizeInfo (params : OperationParams)
| Call_createCommandList (params : CommandListParameters).

(** An event of these methods: one of the events above, a call of the list
    just given, or a message with lines of the list just given. *)
Inductive EventExt :=
| Core (e : Event)
| BackendExt (c : BackendCallExt)
| MessageExt (severity : MessageSeverity) (text : list FindingExt).

(** What the further methods of the wrapped device return. *)
Record IDeviceExt := mkDeviceExt {
  dev_createHeap : HeapDesc -> option Heap;
  dev_createStagingTexture : TextureDesc -> CpuAccessMode -> option Z;
  dev_createShaderSpecialization : Shader -> list Z -> Z -> option Shader;
  dev_createGraphicsPipeline :
    GraphicsPipelineDesc -> option Framebuffer -> option Z;
  dev_createMeshletPipeline :
    MeshletPipelineDesc -> option Framebuffer -> option Z;
  dev_createBindingLayout : BindingLayoutDesc -> option BindingLayout;
  dev_createDescriptorTable : BindingLayout -> option Z;
  dev_createOpacityMicromap : OpacityMicromapDesc -> option Z;
  dev_getClusterOperationSizeInfo : OperationParams -> OperationSizeInfo;
  dev_createCommandList : CommandListParameters -> option ICommandList
}.

Definition MExt (A : Type) : Type := outcome A * list EventExt.

Definition retE {A} (a : A) : MExt A := (Done a, []).

Definition bindE {A B} (m : MExt A) (f : A -> MExt B) : MExt B :=
  match m with
  | (Done a, t) => let '(r, t') := f a in (r, t ++ t')
  | (Undefined, t) => (Undefined, t)
  | (Aborted, t) => (Aborted, t)
  | (OutOfFuel, t) => (OutOfFuel, t)
  end.

(** A computation of the first part, run inside one of this part. *)
Definition lift {A} (m : M A) : MExt A := (fst m, map Core (snd m)).

Definition emitE (e : EventExt) : MExt unit := (Done tt, [e]).
Definition undefinedE {A} : MExt A := (Undefined, []).

Declare Scope vlx_scope.
Delimit Scope vlx_scope with vlx.
Notation "x <- c1 ;; c2" := (bindE c1 (fun x => c2))
  (at level 100, c1 at next level, right associativity) : vlx_scope.
Notation "' pat <- c1 ;; c2" := (bindE c1 (fun pat => c2))
  (at level 100, pat pattern, c1 at next level, right associativity) : vlx_scope.
Notation "c1 ;; c2" := (bindE c1 (fun _ => c2))
  (at level 100, right associativity) : vlx_scope.

Definition resultE {A} (m : MExt A) : outcome A := fst m.
Definition traceE {A} (m : MExt A) : list EventExt := snd m.

(** The parts of a trace. *)
Definition coreEvents (t : list EventExt) : list Event :=
  omap (fun e => match e with Core e => Some e | _ => None end) t.

Definition backendCallsExt (t : list EventExt) : list BackendCallExt :=
  omap (fun e => match e with BackendExt c => Some c | _ => None end) t.

Definition messagesExt (t : list EventExt)
  : list (MessageSeverity * list FindingExt) :=
  omap (fun e => match e with MessageExt s x => Some (s, x) | _ => None end) t.

(** Every call on the wrapped device and every call of the message sink,
    whatever its kind. *)
Definition isBackendCall (e : EventExt) : bool :=
  match e with
  | Core (Backend _) | BackendExt _ => true
  | _ => false
  end.

Definition isSinkCall (e : EventExt) : bool :=
  match e with
  | Core (Message _ _) | MessageExt _ _ => true
  | _ => false
  end.

Fixpoint forME {A B} (f : A -> B -> MExt B) (l : list A) (b : B) : MExt B :=
  match l with
  | [] => retE b
  | x :: l' => bindE (f x b) (fun b' => forME f l' b')
  end.

Definition returnsE {A} (m : MExt A) (Q : A -> list EventExt -> Prop) : Prop :=
  exists a t, m = (Done a, t) /\ Q a t.

(** ** Sample devices and descriptors (continued) *)

Module SamplesExt.

(** The further methods of a device that creates every object it is asked
    for. *)
Definition device : IDeviceExt :=
  mkDeviceExt
    (fun d => Some (mkHeap 10 d))
    (fun _ _ => Some 11)
    (fun baseShader _ _ => Some baseShader)
    (fun _ _ => Some 12)
    (fun _ _ => Some 13)
    (fun d => Some (Layout 14 d))
    (fun _ => Some 15)
    (fun _ => Some 16)
    (fun _ => mkOperationSizeInfo 1024 256)
    (fun params => Some (BackendCommandList 17 params)).

Definition invalidEnum : MExt unit := (Done tt, []).

(** [c_MaxVolatileConstantBuffersPerLayout]. *)
Definition maxVolatileConstantBuffers : Z := 6.

(** The descriptor of [Samples.srvLayout]. *)
Definition srvLayoutDesc (slot : Z) : BindingLayoutDesc :=
  mkLayoutDesc ShaderType_All 0 false [mkLayoutItem slot Texture_SRV 1].

(** A layout that declares the texture SRV [t3] twice. *)
Definition twiceLayoutDesc : BindingLayoutDesc :=
  mkLayoutDesc ShaderType_All 0 false
    [mkLayoutItem 3 Texture_SRV 1; mkLayoutItem 3 Texture_SRV 1].

(** A layout with one item of type [Count], which the [switch] of the
    summary does not name. *)
Definition countLayoutDesc : BindingLayoutDesc :=
  mkLayoutDesc ShaderType_All 0 false [mkLayoutItem 3 RT_Count 1].

(** A layout with one item of type [None]. *)
Definition noneLayoutDesc : BindingLayoutDesc :=
  mkLayoutDesc ShaderType_All 0 false [mkLayoutItem 3 RT_None 1].

Definition graphicsList : CommandListParameters :=
  mkCommandListParameters false Queue_Graphics.

End SamplesExt.
(** ** The device wrapper *)

Section DeviceWrapper.

(** [m_Device], the wrapped device. *)
Variable m_Device : IDevice.

(** The name generators of [nvrhi/utils.h]. *)
Variable GenerateTextureDebugName : TextureDesc -> string.
Variable GenerateBufferDebugName : BufferDesc -> string.

Definition error (messageText : list Finding) : M unit :=
  emit (Message Error messageText).

Definition warning (messageText : list Finding) : M unit :=
  emit (Message Warning messageText).

(** A call [m_Device->f(args)] that returns [r]. *)
Definition call {A} (c : BackendCall) (r : A) : M A := (Done r, [Backend c]).

Definition device_getGraphicsAPI : M GraphicsAPI :=
  call Call_getGraphicsAPI (dev_getGraphicsAPI m_Device).

Definition device_queryFeatureSupport (f : Feature) : M bool :=
  call (Call_queryFeatureSupport f) (dev_queryFeatureSupport m_Device f).

(** [DeviceWrapper::queryFeatureSupport] forwards. *)
Definition queryFeatureSupport (f : Feature) : M bool :=
  device_queryFeatureSupport f.

(** *** createTexture *)

Definition recognizedDimension (dim : TextureDimension) : bool :=
  match dim with
  | Texture1D | Texture1DArray | Texture2D | Texture2DArray
  | TextureCube | TextureCubeArray | Texture2DMS | Texture2DMSArray
  | Texture3D => true
  | TD_Unknown | TD_Unrecognized _ => false
  end.

Definition patchTextureDesc (d : TextureDesc) : TextureDesc :=
  if bool_decide (td_debugName d = EmptyString)
  then mkTextureDesc (td_width d) (td_height d) (td_depth d) (td_arraySize d)
         (td_mipLevels d) (td_sampleCount d) (td_dimension d)
         (GenerateTextureDebugName d) (td_isUAV d) (td_isVirtual d)
         (td_initialState d) (td_keepInitialState d)
  else d.

Definition createTexture (d : TextureDesc) : M (option ITexture) :=
  if negb (recognizedDimension (td_dimension d)) then
    error [F_UnknownTextureDimension] ;; ret None
  else if (td_width d =? 0) || (td_height d =? 0) || (td_depth d =? 0)
          || (td_arraySize d =? 0) || (td_mipLevels d =? 0) then
    error [F_ExtentsMustNotBeZero] ;; ret None
  else
    let anyErrors := false in
    anyErrors <-
      match td_dimension d with
      | Texture1D | Texture1DArray =>
          if negb (td_height d =? 1)
          then error [F_HeightMustBe1] ;; ret true
          else ret anyErrors
      | _ => ret anyErrors
      end ;;
    anyErrors <-
      match td_dimension d with
      | Texture1D | Texture1DArray | Texture2D | Texture2DArray
      | TextureCube | TextureCubeArray | Texture2DMS | Texture2DMSArray =>
          if negb (td_depth d =? 1)
          then error [F_DepthMustBe1] ;; ret true
          else ret anyErrors
      | _ => ret anyErrors
      end ;;
    anyErrors <-
      match td_dimension d with
      | Texture1D | Texture2D | Texture2DMS | Texture3D =>
          if negb (td_arraySize d =? 1)
          then error [F_ArraySizeMustBe1] ;; ret true
          else ret anyErrors
      | TextureCube =>
          if negb (td_arraySize d =? 6)
          then error [F_ArraySizeMustBe6] ;; ret true
          else ret anyErrors
      | TextureCubeArray =>
          if negb (td_arraySize d mod 6 =? 0)
          then error [F_ArraySizeMustBeMultipleOf6] ;; ret true
          else ret anyErrors
      | _ => ret anyErrors
      end ;;
    anyErrors <-
      match td_dimension d with
      | Texture1D | Texture1DArray | Texture2D | Texture2DArray
      | TextureCube | TextureCubeArray | Texture3D =>
          if negb (td_sampleCount d =? 1)
          then error [F_SampleCountMustBe1] ;; ret true
          else ret anyErrors
      | Texture2DMS | Texture2DMSArray =>
          anyErrors <-
            (if negb (td_sampleCount d =? 2) && negb (td_sampleCount d =? 4)
                && negb (td_sampleCount d =? 8)
             then error [F_SampleCountMustBe248] ;; ret true
             else ret anyErrors) ;;
          if td_isUAV d
          then error [F_MultisampledUAV] ;; ret true
          else ret anyErrors
      | _ => ret anyErrors
      end ;;
    anyErrors <-
      (if td_isVirtual d then
         supported <- device_queryFeatureSupport Feature_VirtualResources ;;
         if negb supported
         then error [F_NoVirtualResources] ;; ret true
         else ret anyErrors
       else ret anyErrors) ;;
    anyErrors <-
      (if td_keepInitialState d
          && bool_decide (td_initialState d = ResourceStates_Unknown)
       then error [F_InitialStateUnknown] ;; ret true
       else ret anyErrors) ;;
    if (anyErrors : bool) then ret None
    else
      let patchedDesc := patchTextureDesc d in
      call (Call_createTexture patchedDesc)
           (dev_createTexture m_Device patchedDesc).

(** *** Sampler feedback textures

    [objectType], [texture] and [desc] are passed on untouched and are
    left out of the model. *)

Definition createSamplerFeedbackTexture (pairedTexture : option ITexture)
  : M (option Z) :=
  graphicsApi <- device_getGraphicsAPI ;;
  if negb (bool_decide (graphicsApi = D3D12)) then
    api <- device_getGraphicsAPI ;;
    error [F_ApiDoesNotSupport api] ;; ret None
  else
    call (Call_createSamplerFeedbackTexture pairedTexture)
         (dev_createSamplerFeedbackTexture m_Device pairedTexture).

(** The last statement of the source calls
    [createSamplerFeedbackForNativeTexture] itself, not the method of
    [m_Device]; [fuel] bounds the depth of that recursion. *)
Fixpoint createSamplerFeedbackForNativeTexture (fuel : nat)
    (pairedTexture : option ITexture) : M (option Z) :=
  match fuel with
  | O => (OutOfFuel, [])
  | S fuel' =>
      graphicsApi <- device_getGraphicsAPI ;;
      if negb (bool_decide (graphicsApi = D3D12)) then
        api <- device_getGraphicsAPI ;;
        error [F_ApiDoesNotSupport api] ;; ret None
      else
        createSamplerFeedbackForNativeTexture fuel' pairedTexture
  end.

(** *** Binding memory to textures and buffers *)

Definition bindTextureMemory (texture : option ITexture) (heap : option Heap)
    (offset : Z) : M bool :=
  match texture with
  | None => error [F_ResourceIsNull] ;; ret false
  | Some texture =>
    match heap with
    | None => error [F_HeapIsNull] ;; ret false
    | Some heap =>
      let heapDesc := heap_desc heap in
      let textureDesc := tex_desc texture in
      if negb (td_isVirtual textureDesc) then
        error [F_NotVirtual] ;; ret false
      else
        memReq <- call (Call_getTextureMemoryRequirements texture)
                    (dev_getTextureMemoryRequirements m_Device texture) ;;
        if hd_capacity heapDesc <? wrap64 (offset + mr_size memReq) then
          error [F_DoesNotFit offset (mr_size memReq) (hd_capacity heapDesc)] ;;
          ret false
        else if negb (mr_alignment memReq =? 0)
                && negb (offset mod mr_alignment memReq =? 0) then
          error [F_InvalidAlignment (mr_alignment memReq) offset] ;;
          ret false
        else
          call (Call_bindTextureMemory texture heap offset)
               (dev_bindTextureMemory m_Device texture heap offset)
    end
  end.

Definition patchBufferDesc (d : BufferDesc) : BufferDesc :=
  if bool_decide (bd_debugName d = EmptyString)
  then mkBufferDesc (bd_byteSize d) (bd_structStride d) (bd_maxVersions d)
         (GenerateBufferDebugName d) (bd_format d) (bd_canHaveUAVs d)
         (bd_canHaveTypedViews d) (bd_canHaveRawViews d) (bd_isVertexBuffer d)
         (bd_isIndexBuffer d) (bd_isConstantBuffer d) (bd_isDrawIndirectArgs d)
         (bd_isAccelStructBuildInput d) (bd_isAccelStructStorage d)
         (bd_isShaderBindingTable d) (bd_isVolatile d) (bd_isVirtual d)
         (bd_initialState d) (bd_keepInitialState d) (bd_cpuAccess d)
  else d.

Definition createBuffer (d : BufferDesc) : M (option IBuffer) :=
  let patchedDesc := patchBufferDesc d in
  if bd_isVolatile d && negb (bd_isConstantBuffer d) then
    error [F_VolatileNotConstant] ;; ret None
  else if bd_isVolatile d && (bd_maxVersions d =? 0) then
    error [F_VolatileMaxVersions0] ;; ret None
  else if bd_isVolatile d
          && (bd_isVertexBuffer d || bd_isIndexBuffer d
              || bd_isDrawIndirectArgs d || bd_canHaveUAVs d
              || bd_isAccelStructBuildInput d || bd_isAccelStructStorage d
              || bd_isShaderBindingTable d || bd_isVirtual d) then
    error [F_VolatileUnsupportedUsage] ;; ret None
  else if bd_isVolatile d && negb (bool_decide (bd_cpuAccess d = CpuNone)) then
    error [F_VolatileCpuAccess] ;; ret None
  else
    virtualUnsupported <-
      (if bd_isVirtual d then
         supported <- device_queryFeatureSupport Feature_VirtualResources ;;
         ret (negb supported)
       else ret false) ;;
    if (virtualUnsupported : bool) then
      error [F_NoVirtualResources] ;; ret None
    else if bd_keepInitialState d
            && bool_decide (bd_initialState d = ResourceStates_Unknown) then
      error [F_InitialStateUnknown] ;; ret None
    else
      call (Call_createBuffer patchedDesc)
           (dev_createBuffer m_Device patchedDesc).

Definition bindBufferMemory (buffer : option IBuffer) (heap : option Heap)
    (offset : Z) : M bool :=
  match buffer with
  | None => error [F_ResourceIsNull] ;; ret false
  | Some buffer =>
    match heap with
    | None => error [F_HeapIsNull] ;; ret false
    | Some heap =>
      let heapDesc := heap_desc heap in
      let bufferDesc := buf_desc buffer in
      if negb (bd_isVirtual bufferDesc) then
        error [F_NotVirtual] ;; ret false
      else
        memReq <- call (Call_getBufferMemoryRequirements buffer)
                    (dev_getBufferMemoryRequirements m_Device buffer) ;;
        if hd_capacity heapDesc <? wrap64 (offset + mr_size memReq) then
          error [F_DoesNotFit offset (mr_size memReq) (hd_capacity heapDesc)] ;;
          ret false
        else if negb (mr_alignment memReq =? 0)
                && negb (offset mod mr_alignment memReq =? 0) then
          error [F_InvalidAlignment (mr_alignment memReq) offset] ;;
          ret false
        else
          call (Call_bindBufferMemory buffer heap offset)
               (dev_bindBufferMemory m_Device buffer heap offset)
    end
  end.


(** *** The binding summary engine *)

(** [BindingLayoutItem::getArraySize] ([nvrhi.h]) and the [type] a
    default-constructed [BindingLocation] starts with
    ([validation-backend.h]). *)
Variable getArraySize : BindingLayoutItem -> Z.
Variable defaultLocationType : GraphicsResourceType.

(** The limits of [nvrhi.h]. *)
Variable c_MaxBindingLayouts : Z.
Variable c_MaxPushConstantSize : Z.
Variable c_ConstantBufferOffsetSizeAlignment : Z.

Definition setLocationType (l : BindingLocation) (t : GraphicsResourceType)
  : BindingLocation :=
  mkLocation t (loc_registerSpace l) (loc_slot l) (loc_arrayElement l).

(** [bindings] and [duplicates] are passed by reference in the source; the
    model passes the pair in and out. *)
Definition UpdateBindingSummaryWithLocation (type : ResourceType)
    (location : BindingLocation)
    (acc : BindingSummary * BindingLocationSet)
  : M (BindingSummary * BindingLocationSet) :=
  let '(bindings, duplicates) := acc in
  '(location, bindings) <-
    match type with
    | Texture_SRV | TypedBuffer_SRV | StructuredBuffer_SRV | RawBuffer_SRV
    | RayTracingAccelStruct =>
        ret (setLocationType location SRV,
             mkSummary (locations bindings) (numVolatileCBs bindings)
               (Range.add (rangeSRV bindings) (loc_slot location))
               (rangeSampler bindings) (rangeUAV bindings) (rangeCB bindings))
    | Texture_UAV | TypedBuffer_UAV | StructuredBuffer_UAV | RawBuffer_UAV
    | SamplerFeedbackTexture_UAV =>
        ret (setLocationType location UAV,
             mkSummary (locations bindings) (numVolatileCBs bindings)
               (rangeSRV bindings) (rangeSampler bindings)
               (Range.add (rangeUAV bindings) (loc_slot location))
               (rangeCB bindings))
    | ConstantBuffer | VolatileConstantBuffer | PushConstants =>
        ret (setLocationType location CB,
             mkSummary (locations bindings)
               (if bool_decide (type = VolatileConstantBuffer)
                then wrap32 (numVolatileCBs bindings + 1)
                else numVolatileCBs bindings)
               (rangeSRV bindings) (rangeSampler bindings) (rangeUAV bindings)
               (Range.add (rangeCB bindings) (loc_slot location)))
    | Sampler =>
        ret (setLocationType location GSampler,
             mkSummary (locations bindings) (numVolatileCBs bindings)
               (rangeSRV bindings)
               (Range.add (rangeSampler bindings) (loc_slot location))
               (rangeUAV bindings) (rangeCB bindings))
    | RT_None | RT_Count | RT_Unrecognized _ =>
        emit (Message Error [F_InvalidLayoutItemType type]) ;;
        ret (location, bindings)
    end ;;
  if decide (location ∈ locations bindings) then
    ret (bindings, {[ location ]} ∪ duplicates)
  else
    ret (mkSummary ({[ location ]} ∪ locations bindings)
           (numVolatileCBs bindings) (rangeSRV bindings)
           (rangeSampler bindings) (rangeUAV bindings) (rangeCB bindings),
         duplicates).

Definition FillBindingLayoutSummary (desc : BindingLayoutDesc)
    (acc : BindingSummary * BindingLocationSet)
  : M (BindingSummary * BindingLocationSet) :=
  forM (fun item acc =>
          let arraySize := getArraySize item in
          forM (fun arrayElement acc =>
                  let location :=
                    mkLocation defaultLocationType (ld_registerSpace desc)
                      (li_slot item) arrayElement in
                  UpdateBindingSummaryWithLocation (li_type item) location acc)
               (seqZ 0 arraySize) acc)
       (ld_bindings desc) acc.

Definition FillBindingSetSummary (desc : BindingSetDesc) (registerSpace : Z)
    (acc : BindingSummary * BindingLocationSet)
  : M (BindingSummary * BindingLocationSet) :=
  forM (fun item acc =>
          let location :=
            mkLocation defaultLocationType registerSpace
              (si_slot item) (si_arrayElement item) in
          UpdateBindingSummaryWithLocation (si_type item) location acc)
       (sd_bindings desc) acc.

(** *** validatePipelineBindingLayouts *)

(** The locals of the function that live across the loop over shaders. *)
Record LayoutCheck := mkLayoutCheck {
  anyErrors : bool;
  anyDuplicateBindings : bool;
  anyOverlappingBindings : bool;
  ssDuplicateBindings : list Finding;
  ssOverlappingBindings : list Finding
}.

(** First inner loop: the summary of every layout for one stage.  A null
    layout, a bindless layout and a layout not visible to the stage leave
    their entry of [bindingsPerLayout] as constructed.  A visible layout
    in which [FillBindingLayoutSummary] finds duplicates fails the
    assertion that follows the call. *)
Fixpoint accumulateStage (stage : ShaderType)
    (bindingLayouts : list (option BindingLayout)) (layoutIndex : nat)
  : M (bool * list BindingSummary) :=
  match bindingLayouts with
  | [] => ret (false, [])
  | layout :: rest =>
      '(nullHere, summary) <-
        match layout with
        | None =>
            error [F_LayoutIsNull layoutIndex] ;; ret (true, BindingSummary_init)
        | Some layout =>
            match BindingLayout_getDesc layout with
            | Some layoutDesc =>
                if negb (visibleTo (ld_visibility layoutDesc) stage) then
                  ret (false, BindingSummary_init)
                else
                  '(summary, duplicates) <-
                    FillBindingLayoutSummary layoutDesc (BindingSummary_init, ∅) ;;
                  assert_ (bool_decide (duplicates = ∅)) ;;
                  ret (false, summary)
            | None => ret (false, BindingSummary_init)
            end
        end ;;
      '(nullLater, summaries) <- accumulateStage stage rest (S layoutIndex) ;;
      ret (nullHere || nullLater, summary :: summaries)
  end.

(** Second inner loop: the [locations] of the summary [duplicates], the
    locations declared by more than one layout. *)
Definition duplicateLocations (bindingsPerLayout : list BindingSummary)
  : BindingLocationSet :=
  match bindingsPerLayout with
  | [] => ∅
  | first :: rest =>
      snd (fold_left
             (fun '(bindings, duplicates) layout =>
                let duplicates' :=
                  SetUnionInplace duplicates
                    (SetIntersection bindings (locations layout)) in
                (SetUnionInplace bindings (locations layout), duplicates'))
             rest (locations first, ∅))
  end.

(** The D3D11 loops over the pairs [i < j]. *)
Record Overlaps := mkOverlaps {
  overlapSRV : bool;
  overlapSampler : bool;
  overlapUAV : bool;
  overlapCB : bool
}.

Definition overlapPair (set1 : BindingSummary) (o : Overlaps)
    (set2 : BindingSummary) : Overlaps :=
  mkOverlaps
    (overlapSRV o || Range.overlapsWith (rangeSRV set1) (rangeSRV set2))
    (overlapSampler o
     || Range.overlapsWith (rangeSampler set1) (rangeSampler set2))
    (overlapUAV o || Range.overlapsWith (rangeUAV set1) (rangeUAV set2))
    (overlapCB o || Range.overlapsWith (rangeCB set1) (rangeCB set2)).

Fixpoint overlappingRanges (bindingsPerLayout : list BindingSummary)
    (o : Overlaps) : Overlaps :=
  match bindingsPerLayout with
  | [] => o
  | set1 :: rest => overlappingRanges rest (fold_left (overlapPair set1) rest o)
  end.

Definition anyOverlap (o : Overlaps) : bool :=
  overlapSRV o || overlapSampler o || overlapUAV o || overlapCB o.

(** The body of the loop over shaders. *)
Definition checkStage (bindingLayouts : list (option BindingLayout))
    (shader : Shader) (st : LayoutCheck) : M LayoutCheck :=
  let stage := sh_shaderType (shader_desc shader) in
  '(anyNull, bindingsPerLayout) <- accumulateStage stage bindingLayouts 0 ;;
  let st := mkLayoutCheck (anyErrors st || anyNull) (anyDuplicateBindings st)
              (anyOverlappingBindings st) (ssDuplicateBindings st)
              (ssOverlappingBindings st) in
  if (1 <? length bindingLayouts)%nat then
    let duplicates :=
      mkSummary (duplicateLocations bindingsPerLayout) 0
        Range_init Range_init Range_init Range_init in
    if Summary.any duplicates then
      ret (mkLayoutCheck (anyErrors st) true (anyOverlappingBindings st)
             ((if anyDuplicateBindings st then ssDuplicateBindings st
               else ssDuplicateBindings st ++ [F_DuplicateHeader])
              ++ [F_DuplicateBindings stage (locations duplicates)])
             (ssOverlappingBindings st))
    else
      api <- device_getGraphicsAPI ;;
      if bool_decide (api = D3D11) then
        let o := overlappingRanges bindingsPerLayout
                   (mkOverlaps false false false false) in
        if anyOverlap o then
          ret (mkLayoutCheck (anyErrors st) (anyDuplicateBindings st) true
                 (ssDuplicateBindings st)
                 ((if anyOverlappingBindings st then ssOverlappingBindings st
                   else ssOverlappingBindings st ++ [F_OverlapHeader])
                  ++ [F_OverlappingRanges stage (overlapSRV o) (overlapSampler o)
                        (overlapUAV o) (overlapCB o)]))
        else ret st
      else ret st
  else ret st.

(** The locals of the loop over the layouts that follows. *)
Inductive RegisterSpaceIsDescriptorSet :=
| RS_False | RS_True | RS_Undetermined | RS_Mixed.

Record SpaceCheck := mkSpaceCheck {
  sc_anyErrors : bool;
  pushConstantCount : Z;
  pushConstantSize : Z;
  registerSpaceIsDescriptorSet : RegisterSpaceIsDescriptorSet;
  registerSpaceToLayoutIdx : list Z
}.

Definition countPushConstants (items : list BindingLayoutItem)
    (count size : Z) : Z * Z :=
  fold_left (fun '(count, size) item =>
               if bool_decide (li_type item = PushConstants)
               then (count + 1, Z.max size (wrap32 (li_size item)))
               else (count, size))
            items (count, size).

(** [bindingLayouts[layoutIndex]->getDesc()] dereferences the handle without
    a null check, and [registerSpaceToLayoutIdx] is written at
    [registerSpace] also after that index was reported as too large. *)
Definition checkSpace (layout : option BindingLayout) (layoutIndex : nat)
    (st : SpaceCheck) : M SpaceCheck :=
  match layout with
  | None => undefined
  | Some layout =>
    match BindingLayout_getDesc layout with
    | None => ret st
    | Some layoutDesc =>
      let '(count, size) :=
        countPushConstants (ld_bindings layoutDesc)
          (pushConstantCount st) (pushConstantSize st) in
      let space := ld_registerSpace layoutDesc in
      if ld_registerSpaceIsDescriptorSet layoutDesc then
        if c_MaxBindingLayouts <=? space then
          error [F_RegisterSpaceTooLarge layoutIndex space] ;; undefined
        else
          let previous := default (-1) (registerSpaceToLayoutIdx st !! Z.to_nat space) in
          reused <-
            (if negb (previous =? -1)
             then error [F_RegisterSpaceReused layoutIndex space previous] ;;
                  ret true
             else ret false) ;;
          ret (mkSpaceCheck (sc_anyErrors st || reused) count size
                 (match registerSpaceIsDescriptorSet st with
                  | RS_Undetermined => RS_True
                  | RS_False => RS_Mixed
                  | s => s
                  end)
                 (<[Z.to_nat space := Z.of_nat layoutIndex]>
                    (registerSpaceToLayoutIdx st)))
      else
        ret (mkSpaceCheck (sc_anyErrors st) count size
               (match registerSpaceIsDescriptorSet st with
                | RS_Undetermined => RS_False
                | RS_True => RS_Mixed
                | s => s
                end)
               (registerSpaceToLayoutIdx st))
    end
  end.

Fixpoint checkSpaces (bindingLayouts : list (option BindingLayout))
    (layoutIndex : nat) (st : SpaceCheck) : M SpaceCheck :=
  match bindingLayouts with
  | [] => ret st
  | layout :: rest =>
      st' <- checkSpace layout layoutIndex st ;;
      checkSpaces rest (S layoutIndex) st'
  end.

(** The two reports that follow the loop over shaders. *)
Definition reportStages (st : LayoutCheck) : M bool :=
  anyErrors <-
    (if anyDuplicateBindings st
     then error (ssDuplicateBindings st) ;; ret true
     else ret (anyErrors st)) ;;
  if anyOverlappingBindings st
  then error (ssOverlappingBindings st) ;; ret true
  else ret anyErrors.

(** The loop over the layouts and the checks on what it gathered; the
    verdict of the function is [!anyErrors]. *)
Definition checkSpacesAndPushConstants
    (bindingLayouts : list (option BindingLayout)) (anyErrors : bool) : M bool :=
  sc <- checkSpaces bindingLayouts 0
          (mkSpaceCheck anyErrors 0 0 RS_Undetermined
             (replicate (Z.to_nat c_MaxBindingLayouts) (-1))) ;;
  anyErrors <-
    match registerSpaceIsDescriptorSet sc with
    | RS_Mixed => error [F_MixedRegisterSpaceSemantics] ;; ret true
    | _ => ret (sc_anyErrors sc)
    end ;;
  anyErrors <-
    (if 1 <? pushConstantCount sc
     then error [F_TooManyPushConstantBlocks (pushConstantCount sc)] ;; ret true
     else ret anyErrors) ;;
  anyErrors <-
    (if c_MaxPushConstantSize <? pushConstantSize sc
     then error [F_PushConstantsTooLarge (pushConstantSize sc)] ;; ret true
     else ret anyErrors) ;;
  ret (negb anyErrors).

Definition validatePipelineBindingLayouts
    (bindingLayouts : list (option BindingLayout)) (shaders : list Shader)
  : M bool :=
  st <- forM (checkStage bindingLayouts) shaders
          (mkLayoutCheck false false false [] []) ;;
  anyErrors <- reportStages st ;;
  checkSpacesAndPushConstants bindingLayouts anyErrors.

Definition validateShaderType (expected : ShaderType) (shaderDesc : ShaderDesc)
  : M bool :=
  if bool_decide (expected = sh_shaderType shaderDesc) then ret true
  else
    error [F_UnexpectedShaderType expected (sh_shaderType shaderDesc)] ;;
    ret false.

Definition createComputePipeline (pipelineDesc : ComputePipelineDesc)
  : M (option Z) :=
  match cp_CS pipelineDesc with
  | None => error [F_ComputeShaderIsNull] ;; ret None
  | Some CS =>
      let shaders := [CS] in
      ok <- validatePipelineBindingLayouts (cp_bindingLayouts pipelineDesc) shaders ;;
      if negb ok then ret None
      else
        ok <- validateShaderType ShaderType_Compute (shader_desc CS) ;;
        if negb ok then ret None
        else
          call (Call_createComputePipeline pipelineDesc)
               (dev_createComputePipeline m_Device pipelineDesc)
  end.

(** *** createBindlessLayout *)

Definition checkBindlessItem (item : BindingLayoutItem)
    (acc : bool * list Finding) : bool * list Finding :=
  let '(anyErrors, errorStream) := acc in
  match li_type item with
  | Texture_SRV | TypedBuffer_SRV | StructuredBuffer_SRV | RawBuffer_SRV
  | RayTracingAccelStruct | ConstantBuffer
  | Texture_UAV | TypedBuffer_UAV | StructuredBuffer_UAV | RawBuffer_UAV =>
      (anyErrors, errorStream)
  | VolatileConstantBuffer =>
      (true, errorStream ++ [F_BindlessVolatileCB (li_slot item)])
  | Sampler =>
      (true, errorStream ++ [F_BindlessSampler (li_slot item)])
  | PushConstants =>
      (true, errorStream ++ [F_BindlessPushConstants (li_slot item)])
  | _ =>
      (true, errorStream ++ [F_BindlessInvalidType (li_slot item)])
  end.

Definition createBindlessLayout (desc : BindlessLayoutDesc)
  : M (option BindingLayout) :=
  let errorStream : list Finding := [] in
  let anyErrors := false in
  let '(anyErrors, errorStream) :=
    if bool_decide (bl_visibility desc = ShaderType_None)
    then (true, errorStream ++ [F_VisibilityNone])
    else (anyErrors, errorStream) in
  let '(anyErrors, errorStream) :=
    if bool_decide (bl_registerSpaces desc = [])
    then (true, errorStream ++ [F_NoRegisterSpaces])
    else (anyErrors, errorStream) in
  let '(anyErrors, errorStream) :=
    if bl_maxCapacity desc =? 0
    then (true, errorStream ++ [F_MaxCapacity0])
    else (anyErrors, errorStream) in
  let '(anyErrors, errorStream) :=
    fold_left (fun acc item => checkBindlessItem item acc)
      (bl_registerSpaces desc) (anyErrors, errorStream) in
  if (anyErrors : bool) then
    error errorStream ;; ret None
  else
    call (Call_createBindlessLayout desc)
         (dev_createBindlessLayout m_Device desc).

(** *** Binding sets and descriptor tables *)

(** [TextureSubresourceSet::resolve], [BufferRange::isEntireBuffer] and
    [BufferRange::resolve] ([nvrhi.h]). *)
Variable resolveSubresources :
  TextureSubresourceSet -> TextureDesc -> bool -> TextureSubresourceSet.
Variable isEntireBuffer : BufferRange -> BufferDesc -> bool.
Variable resolveRange : BufferRange -> BufferDesc -> BufferRange.

Definition textureDimensionsCompatible
    (resourceDimension viewDimension : TextureDimension) : bool :=
  if bool_decide (resourceDimension = viewDimension) then true
  else if bool_decide (resourceDimension = Texture3D) then
    bool_decide (viewDimension = Texture2DArray)
  else if bool_decide (resourceDimension = TextureCube)
          || bool_decide (resourceDimension = TextureCubeArray) then
    bool_decide (viewDimension = Texture2DArray)
  else false.

Definition isTypedView (t : ResourceType) : bool :=
  bool_decide (t = TypedBuffer_SRV) || bool_decide (t = TypedBuffer_UAV).
Definition isStructuredView (t : ResourceType) : bool :=
  bool_decide (t = StructuredBuffer_SRV) || bool_decide (t = StructuredBuffer_UAV).
Definition isRawView (t : ResourceType) : bool :=
  bool_decide (t = RawBuffer_SRV) || bool_decide (t = RawBuffer_UAV).
Definition isUAVView (t : ResourceType) : bool :=
  bool_decide (t = TypedBuffer_UAV) || bool_decide (t = StructuredBuffer_UAV)
  || bool_decide (t = RawBuffer_UAV).
Definition isConstantView (t : ResourceType) : bool :=
  bool_decide (t = ConstantBuffer) || bool_decide (t = VolatileConstantBuffer).

(** The checks on a non-null buffer. *)
Definition validateBufferBinding (binding : BindingSetItem) (desc : BufferDesc)
    (errorStream : list Finding) : M (bool * list Finding) :=
  let type := si_type binding in
  let reject f := ret (false, errorStream ++ [f]) in
  if isTypedView type && negb (bd_canHaveTypedViews desc) then
    reject F_NoTypedViews
  else if isStructuredView type && (bd_structStride desc =? 0) then
    reject F_NoStructStride
  else if isRawView type && negb (bd_canHaveRawViews desc) then
    reject F_NoRawViews
  else if isUAVView type && negb (bd_canHaveUAVs desc) then
    reject F_BufferNotUAV
  else if isConstantView type && negb (bd_isConstantBuffer desc) then
    reject F_NotConstantBuffer
  else if bool_decide (type = ConstantBuffer) && bd_isVolatile desc then
    reject F_VolatileAsRegular
  else if bool_decide (type = VolatileConstantBuffer)
          && negb (bd_isVolatile desc) then
    reject F_RegularAsVolatile
  else if isTypedView type
          && (bool_decide (si_format binding = Format_UNKNOWN)
              && bool_decide (bd_format desc = Format_UNKNOWN)) then
    reject F_BothFormatsUnknown
  else
    partial <-
      (if bool_decide (type = ConstantBuffer)
          && negb (isEntireBuffer (si_range binding) desc) then
         supported <- queryFeatureSupport Feature_ConstantBufferRanges ;;
         if negb supported then ret (Some F_NoConstantBufferRanges)
         else
           let range := resolveRange (si_range binding) desc in
           if negb (byteOffset range mod c_ConstantBufferOffsetSizeAlignment =? 0)
           then ret (Some (F_OffsetMisaligned (byteOffset range)))
           else if (byteSize range =? 0)
                   || negb (byteSize range mod c_ConstantBufferOffsetSizeAlignment =? 0)
           then ret (Some (F_SizeMisaligned (byteSize range)))
           else ret None
       else ret None) ;;
    match partial with
    | Some f => reject f
    | None =>
        if bool_decide (type = VolatileConstantBuffer)
           && negb (isEntireBuffer (si_range binding) desc) then
          reject F_VolatilePartiallyBound
        else ret (true, errorStream)
    end.

(** [validateBindingSetItem] returns its verdict and the error stream it
    wrote to.  [checked_cast] is a [static_cast] in the release build: on a
    resource of another kind the behaviour is undefined. *)
Definition validateBindingSetItem (binding : BindingSetItem)
    (isDescriptorTable : bool) (errorStream : list Finding)
  : M (bool * list Finding) :=
  let reject f := ret (false, errorStream ++ [f]) in
  let accept := ret (true, errorStream) in
  match si_type binding with
  | RT_None =>
      if negb isDescriptorTable then reject F_NoneInBindingSet else accept
  | Texture_SRV | Texture_UAV =>
      match si_resourceHandle binding with
      | None => reject F_NullTexture
      | Some (ResTexture texture) =>
          let desc := tex_desc texture in
          let subresources :=
            resolveSubresources (si_subresources binding) desc false in
          if (numArraySlices subresources =? 0)
             || (numMipLevels subresources =? 0) then
            reject F_EmptySubresourceSet
          else if bool_decide (si_type binding = Texture_UAV)
                  && negb (td_isUAV desc) then
            reject F_TextureNotUAV
          else if negb (bool_decide (si_dimension binding = TD_Unknown))
                  && negb (textureDimensionsCompatible (td_dimension desc)
                             (si_dimension binding)) then
            reject F_IncompatibleDimension
          else accept
      | Some _ => undefined
      end
  | SamplerFeedbackTexture_UAV => accept
  | TypedBuffer_SRV | TypedBuffer_UAV
  | StructuredBuffer_SRV | StructuredBuffer_UAV
  | RawBuffer_SRV | RawBuffer_UAV
  | ConstantBuffer | VolatileConstantBuffer =>
      match si_resourceHandle binding with
      | None =>
          nullRejected <-
            (if negb (bool_decide (si_type binding = TypedBuffer_SRV))
                && negb (bool_decide (si_type binding = TypedBuffer_UAV)) then
               api <- device_getGraphicsAPI ;;
               ret (negb (bool_decide (api = VULKAN)))
             else ret false) ;;
          if (nullRejected : bool) then reject F_NullBuffer else accept
      | Some (ResBuffer buffer) =>
          validateBufferBinding binding (buf_desc buffer) errorStream
      | Some _ => undefined
      end
  | Sampler =>
      match si_resourceHandle binding with
      | None => reject F_NullSampler
      | Some _ => accept
      end
  | RayTracingAccelStruct =>
      match si_resourceHandle binding with
      | None => reject F_NullAccelStruct
      | Some _ => accept
      end
  | PushConstants =>
      if isDescriptorTable then reject F_PushConstantsInTable
      else
        match si_resourceHandle binding with
        | Some _ => reject F_PushConstantsWithResource
        | None =>
            if byteSize (si_range binding) =? 0
            then reject F_PushConstantsSize0
            else accept
        end
  | RT_Count | RT_Unrecognized _ => reject F_UnrecognizedResourceType
  end.

(** *** Resource wrappers *)

Definition unwrapResource (resource : ResourceHandle) : ResourceHandle :=
  match resource with
  | None => None
  | Some (ResAccelStruct (AccelStructWrapper underlying _ _ _ _)) =>
      Some (ResAccelStruct underlying)
  | Some resource => Some resource
  end.

Definition unwrapBinding (binding : BindingSetItem) : BindingSetItem :=
  mkSetItem (unwrapResource (si_resourceHandle binding)) (si_slot binding)
    (si_arrayElement binding) (si_type binding) (si_dimension binding)
    (si_format binding) (si_subresources binding) (si_range binding).

Definition validateItems (bindings : list BindingSetItem)
    (acc : bool * list Finding) : M (bool * list Finding) :=
  forM (fun binding '(anyErrors, errorStream) =>
          '(ok, errorStream) <- validateBindingSetItem binding false errorStream ;;
          ret (if negb ok then true else anyErrors, errorStream))
       bindings acc.

Definition createBindingSet (desc : BindingSetDesc)
    (layout : option BindingLayout) : M (option Z) :=
  match layout with
  | None => error [F_NoLayout] ;; ret None
  | Some layout =>
    match BindingLayout_getDesc layout with
    | None => error [F_LayoutIsBindless] ;; ret None
    | Some layoutDesc =>
      let errorStream : list Finding := [] in
      let anyErrors := false in
      '(layoutBindings, layoutDuplicates) <-
        FillBindingLayoutSummary layoutDesc (BindingSummary_init, ∅) ;;
      '(setBindings, setDuplicates) <-
        FillBindingSetSummary desc (ld_registerSpace layoutDesc)
          (BindingSummary_init, ∅) ;;
      let declaredNotBound :=
        SetDifference (locations layoutBindings) (locations setBindings) in
      let boundNotDeclared :=
        SetDifference (locations setBindings) (locations layoutBindings) in
      let '(anyErrors, errorStream) :=
        if negb (bool_decide (declaredNotBound = ∅))
        then (true, errorStream ++ [F_DeclaredNotBound declaredNotBound])
        else (anyErrors, errorStream) in
      let '(anyErrors, errorStream) :=
        if negb (bool_decide (boundNotDeclared = ∅))
        then (true, errorStream ++ [F_BoundNotDeclared boundNotDeclared])
        else (anyErrors, errorStream) in
      let '(anyErrors, errorStream) :=
        if negb (bool_decide (setDuplicates = ∅))
        then (true, errorStream ++ [F_SetDuplicates setDuplicates])
        else (anyErrors, errorStream) in
      '(anyErrors, errorStream) <-
        validateItems (sd_bindings desc) (anyErrors, errorStream) ;;
      if (anyErrors : bool) then
        error errorStream ;; ret None
      else
        let patchedDesc := mkSetDesc (map unwrapBinding (sd_bindings desc)) in
        call (Call_createBindingSet patchedDesc layout)
             (dev_createBindingSet m_Device patchedDesc layout)
    end
  end.

Definition writeDescriptorTable (descriptorTable : Z) (item : BindingSetItem)
  : M bool :=
  '(ok, errorStream) <- validateBindingSetItem item true [] ;;
  if negb ok then
    error errorStream ;; ret false
  else
    let patchedItem := unwrapBinding item in
    call (Call_writeDescriptorTable descriptorTable patchedItem)
         (dev_writeDescriptorTable m_Device descriptorTable patchedItem).

(** *** Acceleration structures *)

(** The bits of [rt::AccelStructBuildFlags] ([nvrhi.h]). *)
Variable AllowUpdate : Z.
Variable AllowCompaction : Z.

Definition createAccelStruct (desc : AccelStructDesc) : M (option IAccelStruct) :=
  as_ <- call (Call_createAccelStruct desc) (dev_createAccelStruct m_Device desc) ;;
  match as_ with
  | None => ret None
  | Some as_ =>
      if negb (Z.land (asd_buildFlags desc) AllowCompaction =? 0)
         && asd_isTopLevel desc then
        error [F_TlasCompaction] ;; ret None
      else if negb (Z.land (asd_buildFlags desc) AllowUpdate =? 0)
              && negb (Z.land (asd_buildFlags desc) AllowCompaction =? 0) then
        error [F_UpdateAndCompaction] ;; ret None
      else
        let wrapper :=
          AccelStructWrapper as_ (asd_isTopLevel desc)
            (negb (Z.land (asd_buildFlags desc) AllowUpdate =? 0))
            (negb (Z.land (asd_buildFlags desc) AllowCompaction =? 0))
            (asd_topLevelMaxInstances desc) in
        ret (Some wrapper)
  end.

(** [dynamic_cast<AccelStructWrapper*>(as)] and the unwrapping that follows. *)
Definition unwrapAccelStruct (as_ : IAccelStruct) : IAccelStruct :=
  match as_ with
  | AccelStructWrapper underlying _ _ _ _ => underlying
  | BackendAccelStruct _ _ => as_
  end.

Definition bindAccelStructMemory (as_ : option IAccelStruct)
    (heap : option Heap) (offset : Z) : M bool :=
  match as_ with
  | None => error [F_ResourceIsNull] ;; ret false
  | Some as_ =>
    match heap with
    | None => error [F_HeapIsNull] ;; ret false
    | Some heap =>
      let as_ := unwrapAccelStruct as_ in
      let heapDesc := heap_desc heap in
      let asDesc := AccelStruct_getDesc as_ in
      if negb (asd_isVirtual asDesc) then
        error [F_NotVirtual] ;; ret false
      else
        memReq <- call (Call_getAccelStructMemoryRequirements as_)
                    (dev_getAccelStructMemoryRequirements m_Device as_) ;;
        if hd_capacity heapDesc <? wrap64 (offset + mr_size memReq) then
          error [F_DoesNotFit offset (mr_size memReq) (hd_capacity heapDesc)] ;;
          ret false
        else if negb (mr_alignment memReq =? 0)
                && negb (offset mod mr_alignment memReq =? 0) then
          error [F_InvalidAlignment (mr_alignment memReq) offset] ;;
          ret false
        else
          call (Call_bindAccelStructMemory as_ heap offset)
               (dev_bindAccelStructMemory m_Device as_ heap offset)
    end
  end.

(** ** The rules in the specification's words

    These definitions follow the specification, not the source; the
    theorems below compare them with the functions above. *)

Definition is1D (dim : TextureDimension) : bool :=
  bool_decide (dim = Texture1D) || bool_decide (dim = Texture1DArray).
Definition isMultisampled (dim : TextureDimension) : bool :=
  bool_decide (dim = Texture2DMS) || bool_decide (dim = Texture2DMSArray).
Definition isPlain (dim : TextureDimension) : bool :=
  bool_decide (dim = Texture1D) || bool_decide (dim = Texture2D)
  || bool_decide (dim = Texture2DMS) || bool_decide (dim = Texture3D).

(** The texture rules a descriptor violates, in the order of the
    specification. *)
Definition textureViolations (d : TextureDesc) : list Finding :=
  let dim := td_dimension d in
  let when (c : bool) (f : Finding) := if c then [f] else [] in
  if negb (recognizedDimension dim) then [F_UnknownTextureDimension]
  else if bool_decide (td_width d = 0 \/ td_height d = 0 \/ td_depth d = 0
                       \/ td_arraySize d = 0 \/ td_mipLevels d = 0)
  then [F_ExtentsMustNotBeZero]
  else
    when (is1D dim && negb (bool_decide (td_height d = 1))) F_HeightMustBe1
    ++ when (negb (bool_decide (dim = Texture3D))
             && negb (bool_decide (td_depth d = 1))) F_DepthMustBe1
    ++ when (isPlain dim && negb (bool_decide (td_arraySize d = 1)))
         F_ArraySizeMustBe1
    ++ when (bool_decide (dim = TextureCube)
             && negb (bool_decide (td_arraySize d = 6))) F_ArraySizeMustBe6
    ++ when (bool_decide (dim = TextureCubeArray)
             && negb (bool_decide (td_arraySize d mod 6 = 0)))
         F_ArraySizeMustBeMultipleOf6
    ++ when (negb (isMultisampled dim)
             && negb (bool_decide (td_sampleCount d = 1))) F_SampleCountMustBe1
    ++ when (isMultisampled dim
             && negb (bool_decide (td_sampleCount d = 2 \/ td_sampleCount d = 4
                                   \/ td_sampleCount d = 8)))
         F_SampleCountMustBe248
    ++ when (isMultisampled dim && td_isUAV d) F_MultisampledUAV
    ++ when (td_isVirtual d
             && negb (dev_queryFeatureSupport m_Device Feature_VirtualResources))
         F_NoVirtualResources
    ++ when (td_keepInitialState d
             && bool_decide (td_initialState d = ResourceStates_Unknown))
         F_InitialStateUnknown.

(** One sink call for each finding. *)
Definition oneMessageEach (G : list Finding) : list (MessageSeverity * list Finding) :=
  map (fun f => (Error, [f])) G.

(** What one rule check of [createTexture] leaves behind: the messages of
    the findings [G], no call of [m_Device->createTexture], and the flag
    [anyErrors] raised when [G] is not empty. *)
Definition ruleChecked (G : list Finding) (anyErrors : bool)
    (anyErrors' : bool) (t : list Event) : Prop :=
  messages t = oneMessageEach G /\ createTextureCalls t = []
  /\ anyErrors' = anyErrors || negb (bool_decide (G = [])).

(** The resource class a layout or set item of type [t] occupies. *)
Definition classOf (t : ResourceType) : GraphicsResourceType :=
  match t with
  | Texture_SRV | TypedBuffer_SRV | StructuredBuffer_SRV | RawBuffer_SRV
  | RayTracingAccelStruct => SRV
  | Texture_UAV | TypedBuffer_UAV | StructuredBuffer_UAV | RawBuffer_UAV
  | SamplerFeedbackTexture_UAV => UAV
  | ConstantBuffer | VolatileConstantBuffer | PushConstants => CB
  | Sampler => GSampler
  | RT_None | RT_Count | RT_Unrecognized _ => defaultLocationType
  end.

(** A layout declares the location [loc]: one of its items covers it. *)
Definition declares (desc : BindingLayoutDesc) (loc : BindingLocation) : Prop :=
  exists item, item ∈ ld_bindings desc
    /\ 0 <= loc_arrayElement loc < getArraySize item
    /\ loc = mkLocation (classOf (li_type item)) (ld_registerSpace desc)
               (li_slot item) (loc_arrayElement loc).

(** A set binds the location [loc] in register space [space]. *)
Definition binds (desc : BindingSetDesc) (space : Z) (loc : BindingLocation)
  : Prop :=
  exists item, item ∈ sd_bindings desc
    /\ loc = mkLocation (classOf (si_type item)) space
               (si_slot item) (si_arrayElement item).

(** The value a call returns, [d] when it does not return. *)
Definition valueOr {A} (d : A) (m : M A) : A :=
  match result m with Done a => a | _ => d end.

(** The summary [FillBindingLayoutSummary] builds for a layout, and the one
    a stage sees of a layout handle. *)
Definition layoutSummary (desc : BindingLayoutDesc) : BindingSummary :=
  fst (valueOr (BindingSummary_init, ∅)
         (FillBindingLayoutSummary desc (BindingSummary_init, ∅))).

Definition setSummary (desc : BindingSetDesc) (space : Z) : BindingSummary :=
  fst (valueOr (BindingSummary_init, ∅)
         (FillBindingSetSummary desc space (BindingSummary_init, ∅))).

Definition stageSummary (stage : ShaderType) (layout : option BindingLayout)
  : BindingSummary :=
  match layout with
  | Some (Layout _ desc) =>
      if visibleTo (ld_visibility desc) stage then layoutSummary desc
      else BindingSummary_init
  | _ => BindingSummary_init
  end.

Definition rangeOf (c : GraphicsResourceType) (s : BindingSummary) : Range :=
  match c with
  | SRV => rangeSRV s
  | GSampler => rangeSampler s
  | UAV => rangeUAV s
  | CB => rangeCB s
  end.

Definition overlapOf (c : GraphicsResourceType) (o : Overlaps) : bool :=
  match c with
  | SRV => overlapSRV o
  | GSampler => overlapSampler o
  | UAV => overlapUAV o
  | CB => overlapCB o
  end.

(** Whether an item with a null resource handle passes per-item validation:
    by class, by backend and, for the two classes that carry no resource,
    by where the item is used. *)
Definition nullAccepted (api : GraphicsAPI) (isDescriptorTable : bool)
    (binding : BindingSetItem) : bool :=
  match si_type binding with
  | Texture_SRV | Texture_UAV | Sampler | RayTracingAccelStruct => false
  | SamplerFeedbackTexture_UAV => true
  | TypedBuffer_SRV | TypedBuffer_UAV => true
  | StructuredBuffer_SRV | StructuredBuffer_UAV | RawBuffer_SRV | RawBuffer_UAV
  | ConstantBuffer | VolatileConstantBuffer => bool_decide (api = VULKAN)
  | RT_None => isDescriptorTable
  | PushConstants =>
      negb isDescriptorTable && negb (bool_decide (byteSize (si_range binding) = 0))
  | RT_Count | RT_Unrecognized _ => false
  end.

(** The usage flags a volatile buffer may not have. *)
Definition volatileUnsupportedUsage (d : BufferDesc) : bool :=
  bd_isVertexBuffer d || bd_isIndexBuffer d || bd_isDrawIndirectArgs d
  || bd_canHaveUAVs d || bd_isAccelStructBuildInput d
  || bd_isAccelStructStorage d || bd_isShaderBindingTable d || bd_isVirtual d.

Definition isAccelStructWrapper (r : IResource) : bool :=
  match r with
  | ResAccelStruct (AccelStructWrapper _ _ _ _ _) => true
  | _ => false
  end.

(** Layout [i] of a pipeline is a regular layout with descriptor [desc]
    that is visible to [stage]. *)
Definition visibleLayout (stage : ShaderType)
    (bindingLayouts : list (option BindingLayout)) (i : nat)
    (desc : BindingLayoutDesc) : Prop :=
  exists id, bindingLayouts !! i = Some (Some (Layout id desc))
    /\ visibleTo (ld_visibility desc) stage = true.

(** Two ranges are non-empty and their closed intervals share a slot. *)
Definition rangesIntersect (r1 r2 : Range) : Prop :=
  r_min r1 <= r_max r1 /\ r_min r2 <= r_max r2
  /\ exists slot, r_min r1 <= slot <= r_max r1 /\ r_min r2 <= slot <= r_max r2.

(** Two entries [i < j] of [bindingsPerLayout] whose ranges of class [c]
    overlap. *)
Definition overlappingPair (c : GraphicsResourceType)
    (bindingsPerLayout : list BindingSummary) : Prop :=
  exists i j set1 set2, (i < j)%nat
    /\ bindingsPerLayout !! i = Some set1 /\ bindingsPerLayout !! j = Some set2
    /\ rangesIntersect (rangeOf c set1) (rangeOf c set2).

(** The resource of an item is null or of the kind its type names: what
    [checked_cast] relies on. *)
Definition wellTyped (binding : BindingSetItem) : Prop :=
  match si_type binding with
  | Texture_SRV | Texture_UAV =>
      match si_resourceHandle binding with
      | None | Some (ResTexture _) => True
      | _ => False
      end
  | TypedBuffer_SRV | TypedBuffer_UAV | StructuredBuffer_SRV
  | StructuredBuffer_UAV | RawBuffer_SRV | RawBuffer_UAV
  | ConstantBuffer | VolatileConstantBuffer =>
      match si_resourceHandle binding with
      | None | Some (ResBuffer _) => True
      | _ => False
      end
  | _ => True
  end.

(** Kinds of events and findings. *)
Definition isInvalidTypeMessage (e : Event) : Prop :=
  exists type, e = Message Error [F_InvalidLayoutItemType type].

Definition isPipelineLine (f : Finding) : bool :=
  match f with
  | F_DuplicateBindings _ _ | F_OverlappingRanges _ _ _ _ _ => true
  | _ => false
  end.

Definition isLocationDiff (f : Finding) : bool :=
  match f with
  | F_DeclaredNotBound _ | F_BoundNotDeclared _ => true
  | _ => false
  end.

Definition isQuery (e : Event) : Prop :=
  e = Backend Call_getGraphicsAPI
  \/ e = Backend (Call_queryFeatureSupport Feature_ConstantBufferRanges).

(** What a per-item check does to the error stream: it appends lines, none
    of them a location diff, and asks the device at most for its API and
    for one feature. *)
Definition itemChecked (errorStream : list Finding)
    (r : bool * list Finding) (t : list Event) : Prop :=
  Forall isQuery t
  /\ exists extra, snd r = errorStream ++ extra
       /\ Forall (fun f => isLocationDiff f = false) extra.


(** An event of pipeline validation that carries no duplicate or overlap
    line: a query of the API, or a message about something else. *)
Definition noPipelineLine (e : Event) : Prop :=
  match e with
  | Backend c => c = Call_getGraphicsAPI
  | Message _ text => Forall (fun f => isPipelineLine f = false) text
  end.

Definition stageOf (shader : Shader) : ShaderType :=
  sh_shaderType (shader_desc shader).

Definition noOverlaps : Overlaps := mkOverlaps false false false false.

(** The line, if any, that the loop over shaders writes for a stage. *)
Definition stageReport (bindingLayouts : list (option BindingLayout))
    (stage : ShaderType) : option Finding :=
  let bindingsPerLayout := map (stageSummary stage) bindingLayouts in
  let duplicates := duplicateLocations bindingsPerLayout in
  if negb (bool_decide (duplicates = ∅)) then
    Some (F_DuplicateBindings stage duplicates)
  else if bool_decide (dev_getGraphicsAPI m_Device = D3D11) then
    let o := overlappingRanges bindingsPerLayout noOverlaps in
    if anyOverlap o then
      Some (F_OverlappingRanges stage (overlapSRV o) (overlapSampler o)
              (overlapUAV o) (overlapCB o))
    else None
  else None.

(** What the loop over shaders has written once the shaders [seen] are
    done: the duplicate and overlap lines of the two streams are the
    reports of those stages, and a stream that was written to has its flag
    set. *)
Definition stagesReported (bindingLayouts : list (option BindingLayout))
    (seen : list Shader) (st : LayoutCheck) : Prop :=
  (forall f, isPipelineLine f = true ->
     (f ∈ ssDuplicateBindings st ++ ssOverlappingBindings st
      <-> exists shader, shader ∈ seen
            /\ stageReport bindingLayouts (stageOf shader) = Some f))
  /\ (ssDuplicateBindings st <> [] -> anyDuplicateBindings st = true)
  /\ (ssOverlappingBindings st <> [] -> anyOverlappingBindings st = true).

(** ** Further rules, as the code states them *)

(** The descriptors [createBuffer] lets through. *)
Definition bufferAcceptable (d : BufferDesc) : bool :=
  (negb (bd_isVolatile d)
   || (bd_isConstantBuffer d && negb (bd_maxVersions d =? 0)
       && negb (volatileUnsupportedUsage d)
       && bool_decide (bd_cpuAccess d = CpuNone)))
  && (negb (bd_isVirtual d)
      || dev_queryFeatureSupport m_Device Feature_VirtualResources)
  && negb (bd_keepInitialState d
           && bool_decide (bd_initialState d = ResourceStates_Unknown)).

(** The placement [bind*Memory] lets through: the end of the resource,
    computed in 64 bits, is within the heap, and the offset is a multiple
    of the alignment when one is required. *)
Definition placementAccepted (req : MemoryRequirements) (heapDesc : HeapDesc)
    (offset : Z) : Prop :=
  wrap64 (offset + mr_size req) <= hd_capacity heapDesc
  /\ (mr_alignment req = 0 \/ offset mod mr_alignment req = 0).

(** The calls of a trace that reach [m_Device->createBuffer]. *)
Definition createBufferCalls (t : list Event) : list BufferDesc :=
  omap (fun c => match c with Call_createBuffer d => Some d | _ => None end)
       (backendCalls t).

(** *** The walk of the summary loops *)

(** The calls of [UpdateBindingSummaryWithLocation] that the loops of
    [FillBindingLayoutSummary] and of [FillBindingSetSummary] make, in
    order: the type and the location of each. *)
Definition itemSteps (registerSpace : Z) (item : BindingLayoutItem)
  : list (ResourceType * BindingLocation) :=
  map (fun arrayElement =>
         (li_type item,
          mkLocation defaultLocationType registerSpace (li_slot item) arrayElement))
      (seqZ 0 (getArraySize item)).

Definition layoutSteps (desc : BindingLayoutDesc)
  : list (ResourceType * BindingLocation) :=
  ld_bindings desc ≫= itemSteps (ld_registerSpace desc).

Definition setSteps (desc : BindingSetDesc) (registerSpace : Z)
  : list (ResourceType * BindingLocation) :=
  map (fun item =>
         (si_type item,
          mkLocation defaultLocationType registerSpace (si_slot item)
            (si_arrayElement item)))
      (sd_bindings desc).

Definition applySteps (steps : list (ResourceType * BindingLocation))
    (acc : BindingSummary * BindingLocationSet)
  : M (BindingSummary * BindingLocationSet) :=
  forM (fun s acc => UpdateBindingSummaryWithLocation (fst s) (snd s) acc)
       steps acc.

(** The location a call enters into the summary. *)
Definition stepLocation (s : ResourceType * BindingLocation) : BindingLocation :=
  setLocationType (snd s) (classOf (fst s)).

Definition layoutLocations (desc : BindingLayoutDesc) : list BindingLocation :=
  map stepLocation (layoutSteps desc).

Definition setLocations (desc : BindingSetDesc) (registerSpace : Z)
  : list BindingLocation :=
  map stepLocation (setSteps desc registerSpace).

(** [loc] is visited more than once. *)
Definition duplicated (l : list BindingLocation) (loc : BindingLocation) : Prop :=
  exists i j, (i < j)%nat /\ l !! i = Some loc /\ l !! j = Some loc.

(** The range a type extends: none for a type the [switch] of
    [UpdateBindingSummaryWithLocation] does not name. *)
Definition rangeClass (type : ResourceType) : option GraphicsResourceType :=
  match type with
  | Texture_SRV | TypedBuffer_SRV | StructuredBuffer_SRV | RawBuffer_SRV
  | RayTracingAccelStruct => Some SRV
  | Texture_UAV | TypedBuffer_UAV | StructuredBuffer_UAV | RawBuffer_UAV
  | SamplerFeedbackTexture_UAV => Some UAV
  | ConstantBuffer | VolatileConstantBuffer | PushConstants => Some CB
  | Sampler => Some GSampler
  | RT_None | RT_Count | RT_Unrecognized _ => None
  end.

(** The slots of the calls that extend the range of class [c]. *)
Definition slotsOf (c : GraphicsResourceType)
    (steps : list (ResourceType * BindingLocation)) : list Z :=
  omap (fun s => if decide (rangeClass (fst s) = Some c)
                 then Some (loc_slot (snd s)) else None) steps.

Definition volatileSteps (steps : list (ResourceType * BindingLocation)) : nat :=
  length (filter (fun s => fst s = VolatileConstantBuffer) steps).

(** The messages the walk sends to the sink itself: one for each call
    with a type the [switch] does not name. *)
Definition invalidTypeEvents (steps : list (ResourceType * BindingLocation))
  : list Event :=
  omap (fun s => match rangeClass (fst s) with
                 | None => Some (Message Error [F_InvalidLayoutItemType (fst s)])
                 | Some _ => None
                 end) steps.

(** *** The assertion of pipeline validation *)

(** [assert(duplicates.empty())] holds of a layout handle for a stage: the
    handle is not a regular layout visible to the stage, or no two entries
    of the layout (items and their array elements) claim the same
    location. *)
Definition assertionHolds (stage : ShaderType) (layout : option BindingLayout)
  : Prop :=
  match layout with
  | Some (Layout _ desc) =>
      visibleTo (ld_visibility desc) stage = true -> NoDup (layoutLocations desc)
  | _ => True
  end.

#[local] Instance assertionHolds_dec stage layout :
  Decision (assertionHolds stage layout).
Proof.
  unfold assertionHolds. destruct layout as [[id desc|id desc]|]; apply _.
Defined.

(** The assertion holds every time it is reached: of every layout, for the
    stage of every shader. *)
Definition assertionsHold (bindingLayouts : list (option BindingLayout))
    (shaders : list Shader) : Prop :=
  Forall (fun shader => Forall (assertionHolds (stageOf shader)) bindingLayouts)
         shaders.

(** *** The verdict of pipeline validation *)

(** The descriptors of the regular layouts of a pipeline, in order. *)
Definition layoutDescs (bindingLayouts : list (option BindingLayout))
  : list BindingLayoutDesc :=
  omap (fun layout => layout ≫= BindingLayout_getDesc) bindingLayouts.

Definition pushConstantItems (descs : list BindingLayoutDesc)
  : list BindingLayoutItem :=
  descs ≫= (fun desc =>
              filter (fun item => li_type item = PushConstants) (ld_bindings desc)).

(** The register spaces of the layouts that are descriptor sets. *)
Definition descriptorSetSpaces (descs : list BindingLayoutDesc) : list Z :=
  map ld_registerSpace
      (filter (fun desc => ld_registerSpaceIsDescriptorSet desc = true) descs).

Definition sameSemantics (descs : list BindingLayoutDesc) : Prop :=
  forall d1 d2, d1 ∈ descs -> d2 ∈ descs ->
    ld_registerSpaceIsDescriptorSet d1 = ld_registerSpaceIsDescriptorSet d2.

(** What the second half of [validatePipelineBindingLayouts] looks for. *)
Definition spacesAndPushConstantsAccepted (descs : list BindingLayoutDesc)
  : Prop :=
  sameSemantics descs
  /\ NoDup (descriptorSetSpaces descs)
  /\ (length (pushConstantItems descs) <= 1)%nat
  /\ forall item, item ∈ pushConstantItems descs ->
       wrap32 (li_size item) <= c_MaxPushConstantSize.

(** A pipeline passes: no stage has a duplicate or overlap report and the
    layouts agree on register spaces and push constants. *)
Definition layoutsAccepted (bindingLayouts : list (option BindingLayout))
    (shaders : list Shader) : Prop :=
  (forall shader, shader ∈ shaders ->
     stageReport bindingLayouts (stageOf shader) = None)
  /\ spacesAndPushConstantsAccepted (layoutDescs bindingLayouts).

(** The state of the loop over layouts once the regular layouts [descs]
    are done, when it started with [anyErrors = e0]. *)
Definition spacesChecked (e0 : bool) (descs : list BindingLayoutDesc)
    (st : SpaceCheck) : Prop :=
  (sc_anyErrors st = true <-> e0 = true \/ ~ NoDup (descriptorSetSpaces descs))
  /\ pushConstantCount st = Z.of_nat (length (pushConstantItems descs))
  /\ (forall item, item ∈ pushConstantItems descs ->
        wrap32 (li_size item) <= pushConstantSize st)
  /\ (pushConstantSize st = 0
      \/ exists item, item ∈ pushConstantItems descs
           /\ pushConstantSize st = wrap32 (li_size item))
  /\ match registerSpaceIsDescriptorSet st with
     | RS_Undetermined => descs = []
     | RS_True =>
         descs <> []
         /\ forall d, d ∈ descs -> ld_registerSpaceIsDescriptorSet d = true
     | RS_False =>
         descs <> []
         /\ forall d, d ∈ descs -> ld_registerSpaceIsDescriptorSet d = false
     | RS_Mixed =>
         exists d1 d2, d1 ∈ descs /\ d2 ∈ descs
           /\ ld_registerSpaceIsDescriptorSet d1 = true
           /\ ld_registerSpaceIsDescriptorSet d2 = false
     end
  /\ length (registerSpaceToLayoutIdx st) = Z.to_nat c_MaxBindingLayouts
  /\ (forall k v, registerSpaceToLayoutIdx st !! k = Some v ->
        (v = -1 <-> Z.of_nat k ∉ descriptorSetSpaces descs)).

(** *** Bindless layouts *)

(** The resource types [createBindlessLayout] lets through. *)
Definition bindlessTypeAllowed (type : ResourceType) : bool :=
  match type with
  | Texture_SRV | TypedBuffer_SRV | StructuredBuffer_SRV | RawBuffer_SRV
  | RayTracingAccelStruct | ConstantBuffer
  | Texture_UAV | TypedBuffer_UAV | StructuredBuffer_UAV | RawBuffer_UAV => true
  | _ => false
  end.

Definition bindlessLayoutAcceptable (desc : BindlessLayoutDesc) : Prop :=
  bl_visibility desc <> ShaderType_None
  /\ bl_registerSpaces desc <> []
  /\ bl_maxCapacity desc <> 0
  /\ forall item, item ∈ bl_registerSpaces desc ->
       bindlessTypeAllowed (li_type item) = true.

(** *** Acceleration structure wrappers *)

(** The flags of a wrapper are consistent: a top-level structure is never
    compactable and no structure is both updatable and compactable. *)
Definition wrapperConsistent (as_ : IAccelStruct) : Prop :=
  match as_ with
  | AccelStructWrapper _ isTopLevel allowUpdate allowCompaction _ =>
      (allowCompaction && isTopLevel = false)
      /\ (allowUpdate && allowCompaction = false)
  | BackendAccelStruct _ _ => False
  end.

(** *** Resources in binding items *)

(** A constant buffer bound with a range: the whole buffer, or an aligned,
    non-empty part of it on a device that supports constant buffer ranges. *)
Definition constantRangeAccepted (range : BufferRange) (desc : BufferDesc)
  : Prop :=
  isEntireBuffer range desc = true
  \/ (dev_queryFeatureSupport m_Device Feature_ConstantBufferRanges = true
      /\ byteOffset (resolveRange range desc)
           mod c_ConstantBufferOffsetSizeAlignment = 0
      /\ byteSize (resolveRange range desc) <> 0
      /\ byteSize (resolveRange range desc)
           mod c_ConstantBufferOffsetSizeAlignment = 0).

(** What a buffer must offer to be bound as the item says. *)
Definition bufferBindingAccepted (binding : BindingSetItem) (desc : BufferDesc)
  : Prop :=
  (isTypedView (si_type binding) = true ->
   bd_canHaveTypedViews desc = true
   /\ (si_format binding <> Format_UNKNOWN \/ bd_format desc <> Format_UNKNOWN))
  /\ (isStructuredView (si_type binding) = true -> bd_structStride desc <> 0)
  /\ (isRawView (si_type binding) = true -> bd_canHaveRawViews desc = true)
  /\ (isUAVView (si_type binding) = true -> bd_canHaveUAVs desc = true)
  /\ (si_type binding = ConstantBuffer ->
      bd_isConstantBuffer desc = true /\ bd_isVolatile desc = false
      /\ constantRangeAccepted (si_range binding) desc)
  /\ (si_type binding = VolatileConstantBuffer ->
      bd_isConstantBuffer desc = true /\ bd_isVolatile desc = true
      /\ isEntireBuffer (si_range binding) desc = true).

(** What a texture must offer to be bound as the item says. *)
Definition textureBindingAccepted (binding : BindingSetItem) (desc : TextureDesc)
  : Prop :=
  numArraySlices (resolveSubresources (si_subresources binding) desc false) <> 0
  /\ numMipLevels (resolveSubresources (si_subresources binding) desc false) <> 0
  /\ (si_type binding = Texture_UAV -> td_isUAV desc = true)
  /\ (si_dimension binding = TD_Unknown
      \/ si_dimension binding = td_dimension desc
      \/ (si_dimension binding = Texture2DArray
          /\ (td_dimension desc = Texture3D \/ td_dimension desc = TextureCube
              \/ td_dimension desc = TextureCubeArray))).

(** The verdict on an item whose resource is [resource]. *)
Definition resourceAccepted (isDescriptorTable : bool) (binding : BindingSetItem)
    (resource : IResource) : Prop :=
  match si_type binding with
  | RT_None => isDescriptorTable = true
  | Texture_SRV | Texture_UAV =>
      match resource with
      | ResTexture texture => textureBindingAccepted binding (tex_desc texture)
      | _ => False
      end
  | TypedBuffer_SRV | TypedBuffer_UAV | StructuredBuffer_SRV
  | StructuredBuffer_UAV | RawBuffer_SRV | RawBuffer_UAV
  | ConstantBuffer | VolatileConstantBuffer =>
      match resource with
      | ResBuffer buffer => bufferBindingAccepted binding (buf_desc buffer)
      | _ => False
      end
  | SamplerFeedbackTexture_UAV | Sampler | RayTracingAccelStruct => True
  | PushConstants | RT_Count | RT_Unrecognized _ => False
  end.

(** The outcome of a check on one item: the verdict is [P], an accepted
    item leaves the error stream alone and a rejected one adds a line. *)
Definition itemVerdict (P : Prop) (errorStream : list Finding)
    (r : bool * list Finding) : Prop :=
  (fst r = true <-> P)
  /\ (fst r = true -> snd r = errorStream)
  /\ (fst r = false -> exists f, snd r = errorStream ++ [f]).

(** The verdict on an item, null or not. *)
Definition itemAccepted (isDescriptorTable : bool) (binding : BindingSetItem)
  : Prop :=
  match si_resourceHandle binding with
  | None =>
      nullAccepted (dev_getGraphicsAPI m_Device) isDescriptorTable binding = true
  | Some resource => resourceAccepted isDescriptorTable binding resource
  end.

(** A binding set fits a layout: it binds exactly the locations the layout
    declares, none of them twice, and every item passes. *)
Definition bindingSetAcceptable (desc : BindingSetDesc)
    (layoutDesc : BindingLayoutDesc) : Prop :=
  (forall loc, loc ∈ layoutLocations layoutDesc
               <-> loc ∈ setLocations desc (ld_registerSpace layoutDesc))
  /\ NoDup (setLocations desc (ld_registerSpace layoutDesc))
  /\ forall item, item ∈ sd_bindings desc -> itemAccepted false item.

(** ** The further methods of the wrapper *)

Local Open Scope vlx_scope.

(** The further methods of [m_Device]. *)
Variable m_DeviceExt : IDeviceExt.

(** [utils::GenerateHeapDebugName] and [utils::InvalidEnum]
    ([nvrhi/utils.h]); the latter is a computation of its own. *)
Variable GenerateHeapDebugName : HeapDesc -> string.
Variable InvalidEnum : MExt unit.

(** The values of [MemoryRequirements()] and of
    [rt::cluster::OperationSizeInfo{}]. *)
Variable MemoryRequirements_default : MemoryRequirements.
Variable OperationSizeInfo_default : OperationSizeInfo.

(** Further limits and formats of [nvrhi.h]. *)
Variable c_MaxVolatileConstantBuffersPerLayout : Z.
Variable kMaxGeometryIndex : Z.
Variable kClasMaxTriangles : Z.
Variable kClasMaxVertices : Z.
Variable Format_RGBA32_FLOAT : Format.
Variable Format_RGB32_FLOAT : Format.
Variable Format_RG32_FLOAT : Format.
Variable Format_RGBA16_FLOAT : Format.
Variable Format_RG16_FLOAT : Format.
Variable Format_RGBA16_SNORM : Format.
Variable Format_RG16_SNORM : Format.
Variable Format_RGBA8_SNORM : Format.
Variable Format_RG8_SNORM : Format.
Variable Format_RGBA16_UNORM : Format.
Variable Format_RG16_UNORM : Format.
Variable Format_RGBA8_UNORM : Format.
Variable Format_RG8_UNORM : Format.
Variable Format_R10G10B10A2_UNORM : Format.

Definition errorE (messageText : list FindingExt) : MExt unit :=
  emitE (MessageExt Error messageText).

Definition warningE (messageText : list FindingExt) : MExt unit :=
  emitE (MessageExt Warning messageText).

Definition callE {A} (c : BackendCallExt) (r : A) : MExt A :=
  (Done r, [BackendExt c]).

(** *** Heaps and staging textures *)

Definition patchHeapDesc (d : HeapDesc) : HeapDesc :=
  if bool_decide (hd_debugName d = EmptyString)
  then mkHeapDesc (hd_capacity d) (GenerateHeapDebugName d)
  else d.

Definition createHeap (d : HeapDesc) : MExt (option Heap) :=
  if hd_capacity d =? 0 then
    errorE [G_HeapCapacity0] ;; retE None
  else
    let patchedDesc := patchHeapDesc d in
    callE (Call_createHeap patchedDesc) (dev_createHeap m_DeviceExt patchedDesc).


(** *** Memory requirements *)

Definition getTextureMemoryRequirements (texture : option ITexture)
  : MExt MemoryRequirements :=
  match texture with
  | None => errorE [G_TextureIsNull] ;; retE MemoryRequirements_default
  | Some texture =>
      memReq <- lift (call (Call_getTextureMemoryRequirements texture)
                        (dev_getTextureMemoryRequirements m_Device texture)) ;;
      (if mr_size memReq =? 0
       then errorE [G_TextureZeroSize (td_debugName (tex_desc texture))]
       else retE tt) ;;
      retE memReq
  end.

Definition getBufferMemoryRequirements (buffer : option IBuffer)
  : MExt MemoryRequirements :=
  match buffer with
  | None => errorE [G_BufferIsNull] ;; retE MemoryRequirements_default
  | Some buffer =>
      memReq <- lift (call (Call_getBufferMemoryRequirements buffer)
                        (dev_getBufferMemoryRequirements m_Device buffer)) ;;
      (if mr_size memReq =? 0
       then errorE [G_BufferZeroSize (bd_debugName (buf_desc buffer))]
       else retE tt) ;;
      retE memReq
  end.

Definition getAccelStructMemoryRequirements (as_ : option IAccelStruct)
  : MExt MemoryRequirements :=
  match as_ with
  | None => errorE [G_AccelStructIsNull] ;; retE MemoryRequirements_default
  | Some as_ =>
      let as_ := unwrapAccelStruct as_ in
      lift (call (Call_getAccelStructMemoryRequirements as_)
              (dev_getAccelStructMemoryRequirements m_Device as_))
  end.

(** *** Shader specializations

    [constants] is the array behind the pointer, [None] for a null
    pointer. *)

Definition createShaderSpecialization (baseShader : option Shader)
    (constants : option (list Z)) (numConstants : Z) : MExt (option Shader) :=
  supported <- lift (device_queryFeatureSupport Feature_ShaderSpecializations) ;;
  if negb supported then
    api <- lift device_getGraphicsAPI ;;
    errorE [G_NoShaderSpecializations api] ;; retE None
  else
    match constants with
    | None => errorE [G_NoConstants] ;; retE None
    | Some constants =>
        if numConstants =? 0 then
          errorE [G_NoConstants] ;; retE None
        else
          match baseShader with
          | None => errorE [G_BaseShaderIsNull] ;; retE None
          | Some baseShader =>
              callE (Call_createShaderSpecialization baseShader constants
                       numConstants)
                    (dev_createShaderSpecialization m_DeviceExt baseShader
                       constants numConstants)
          end
    end.

(** *** Render state, graphics and meshlet pipelines *)

Definition validateRenderState (renderState : RenderState)
    (fb : option Framebuffer) : MExt bool :=
  match fb with
  | None => errorE [G_FramebufferIsNull] ;; retE false
  | Some fb =>
      let fbDesc := fb_desc fb in
      let dss := depthStencilState renderState in
      if (depthTestEnable dss || stencilEnable dss)
         && negb (fa_valid (depthAttachment fbDesc)) then
        errorE [G_NoDepthAttachment] ;; retE false
      else if ((depthTestEnable dss && depthWriteEnable dss)
               || (stencilEnable dss && negb (stencilWriteMask dss =? 0)))
              && fa_isReadOnly (depthAttachment fbDesc) then
        errorE [G_DepthAttachmentReadOnly] ;; retE false
      else if conservativeRasterEnable (rasterState renderState) then
        supported <-
          lift (device_queryFeatureSupport Feature_ConservativeRasterization) ;;
        if negb supported then
          warningE [G_NoConservativeRaster] ;; retE false
        else retE true
      else retE true
  end.

(** [SelectGraphicsShaderStage] and [SelectMeshletShaderStage]: the field of
    the descriptor for a stage, [None] where the source returns a null
    pointer after [utils::InvalidEnum]. *)
Definition SelectGraphicsShaderStage (desc : GraphicsPipelineDesc)
    (stage : ShaderType) : option (option Shader) :=
  if bool_decide (stage = ShaderType_Vertex) then Some (gp_VS desc)
  else if bool_decide (stage = ShaderType_Hull) then Some (gp_HS desc)
  else if bool_decide (stage = ShaderType_Domain) then Some (gp_DS desc)
  else if bool_decide (stage = ShaderType_Geometry) then Some (gp_GS desc)
  else if bool_decide (stage = ShaderType_Pixel) then Some (gp_PS desc)
  else None.

Definition SelectMeshletShaderStage (desc : MeshletPipelineDesc)
    (stage : ShaderType) : option (option Shader) :=
  if bool_decide (stage = ShaderType_Amplification) then Some (mp_AS desc)
  else if bool_decide (stage = ShaderType_Mesh) then Some (mp_MS desc)
  else if bool_decide (stage = ShaderType_Pixel) then Some (mp_PS desc)
  else None.

Definition g_GraphicsShaderStages : list ShaderType :=
  [ShaderType_Vertex; ShaderType_Hull; ShaderType_Domain; ShaderType_Geometry;
   ShaderType_Pixel].

Definition g_MeshletShaderStages : list ShaderType :=
  [ShaderType_Amplification; ShaderType_Mesh; ShaderType_Pixel].

(** The loop over the stages that both pipeline creators start with: the
    shaders present, in the order of the stages, or [None] when a shader
    has the wrong type and the creator returns null. *)
Fixpoint collectShaders (select : ShaderType -> option (option Shader))
    (stages : list ShaderType) (shaders : list Shader)
  : MExt (option (list Shader)) :=
  match stages with
  | [] => retE (Some shaders)
  | stage :: rest =>
      match select stage with
      | None => InvalidEnum ;; undefinedE
      | Some None => collectShaders select rest shaders
      | Some (Some shader) =>
          let shaders := shaders ++ [shader] in
          ok <- lift (validateShaderType stage (shader_desc shader)) ;;
          if negb ok then retE None
          else collectShaders select rest shaders
      end
  end.

Definition createGraphicsPipeline (pipelineDesc : GraphicsPipelineDesc)
    (fb : option Framebuffer) : MExt (option Z) :=
  shaders <- collectShaders (SelectGraphicsShaderStage pipelineDesc)
               g_GraphicsShaderStages [] ;;
  match shaders with
  | None => retE None
  | Some shaders =>
      ok <- lift (validatePipelineBindingLayouts
                    (gp_bindingLayouts pipelineDesc) shaders) ;;
      if negb ok then retE None
      else
        ok <- validateRenderState (gp_renderState pipelineDesc) fb ;;
        if negb ok then retE None
        else
          callE (Call_createGraphicsPipeline pipelineDesc fb)
                (dev_createGraphicsPipeline m_DeviceExt pipelineDesc fb)
  end.

Definition createMeshletPipeline (pipelineDesc : MeshletPipelineDesc)
    (fb : option Framebuffer) : MExt (option Z) :=
  shaders <- collectShaders (SelectMeshletShaderStage pipelineDesc)
               g_MeshletShaderStages [] ;;
  match shaders with
  | None => retE None
  | Some shaders =>
      ok <- lift (validatePipelineBindingLayouts
                    (mp_bindingLayouts pipelineDesc) shaders) ;;
      if negb ok then retE None
      else
        ok <- validateRenderState (mp_renderState pipelineDesc) fb ;;
        if negb ok then retE None
        else
          callE (Call_createMeshletPipeline pipelineDesc fb)
                (dev_createMeshletPipeline m_DeviceExt pipelineDesc fb)
  end.

(** *** createBindingLayout *)

(** The locals of the loop over the items. *)
Record ItemCheck := mkItemCheck {
  ic_anyErrors : bool;
  ic_errorStream : list FindingExt;
  ic_noneItemCount : Z;
  ic_pushConstantCount : Z;
  ic_zeroSizeCount : Z
}.

Definition checkLayoutItem (st : ItemCheck) (item : BindingLayoutItem)
  : ItemCheck :=
  let noneItemCount :=
    if bool_decide (li_type item = RT_None)
    then wrap32 (ic_noneItemCount st + 1) else ic_noneItemCount st in
  if bool_decide (li_type item = PushConstants) then
    let '(anyErrors, errorStream) :=
      if li_size item =? 0
      then (true, ic_errorStream st ++ [G_PushConstantSize0])
      else (ic_anyErrors st, ic_errorStream st) in
    let '(anyErrors, errorStream) :=
      if c_MaxPushConstantSize <? li_size item
      then (true, errorStream ++ [G_PushConstantTooLarge (li_size item)])
      else (anyErrors, errorStream) in
    let '(anyErrors, errorStream) :=
      if negb (li_size item mod 4 =? 0)
      then (true, errorStream ++ [G_PushConstantNotMultipleOf4 (li_size item)])
      else (anyErrors, errorStream) in
    mkItemCheck anyErrors errorStream noneItemCount
      (wrap32 (ic_pushConstantCount st + 1)) (ic_zeroSizeCount st)
  else
    let zeroSizeCount :=
      if li_size item =? 0
      then wrap32 (ic_zeroSizeCount st + 1) else ic_zeroSizeCount st in
    let '(anyErrors, errorStream) :=
      if (1 <? li_size item)
         && bool_decide (li_type item = VolatileConstantBuffer)
      then (true, ic_errorStream st ++ [G_VolatileCBArray (li_size item)])
      else (ic_anyErrors st, ic_errorStream st) in
    mkItemCheck anyErrors errorStream noneItemCount
      (ic_pushConstantCount st) zeroSizeCount.

Definition createBindingLayout (desc : BindingLayoutDesc)
  : MExt (option BindingLayout) :=
  let errorStream : list FindingExt := [] in
  let anyErrors := false in
  '(bindings, duplicates) <-
    lift (FillBindingLayoutSummary desc (BindingSummary_init, ∅)) ;;
  let '(anyErrors, errorStream) :=
    if bool_decide (ld_visibility desc = ShaderType_None)
    then (true, errorStream ++ [G_LayoutVisibilityNone])
    else (anyErrors, errorStream) in
  let '(anyErrors, errorStream) :=
    if negb (bool_decide (duplicates = ∅))
    then (true, errorStream ++ [G_LayoutDuplicates duplicates])
    else (anyErrors, errorStream) in
  let '(anyErrors, errorStream) :=
    if c_MaxVolatileConstantBuffersPerLayout <? numVolatileCBs bindings
    then (true, errorStream ++ [G_TooManyVolatileCBs (numVolatileCBs bindings)])
    else (anyErrors, errorStream) in
  let st :=
    fold_left checkLayoutItem (ld_bindings desc)
      (mkItemCheck anyErrors errorStream 0 0 0) in
  let '(anyErrors, errorStream) :=
    if negb (ic_noneItemCount st =? 0)
    then (true, ic_errorStream st ++ [G_NoneItems (ic_noneItemCount st)])
    else (ic_anyErrors st, ic_errorStream st) in
  let '(anyErrors, errorStream) :=
    if negb (ic_zeroSizeCount st =? 0)
    then (true, errorStream ++ [G_ZeroSizeItems (ic_zeroSizeCount st)])
    else (anyErrors, errorStream) in
  let '(anyErrors, errorStream) :=
    if 1 <? ic_pushConstantCount st
    then (true, errorStream ++ [G_PushConstantBlocks (ic_pushConstantCount st)])
    else (anyErrors, errorStream) in
  graphicsApi <- lift device_getGraphicsAPI ;;
  let '(anyErrors, errorStream) :=
    if negb (bool_decide (graphicsApi = D3D12)
             || (bool_decide (graphicsApi = VULKAN)
                 && ld_registerSpaceIsDescriptorSet desc))
       && negb (ld_registerSpace desc =? 0)
    then (true,
          errorStream
          ++ [G_RegisterSpaceUnsupported (ld_registerSpace desc) graphicsApi])
    else (anyErrors, errorStream) in
  if (anyErrors : bool) then
    errorE errorStream ;; retE None
  else
    callE (Call_createBindingLayout desc)
          (dev_createBindingLayout m_DeviceExt desc).

(** *** Descriptor tables and opacity micromaps *)

(** [layout->getBindlessDesc()] dereferences [layout] unchecked. *)
Definition createDescriptorTable (layout : option BindingLayout)
  : MExt (option Z) :=
  match layout with
  | None => undefinedE
  | Some layout =>
      match BindingLayout_getBindlessDesc layout with
      | None => errorE [G_TableNeedsBindlessLayout] ;; retE None
      | Some _ =>
          callE (Call_createDescriptorTable layout)
                (dev_createDescriptorTable m_DeviceExt layout)
      end
  end.

Definition createOpacityMicromap (desc : OpacityMicromapDesc)
  : MExt (option Z) :=
  match omm_inputBuffer desc with
  | None => errorE [G_InputBufferIsNull] ;; retE None
  | Some _ =>
      match omm_perOmmDescs desc with
      | None => errorE [G_PerOmmDescsIsNull] ;; retE None
      | Some _ =>
          omm <- callE (Call_createOpacityMicromap desc)
                   (dev_createOpacityMicromap m_DeviceExt desc) ;;
          match omm with
          | None => errorE [G_OpacityMicromapNotCreated] ;; retE None
          | Some omm => retE (Some omm)
          end
      end
  end.

(** *** Cluster operations *)

Definition validVertexFormat (vertexFormat : Format) : bool :=
  bool_decide (vertexFormat = Format_RGBA32_FLOAT)
  || bool_decide (vertexFormat = Format_RGB32_FLOAT)
  || bool_decide (vertexFormat = Format_RG32_FLOAT)
  || bool_decide (vertexFormat = Format_RGBA16_FLOAT)
  || bool_decide (vertexFormat = Format_RG16_FLOAT)
  || bool_decide (vertexFormat = Format_RGBA16_SNORM)
  || bool_decide (vertexFormat = Format_RG16_SNORM)
  || bool_decide (vertexFormat = Format_RGBA8_SNORM)
  || bool_decide (vertexFormat = Format_RG8_SNORM)
  || bool_decide (vertexFormat = Format_RGBA16_UNORM)
  || bool_decide (vertexFormat = Format_RG16_UNORM)
  || bool_decide (vertexFormat = Format_RGBA8_UNORM)
  || bool_decide (vertexFormat = Format_RG8_UNORM)
  || bool_decide (vertexFormat = Format_R10G10B10A2_UNORM).

(** One check of [validateClusterOperationParams]: a failed check is
    reported at once and clears [isValid]. *)
Definition clusterCheck (failed : bool) (f : FindingExt) (isValid : bool)
  : MExt bool :=
  if failed then errorE [f] ;; retE false else retE isValid.

(** The block guarded by [validateClasParams]. *)
Definition validateClasParams (type : OperationType)
    (clas : OperationClasParams) (isValid : bool) : MExt bool :=
  isValid <- clusterCheck (negb (validVertexFormat (clas_vertexFormat clas)))
               (G_InvalidVertexFormat type) isValid ;;
  isValid <- clusterCheck (kMaxGeometryIndex <? clas_maxGeometryIndex clas)
               (G_MaxGeometryIndex type) isValid ;;
  isValid <- clusterCheck (32 <? clas_minPositionTruncateBitCount clas)
               (G_MinPositionTruncateBitCount type) isValid ;;
  isValid <- clusterCheck (kClasMaxTriangles <? clas_maxTriangleCount clas)
               (G_MaxTriangleCount type) isValid ;;
  isValid <- clusterCheck (kClasMaxVertices <? clas_maxVertexCount clas)
               (G_MaxVertexCount type) isValid ;;
  isValid <- clusterCheck
               (clas_maxTotalTriangleCount clas <? clas_maxTriangleCount clas)
               (G_TriangleCountOverTotal type) isValid ;;
  isValid <- clusterCheck
               (clas_maxTotalVertexCount clas <? clas_maxVertexCount clas)
               (G_VertexCountOverTotal type) isValid ;;
  clusterCheck
    (clas_maxTriangleCount clas <? clas_maxUniqueGeometryCount clas)
    (G_UniqueGeometryOverTriangles type) isValid.

Definition validateClusterOperationParams (params : OperationParams)
  : MExt bool :=
  let isValid := true in
  let type := op_type params in
  isValid <-
    match op_mode params with
    | Mode_ImplicitDestinations | Mode_ExplicitDestinations | Mode_GetSizes =>
        retE isValid
    | Mode_Unrecognized _ =>
        errorE [G_UnknownOperationMode type] ;; retE false
    end ;;
  let validateClas :=
    match type with
    | Op_ClasBuild | Op_ClasBuildTemplates | Op_ClasInstantiateTemplates => true
    | Op_Move | Op_BlasBuild | Op_Unrecognized _ => false
    end in
  if validateClas then validateClasParams type (op_clas params) isValid
  else retE isValid.

Definition getClusterOperationSizeInfo (params : OperationParams)
  : MExt OperationSizeInfo :=
  ok <- validateClusterOperationParams params ;;
  if negb ok then retE OperationSizeInfo_default
  else
    callE (Call_getClusterOperationSizeInfo params)
          (dev_getClusterOperationSizeInfo m_DeviceExt params).

(** *** Command lists *)

(** The [switch] on the queue type: whether the creation goes on. *)
Definition queueAvailable (queue : CommandQueue) : MExt bool :=
  match queue with
  | Queue_Graphics => retE true
  | Queue_Compute =>
      supported <- lift (device_queryFeatureSupport Feature_ComputeQueue) ;;
      if negb supported then errorE [G_NoComputeQueue] ;; retE false
      else retE true
  | Queue_Copy =>
      supported <- lift (device_queryFeatureSupport Feature_CopyQueue) ;;
      if negb supported then errorE [G_NoCopyQueue] ;; retE false
      else retE true
  | Queue_Count | Queue_Unrecognized _ => InvalidEnum ;; retE false
  end.

Definition createCommandList (params : CommandListParameters)
  : MExt (option ICommandList) :=
  available <- queueAvailable (queueType params) ;;
  if negb available then retE None
  else
    commandList <- callE (Call_createCommandList params)
                     (dev_createCommandList m_DeviceExt params) ;;
    match commandList with
    | None => retE None
    | Some commandList =>
        retE (Some (CommandListWrapper commandList
                      (enableImmediateExecution params) (queueType params)))
    end.

Local Close Scope vlx_scope.

(** ** Further rules, as the code states them (continued) *)

(** A render state fits a framebuffer. *)
Definition renderStateAcceptable (renderState : RenderState)
    (fb : option Framebuffer) : Prop :=
  exists framebuffer, fb = Some framebuffer
    /\ let dss := depthStencilState renderState in
       let depth := depthAttachment (fb_desc framebuffer) in
       (depthTestEnable dss = true \/ stencilEnable dss = true ->
        fa_valid depth = true)
       /\ ((depthTestEnable dss = true /\ depthWriteEnable dss = true)
           \/ (stencilEnable dss = true /\ stencilWriteMask dss <> 0) ->
           fa_isReadOnly depth = false)
       /\ (conservativeRasterEnable (rasterState renderState) = true ->
           dev_queryFeatureSupport m_Device Feature_ConservativeRasterization
           = true).

(** The parameters of a cluster operation pass. *)
Definition usesClasParams (type : OperationType) : bool :=
  match type with
  | Op_ClasBuild | Op_ClasBuildTemplates | Op_ClasInstantiateTemplates => true
  | _ => false
  end.

Definition clasViolations (type : OperationType) (clas : OperationClasParams)
  : list FindingExt :=
  let when (c : bool) (f : FindingExt) := if c then [f] else [] in
  when (negb (validVertexFormat (clas_vertexFormat clas)))
    (G_InvalidVertexFormat type)
  ++ when (kMaxGeometryIndex <? clas_maxGeometryIndex clas)
       (G_MaxGeometryIndex type)
  ++ when (32 <? clas_minPositionTruncateBitCount clas)
       (G_MinPositionTruncateBitCount type)
  ++ when (kClasMaxTriangles <? clas_maxTriangleCount clas)
       (G_MaxTriangleCount type)
  ++ when (kClasMaxVertices <? clas_maxVertexCount clas)
       (G_MaxVertexCount type)
  ++ when (clas_maxTotalTriangleCount clas <? clas_maxTriangleCount clas)
       (G_TriangleCountOverTotal type)
  ++ when (clas_maxTotalVertexCount clas <? clas_maxVertexCount clas)
       (G_VertexCountOverTotal type)
  ++ when (clas_maxTriangleCount clas <? clas_maxUniqueGeometryCount clas)
       (G_UniqueGeometryOverTriangles type).

Definition clasParamsValid (clas : OperationClasParams) : Prop :=
  validVertexFormat (clas_vertexFormat clas) = true
  /\ clas_maxGeometryIndex clas <= kMaxGeometryIndex
  /\ clas_minPositionTruncateBitCount clas <= 32
  /\ clas_maxUniqueGeometryCount clas <= clas_maxTriangleCount clas
  /\ clas_maxTriangleCount clas <= kClasMaxTriangles
  /\ clas_maxTriangleCount clas <= clas_maxTotalTriangleCount clas
  /\ clas_maxVertexCount clas <= kClasMaxVertices
  /\ clas_maxVertexCount clas <= clas_maxTotalVertexCount clas.

Definition clusterParamsValid (params : OperationParams) : Prop :=
  (forall raw, op_mode params <> Mode_Unrecognized raw)
  /\ (usesClasParams (op_type params) = true -> clasParamsValid (op_clas params)).

(** A queue on which command lists can be created. *)
Definition queueUsable (queue : CommandQueue) : Prop :=
  match queue with
  | Queue_Graphics => True
  | Queue_Compute => dev_queryFeatureSupport m_Device Feature_ComputeQueue = true
  | Queue_Copy => dev_queryFeatureSupport m_Device Feature_CopyQueue = true
  | Queue_Count | Queue_Unrecognized _ => False
  end.

(** The items of a layout pass the loop of [createBindingLayout]. *)
Definition layoutItemAcceptable (item : BindingLayoutItem) : Prop :=
  li_type item <> RT_None
  /\ li_size item <> 0
  /\ (li_type item = PushConstants ->
      li_size item <= c_MaxPushConstantSize /\ li_size item mod 4 = 0)
  /\ (li_type item = VolatileConstantBuffer -> li_size item <= 1).

Definition registerSpaceSupported (desc : BindingLayoutDesc) : Prop :=
  ld_registerSpace desc = 0
  \/ dev_getGraphicsAPI m_Device = D3D12
  \/ (dev_getGraphicsAPI m_Device = VULKAN
      /\ ld_registerSpaceIsDescriptorSet desc = true).

Definition layoutAcceptable (desc : BindingLayoutDesc) : Prop :=
  ld_visibility desc <> ShaderType_None
  /\ NoDup (layoutLocations desc)
  /\ wrap32 (Z.of_nat (volatileSteps (layoutSteps desc)))
     <= c_MaxVolatileConstantBuffersPerLayout
  /\ (forall item, item ∈ ld_bindings desc -> layoutItemAcceptable item)
  /\ (length (filter (fun item => li_type item = PushConstants)
                (ld_bindings desc)) <= 1)%nat
  /\ registerSpaceSupported desc.

(** The stages of a pipeline descriptor with the shader of each. *)
Definition graphicsStages (desc : GraphicsPipelineDesc)
  : list (ShaderType * option Shader) :=
  [(ShaderType_Vertex, gp_VS desc); (ShaderType_Hull, gp_HS desc);
   (ShaderType_Domain, gp_DS desc); (ShaderType_Geometry, gp_GS desc);
   (ShaderType_Pixel, gp_PS desc)].

Definition meshletStages (desc : MeshletPipelineDesc)
  : list (ShaderType * option Shader) :=
  [(ShaderType_Amplification, mp_AS desc); (ShaderType_Mesh, mp_MS desc);
   (ShaderType_Pixel, mp_PS desc)].

Definition presentShaders (stages : list (ShaderType * option Shader))
  : list Shader :=
  omap snd stages.

(** Every shader sits in the slot of its own stage. *)
Definition stagesWellTyped (stages : list (ShaderType * option Shader)) : Prop :=
  forall stage shader, (stage, Some shader) ∈ stages ->
    sh_shaderType (shader_desc shader) = stage.

(** The first shader that sits in the slot of another stage. *)
Fixpoint firstMistyped (stages : list (ShaderType * option Shader))
  : option (ShaderType * Shader) :=
  match stages with
  | [] => None
  | (stage, None) :: rest => firstMistyped rest
  | (stage, Some shader) :: rest =>
      if bool_decide (stage = sh_shaderType (shader_desc shader))
      then firstMistyped rest
      else Some (stage, shader)
  end.

(** The value a call returns, [d] when it does not return. *)
Definition valueOrE {A} (d : A) (m : MExt A) : A :=
  match resultE m with Done a => a | _ => d end.

(** The rules a cluster operation breaks, in the order they are checked. *)
Definition clusterViolations (params : OperationParams) : list FindingExt :=
  match op_mode params with
  | Mode_Unrecognized _ => [G_UnknownOperationMode (op_type params)]
  | _ => []
  end
  ++ (if usesClasParams (op_type params)
      then clasViolations (op_type params) (op_clas params) else []).

Definition isNil {A} (l : list A) : bool :=
  match l with [] => true | _ => false end.

(** What the two pipeline creators guarantee of a call [m] that ends with
    the call [c] on the wrapped device returning [r]: a shader in the
    wrong slot ends it with one message before the layouts are looked at;
    the device is reached exactly when the shaders sit in their slots, the
    layouts validate against them and the render state fits the
    framebuffer; and a pipeline is returned only from the device. *)
Definition pipelineGuarded (m : MExt (option Z))
    (stages : list (ShaderType * option Shader))
    (bindingLayouts : list (option BindingLayout))
    (renderState : RenderState) (fb : option Framebuffer)
    (c : BackendCallExt) (r : option Z) : Prop :=
  (forall stage shader, firstMistyped stages = Some (stage, shader) ->
     m = (Done None,
          [Core (Message Error
                   [F_UnexpectedShaderType stage
                      (sh_shaderType (shader_desc shader))])]))
  /\ (firstMistyped stages = None <-> stagesWellTyped stages)
  /\ (stagesWellTyped stages ->
      result (validatePipelineBindingLayouts bindingLayouts
                (presentShaders stages)) = Done true ->
      renderStateAcceptable renderState fb ->
      resultE m = Done r /\ backendCallsExt (traceE m) = [c])
  /\ (backendCallsExt (traceE m) = []
      \/ backendCallsExt (traceE m) = [c]
         /\ stagesWellTyped stages
         /\ result (validatePipelineBindingLayouts bindingLayouts
                      (presentShaders stages)) = Done true
         /\ renderStateAcceptable renderState fb)
  /\ (forall v, resultE m = Done (Some v) ->
        r = Some v /\ backendCallsExt (traceE m) = [c]).

(** What the loop of [createBindingLayout] reports of an item on the spot. *)
Definition itemLoopAccepted (item : BindingLayoutItem) : Prop :=
  (li_type item = PushConstants ->
   li_size item <> 0 /\ li_size item <= c_MaxPushConstantSize
   /\ li_size item mod 4 = 0)
  /\ (li_type item = VolatileConstantBuffer -> li_size item <= 1).

Definition noneItems (items : list BindingLayoutItem) : list BindingLayoutItem :=
  filter (fun item => li_type item = RT_None) items.

Definition zeroSizeItems (items : list BindingLayoutItem)
  : list BindingLayoutItem :=
  filter (fun item => li_type item <> PushConstants /\ li_size item = 0) items.

Definition pushConstantBlocks (items : list BindingLayoutItem)
  : list BindingLayoutItem :=
  filter (fun item => li_type item = PushConstants) items.

(** A layout handle the second loop of [validatePipelineBindingLayouts]
    gets past: it is not null, and a descriptor set's register space is
    an index into [registerSpaceToLayoutIdx]. *)
Definition layoutUsable (layout : option BindingLayout) : Prop :=
  match layout with
  | None => False
  | Some (Layout _ desc) =>
      ld_registerSpaceIsDescriptorSet desc = true ->
      ld_registerSpace desc < c_MaxBindingLayouts
  | Some (Bindless _ _) => True
  end.

#[local] Instance layoutUsable_dec layout : Decision (layoutUsable layout).
Proof.
  unfold layoutUsable. destruct layout as [[id desc|id desc]|]; apply _.
Defined.

(** * Properties *)

(** ** The set helpers compute the set operations *)

Lemma SetDifference_spec a b : SetDifference a b = a ∖ b.
Proof.
  unfold SetDifference.
  apply (set_fold_ind_L (fun r (X : BindingLocationSet) => r = a ∖ X)).
  - set_solver.
  - intros x X r _ ->. set_solver.
Qed.

Lemma SetIntersection_spec a b : SetIntersection a b = a ∩ b.
Proof.
  unfold SetIntersection.
  apply (set_fold_ind_L (fun r (X : BindingLocationSet) => r = X ∩ b)).
  - set_solver.
  - intros x X r _ ->. case_decide; set_solver.
Qed.

Lemma SetUnionInplace_spec a b : SetUnionInplace a b = a ∪ b.
Proof.
  unfold SetUnionInplace.
  apply (set_fold_ind_L (fun r (X : BindingLocationSet) => r = a ∪ X)).
  - set_solver.
  - intros x X r _ ->. set_solver.
Qed.

(** ** The monad *)

Lemma result_bind {A B} (m : M A) (f : A -> M B) :
  result (bind m f) =
  match result m with
  | Done a => result (f a)
  | Undefined => Undefined
  | Aborted => Aborted
  | OutOfFuel => OutOfFuel
  end.
Proof. destruct m as [[a| | |] t]; simpl; try done. by destruct (f a). Qed.

Lemma trace_bind {A B} (m : M A) (f : A -> M B) :
  trace (bind m f) =
  match result m with
  | Done a => trace m ++ trace (f a)
  | _ => trace m
  end.
Proof. destruct m as [[a| | |] t]; simpl; try done. by destruct (f a). Qed.

Lemma bind_Done {A B} (a : A) t (f : A -> M B) :
  bind (Done a, t) f = (result (f a), t ++ trace (f a)).
Proof. simpl. by destruct (f a). Qed.

Lemma returns_ret {A} (a : A) (Q : A -> list Event -> Prop) :
  Q a [] -> returns (ret a) Q.
Proof. intros H. by exists a, []. Qed.

Lemma returns_bind {A B} (m : M A) (f : A -> M B) Q1 (Q2 : B -> list Event -> Prop) :
  returns m Q1 ->
  (forall a t1, Q1 a t1 -> returns (f a) (fun b t2 => Q2 b (t1 ++ t2))) ->
  returns (bind m f) Q2.
Proof.
  intros (a & t1 & -> & H1) Hf.
  destruct (Hf a t1 H1) as (b & t2 & Hfa & H2).
  exists b, (t1 ++ t2). split; [|done].
  rewrite bind_Done, Hfa. done.
Qed.

Lemma returns_weaken {A} (m : M A) (Q1 Q2 : A -> list Event -> Prop) :
  returns m Q1 -> (forall a t, Q1 a t -> Q2 a t) -> returns m Q2.
Proof. intros (a & t & -> & H) HQ. exists a, t. auto. Qed.

Lemma returns_forM {A B} (f : A -> B -> M B) (Inv : list A -> B -> list Event -> Prop)
    (l : list A) (b0 : B) :
  Inv [] b0 [] ->
  (forall seen x b t, Inv seen b t ->
     returns (f x b) (fun b' t' => Inv (seen ++ [x]) b' (t ++ t'))) ->
  returns (forM f l b0) (Inv l).
Proof.
  intros H0 Hstep.
  cut (forall seen b t, Inv seen b t ->
         returns (forM f l b) (fun b' t' => Inv (seen ++ l) b' (t ++ t'))).
  { intros Hcut. apply (Hcut [] b0 [] H0). }
  induction l as [|x l IH]; intros seen b t HI; simpl.
  - apply returns_ret. by rewrite !app_nil_r.
  - eapply returns_bind; [by apply Hstep|].
    intros b' t' HI'. simpl in HI'.
    eapply returns_weaken; [by apply IH|].
    intros b'' t'' H. simpl in H.
    by rewrite <- !app_assoc in H.
Qed.

Ltac Zeqb_cases :=
  repeat match goal with
         | |- context [Z.eqb ?a ?b] => destruct (Z.eqb_spec a b)
         | |- context [Z.ltb ?a ?b] => destruct (Z.ltb_spec a b)
         | |- context [Z.leb ?a ?b] => destruct (Z.leb_spec a b)
         end.

(** ** createTexture *)

Lemma messages_app t1 t2 : messages (t1 ++ t2) = messages t1 ++ messages t2.
Proof. unfold messages. by rewrite omap_app. Qed.

Lemma backendCalls_app t1 t2 :
  backendCalls (t1 ++ t2) = backendCalls t1 ++ backendCalls t2.
Proof. unfold backendCalls. by rewrite omap_app. Qed.

Lemma createTextureCalls_app t1 t2 :
  createTextureCalls (t1 ++ t2) = createTextureCalls t1 ++ createTextureCalls t2.
Proof. unfold createTextureCalls. by rewrite backendCalls_app, omap_app. Qed.

Lemma ruleChecked_seq G1 G2 a b c t1 t2 :
  ruleChecked G1 a b t1 -> ruleChecked G2 b c t2 ->
  ruleChecked (G1 ++ G2) a c (t1 ++ t2).
Proof.
  intros (Hm1 & Hc1 & ->) (Hm2 & Hc2 & ->). unfold ruleChecked.
  rewrite messages_app, createTextureCalls_app, Hm1, Hm2, Hc1, Hc2.
  unfold oneMessageEach. rewrite map_app. split; [done|]. split; [done|].
  destruct G1, G2, a; done.
Qed.

Lemma rule_returns (c : bool) (F : Finding) (a : bool) :
  returns (if c then error [F] ;; ret true else ret a)
          (ruleChecked (if c then [F] else []) a).
Proof.
  destruct c.
  - exists true, [Message Error [F]]. split; [done|].
    repeat split. by destruct a.
  - exists a, []. split; [done|]. repeat split. by destruct a.
Qed.

Lemma rule_skipped (a : bool) : returns (ret a) (ruleChecked [] a).
Proof. exists a, []. split; [done|]. repeat split. by destruct a. Qed.

Lemma returns_seq {A} (m : M bool) (f : bool -> M A) G1 a (Q : A -> list Event -> Prop) :
  returns m (ruleChecked G1 a) ->
  (forall b t1, ruleChecked G1 a b t1 -> returns (f b) (fun r t2 => Q r (t1 ++ t2))) ->
  returns (bind m f) Q.
Proof. apply returns_bind. Qed.

Ltac rule_cases :=
  simpl; Zeqb_cases; repeat case_bool_decide; simpl; try lia;
  first [ apply rule_skipped
        | apply (rule_returns true)
        | apply (rule_returns false)
        | idtac ].

Lemma createTexture_returns (d : TextureDesc) :
  returns (createTexture d) (fun r t =>
    messages t = oneMessageEach (textureViolations d)
    /\ (textureViolations d <> [] -> r = None /\ createTextureCalls t = [])
    /\ (textureViolations d = [] ->
        r = dev_createTexture m_Device (patchTextureDesc d)
        /\ createTextureCalls t = [patchTextureDesc d])).
Proof.
  unfold createTexture, textureViolations.
  destruct (recognizedDimension (td_dimension d)) eqn:Hdim; simpl.
  2: { exists None, [Message Error [F_UnknownTextureDimension]]. by repeat split. }
  assert ((td_width d =? 0) || (td_height d =? 0) || (td_depth d =? 0)
          || (td_arraySize d =? 0) || (td_mipLevels d =? 0)
          = bool_decide (td_width d = 0 \/ td_height d = 0 \/ td_depth d = 0
                         \/ td_arraySize d = 0 \/ td_mipLevels d = 0)) as ->.
  { Zeqb_cases; case_bool_decide; simpl; try done; lia. }
  case_bool_decide as Hzero; simpl.
  { exists None, [Message Error [F_ExtentsMustNotBeZero]]. by repeat split. }
  clear Hzero.
  set (g1 := if is1D _ && _ then [F_HeightMustBe1] else []).
  set (g2 := if negb (bool_decide (_ = Texture3D)) && _ then [F_DepthMustBe1] else []).
  set (g3a := if isPlain _ && _ then [F_ArraySizeMustBe1] else []).
  set (g3b := if bool_decide (_ = TextureCube) && _ then [F_ArraySizeMustBe6] else []).
  set (g3c := if bool_decide (_ = TextureCubeArray) && _
              then [F_ArraySizeMustBeMultipleOf6] else []).
  set (g4a := if negb (isMultisampled _) && _ then [F_SampleCountMustBe1] else []).
  set (g4b := if isMultisampled _ && negb _ then [F_SampleCountMustBe248] else []).
  set (g4c := if isMultisampled _ && td_isUAV d then [F_MultisampledUAV] else []).
  set (g5 := if td_isVirtual d && _ then [F_NoVirtualResources] else []).
  set (g6 := if td_keepInitialState d && _ then [F_InitialStateUnknown] else []).
  eapply (returns_seq _ _ g1 false).
  { subst g1. unfold is1D. destruct (td_dimension d); try discriminate Hdim; rule_cases. }
  intros b1 t1 H1.
  eapply (returns_seq _ _ g2 b1).
  { subst g2. destruct (td_dimension d); try discriminate Hdim; rule_cases. }
  intros b2 t2 H2.
  eapply (returns_seq _ _ (g3a ++ g3b ++ g3c) b2).
  { subst g3a g3b g3c. unfold isPlain. destruct (td_dimension d); try discriminate Hdim; rule_cases. }
  intros b3 t3 H3.
  eapply (returns_seq _ _ (g4a ++ g4b ++ g4c) b3).
  { subst g4a g4b g4c. unfold isMultisampled.
    destruct (td_dimension d); try discriminate Hdim; try rule_cases.
    all: destruct (td_isUAV d); simpl.
    all: try (exists true, [Message Error [F_SampleCountMustBe248];
                            Message Error [F_MultisampledUAV]];
              split; [done|]; repeat split; by destruct b3).
    all: try (exists true, [Message Error [F_MultisampledUAV]];
              split; [done|]; repeat split; by destruct b3).
    all: try (exists true, [Message Error [F_SampleCountMustBe248]];
              split; [done|]; repeat split; by destruct b3).
    all: try (exists b3, []; split; [done|]; repeat split; by destruct b3). }
  intros b4 t4 H4.
  eapply (returns_seq _ _ g5 b4).
  { subst g5. destruct (td_isVirtual d); simpl; [|apply rule_skipped].
    unfold device_queryFeatureSupport, call.
    destruct (dev_queryFeatureSupport m_Device Feature_VirtualResources); simpl.
    - exists b4, [Backend (Call_queryFeatureSupport Feature_VirtualResources)].
      split; [done|]. repeat split. by destruct b4.
    - exists true, [Backend (Call_queryFeatureSupport Feature_VirtualResources);
                    Message Error [F_NoVirtualResources]].
      split; [done|]. repeat split. by destruct b4. }
  intros b5 t5 H5.
  eapply (returns_seq _ _ g6 b5).
  { subst g6. apply rule_returns. }
  intros b6 t6 H6.
  pose proof (ruleChecked_seq _ _ _ _ _ _ _ H1
               (ruleChecked_seq _ _ _ _ _ _ _ H2
                 (ruleChecked_seq _ _ _ _ _ _ _ H3
                   (ruleChecked_seq _ _ _ _ _ _ _ H4
                     (ruleChecked_seq _ _ _ _ _ _ _ H5 H6))))) as H.
  rewrite <- ?app_assoc in H.
  destruct H as (Hm & Hc & ->). simpl.
  case_bool_decide as HG; simpl.
  - exists (dev_createTexture m_Device (patchTextureDesc d)),
      [Backend (Call_createTexture (patchTextureDesc d))].
    split; [done|]. rewrite !app_assoc.
    rewrite messages_app, createTextureCalls_app, <- !app_assoc, Hm, Hc, HG.
    split; [by rewrite app_nil_r|]. split; [done|]. done.
  - exists None, []. split; [done|]. rewrite !app_nil_r, !app_assoc.
    rewrite <- !app_assoc, Hm, Hc. split; [done|]. split; [done|]. done.
Qed.

Lemma createBindlessLayout_items_grow items (acc : bool * list Finding) :
  (fst acc = true -> snd acc <> []) ->
  fst (fold_left (fun acc item => checkBindlessItem item acc) items acc) = true ->
  snd (fold_left (fun acc item => checkBindlessItem item acc) items acc) <> [].
Proof.
  revert acc.
  induction items as [|item items IH]; intros [a es]; simpl; [done|].
  intros Ha. apply IH.
  unfold checkBindlessItem. destruct (li_type item); simpl; try done.
  all: intros _; by destruct es.
Qed.

(** ** createBuffer *)

(** C8 (as amended).  A volatile buffer descriptor is rejected, with one
    message and without any call on the wrapped device, when it is not a
    constant buffer, or has [maxVersions = 0], or a CPU access mode, or one
    of the unsupported usage flags.  A volatile constant buffer with a
    non-zero [maxVersions], no CPU access and none of those flags is
    forwarded (patched) to the wrapped device exactly when it does not
    combine [keepInitialState] with an unknown initial state; when it does,
    it is rejected as well. *)
Theorem createBuffer_volatile_rules (d : BufferDesc)
    (Hvolatile : bd_isVolatile d = true) :
  (bd_isConstantBuffer d = false \/ bd_maxVersions d = 0
   \/ bd_cpuAccess d <> CpuNone \/ volatileUnsupportedUsage d = true ->
   exists f, createBuffer d = (Done None, [Message Error [f]]))
  /\ (bd_isConstantBuffer d = true -> bd_maxVersions d <> 0 ->
      bd_cpuAccess d = CpuNone -> volatileUnsupportedUsage d = false ->
      createBuffer d =
        if bd_keepInitialState d
           && bool_decide (bd_initialState d = ResourceStates_Unknown)
        then (Done None, [Message Error [F_InitialStateUnknown]])
        else (Done (dev_createBuffer m_Device (patchBufferDesc d)),
              [Backend (Call_createBuffer (patchBufferDesc d))])).
Proof.
  unfold createBuffer, volatileUnsupportedUsage. rewrite Hvolatile. simpl.
  split.
  - intros H.
    destruct (bd_isConstantBuffer d); simpl; [|by eexists].
    destruct (Z.eqb_spec (bd_maxVersions d) 0); simpl; [by eexists|].
    destruct (_ || _) eqn:Hflags; simpl; [by eexists|].
    case_bool_decide as Hcpu; simpl; [|by eexists].
    destruct H as [H|[H|[H|H]]]; done.
  - intros -> Hv Hcpu Hflags. simpl.
    destruct (Z.eqb_spec (bd_maxVersions d) 0); [done|]. simpl.
    rewrite Hflags. simpl. rewrite bool_decide_eq_true_2 by done. simpl.
    assert (bd_isVirtual d = false) as ->.
    { destruct (bd_isVirtual d); [|done]. by rewrite !orb_true_r in Hflags. }
    simpl. by destruct (_ && _).
Qed.

(** ** Acceleration structures *)

(** C1 (the code at the failing input).  When the descriptor asks for
    compaction on a top-level structure, or for update and compaction
    together, and the wrapped device creates the structure,
    [createAccelStruct] has called [m_Device->createAccelStruct] before it
    reports the error and returns null. *)
Theorem createAccelStruct_validates_after_backend (desc : AccelStructDesc)
    (as_ : IAccelStruct)
    (Hcreated : dev_createAccelStruct m_Device desc = Some as_)
    (Hcompaction : Z.land (asd_buildFlags desc) AllowCompaction <> 0)
    (Hinvalid : asd_isTopLevel desc = true
                \/ Z.land (asd_buildFlags desc) AllowUpdate <> 0) :
  createAccelStruct desc =
    (Done None,
     [Backend (Call_createAccelStruct desc);
      Message Error [if asd_isTopLevel desc then F_TlasCompaction
                     else F_UpdateAndCompaction]]).
Proof.
  unfold createAccelStruct, call. rewrite Hcreated. simpl.
  destruct (Z.eqb_spec (Z.land (asd_buildFlags desc) AllowCompaction) 0); [done|].
  simpl. destruct (asd_isTopLevel desc); simpl; [done|].
  destruct Hinvalid as [|Hu]; [done|].
  destruct (Z.eqb_spec (Z.land (asd_buildFlags desc) AllowUpdate) 0); done.
Qed.

(** C9.  An acceleration structure that [createAccelStruct] returns is a
    wrapper around the very handle the wrapped device returned, and
    [unwrapResource] gives that handle back; [unwrapResource] returns null
    for null and any object that is not an [AccelStructWrapper] unchanged. *)
Theorem accelStruct_wrap_unwrap (desc : AccelStructDesc) (h : IAccelStruct)
    (Hcreated : result (createAccelStruct desc) = Done (Some h)) :
  (exists as_, dev_createAccelStruct m_Device desc = Some as_
     /\ isAccelStructWrapper (ResAccelStruct h) = true
     /\ unwrapAccelStruct h = as_
     /\ unwrapResource (Some (ResAccelStruct h)) = Some (ResAccelStruct as_))
  /\ unwrapResource None = None
  /\ (forall r, isAccelStructWrapper r = false ->
        unwrapResource (Some r) = Some r).
Proof.
  split; [|split; [done|]].
  - revert Hcreated. unfold createAccelStruct, call.
    destruct (dev_createAccelStruct m_Device desc) as [as_|]; simpl; [|done].
    destruct (_ && _); simpl; [done|].
    destruct (_ && _); simpl; [done|].
    intros [= <-]. by exists as_.
  - intros [| | | |[]]; done.
Qed.

(** ** Sampler feedback for native textures *)

(** C3 (the code at the failing input).  On a D3D12 device
    [createSamplerFeedbackForNativeTexture] never returns and never reaches
    [m_Device->createSamplerFeedbackForNativeTexture]: whatever the fuel,
    the call is still recursing, having only asked the device for its API
    once per level. *)
Theorem createSamplerFeedbackForNativeTexture_diverges (fuel : nat)
    (pairedTexture : option ITexture)
    (Hapi : dev_getGraphicsAPI m_Device = D3D12) :
  createSamplerFeedbackForNativeTexture fuel pairedTexture
  = (OutOfFuel, replicate fuel (Backend Call_getGraphicsAPI)).
Proof.
  induction fuel as [|fuel IH]; simpl; [done|].
  unfold device_getGraphicsAPI, call. rewrite Hapi. simpl.
  by rewrite IH.
Qed.

(** ** Null resources in binding items *)

(** C4 (as amended).  For an item whose resource handle is null,
    [validateBindingSetItem] returns, and its verdict is [nullAccepted]:
    textures, samplers and acceleration structures are rejected on every
    backend; sampler-feedback UAVs and typed buffer views are accepted on
    every backend; structured, raw, constant and volatile constant buffers
    are accepted on Vulkan and rejected elsewhere; [None] is accepted in a
    descriptor table only, and push constants in a binding set with a
    non-zero size only.  A rejection adds exactly one line to the error
    stream, an acceptance none. *)
Theorem null_resource_verdict (binding : BindingSetItem)
    (isDescriptorTable : bool) (errorStream : list Finding)
    (Hnull : si_resourceHandle binding = None) :
  exists errorStream',
    result (validateBindingSetItem binding isDescriptorTable errorStream)
    = Done (nullAccepted (dev_getGraphicsAPI m_Device) isDescriptorTable binding,
            errorStream')
    /\ if nullAccepted (dev_getGraphicsAPI m_Device) isDescriptorTable binding
       then errorStream' = errorStream
       else exists f, errorStream' = errorStream ++ [f].
Proof.
  unfold validateBindingSetItem, nullAccepted. rewrite Hnull.
  destruct (si_type binding); simpl;
    try (destruct isDescriptorTable; simpl);
    try (destruct (dev_getGraphicsAPI m_Device); simpl);
    Zeqb_cases; repeat case_bool_decide; simpl; try lia; eauto.
Qed.

(** ** The binding summary engine *)

Lemma UpdateBindingSummaryWithLocation_returns type loc b dup :
  loc_type loc = defaultLocationType ->
  returns (UpdateBindingSummaryWithLocation type loc (b, dup)) (fun r t =>
    locations (fst r) = {[ setLocationType loc (classOf type) ]} ∪ locations b
    /\ Forall isInvalidTypeMessage t).
Proof.
  intros Hty.
  assert (setLocationType loc defaultLocationType = loc) as Hloc.
  { destruct loc; simpl in *; by subst. }
  unfold UpdateBindingSummaryWithLocation.
  destruct type; simpl; rewrite ?Hloc; case_decide; simpl;
    eexists _, _; (split; [reflexivity|]); simpl;
    (split; [set_solver|]);
    repeat constructor; by eexists.
Qed.

Lemma FillBindingLayoutSummary_returns desc b dup :
  returns (FillBindingLayoutSummary desc (b, dup)) (fun r t =>
    (forall loc, loc ∈ locations (fst r) <-> loc ∈ locations b \/ declares desc loc)
    /\ Forall isInvalidTypeMessage t).
Proof.
  unfold FillBindingLayoutSummary.
  eapply returns_weaken.
  - apply (returns_forM _ (fun seen (r : BindingSummary * BindingLocationSet) t =>
      (forall loc, loc ∈ locations (fst r) <->
         loc ∈ locations b
         \/ exists item, item ∈ seen
              /\ 0 <= loc_arrayElement loc < getArraySize item
              /\ loc = mkLocation (classOf (li_type item)) (ld_registerSpace desc)
                         (li_slot item) (loc_arrayElement loc))
      /\ Forall isInvalidTypeMessage t)).
    + split; [|constructor]. intros loc. split; [by left|].
      intros [?|(item & Hin & _)]; [done|]. by apply elem_of_nil in Hin.
    + intros seen item [b1 d1] t [Hlocs Ht]. simpl in Hlocs.
      eapply returns_weaken.
      * apply (returns_forM _ (fun done (r : BindingSummary * BindingLocationSet) t' =>
          (forall loc, loc ∈ locations (fst r) <->
             loc ∈ locations b1
             \/ exists e, e ∈ done
                  /\ loc = mkLocation (classOf (li_type item))
                             (ld_registerSpace desc) (li_slot item) e)
          /\ Forall isInvalidTypeMessage t')).
        -- split; [|constructor]. intros loc. split; [by left|].
           intros [?|(e & Hin & _)]; [done|]. by apply elem_of_nil in Hin.
        -- intros done e [b2 d2] t' [Hl2 Ht']. simpl in Hl2.
           eapply returns_weaken.
           ++ by apply UpdateBindingSummaryWithLocation_returns.
           ++ intros [b3 d3] t3 [Hl3 Ht3]. simpl in *. split.
              ** intros loc. rewrite Hl3, elem_of_union, elem_of_singleton, Hl2.
                 split.
                 --- intros [->|[?|(e' & ? & ->)]]; [right|by left|right].
                     +++ exists e. split; [set_solver|done].
                     +++ exists e'. split; [set_solver|done].
                 --- intros [?|(e' & [?| ->%list_elem_of_singleton]%elem_of_app & ->)].
                     +++ right. by left.
                     +++ right. right. by exists e'.
                     +++ by left.
              ** by apply Forall_app.
      * intros [b3 d3] t3 [Hl3 Ht3]. simpl in *. split; [|by apply Forall_app].
        intros loc. rewrite Hl3, Hlocs. split.
        -- intros [[?|(it & ? & ? & ?)]|(e & He & ->)].
           ++ by left.
           ++ right. exists it. split; [set_solver|done].
           ++ right. exists item. apply elem_of_seqZ in He. simpl.
              split; [set_solver|]. split; [lia|done].
        -- intros [?|(it & [?| ->%list_elem_of_singleton]%elem_of_app & Hr & ->)].
           ++ left. by left.
           ++ left. right. by exists it.
           ++ right. exists (loc_arrayElement loc). simpl in *.
              split; [|done]. apply elem_of_seqZ. lia.
  - intros [b' d'] t [Hl Ht]. simpl in *. split; [|done].
    intros loc. rewrite Hl. unfold declares. done.
Qed.

Lemma FillBindingSetSummary_returns desc space b dup :
  returns (FillBindingSetSummary desc space (b, dup)) (fun r t =>
    (forall loc, loc ∈ locations (fst r) <-> loc ∈ locations b \/ binds desc space loc)
    /\ Forall isInvalidTypeMessage t).
Proof.
  unfold FillBindingSetSummary.
  eapply returns_weaken.
  - apply (returns_forM _ (fun seen (r : BindingSummary * BindingLocationSet) t =>
      (forall loc, loc ∈ locations (fst r) <->
         loc ∈ locations b
         \/ exists item, item ∈ seen
              /\ loc = mkLocation (classOf (si_type item)) space
                         (si_slot item) (si_arrayElement item))
      /\ Forall isInvalidTypeMessage t)).
    + split; [|constructor]. intros loc. split; [by left|].
      intros [?|(item & Hin & _)]; [done|]. by apply elem_of_nil in Hin.
    + intros seen item [b1 d1] t [Hlocs Ht]. simpl in Hlocs.
      eapply returns_weaken.
      * by apply UpdateBindingSummaryWithLocation_returns.
      * intros [b3 d3] t3 [Hl3 Ht3]. simpl in *. split; [|by apply Forall_app].
        intros loc. rewrite Hl3, elem_of_union, elem_of_singleton, Hlocs. split.
        -- intros [->|[?|(it & ? & ->)]]; [right|by left|right].
           ++ exists item. split; [set_solver|done].
           ++ exists it. split; [set_solver|done].
        -- intros [?|(it & [?| ->%list_elem_of_singleton]%elem_of_app & ->)].
           ++ right. by left.
           ++ right. right. by exists it.
           ++ by left.
  - intros [b' d'] t [Hl Ht]. simpl in *. split; [|done].
    intros loc. rewrite Hl. unfold binds. done.
Qed.

(** ** Binding sets *)

Lemma findings_app t1 t2 : findings (t1 ++ t2) = findings t1 ++ findings t2.
Proof. unfold findings. by rewrite messages_app, map_app, concat_app. Qed.

Lemma findings_invalid_type t f :
  Forall isInvalidTypeMessage t -> f ∈ findings t ->
  exists type, f = F_InvalidLayoutItemType type.
Proof.
  induction 1 as [|e t [ty ->] _ IH]; simpl.
  - by intros ?%elem_of_nil.
  - unfold findings. simpl. intros [->|?]%elem_of_cons; [by exists ty|by apply IH].
Qed.

Lemma findings_query t : Forall isQuery t -> findings t = [].
Proof. induction 1 as [|e t [->| ->] _ IH]; done. Qed.

Lemma backendCalls_query t c :
  Forall isQuery t -> c ∈ backendCalls t ->
  c = Call_getGraphicsAPI \/ c = Call_queryFeatureSupport Feature_ConstantBufferRanges.
Proof.
  induction 1 as [|e t [->| ->] _ IH]; simpl.
  - by intros ?%elem_of_nil.
  - intros [->|?]%elem_of_cons; [by left|by apply IH].
  - intros [->|?]%elem_of_cons; [by right|by apply IH].
Qed.

Lemma backendCalls_invalid_type t : Forall isInvalidTypeMessage t -> backendCalls t = [].
Proof. induction 1 as [|e t [ty ->] _ IH]; done. Qed.

Lemma itemChecked_accept es t : Forall isQuery t -> itemChecked es (true, es) t.
Proof. intros Ht. split; [done|]. exists []. by rewrite app_nil_r. Qed.

Lemma itemChecked_reject es f t :
  Forall isQuery t -> isLocationDiff f = false -> itemChecked es (false, es ++ [f]) t.
Proof. intros Ht Hf. split; [done|]. exists [f]. split; [done|]. by constructor. Qed.

Ltac item_done :=
  match goal with
  | |- returns _ _ =>
      eexists _, _; split; [reflexivity|];
      first [ apply itemChecked_accept | apply itemChecked_reject; [|done] ];
      repeat constructor; (by left) || (by right)
  end.

Lemma validateBufferBinding_returns binding desc es :
  returns (validateBufferBinding binding desc es) (itemChecked es).
Proof.
  unfold validateBufferBinding, queryFeatureSupport, device_queryFeatureSupport, call.
  repeat (match goal with
          | |- returns (if ?c then _ else _) _ => destruct c eqn:?; simpl
          end; try item_done).
  destruct (bool_decide (si_type binding = ConstantBuffer)
            && negb (isEntireBuffer (si_range binding) desc)) eqn:Hpartial; simpl.
  - destruct (dev_queryFeatureSupport m_Device Feature_ConstantBufferRanges); simpl.
    + repeat (match goal with
              | |- context [if ?c then _ else _] => destruct c eqn:?; simpl
              end; try item_done).
    + item_done.
  - repeat (match goal with
            | |- context [if ?c then _ else _] => destruct c eqn:?; simpl
            end; try item_done).
Qed.

Lemma validateBindingSetItem_returns binding isDescriptorTable es :
  wellTyped binding ->
  returns (validateBindingSetItem binding isDescriptorTable es) (itemChecked es).
Proof.
  unfold wellTyped, validateBindingSetItem, device_getGraphicsAPI, call.
  destruct (si_type binding); simpl;
    try destruct (si_resourceHandle binding) as [[]|]; simpl; try done;
    intros _; try apply validateBufferBinding_returns;
    repeat (match goal with
            | |- context [if ?c then _ else _] => destruct c eqn:?; simpl
            end; try item_done); try item_done.
Qed.

Lemma validateItems_returns bindings (anyErrors : bool) es :
  Forall wellTyped bindings ->
  returns (validateItems bindings (anyErrors, es)) (fun r t =>
    itemChecked es r t /\ (anyErrors = true -> fst r = true)).
Proof.
  intros Hwt. unfold validateItems.
  revert anyErrors es. induction Hwt as [|binding bindings Hb _ IH]; intros a es; simpl.
  - apply returns_ret. split; [by apply itemChecked_accept|done].
  - eapply returns_bind.
    + eapply returns_bind; [by apply (validateBindingSetItem_returns binding false es)|].
      intros [ok es1] t1 H1. apply returns_ret. rewrite app_nil_r.
      instantiate (1 := fun r t => itemChecked es r t /\ (a = true -> fst r = true)).
      simpl. split; [exact H1|]. by destruct ok.
    + intros [a1 es1] t1 [(Ht1 & extra1 & He1 & Hx1) Ha1]. simpl in *. subst es1.
      eapply returns_weaken; [apply IH|].
      intros [a2 es2] t2 [(Ht2 & extra2 & He2 & Hx2) Ha2]. simpl in *. subst es2.
      split; [|by auto].
      split; [by apply Forall_app|]. exists (extra1 ++ extra2).
      rewrite app_assoc. split; [done|]. by apply Forall_app.
Qed.

Lemma layoutSummary_eq desc s d t :
  FillBindingLayoutSummary desc (BindingSummary_init, ∅) = (Done (s, d), t) ->
  layoutSummary desc = s.
Proof. intros H. unfold layoutSummary, valueOr. by rewrite H. Qed.

Lemma setSummary_eq desc space s d t :
  FillBindingSetSummary desc space (BindingSummary_init, ∅) = (Done (s, d), t) ->
  setSummary desc space = s.
Proof. intros H. unfold setSummary, valueOr. by rewrite H. Qed.

Lemma layoutSummary_declares desc loc :
  loc ∈ locations (layoutSummary desc) <-> declares desc loc.
Proof.
  destruct (FillBindingLayoutSummary_returns desc BindingSummary_init ∅)
    as ([s d] & t & Heq & Hl & _).
  rewrite (layoutSummary_eq _ _ _ _ Heq), Hl. simpl. set_solver.
Qed.

Lemma setSummary_binds desc space loc :
  loc ∈ locations (setSummary desc space) <-> binds desc space loc.
Proof.
  destruct (FillBindingSetSummary_returns desc space BindingSummary_init ∅)
    as ([s d] & t & Heq & Hl & _).
  rewrite (setSummary_eq _ _ _ _ _ Heq), Hl. simpl. set_solver.
Qed.

(** C7.  For a binding set created against a regular layout (items whose
    resources are of the kind their type names): the layout's and the set's
    location sets are the locations the layout declares and the set binds;
    the diagnostic lists as "declared not bound" exactly the set difference
    layout minus set, and as "bound not declared" exactly set minus layout,
    each present only when non-empty; when the two sets differ the call
    returns null and [m_Device->createBindingSet] is not called; and when
    the set's locations are a strict subset of the layout's, the first
    difference is non-empty and reported. *)
Theorem createBindingSet_location_diffs (desc : BindingSetDesc) (id : Z)
    (layoutDesc : BindingLayoutDesc)
    (Hwt : Forall wellTyped (sd_bindings desc)) :
  let declared := locations (layoutSummary layoutDesc) in
  let bound := locations (setSummary desc (ld_registerSpace layoutDesc)) in
  (forall loc, loc ∈ declared <-> declares layoutDesc loc)
  /\ (forall loc, loc ∈ bound <-> binds desc (ld_registerSpace layoutDesc) loc)
  /\ returns (createBindingSet desc (Some (Layout id layoutDesc))) (fun r t =>
       (forall locs, F_DeclaredNotBound locs ∈ findings t
                     <-> locs = declared ∖ bound /\ declared ∖ bound <> ∅)
       /\ (forall locs, F_BoundNotDeclared locs ∈ findings t
                        <-> locs = bound ∖ declared /\ bound ∖ declared <> ∅)
       /\ (declared <> bound ->
           r = None /\ forall d l, Call_createBindingSet d l ∉ backendCalls t)
       /\ (bound ⊂ declared ->
           declared ∖ bound <> ∅ /\ r = None
           /\ F_DeclaredNotBound (declared ∖ bound) ∈ findings t)).
Proof.
  intros declared bound.
  split; [apply layoutSummary_declares|]. split; [apply setSummary_binds|].
  assert (forall lb : BindingSummary,
            (forall loc, loc ∈ locations lb
                         <-> loc ∈ locations BindingSummary_init \/ declares layoutDesc loc) ->
            locations lb = declared) as Hdeclared.
  { intros lb H. apply set_eq. intros loc.
    subst declared. rewrite H, layoutSummary_declares. set_solver. }
  assert (forall sb : BindingSummary,
            (forall loc, loc ∈ locations sb
                         <-> loc ∈ locations BindingSummary_init
                             \/ binds desc (ld_registerSpace layoutDesc) loc) ->
            locations sb = bound) as Hbound.
  { intros sb H. apply set_eq. intros loc.
    subst bound. rewrite H, setSummary_binds. set_solver. }
  clearbody declared bound.
  unfold createBindingSet. simpl.
  eapply returns_bind; [apply FillBindingLayoutSummary_returns|].
  intros [lb ld] t1 [Hl1 Ht1]. simpl in Hl1.
  eapply returns_bind; [apply FillBindingSetSummary_returns|].
  intros [sb sd] t2 [Hl2 Ht2]. simpl in Hl2.
  rewrite !SetDifference_spec.
  rewrite (Hdeclared lb Hl1), (Hbound sb Hl2). clear Hdeclared Hbound Hl1 Hl2.
  destruct (if negb (bool_decide (declared ∖ bound = ∅)) then _ else _)
    as [a1 e1] eqn:E1.
  destruct (if negb (bool_decide (bound ∖ declared = ∅)) then _ else _)
    as [a2 e2] eqn:E2.
  destruct (if negb (bool_decide (sd = ∅)) then _ else _) as [a3 e3] eqn:E3.
  eapply returns_bind; [by apply validateItems_returns|].
  intros [a4 e4] t3 [(Ht3 & extra & He4 & Hextra) Ha4].
  simpl in He4, Ha4. subst e4.
  (* the lines written before the items are validated *)
  assert ((forall locs, F_DeclaredNotBound locs ∈ e3
             <-> locs = declared ∖ bound /\ declared ∖ bound <> ∅)
          /\ (forall locs, F_BoundNotDeclared locs ∈ e3
                <-> locs = bound ∖ declared /\ bound ∖ declared <> ∅)
          /\ (declared <> bound -> a3 = true)) as (Hd & Hb & Ha3).
  { clear -E1 E2 E3.
    assert (declared <> bound ->
            declared ∖ bound <> ∅ \/ bound ∖ declared <> ∅) as Hne.
    { intros Hne.
      destruct (decide (declared ∖ bound = ∅)) as [H1|]; [|by left].
      destruct (decide (bound ∖ declared = ∅)) as [H2|]; [|by right].
      destruct Hne. apply set_eq. intros x.
      destruct (decide (x ∈ declared)), (decide (x ∈ bound)); set_solver. }
    repeat case_bool_decide; simpl in *; simplify_eq; simpl.
    all: split; [|split].
    all: try (intros locs; rewrite ?elem_of_cons, ?elem_of_app, ?elem_of_cons,
                ?elem_of_nil; naive_solver).
    all: try done.
    all: intros H; destruct (Hne H); done. }
  assert (forall f, isLocationDiff f = true ->
            f ∈ findings (t1 ++ t2 ++ t3 ++ [Message Error (e3 ++ extra)])
            <-> f ∈ e3) as Hfind.
  { intros f Hf. rewrite !findings_app, (findings_query t3 Ht3).
    unfold findings at 3. simpl. rewrite app_nil_r, !elem_of_app. split.
    - intros [H|[H|[H|H]]]; try done.
      + apply (findings_invalid_type _ _ Ht1) in H as [ty ->]. done.
      + apply (findings_invalid_type _ _ Ht2) in H as [ty ->]. done.
      + rewrite Forall_forall in Hextra. apply Hextra in H. congruence.
    - intros H. right. right. by left. }
  destruct a4; simpl.
  - eexists _, _. split; [reflexivity|].
    split; [|split; [|split]].
    + intros locs. by rewrite Hfind.
    + intros locs. by rewrite Hfind.
    + intros _. split; [done|]. intros d l.
      rewrite !backendCalls_app, (backendCalls_invalid_type _ Ht1),
        (backendCalls_invalid_type _ Ht2). simpl. rewrite app_nil_r.
      intros [?|?]%(backendCalls_query _ _ Ht3); done.
    + intros Hsub.
      assert (declared ∖ bound <> ∅) as Hne.
      { destruct Hsub as [Hsub Hnot]. intros He. apply Hnot. set_solver. }
      split; [done|]. split; [done|]. rewrite Hfind by done. by apply Hd.
  - assert (a3 = false) as -> by (destruct a3; [by specialize (Ha4 eq_refl)|done]).
    assert (declared = bound) as Heq.
    { destruct (decide (declared = bound)); [done|]. by specialize (Ha3 ltac:(done)). }
    eexists _, _. split; [reflexivity|].
    assert (forall f, isLocationDiff f = true ->
              f ∈ findings (t1 ++ t2 ++ t3 ++
                   [Backend (Call_createBindingSet
                               {| sd_bindings := map unwrapBinding (sd_bindings desc) |}
                               (Layout id layoutDesc))]) -> f ∈ e3) as Hfind'.
    { intros f Hf. rewrite !findings_app, (findings_query t3 Ht3).
      unfold findings at 3. simpl. rewrite app_nil_r, !elem_of_app.
      intros [H|H].
      + apply (findings_invalid_type _ _ Ht1) in H as [ty ->]. done.
      + apply (findings_invalid_type _ _ Ht2) in H as [ty ->]. done. }
    split; [|split; [|split]].
    + intros locs. split.
      * intros H%Hfind'; [|done]. by apply Hd.
      * intros [_ Hne]. destruct Hne. set_solver.
    + intros locs. split.
      * intros H%Hfind'; [|done]. by apply Hb.
      * intros [_ Hne]. destruct Hne. set_solver.
    + done.
    + intros [_ Hnot]. destruct Hnot. set_solver.
Qed.

(** ** The summary loops *)

Lemma bind_assoc {A B C} (m : M A) (f : A -> M B) (g : B -> M C) :
  bind (bind m f) g = bind m (fun a => bind (f a) g).
Proof.
  destruct m as [[a| | |] t]; simpl; try done.
  destruct (f a) as [[b| | |] t1]; simpl; try done.
  destruct (g b) as [r t2]. by rewrite app_assoc.
Qed.

Lemma bind_ext {A B} (m : M A) (f g : A -> M B) :
  (forall a, f a = g a) -> bind m f = bind m g.
Proof. intros H. destruct m as [[a| | |] t]; simpl; try done. by rewrite H. Qed.

Lemma bind_ret_l {A B} (a : A) (f : A -> M B) : bind (ret a) f = f a.
Proof. unfold ret. simpl. by destruct (f a). Qed.

Lemma forM_app {A B} (f : A -> B -> M B) l1 l2 (b : B) :
  forM f (l1 ++ l2) b = bind (forM f l1 b) (forM f l2).
Proof.
  revert b. induction l1 as [|x l1 IH]; intros b.
  - symmetry. apply (bind_ret_l b (forM f l2)).
  - rewrite <- app_comm_cons. cbn [forM].
    rewrite bind_assoc. apply bind_ext. intros b'. apply IH.
Qed.

Lemma forM_map {A A' B} (f : A' -> B -> M B) (g : A -> A') l (b : B) :
  forM f (map g l) b = forM (fun x => f (g x)) l b.
Proof.
  revert b. induction l as [|x l IH]; intros b; [done|].
  cbn [map forM]. apply bind_ext. intros b'. apply IH.
Qed.

Lemma forM_nested {A A' B} (f : A' -> B -> M B) (g : A -> list A') l (b : B) :
  forM (fun x acc => forM f (g x) acc) l b = forM f (l ≫= g) b.
Proof.
  revert b. induction l as [|x l IH]; intros b; [done|].
  change ((x :: l) ≫= g) with (g x ++ (l ≫= g)). cbn [forM].
  rewrite forM_app. apply bind_ext. intros b'. apply IH.
Qed.

Lemma FillBindingLayoutSummary_steps desc acc :
  FillBindingLayoutSummary desc acc = applySteps (layoutSteps desc) acc.
Proof.
  unfold FillBindingLayoutSummary, applySteps, layoutSteps.
  rewrite <- forM_nested. unfold itemSteps.
  revert acc. induction (ld_bindings desc) as [|item items IH]; intros acc; [done|].
  cbn [forM]. rewrite forM_map. apply bind_ext. intros acc'. apply IH.
Qed.

Lemma FillBindingSetSummary_steps desc registerSpace acc :
  FillBindingSetSummary desc registerSpace acc
  = applySteps (setSteps desc registerSpace) acc.
Proof.
  unfold FillBindingSetSummary, applySteps, setSteps. by rewrite forM_map.
Qed.

Lemma layoutSteps_default desc :
  Forall (fun s => loc_type (snd s) = defaultLocationType) (layoutSteps desc).
Proof.
  apply Forall_forall. intros s (item & Hs & _)%list_elem_of_bind.
  apply list_elem_of_fmap in Hs as (e & -> & _). done.
Qed.

Lemma setSteps_default desc registerSpace :
  Forall (fun s => loc_type (snd s) = defaultLocationType)
         (setSteps desc registerSpace).
Proof.
  apply Forall_forall. intros s (item & -> & _)%list_elem_of_fmap. done.
Qed.

Lemma duplicated_snoc l x loc :
  duplicated (l ++ [x]) loc <-> duplicated l loc \/ (loc = x /\ x ∈ l).
Proof.
  split.
  - intros (i & j & Hij & Hi & Hj).
    pose proof (lookup_lt_Some _ _ _ Hj) as Hlen.
    rewrite length_app in Hlen. simpl in Hlen.
    destruct (decide (j < length l)%nat) as [Hjl|Hjl].
    + left. exists i, j. rewrite lookup_app_l in Hi, Hj by lia. done.
    + assert (j = length l) as -> by lia.
      rewrite lookup_app_l in Hi by lia.
      rewrite lookup_app_r, Nat.sub_diag in Hj by lia. simpl in Hj.
      injection Hj as ->. right. split; [done|].
      by eapply list_elem_of_lookup_2.
  - intros [(i & j & Hij & Hi & Hj)|[-> Hin]].
    + exists i, j. split; [done|].
      split; by apply lookup_app_l_Some.
    + apply list_elem_of_lookup_1 in Hin as (i & Hi).
      exists i, (length l). split; [by eapply lookup_lt_Some|].
      split; [by apply lookup_app_l_Some|].
      by rewrite lookup_app_r, Nat.sub_diag by lia.
Qed.

Lemma duplicated_NoDup l : NoDup l <-> forall loc, ~ duplicated l loc.
Proof.
  rewrite NoDup_alt. split.
  - intros H loc (i & j & Hij & Hi & Hj). specialize (H i j loc Hi Hj). lia.
  - intros H i j x Hi Hj.
    destruct (Nat.lt_trichotomy i j) as [?|[?|?]]; [|done|].
    + destruct (H x). by exists i, j.
    + destruct (H x). by exists j, i.
Qed.

Lemma rangeOf_step type loc b c :
  rangeOf c
    (match rangeClass type with
     | Some SRV =>
         mkSummary (locations b) (numVolatileCBs b)
           (Range.add (rangeSRV b) (loc_slot loc)) (rangeSampler b)
           (rangeUAV b) (rangeCB b)
     | Some GSampler =>
         mkSummary (locations b) (numVolatileCBs b) (rangeSRV b)
           (Range.add (rangeSampler b) (loc_slot loc)) (rangeUAV b) (rangeCB b)
     | Some UAV =>
         mkSummary (locations b) (numVolatileCBs b) (rangeSRV b)
           (rangeSampler b) (Range.add (rangeUAV b) (loc_slot loc)) (rangeCB b)
     | Some CB =>
         mkSummary (locations b) (numVolatileCBs b) (rangeSRV b)
           (rangeSampler b) (rangeUAV b) (Range.add (rangeCB b) (loc_slot loc))
     | None => b
     end)
  = if decide (rangeClass type = Some c)
    then Range.add (rangeOf c b) (loc_slot loc) else rangeOf c b.
Proof. destruct (rangeClass type) as [[]|], c; by case_decide. Qed.

(** One call of [UpdateBindingSummaryWithLocation], field by field. *)
Lemma UpdateBindingSummaryWithLocation_step type loc b dup :
  returns (UpdateBindingSummaryWithLocation type loc (b, dup)) (fun r t =>
    loc_type loc = defaultLocationType ->
    let loc' := stepLocation (type, loc) in
    locations (fst r) = {[ loc' ]} ∪ locations b
    /\ snd r = (if decide (loc' ∈ locations b) then {[ loc' ]} ∪ dup else dup)
    /\ (forall c, rangeOf c (fst r)
          = if decide (rangeClass type = Some c)
            then Range.add (rangeOf c b) (loc_slot loc) else rangeOf c b)
    /\ numVolatileCBs (fst r)
       = (if decide (type = VolatileConstantBuffer)
          then wrap32 (numVolatileCBs b + 1) else numVolatileCBs b)
    /\ (t = [] \/ rangeClass type = None)).
Proof.
  assert (loc_type loc = defaultLocationType ->
          setLocationType loc defaultLocationType = loc) as Hloc.
  { intros Hty. destruct loc; simpl in *; by subst. }
  unfold UpdateBindingSummaryWithLocation, stepLocation.
  destruct type; simpl; case_decide; simpl;
    eexists _, _; (split; [reflexivity|]); intros Hty; simpl;
    rewrite ?(Hloc Hty); try rewrite (Hloc Hty) in *;
    (split; [set_solver|]);
    (split; [by repeat case_decide|]);
    (split; [intros []; by repeat case_decide|]);
    (split; [by repeat case_decide|]); auto.
Qed.

Lemma slotsOf_snoc c seen s :
  slotsOf c (seen ++ [s])
  = slotsOf c seen ++ (if decide (rangeClass (fst s) = Some c)
                       then [loc_slot (snd s)] else []).
Proof. unfold slotsOf. rewrite omap_app. simpl. by case_decide. Qed.

Lemma volatileSteps_snoc seen s :
  volatileSteps (seen ++ [s])
  = (volatileSteps seen
     + (if decide (fst s = VolatileConstantBuffer) then 1 else 0))%nat.
Proof.
  unfold volatileSteps. rewrite filter_app, length_app.
  rewrite filter_cons, filter_nil. by case_decide.
Qed.

(** What the loops leave in the summary they started empty. *)
Lemma applySteps_returns steps :
  returns (applySteps steps (BindingSummary_init, ∅)) (fun r t =>
    Forall (fun s => loc_type (snd s) = defaultLocationType) steps ->
    locations (fst r) = list_to_set (map stepLocation steps)
    /\ (forall loc, loc ∈ snd r <-> duplicated (map stepLocation steps) loc)
    /\ (forall c, rangeOf c (fst r)
          = fold_left Range.add (slotsOf c steps) Range_init)
    /\ numVolatileCBs (fst r) = wrap32 (Z.of_nat (volatileSteps steps))
    /\ ((forall s, s ∈ steps -> rangeClass (fst s) <> None) -> t = [])).
Proof.
  unfold applySteps.
  apply (returns_forM _
      (fun seen (r : BindingSummary * BindingLocationSet) t =>
         Forall (fun s => loc_type (snd s) = defaultLocationType) seen ->
         locations (fst r) = list_to_set (map stepLocation seen)
         /\ (forall loc, loc ∈ snd r <-> duplicated (map stepLocation seen) loc)
         /\ (forall c, rangeOf c (fst r)
               = fold_left Range.add (slotsOf c seen) Range_init)
         /\ numVolatileCBs (fst r) = wrap32 (Z.of_nat (volatileSteps seen))
         /\ ((forall s, s ∈ seen -> rangeClass (fst s) <> None) -> t = []))).
  - intros _. simpl. split; [done|]. split.
    { intros loc. split; [set_solver|]. intros (i & j & _ & Hi & _). done. }
    split; [by intros []|]. done.
  - intros seen [type loc] [b dup] t HI.
    eapply returns_weaken; [apply UpdateBindingSummaryWithLocation_step|].
    intros [b' dup'] t' Hstep [Hseen Hty]%Forall_app.
    apply Forall_inv in Hty. simpl in Hty. destruct (HI Hseen) as (Hl & Hd & Hr & Hn & Ht).
    destruct (Hstep Hty) as (Hl' & Hd' & Hr' & Hn' & Ht'). simpl in *.
    rewrite map_app. simpl.
    split; [|split; [|split; [|split]]].
    + rewrite Hl'. apply set_eq. intros x.
      rewrite elem_of_list_to_set, elem_of_app, elem_of_union, Hl,
        elem_of_list_to_set, elem_of_singleton, list_elem_of_singleton.
      naive_solver.
    + intros loc'. subst dup'.
      etrans; [|symmetry; apply duplicated_snoc].
      assert (stepLocation (type, loc) ∈ locations b
              <-> stepLocation (type, loc) ∈ map stepLocation seen) as Hin'.
      { by rewrite Hl, elem_of_list_to_set. }
      destruct (decide (stepLocation (type, loc) ∈ locations b)) as [Hin|Hin].
      * rewrite elem_of_union, elem_of_singleton, Hd. naive_solver.
      * rewrite Hd. naive_solver.
    + intros c. rewrite Hr', slotsOf_snoc, fold_left_app, Hr. simpl.
      by destruct (decide (rangeClass type = Some c)).
    + rewrite Hn', volatileSteps_snoc, Hn. simpl.
      destruct (decide (type = VolatileConstantBuffer)); [|by rewrite Nat.add_0_r].
      unfold wrap32. rewrite Nat2Z.inj_add. simpl.
      by rewrite Zplus_mod_idemp_l.
    + intros Hall. rewrite Ht.
      2: { intros s Hs. apply Hall. apply elem_of_app. by left. }
      destruct Ht' as [->|Hnone]; [done|].
      destruct (Hall (type, loc)); [|done].
      apply elem_of_app. right. by apply list_elem_of_singleton.
Qed.

Lemma fold_Range_add l r :
  (forall x, x ∈ l ->
     r_min (fold_left Range.add l r) <= x <= r_max (fold_left Range.add l r))
  /\ r_min (fold_left Range.add l r) <= r_min r
  /\ r_max r <= r_max (fold_left Range.add l r)
  /\ (r_min (fold_left Range.add l r) = r_min r
      \/ r_min (fold_left Range.add l r) ∈ l)
  /\ (r_max (fold_left Range.add l r) = r_max r
      \/ r_max (fold_left Range.add l r) ∈ l).
Proof.
  revert r. induction l as [|y l IH]; intros r; simpl.
  - split; [by intros x ?%elem_of_nil|]. split; [lia|]. split; [lia|]. auto.
  - destruct (IH (Range.add r y)) as (Hin & Hmin & Hmax & Hlo & Hhi).
    simpl in Hmin, Hmax, Hlo, Hhi.
    split; [|split; [lia|split; [lia|split]]].
    + intros x [->|Hx]%elem_of_cons; [lia|by apply Hin].
    + destruct Hlo as [Hlo|Hlo]; [|right; by right].
      rewrite Hlo. destruct (Z.min_spec (r_min r) y) as [[_ ->]|[_ ->]];
        [by left|right; by left].
    + destruct Hhi as [Hhi|Hhi]; [|right; by right].
      rewrite Hhi. destruct (Z.max_spec (r_max r) y) as [[_ ->]|[_ ->]];
        [right; by left|by left].
Qed.

Lemma slotsOf_layoutSteps c desc x :
  x ∈ slotsOf c (layoutSteps desc)
  <-> exists item, item ∈ ld_bindings desc
        /\ rangeClass (li_type item) = Some c
        /\ 0 < getArraySize item /\ x = li_slot item.
Proof.
  unfold slotsOf, layoutSteps, itemSteps. rewrite list_elem_of_omap. split.
  - intros ([type loc] & (item & Hs & Hitem)%list_elem_of_bind & Hx).
    apply list_elem_of_fmap in Hs as (e & [= -> ->] & He%elem_of_seqZ).
    simpl in Hx. case_decide; [|done]. injection Hx as <-.
    exists item. split; [done|]. split; [done|]. split; [lia|done].
  - intros (item & Hitem & Hc & Hsize & ->).
    exists (li_type item,
            mkLocation defaultLocationType (ld_registerSpace desc) (li_slot item) 0).
    split.
    + apply list_elem_of_bind. exists item. split; [|done].
      apply list_elem_of_fmap. exists 0. split; [done|].
      apply elem_of_seqZ. lia.
    + simpl. by rewrite decide_True.
Qed.

(** X4.  Filled from empty, a layout's summary holds exactly the locations
    its items occupy (one for each array element), and the set the source
    calls [duplicates] holds exactly the locations visited more than once:
    it is empty if and only if no two items of the layout claim the same
    location.  The same holds of a binding set's summary. *)
Theorem summary_duplicates_are_repeated_locations
    (layoutDesc : BindingLayoutDesc) (setDesc : BindingSetDesc)
    (registerSpace : Z) :
  returns (FillBindingLayoutSummary layoutDesc (BindingSummary_init, ∅))
    (fun r _ =>
       (forall loc, loc ∈ locations (fst r) <-> loc ∈ layoutLocations layoutDesc)
       /\ (forall loc, loc ∈ snd r <-> duplicated (layoutLocations layoutDesc) loc)
       /\ (snd r = ∅ <-> NoDup (layoutLocations layoutDesc)))
  /\ returns (FillBindingSetSummary setDesc registerSpace (BindingSummary_init, ∅))
       (fun r _ =>
          (forall loc, loc ∈ locations (fst r)
                       <-> loc ∈ setLocations setDesc registerSpace)
          /\ (forall loc, loc ∈ snd r
                          <-> duplicated (setLocations setDesc registerSpace) loc)
          /\ (snd r = ∅ <-> NoDup (setLocations setDesc registerSpace))).
Proof.
  split.
  - rewrite FillBindingLayoutSummary_steps.
    eapply returns_weaken; [apply applySteps_returns|].
    intros [b dup] t H.
    destruct (H (layoutSteps_default layoutDesc)) as (Hl & Hd & _). simpl in *.
    split; [intros loc; by rewrite Hl, elem_of_list_to_set|].
    split; [done|].
    rewrite duplicated_NoDup. split.
    + intros -> loc. rewrite <- Hd. set_solver.
    + intros Hno. apply set_eq. intros loc. rewrite Hd. split; [|set_solver].
      intros Hdup. by destruct (Hno loc).
  - rewrite FillBindingSetSummary_steps.
    eapply returns_weaken; [apply applySteps_returns|].
    intros [b dup] t H.
    destruct (H (setSteps_default setDesc registerSpace)) as (Hl & Hd & _).
    simpl in *.
    split; [intros loc; by rewrite Hl, elem_of_list_to_set|].
    split; [done|].
    rewrite duplicated_NoDup. split.
    + intros -> loc. rewrite <- Hd. set_solver.
    + intros Hno. apply set_eq. intros loc. rewrite Hd. split; [|set_solver].
      intros Hdup. by destruct (Hno loc).
Qed.

(** X5.  The four slot ranges of a layout's summary are tight: the range of
    a class contains the slot of every item of that class that has at least
    one array element, it is non-empty exactly when there is such an item,
    and when slots are 32-bit values its two ends are slots of such items.
    [numVolatileCBs] counts the array elements of the volatile constant
    buffers modulo 2^32, and a layout whose items all have a type the
    switch knows is summarised without a message. *)
Theorem layout_summary_ranges_are_tight (desc : BindingLayoutDesc) :
  returns (FillBindingLayoutSummary desc (BindingSummary_init, ∅)) (fun r t =>
    (forall c,
       let range := rangeOf c (fst r) in
       let ofClass item :=
         item ∈ ld_bindings desc /\ rangeClass (li_type item) = Some c
         /\ 0 < getArraySize item in
       (forall item, ofClass item -> r_min range <= li_slot item <= r_max range)
       /\ (Range.empty range = false <-> exists item, ofClass item)
       /\ ((forall item, item ∈ ld_bindings desc ->
              0 <= li_slot item <= UINT32_MAX) ->
           Range.empty range = false ->
           (exists item, ofClass item /\ li_slot item = r_min range)
           /\ (exists item, ofClass item /\ li_slot item = r_max range)))
    /\ numVolatileCBs (fst r)
       = wrap32 (Z.of_nat (volatileSteps (layoutSteps desc)))
    /\ ((forall item, item ∈ ld_bindings desc -> rangeClass (li_type item) <> None)
        -> t = [])).
Proof.
  rewrite FillBindingLayoutSummary_steps.
  eapply returns_weaken; [apply applySteps_returns|].
  intros [b dup] t H.
  destruct (H (layoutSteps_default desc)) as (_ & _ & Hr & Hn & Ht). simpl in *.
  split; [|split; [done|]].
  - intros c. cbv zeta. rewrite Hr.
    destruct (fold_Range_add (slotsOf c (layoutSteps desc)) Range_init)
      as (Hin & _ & _ & Hlo & Hhi).
    set (range := fold_left Range.add (slotsOf c (layoutSteps desc)) Range_init)
      in *.
    assert (forall item,
              item ∈ ld_bindings desc /\ rangeClass (li_type item) = Some c
              /\ 0 < getArraySize item ->
              r_min range <= li_slot item <= r_max range) as Hcover.
    { intros item (Hitem & Hc & Hsize). apply Hin.
      apply slotsOf_layoutSteps. by exists item. }
    assert (Range.empty range = false ->
            r_min range ∈ slotsOf c (layoutSteps desc)
            \/ r_max range ∈ slotsOf c (layoutSteps desc)) as Hnonempty.
    { unfold Range.empty. intros Hne%Z.ltb_ge.
      destruct Hlo as [Hlo|Hlo]; [|by left]. destruct Hhi as [Hhi|Hhi]; [|by right].
      simpl in Hlo, Hhi. unfold UINT32_MAX in Hlo. lia. }
    split; [done|]. split; [split|].
    + intros Hne.
      destruct (Hnonempty Hne) as [(item & ? & ? & ? & _)%slotsOf_layoutSteps
                                  |(item & ? & ? & ? & _)%slotsOf_layoutSteps];
        by exists item.
    + intros (item & Hitem). specialize (Hcover item Hitem).
      unfold Range.empty. apply Z.ltb_ge. lia.
    + intros Hslots Hne.
      assert (exists x, x ∈ slotsOf c (layoutSteps desc)) as (x & Hx).
      { destruct (Hnonempty Hne); eauto. }
      pose proof (Hin x Hx) as Hbound.
      apply slotsOf_layoutSteps in Hx as (item0 & Hitem0 & Hc0 & Hs0 & ->).
      pose proof (Hslots item0 Hitem0) as H32.
      split.
      * destruct Hlo as [Hlo|(item & ? & ? & ? & Heq)%slotsOf_layoutSteps].
        -- simpl in Hlo. exists item0. split; [done|]. lia.
        -- exists item. by rewrite Heq.
      * destruct Hhi as [Hhi|(item & ? & ? & ? & Heq)%slotsOf_layoutSteps].
        -- simpl in Hhi. exists item0. split; [done|]. lia.
        -- exists item. by rewrite Heq.
  - intros Hknown. apply Ht.
    intros [type loc] (item & Hs & Hitem)%list_elem_of_bind.
    apply list_elem_of_fmap in Hs as (e & [= -> ->] & _). simpl. by apply Hknown.
Qed.

(** ** What the walk sends to the sink, and when it finds duplicates *)

Lemma UpdateBindingSummaryWithLocation_trace type loc acc :
  exists r, UpdateBindingSummaryWithLocation type loc acc
            = (Done r, invalidTypeEvents [(type, loc)]).
Proof.
  destruct acc as [b dup]. unfold UpdateBindingSummaryWithLocation.
  destruct type; simpl; case_decide; by eexists.
Qed.

Lemma invalidTypeEvents_app l1 l2 :
  invalidTypeEvents (l1 ++ l2) = invalidTypeEvents l1 ++ invalidTypeEvents l2.
Proof. unfold invalidTypeEvents. by rewrite omap_app. Qed.

Lemma applySteps_trace steps acc :
  exists r, applySteps steps acc = (Done r, invalidTypeEvents steps).
Proof.
  unfold applySteps. revert acc.
  induction steps as [|[type loc] steps IH]; intros acc; [by eexists|].
  cbn [forM fst snd].
  destruct (UpdateBindingSummaryWithLocation_trace type loc acc) as (r1 & ->).
  destruct (IH r1) as (r & Heq). exists r.
  rewrite bind_Done, Heq.
  change ((type, loc) :: steps) with ([(type, loc)] ++ steps).
  by rewrite invalidTypeEvents_app.
Qed.

Lemma invalidTypeEvents_messages steps :
  Forall isInvalidTypeMessage (invalidTypeEvents steps).
Proof.
  induction steps as [|[type loc] steps IH]; [constructor|].
  unfold invalidTypeEvents. simpl.
  destruct (rangeClass type); [done|]. constructor; [by eexists|done].
Qed.

(** [FillBindingLayoutSummary] on a layout by itself: the summary, whether
    it finds duplicates, and its messages. *)
Lemma FillBindingLayoutSummary_alone desc :
  exists d,
    FillBindingLayoutSummary desc (BindingSummary_init, ∅)
    = (Done (layoutSummary desc, d), invalidTypeEvents (layoutSteps desc))
    /\ (d = ∅ <-> NoDup (layoutLocations desc)).
Proof.
  destruct (applySteps_trace (layoutSteps desc) (BindingSummary_init, ∅))
    as ([s d] & Heq).
  destruct (applySteps_returns (layoutSteps desc)) as (r & t & Heq' & H).
  rewrite Heq in Heq'. injection Heq' as <- <-.
  destruct (H (layoutSteps_default desc)) as (_ & Hd & _). simpl in Hd.
  rewrite FillBindingLayoutSummary_steps.
  exists d. split.
  - rewrite Heq. f_equal. f_equal. f_equal. symmetry.
    apply (layoutSummary_eq desc s d (invalidTypeEvents (layoutSteps desc))).
    by rewrite FillBindingLayoutSummary_steps.
  - fold (layoutLocations desc) in Hd. rewrite duplicated_NoDup. split.
    + intros -> loc. rewrite <- Hd. set_solver.
    + intros Hno. apply set_eq. intros loc. rewrite Hd. split; [|set_solver].
      intros Hdup. by destruct (Hno loc).
Qed.

Lemma returns_forM_Forall {A B} (P : A -> Prop) (f : A -> B -> M B)
    (Inv : list A -> B -> list Event -> Prop) (l : list A) (b0 : B) :
  Forall P l -> Inv [] b0 [] ->
  (forall seen x b t, P x -> Inv seen b t ->
     returns (f x b) (fun b' t' => Inv (seen ++ [x]) b' (t ++ t'))) ->
  returns (forM f l b0) (Inv l).
Proof.
  intros HP H0 Hstep.
  cut (forall seen b t, Inv seen b t ->
         returns (forM f l b) (fun b' t' => Inv (seen ++ l) b' (t ++ t'))).
  { intros Hcut. apply (Hcut [] b0 [] H0). }
  induction HP as [|x l Hx _ IH]; intros seen b t HI; simpl.
  - apply returns_ret. by rewrite !app_nil_r.
  - eapply returns_bind; [by apply Hstep|].
    intros b' t' HI'. simpl in HI'.
    eapply returns_weaken; [by apply IH|].
    intros b'' t'' H. simpl in H.
    by rewrite <- !app_assoc in H.
Qed.

(** ** Duplicate and overlapping bindings across layouts *)

Lemma duplicateLocations_fold rest (B D : BindingLocationSet) loc :
  loc ∈ snd (fold_left
               (fun '(bindings, duplicates) layout =>
                  let duplicates' :=
                    SetUnionInplace duplicates
                      (SetIntersection bindings (locations layout)) in
                  (SetUnionInplace bindings (locations layout), duplicates'))
               rest (B, D))
  <-> loc ∈ D
      \/ (exists j sj, rest !! j = Some sj /\ loc ∈ locations sj /\ loc ∈ B)
      \/ (exists i j si sj, (i < j)%nat /\ rest !! i = Some si /\ rest !! j = Some sj
            /\ loc ∈ locations si /\ loc ∈ locations sj).
Proof.
  revert B D. induction rest as [|s rest IH]; intros B D; simpl.
  - split; [by left|]. intros [?|[(j & sj & H & _)|(i & j & si & sj & _ & H & _)]];
      [done|by rewrite lookup_nil in H..].
  - rewrite IH, !SetUnionInplace_spec, SetIntersection_spec. split.
    + intros [[?|[??]%elem_of_intersection]%elem_of_union
             |[(j & sj & Hj & Hsj & [?|?]%elem_of_union)
              |(i & j & si & sj & Hlt & Hi & Hj & Hsi & Hsj)]].
      * by left.
      * right; left. by exists 0%nat, s.
      * right; left. by exists (S j), sj.
      * right; right. exists 0%nat, (S j), s, sj. split; [lia|done].
      * right; right. exists (S i), (S j), si, sj. split; [lia|done].
    + intros [?|[(j & sj & Hj & Hsj & HB)|(i & j & si & sj & Hlt & Hi & Hj & Hsi & Hsj)]].
      * left. set_solver.
      * destruct j as [|j]; simpl in Hj.
        -- left. simplify_eq. set_solver.
        -- right; left. exists j, sj. set_solver.
      * destruct j as [|j]; [lia|]. simpl in Hj.
        destruct i as [|i]; simpl in Hi.
        -- right; left. simplify_eq. exists j, sj. set_solver.
        -- right; right. exists i, j, si, sj. split; [lia|done].
Qed.

Lemma duplicateLocations_spec (l : list BindingSummary) loc :
  loc ∈ duplicateLocations l
  <-> exists i j si sj, (i < j)%nat /\ l !! i = Some si /\ l !! j = Some sj
        /\ loc ∈ locations si /\ loc ∈ locations sj.
Proof.
  destruct l as [|first rest]; simpl.
  - split; [by intros ?%elem_of_empty|]. intros (i & j & si & sj & _ & H & _).
    by rewrite lookup_nil in H.
  - rewrite duplicateLocations_fold. split.
    + intros [?%elem_of_empty|[(j & sj & Hj & Hsj & HB)
                              |(i & j & si & sj & Hlt & Hi & Hj & Hsi & Hsj)]]; [done|..].
      * exists 0%nat, (S j), first, sj. split; [lia|done].
      * exists (S i), (S j), si, sj. split; [lia|done].
    + intros (i & j & si & sj & Hlt & Hi & Hj & Hsi & Hsj).
      destruct j as [|j]; [lia|]. simpl in Hj. destruct i as [|i]; simpl in Hi.
      * right; left. simplify_eq. by exists j, sj.
      * right; right. exists i, j, si, sj. split; [lia|done].
Qed.

Lemma Range_overlapsWith_spec (r1 r2 : Range) :
  Range.overlapsWith r1 r2 = true <-> rangesIntersect r1 r2.
Proof.
  unfold Range.overlapsWith, Range.empty, rangesIntersect.
  Zeqb_cases; simpl; split; try done; try lia.
  - intros _. split; [lia|]. split; [lia|].
    exists (Z.max (r_min r1) (r_min r2)). lia.
  - intros (_ & _ & x & ? & ?). lia.
  - intros (_ & _ & x & ? & ?). lia.
Qed.

Lemma overlapPair_fold c set1 rest o :
  overlapOf c (fold_left (overlapPair set1) rest o) = true
  <-> overlapOf c o = true
      \/ exists j sj, rest !! j = Some sj
           /\ rangesIntersect (rangeOf c set1) (rangeOf c sj).
Proof.
  revert o. induction rest as [|s rest IH]; intros o; simpl.
  - split; [by left|]. intros [?|(j & sj & H & _)]; [done|by rewrite lookup_nil in H].
  - rewrite IH. split.
    + intros [H|(j & sj & Hj & Hr)].
      * assert (overlapOf c o = true
                \/ Range.overlapsWith (rangeOf c set1) (rangeOf c s) = true) as [?|Hs].
        { destruct c; simpl in *; apply orb_true_iff in H; done. }
        -- by left.
        -- right. exists 0%nat, s. split; [done|]. by apply Range_overlapsWith_spec.
      * right. by exists (S j), sj.
    + intros [H|(j & sj & Hj & Hr)].
      * left. destruct c; simpl in *; by rewrite H.
      * destruct j as [|j]; simpl in Hj.
        -- simplify_eq. left. apply Range_overlapsWith_spec in Hr.
           destruct c; simpl in *; rewrite Hr; apply orb_true_r.
        -- right. by exists j, sj.
Qed.

Lemma overlappingRanges_spec c (l : list BindingSummary) o :
  overlapOf c (overlappingRanges l o) = true
  <-> overlapOf c o = true \/ overlappingPair c l.
Proof.
  unfold overlappingPair.
  revert o. induction l as [|s l IH]; intros o; simpl.
  - split; [by left|]. intros [?|(i & j & si & sj & _ & H & _)]; [done|].
    by rewrite lookup_nil in H.
  - rewrite IH, overlapPair_fold. split.
    + intros [[?|(j & sj & Hj & Hr)]|(i & j & si & sj & Hlt & Hi & Hj & Hr)].
      * by left.
      * right. exists 0%nat, (S j), s, sj. split; [lia|done].
      * right. exists (S i), (S j), si, sj. split; [lia|done].
    + intros [?|(i & j & si & sj & Hlt & Hi & Hj & Hr)]; [by left; left|].
      destruct j as [|j]; [lia|]. simpl in Hj. destruct i as [|i]; simpl in Hi.
      * simplify_eq. left; right. by exists j, sj.
      * right. exists i, j, si, sj. split; [lia|done].
Qed.

Lemma confined_ret {A} (a : A) (T : Event -> Prop) (Q : A -> Prop) :
  Q a -> confined (ret a) T Q.
Proof. intros H. split; [constructor|]. by intros ? [= <-]. Qed.

Lemma confined_bind {A B} (m : M A) (f : A -> M B) (T : Event -> Prop) Q1 (Q2 : B -> Prop) :
  confined m T Q1 -> (forall a, Q1 a -> confined (f a) T Q2) ->
  confined (bind m f) T Q2.
Proof.
  intros [Ht Hr] Hf. unfold confined. rewrite trace_bind, result_bind.
  destruct m as [[a| | |] t]; simpl in *; [|by split..].
  destruct (Hf a (Hr a eq_refl)) as [Ht' Hr'].
  split; [by apply Forall_app|done].
Qed.

Lemma confined_error text (T : Event -> Prop) (Q : unit -> Prop) :
  T (Message Error text) -> Q tt -> confined (error text) T Q.
Proof. intros HT HQ. split; [by repeat constructor|]. by intros [] _. Qed.

Lemma confined_undefined {A} (T : Event -> Prop) (Q : A -> Prop) :
  confined (@undefined A) T Q.
Proof. split; [constructor|done]. Qed.

Lemma invalid_type_noPipelineLine t :
  Forall isInvalidTypeMessage t -> Forall noPipelineLine t.
Proof.
  intros H. eapply Forall_impl; [exact H|].
  intros e [ty ->]. simpl. by repeat constructor.
Qed.

Lemma findings_noPipelineLine t f :
  Forall noPipelineLine t -> f ∈ findings t -> isPipelineLine f = false.
Proof.
  induction 1 as [|e t He _ IH]; [by intros ?%elem_of_nil|].
  destruct e as [c|sev text]; [done|].
  unfold findings. simpl. intros [Hf|Hf]%elem_of_app; [|by apply IH].
  simpl in He. rewrite Forall_forall in He. by apply He.
Qed.

Lemma backendCalls_noPipelineLine t c :
  Forall noPipelineLine t -> c ∈ backendCalls t -> c = Call_getGraphicsAPI.
Proof.
  induction 1 as [|e t He _ IH]; [by intros ?%elem_of_nil|].
  destruct e as [c'|sev text]; simpl; [|done].
  intros [->|?]%elem_of_cons; [done|by apply IH].
Qed.

Lemma assertionsHold_elem bindingLayouts shaders shader :
  assertionsHold bindingLayouts shaders -> shader ∈ shaders ->
  Forall (assertionHolds (stageOf shader)) bindingLayouts.
Proof. unfold assertionsHold. rewrite Forall_forall. auto. Qed.

(** The entry of one layout: it is the summary the stage sees when the
    assertion holds of the layout, and the call is aborted when it does
    not. *)
Lemma accumulateStage_returns stage bindingLayouts layoutIndex :
  Forall (assertionHolds stage) bindingLayouts ->
  returns (accumulateStage stage bindingLayouts layoutIndex) (fun r t =>
    snd r = map (stageSummary stage) bindingLayouts /\ Forall noPipelineLine t).
Proof.
  intros Hassert. revert layoutIndex.
  induction Hassert as [|layout rest Hhead _ IH]; intros idx; simpl.
  - by apply returns_ret.
  - eapply returns_bind.
    + instantiate (1 := fun r t =>
        snd r = stageSummary stage layout /\ Forall noPipelineLine t).
      destruct layout as [[id desc|id desc]|]; simpl.
      * destruct (visibleTo (ld_visibility desc) stage) eqn:Hvis; simpl.
        -- destruct (FillBindingLayoutSummary_alone desc) as (d & Heq & Hd).
           assert (d = ∅) as -> by (by apply Hd, Hhead).
           rewrite Heq. simpl.
           exists (false, layoutSummary desc),
             (invalidTypeEvents (layoutSteps desc) ++ [] ++ []).
           split; [done|]. simpl. rewrite app_nil_r.
           split; [done|].
           apply invalid_type_noPipelineLine, invalidTypeEvents_messages.
        -- by apply returns_ret.
      * by apply returns_ret.
      * exists (true, BindingSummary_init), [Message Error [F_LayoutIsNull idx]].
        split; [done|]. split; [done|]. by repeat constructor.
    + intros [nullHere summary] t1 [Hs Ht1]. simpl in Hs. subst summary.
      eapply returns_bind; [apply IH|].
      intros [nullLater summaries] t2 [Hss Ht2]. simpl in Hss. subst summaries.
      apply returns_ret. simpl. rewrite app_nil_r.
      split; [done|by apply Forall_app].
Qed.

Lemma accumulateStage_aborts stage bindingLayouts layoutIndex :
  ~ Forall (assertionHolds stage) bindingLayouts ->
  result (accumulateStage stage bindingLayouts layoutIndex) = Aborted
  /\ Forall noPipelineLine
       (trace (accumulateStage stage bindingLayouts layoutIndex)).
Proof.
  revert layoutIndex.
  induction bindingLayouts as [|layout rest IH]; intros idx Hnot.
  - destruct Hnot. constructor.
  - destruct (decide (assertionHolds stage layout)) as [Hhead|Hhead].
    + assert (~ Forall (assertionHolds stage) rest) as Hrest.
      { intros Hrest. apply Hnot. by constructor. }
      destruct (IH (S idx) Hrest) as [Hres Htr].
      cbn [accumulateStage].
      destruct (accumulateStage stage rest (S idx)) as [[[nullLater ss]| | |] t2];
        simpl in Hres, Htr; try done.
      destruct layout as [[id desc|id desc]|]; simpl.
      * destruct (visibleTo (ld_visibility desc) stage) eqn:Hvis; simpl; [|done].
        destruct (FillBindingLayoutSummary_alone desc) as (d & Heq & Hd).
        assert (d = ∅) as -> by (by apply Hd, Hhead).
        rewrite Heq. simpl. split; [done|].
        apply Forall_app. split; [|done]. rewrite !app_nil_r.
        apply invalid_type_noPipelineLine, invalidTypeEvents_messages.
      * done.
      * split; [done|]. constructor; [|done]. by repeat constructor.
    + destruct layout as [[id desc|id desc]|]; simpl in Hhead; try done.
      destruct (visibleTo (ld_visibility desc) stage) eqn:Hvis.
      2: { destruct Hhead. done. }
      destruct (FillBindingLayoutSummary_alone desc) as (d & Heq & Hd).
      assert (d <> ∅) as Hne.
      { intros He. apply Hhead. intros _. by apply Hd. }
      cbn [accumulateStage BindingLayout_getDesc]. rewrite Hvis. simpl.
      rewrite Heq. simpl. rewrite (bool_decide_eq_false_2 _ Hne). simpl.
      rewrite app_nil_r. split; [done|].
      apply invalid_type_noPipelineLine, invalidTypeEvents_messages.
Qed.

Lemma anyOverlap_spec o :
  anyOverlap o = true <-> exists c, overlapOf c o = true.
Proof.
  unfold anyOverlap. split.
  - destruct o as [[] [] [] []]; simpl; intros H; try done;
      first [by exists SRV | by exists GSampler | by exists UAV | by exists CB].
  - intros [[] H]; simpl in H; rewrite H; simpl; by rewrite ?orb_true_r.
Qed.

Lemma no_pairs_no_report (l : list BindingSummary) :
  (length l <= 1)%nat ->
  duplicateLocations l = ∅ /\ anyOverlap (overlappingRanges l noOverlaps) = false.
Proof.
  intros Hlen. split.
  - apply set_eq. intros loc. rewrite duplicateLocations_spec. split.
    + intros (i & j & si & sj & Hlt & Hi & Hj & _).
      apply lookup_lt_Some in Hj. lia.
    + by intros ?%elem_of_empty.
  - apply not_true_is_false. rewrite anyOverlap_spec. intros [c Hc].
    apply overlappingRanges_spec in Hc as [Hc|(i & j & si & sj & Hlt & Hi & Hj & _)].
    + by destruct c.
    + apply lookup_lt_Some in Hj. lia.
Qed.

Lemma checkStage_returns bindingLayouts shader seen st :
  Forall (assertionHolds (stageOf shader)) bindingLayouts ->
  stagesReported bindingLayouts seen st ->
  returns (checkStage bindingLayouts shader st) (fun st' t =>
    Forall noPipelineLine t
    /\ stagesReported bindingLayouts (seen ++ [shader]) st').
Proof.
  intros Hassert (Hlines & Hdup & Hovl).
  destruct (accumulateStage_returns (stageOf shader) bindingLayouts 0 Hassert)
    as ([anyNull S] & t & Heq & HS & Ht).
  simpl in HS. unfold checkStage, Summary.any. cbn [locations].
  fold (stageOf shader). rewrite Heq, bind_Done.
  assert (forall f, isPipelineLine f = true ->
            ((exists sh, sh ∈ seen ++ [shader]
                /\ stageReport bindingLayouts (stageOf sh) = Some f)
             <-> f ∈ ssDuplicateBindings st ++ ssOverlappingBindings st
                 \/ stageReport bindingLayouts (stageOf shader) = Some f)) as Hseen.
  { intros f Hf. rewrite Hlines by done. split.
    - intros (sh & [?| ->%list_elem_of_singleton]%elem_of_app & Hr).
      + left. by exists sh.
      + by right.
    - intros [(sh & ? & ?)|?].
      + exists sh. split; [apply elem_of_app; by left|done].
      + exists shader. split; [apply elem_of_app; right; by apply list_elem_of_singleton|done]. }
  remember (stageReport bindingLayouts (stageOf shader)) as R eqn:HR in Hseen.
  unfold stageReport in HR. rewrite <- HS in HR. fold noOverlaps.
  assert (bool_decide ((∅ : BindingLocationSet) = ∅) = true) as Hempty
    by (by apply bool_decide_eq_true_2).
  assert (Forall noPipelineLine (t ++ [Backend Call_getGraphicsAPI])) as Ht'.
  { apply Forall_app. split; [done|by repeat constructor]. }
  destruct (1 <? length bindingLayouts)%nat eqn:Hlen.
  2: { apply Nat.ltb_ge in Hlen.
       destruct (no_pairs_no_report S) as [HD HO].
       { subst S. by rewrite length_map. }
       rewrite HD, HO, Hempty in HR. simpl in HR.
       assert (R = None) as -> by (by destruct (bool_decide _)).
       eexists _, _. split; [reflexivity|]. simpl. rewrite app_nil_r.
       split; [done|]. split; [|split; [exact Hdup|exact Hovl]].
       intros f Hf. rewrite (Hseen f Hf). simpl. naive_solver. }
  destruct (decide (duplicateLocations S = ∅)) as [HD|HD].
  - rewrite HD in *. rewrite Hempty in *. simpl in HR. simpl.
    unfold device_getGraphicsAPI, call. simpl.
    destruct (bool_decide (dev_getGraphicsAPI m_Device = D3D11)) eqn:Hapi; simpl.
    2: { subst R. eexists _, _. split; [reflexivity|]. simpl.
         split; [done|]. split; [|split; [exact Hdup|exact Hovl]].
         intros f Hf. rewrite (Hseen f Hf). simpl. naive_solver. }
    destruct (anyOverlap (overlappingRanges S noOverlaps)) eqn:HO; simpl.
    + subst R. eexists _, _. split; [reflexivity|]. simpl.
      split; [done|]. split; [|split; [exact Hdup|done]].
      intros f Hf. rewrite (Hseen f Hf). simpl.
      destruct (anyOverlappingBindings st);
        rewrite ?elem_of_app, ?list_elem_of_singleton; naive_solver.
    + subst R. eexists _, _. split; [reflexivity|]. simpl.
      split; [done|]. split; [|split; [exact Hdup|exact Hovl]].
      intros f Hf. rewrite (Hseen f Hf). simpl. naive_solver.
  - assert (bool_decide (duplicateLocations S = ∅) = false) as Hne
      by (by apply bool_decide_eq_false_2).
    rewrite Hne in *. simpl in HR. simpl. subst R.
    eexists _, _. split; [reflexivity|]. simpl. rewrite app_nil_r.
    split; [done|]. split; [|split; [done|exact Hovl]].
    intros f Hf. rewrite (Hseen f Hf). simpl.
    destruct (anyDuplicateBindings st);
      rewrite ?elem_of_app, ?list_elem_of_singleton; naive_solver.
Qed.

Lemma stageReport_line bindingLayouts stage f :
  stageReport bindingLayouts stage = Some f -> isPipelineLine f = true.
Proof.
  unfold stageReport.
  repeat match goal with
         | |- context [if ?c then _ else _] => destruct c
         end; by intros [= <-].
Qed.

Lemma stages_loop_returns bindingLayouts shaders :
  assertionsHold bindingLayouts shaders ->
  returns (forM (checkStage bindingLayouts) shaders
             (mkLayoutCheck false false false [] []))
          (fun st t => Forall noPipelineLine t
                       /\ stagesReported bindingLayouts shaders st).
Proof.
  intros Hassert.
  apply (returns_forM_Forall _ _ (fun seen st t =>
           Forall noPipelineLine t /\ stagesReported bindingLayouts seen st)
           _ _ Hassert).
  - split; [constructor|]. split; [|done]. simpl. intros f Hf. split.
    + by intros ?%elem_of_nil.
    + intros (sh & ?%elem_of_nil & _). done.
  - intros seen shader st t Hsh [Ht Hst].
    eapply returns_weaken; [by apply checkStage_returns|].
    intros st' t' [Ht' Hst']. split; [by apply Forall_app|done].
Qed.

(** A stage at which the assertion fails aborts the call, whatever the
    state of the loop; a stage at which it holds is got past. *)
Lemma checkStage_aborts bindingLayouts shader st :
  ~ Forall (assertionHolds (stageOf shader)) bindingLayouts ->
  result (checkStage bindingLayouts shader st) = Aborted
  /\ Forall noPipelineLine (trace (checkStage bindingLayouts shader st)).
Proof.
  intros Hnot.
  destruct (accumulateStage_aborts (stageOf shader) bindingLayouts 0 Hnot)
    as [Hres Htr].
  unfold checkStage. fold (stageOf shader).
  destruct (accumulateStage (stageOf shader) bindingLayouts 0)
    as [[[anyNull S]| | |] t]; simpl in *; done.
Qed.

Lemma checkStage_passes bindingLayouts shader st :
  Forall (assertionHolds (stageOf shader)) bindingLayouts ->
  exists st' t', checkStage bindingLayouts shader st
    = (Done st', trace (accumulateStage (stageOf shader) bindingLayouts 0) ++ t')
    /\ Forall noPipelineLine
         (trace (accumulateStage (stageOf shader) bindingLayouts 0) ++ t').
Proof.
  intros Hassert.
  destruct (accumulateStage_returns (stageOf shader) bindingLayouts 0 Hassert)
    as ([anyNull S] & t & Heq & _ & Ht).
  assert (Forall noPipelineLine (t ++ [Backend Call_getGraphicsAPI])) as Ht'.
  { apply Forall_app. split; [done|by repeat constructor]. }
  unfold checkStage. fold (stageOf shader). rewrite Heq, bind_Done. simpl.
  destruct (1 <? length bindingLayouts)%nat;
    [|eexists _, _; split; [reflexivity|by rewrite app_nil_r]].
  destruct (Summary.any _);
    [eexists _, _; split; [reflexivity|by rewrite app_nil_r]|].
  unfold device_getGraphicsAPI, call. simpl.
  destruct (bool_decide _); [|by eexists _, _].
  destruct (anyOverlap _); by eexists _, _.
Qed.

Lemma stages_loop_aborts bindingLayouts shaders st :
  ~ assertionsHold bindingLayouts shaders ->
  result (forM (checkStage bindingLayouts) shaders st) = Aborted
  /\ Forall noPipelineLine (trace (forM (checkStage bindingLayouts) shaders st)).
Proof.
  unfold assertionsHold. revert st.
  induction shaders as [|shader shaders IH]; intros st Hnot.
  - destruct Hnot. constructor.
  - cbn [forM].
    destruct (decide (Forall (assertionHolds (stageOf shader)) bindingLayouts))
      as [Hhead|Hhead].
    + destruct (checkStage_passes bindingLayouts shader st Hhead)
        as (st' & t' & -> & Ht).
      assert (~ Forall (fun shader =>
                  Forall (assertionHolds (stageOf shader)) bindingLayouts) shaders)
        as Hrest.
      { intros Hrest. apply Hnot. by constructor. }
      destruct (IH st' Hrest) as [Hres Htr].
      rewrite bind_Done. simpl. split; [done|by apply Forall_app].
    + destruct (checkStage_aborts bindingLayouts shader st Hhead) as [Hres Htr].
      destruct (checkStage bindingLayouts shader st) as [[st'| | |] t];
        simpl in *; done.
Qed.

Lemma reportStages_returns bindingLayouts seen st :
  stagesReported bindingLayouts seen st ->
  returns (reportStages st) (fun e t =>
    (forall f, isPipelineLine f = true ->
       (f ∈ findings t
        <-> f ∈ ssDuplicateBindings st ++ ssOverlappingBindings st))
    /\ backendCalls t = []
    /\ (anyDuplicateBindings st = true \/ anyOverlappingBindings st = true ->
        e = true)).
Proof.
  intros (_ & Hdup & Hovl). unfold reportStages.
  destruct (anyDuplicateBindings st) eqn:Hd, (anyOverlappingBindings st) eqn:Ho;
    simpl; eexists _, _; (split; [reflexivity|]); simpl;
    (split; [|split; [done|]]); try (intros [?|?]; done).
  - intros f _. unfold findings. simpl. by rewrite app_nil_r.
  - intros f _. unfold findings. simpl.
    assert (ssOverlappingBindings st = []) as ->.
    { destruct (ssOverlappingBindings st); [done|]. by specialize (Hovl ltac:(done)). }
    done.
  - intros f _. unfold findings. simpl.
    assert (ssDuplicateBindings st = []) as ->.
    { destruct (ssDuplicateBindings st); [done|]. by specialize (Hdup ltac:(done)). }
    by rewrite app_nil_r.
  - intros f _. unfold findings. simpl.
    assert (ssDuplicateBindings st = []) as ->.
    { destruct (ssDuplicateBindings st); [done|]. by specialize (Hdup ltac:(done)). }
    assert (ssOverlappingBindings st = []) as ->.
    { destruct (ssOverlappingBindings st); [done|]. by specialize (Hovl ltac:(done)). }
    done.
Qed.

Lemma checkSpace_confined layout layoutIndex st :
  confined (checkSpace layout layoutIndex st) noPipelineLine
           (fun sc => sc_anyErrors st = true -> sc_anyErrors sc = true).
Proof.
  unfold checkSpace.
  destruct layout as [[id desc|id desc]|];
    cbv beta iota delta [BindingLayout_getDesc];
    [|by apply confined_ret|by apply confined_undefined].
  destruct (countPushConstants _ _ _) as [count size].
  destruct (ld_registerSpaceIsDescriptorSet desc); [|by apply confined_ret].
  destruct (c_MaxBindingLayouts <=? ld_registerSpace desc).
  - eapply confined_bind.
    + eapply (confined_error _ _ (fun _ => True)); [|done]. simpl. by repeat constructor.
    + intros _ _. apply confined_undefined.
  - eapply confined_bind.
    + instantiate (1 := fun _ => True).
      destruct (negb _); [|by apply confined_ret].
      eapply confined_bind; [|intros; by apply confined_ret].
      eapply (confined_error _ _ (fun _ => True)); [|done]. simpl. by repeat constructor.
    + intros reused _. apply confined_ret. simpl. by intros ->.
Qed.

Lemma checkSpaces_confined bindingLayouts layoutIndex st :
  confined (checkSpaces bindingLayouts layoutIndex st) noPipelineLine
           (fun sc => sc_anyErrors st = true -> sc_anyErrors sc = true).
Proof.
  revert layoutIndex st.
  induction bindingLayouts as [|layout rest IH]; intros idx st; simpl.
  - by apply confined_ret.
  - eapply confined_bind; [apply checkSpace_confined|].
    intros st' Hst'. simpl in Hst'.
    destruct (IH (S idx) st') as [Ht Hr]. split; [done|].
    intros sc Hsc H. apply (Hr sc Hsc). by apply Hst'.
Qed.

Lemma checkSpacesAndPushConstants_confined bindingLayouts (anyErrors : bool) :
  confined (checkSpacesAndPushConstants bindingLayouts anyErrors) noPipelineLine
           (fun ok => anyErrors = true -> ok = false).
Proof.
  unfold checkSpacesAndPushConstants.
  eapply confined_bind; [apply checkSpaces_confined|].
  intros sc Hsc. simpl in Hsc.
  eapply confined_bind.
  { instantiate (1 := fun e => anyErrors = true -> e = true).
    destruct (registerSpaceIsDescriptorSet sc); try by apply confined_ret.
    eapply confined_bind; [|intros; by apply confined_ret].
    eapply (confined_error _ _ (fun _ => True)); [|done]. simpl. by repeat constructor. }
  intros e1 He1.
  eapply confined_bind.
  { instantiate (1 := fun e => anyErrors = true -> e = true).
    destruct (1 <? pushConstantCount sc); [|by apply confined_ret].
    eapply confined_bind; [|intros; by apply confined_ret].
    eapply (confined_error _ _ (fun _ => True)); [|done]. simpl. by repeat constructor. }
  intros e2 He2.
  eapply confined_bind.
  { instantiate (1 := fun e => anyErrors = true -> e = true).
    destruct (c_MaxPushConstantSize <? pushConstantSize sc); [|by apply confined_ret].
    eapply confined_bind; [|intros; by apply confined_ret].
    eapply (confined_error _ _ (fun _ => True)); [|done]. simpl. by repeat constructor. }
  intros e3 He3. apply confined_ret. intros H. by rewrite (He3 H).
Qed.

(** A failed assertion aborts the validation before anything is reported
    of duplicates or overlaps. *)
Lemma validatePipelineBindingLayouts_aborts bindingLayouts shaders :
  ~ assertionsHold bindingLayouts shaders ->
  result (validatePipelineBindingLayouts bindingLayouts shaders) = Aborted
  /\ Forall noPipelineLine
       (trace (validatePipelineBindingLayouts bindingLayouts shaders)).
Proof.
  intros Hnot. unfold validatePipelineBindingLayouts.
  destruct (stages_loop_aborts bindingLayouts shaders
              (mkLayoutCheck false false false [] []) Hnot) as [Hres Htr].
  destruct (forM _ _ _) as [[st| | |] t]; simpl in *; done.
Qed.

(** The duplicate and overlap lines of a pipeline validation are the
    reports of the stages of its shaders, provided no assertion fails; a
    stage with a report makes the validation fail; and the only call on
    the wrapped device is the query of its API. *)
Lemma validatePipelineBindingLayouts_report bindingLayouts shaders :
  (forall f, isPipelineLine f = true ->
     (f ∈ findings (trace (validatePipelineBindingLayouts bindingLayouts shaders))
      <-> assertionsHold bindingLayouts shaders
          /\ exists shader, shader ∈ shaders
               /\ stageReport bindingLayouts (stageOf shader) = Some f))
  /\ ((exists shader f, shader ∈ shaders
         /\ stageReport bindingLayouts (stageOf shader) = Some f) ->
      result (validatePipelineBindingLayouts bindingLayouts shaders) <> Done true)
  /\ (forall c,
        c ∈ backendCalls (trace (validatePipelineBindingLayouts bindingLayouts shaders)) ->
        c = Call_getGraphicsAPI).
Proof.
  destruct (decide (assertionsHold bindingLayouts shaders)) as [Hassert|Hnot].
  2: { destruct (validatePipelineBindingLayouts_aborts _ _ Hnot) as [Hres Htr].
       split; [|split].
       - intros f Hf. split; [|by intros [? _]].
         intros Hin. apply (findings_noPipelineLine _ _ Htr) in Hin. congruence.
       - intros _. by rewrite Hres.
       - intros c. by apply backendCalls_noPipelineLine. }
  unfold validatePipelineBindingLayouts.
  destruct (stages_loop_returns bindingLayouts shaders Hassert)
    as (st & t1 & Heq1 & Ht1 & Hst).
  destruct (reportStages_returns _ _ _ Hst) as (e & t2 & Heq2 & Hlines & Hcalls & He).
  destruct (checkSpacesAndPushConstants_confined bindingLayouts e) as [Ht3 Hok].
  rewrite trace_bind, result_bind, Heq1. simpl.
  rewrite trace_bind, result_bind, Heq2. simpl.
  destruct Hst as (Hrep & Hdup & Hovl).
  split; [|split].
  - intros f Hf. rewrite !findings_app, !elem_of_app, (Hlines f Hf).
    split.
    + intros H. split; [done|]. apply (Hrep f Hf).
      destruct H as [H|[H|H]]; [|done|].
      * apply (findings_noPipelineLine _ _ Ht1) in H. congruence.
      * apply (findings_noPipelineLine _ _ Ht3) in H. congruence.
    + intros [_ H]. right; left. by apply (Hrep f Hf).
  - intros (shader & f & Hin & Hreport) Hres.
    assert (isPipelineLine f = true) as Hf by (by eapply stageReport_line).
    assert (f ∈ ssDuplicateBindings st ++ ssOverlappingBindings st) as Hfin.
    { apply (Hrep f Hf). by exists shader. }
    assert (e = true) as ->.
    { apply He. apply elem_of_app in Hfin as [Hfin|Hfin].
      - left. apply Hdup. intros Hnil. rewrite Hnil in Hfin. by apply elem_of_nil in Hfin.
      - right. apply Hovl. intros Hnil. rewrite Hnil in Hfin. by apply elem_of_nil in Hfin. }
    by specialize (Hok true Hres eq_refl).
  - intros c. rewrite !backendCalls_app, Hcalls, !elem_of_app.
    intros [H|[H|H]].
    + by apply (backendCalls_noPipelineLine _ _ Ht1).
    + by apply elem_of_nil in H.
    + by apply (backendCalls_noPipelineLine _ _ Ht3).
Qed.

Lemma stageSummary_visible stage bindingLayouts i desc :
  visibleLayout stage bindingLayouts i desc ->
  map (stageSummary stage) bindingLayouts !! i = Some (layoutSummary desc).
Proof.
  intros (id & Hi & Hvis). rewrite list_lookup_fmap, Hi. simpl. by rewrite Hvis.
Qed.

Lemma stageSummary_location stage bindingLayouts i s loc :
  map (stageSummary stage) bindingLayouts !! i = Some s -> loc ∈ locations s ->
  exists desc, visibleLayout stage bindingLayouts i desc /\ declares desc loc.
Proof.
  rewrite list_lookup_fmap. intros Hi Hloc.
  destruct (bindingLayouts !! i) as [layout|] eqn:Hl; [|done].
  simpl in Hi. injection Hi as <-.
  destruct layout as [[id desc|id desc]|]; simpl in Hloc;
    try by apply elem_of_empty in Hloc.
  destruct (visibleTo (ld_visibility desc) stage) eqn:Hvis;
    [|by apply elem_of_empty in Hloc].
  exists desc. split; [by exists id|]. by apply layoutSummary_declares.
Qed.

Lemma bool_eq_iff (a b : bool) : (a = true <-> b = true) -> a = b.
Proof. destruct a, b; intros [H1 H2]; try done; [by rewrite H1|by rewrite H2]. Qed.

Lemma noOverlaps_false c : overlapOf c noOverlaps = false.
Proof. by destruct c. Qed.

(** C5.  For a stage of the pipeline ([shader] is one of its shaders): when
    two different layouts, both visible to the stage, declare the same
    location, the validation does not succeed, and a compute pipeline with
    such layouts is not created: the wrapped device is not asked to create
    it.  When no layout visible to a stage of the pipeline claims a
    location twice by itself (the condition the code asserts, which
    [createBindingLayout] establishes for the layouts it lets through),
    the validation emits a duplicate-bindings line that names the stage
    and lists the location.  When the locations declared by the layouts
    visible to the stage are pairwise disjoint, no duplicate-bindings line
    names the stage. *)
Theorem duplicate_bindings_across_layouts
    (bindingLayouts : list (option BindingLayout)) (shaders : list Shader)
    (shader : Shader) (Hin : shader ∈ shaders) :
  let stage := stageOf shader in
  (forall i j di dj loc,
     i <> j -> visibleLayout stage bindingLayouts i di ->
     visibleLayout stage bindingLayouts j dj ->
     declares di loc -> declares dj loc ->
     (assertionsHold bindingLayouts shaders ->
      exists locs, loc ∈ locs
        /\ F_DuplicateBindings stage locs
           ∈ findings (trace (validatePipelineBindingLayouts bindingLayouts shaders)))
     /\ result (validatePipelineBindingLayouts bindingLayouts shaders) <> Done true
     /\ forall pipelineDesc,
          cp_CS pipelineDesc = Some shader ->
          cp_bindingLayouts pipelineDesc = bindingLayouts ->
          (forall h, result (createComputePipeline pipelineDesc) <> Done (Some h))
          /\ forall d, Call_createComputePipeline d
                       ∉ backendCalls (trace (createComputePipeline pipelineDesc)))
  /\ ((forall i j di dj loc,
         i <> j -> visibleLayout stage bindingLayouts i di ->
         visibleLayout stage bindingLayouts j dj ->
         declares di loc -> ~ declares dj loc) ->
      forall locs,
        F_DuplicateBindings stage locs
        ∉ findings (trace (validatePipelineBindingLayouts bindingLayouts shaders))).
Proof.
  intros stage. split.
  - intros i j di dj loc Hij Hi Hj Hdi Hdj.
    set (S := map (stageSummary stage) bindingLayouts).
    assert (loc ∈ duplicateLocations S) as Hdup.
    { apply duplicateLocations_spec.
      pose proof (stageSummary_visible _ _ _ _ Hi) as Hsi.
      pose proof (stageSummary_visible _ _ _ _ Hj) as Hsj.
      apply layoutSummary_declares in Hdi, Hdj.
      destruct (decide (i < j)%nat).
      - by exists i, j, (layoutSummary di), (layoutSummary dj).
      - exists j, i, (layoutSummary dj), (layoutSummary di). split; [lia|done]. }
    assert (stageReport bindingLayouts (stageOf shader)
            = Some (F_DuplicateBindings stage (duplicateLocations S))) as Hrep.
    { unfold stageReport. fold stage. fold S.
      rewrite bool_decide_eq_false_2; [done|]. intros He. rewrite He in Hdup.
      by apply elem_of_empty in Hdup. }
    split; [|split].
    + intros Hassert. exists (duplicateLocations S). split; [done|].
      apply validatePipelineBindingLayouts_report; [done|].
      split; [done|]. exists shader. eauto.
    + apply validatePipelineBindingLayouts_report. exists shader. eauto.
    + intros pd HCS Hlayouts. unfold createComputePipeline. rewrite HCS, Hlayouts.
      destruct (validatePipelineBindingLayouts_report bindingLayouts [shader])
        as (_ & Hfail & Hcalls).
      assert (result (validatePipelineBindingLayouts bindingLayouts [shader])
              <> Done true) as Hres.
      { apply Hfail. exists shader. eexists. split; [by apply list_elem_of_singleton|].
        exact Hrep. }
      rewrite result_bind, trace_bind.
      destruct (result (validatePipelineBindingLayouts bindingLayouts [shader]))
        as [[]| | |]; simpl; try done.
      all: split; [done|]; intros d Hd; rewrite ?app_nil_r in Hd;
        by apply Hcalls in Hd.
  - intros Hdisjoint locs Hf.
    apply validatePipelineBindingLayouts_report in Hf as (_ & sh & Hsh & Hrep);
      [|done].
    unfold stageReport in Hrep.
    set (S := map (stageSummary (stageOf sh)) bindingLayouts) in *.
    destruct (decide (duplicateLocations S = ∅)) as [He|Hne].
    + rewrite He, bool_decide_eq_true_2 in Hrep by done. simpl in Hrep.
      by repeat match type of Hrep with
                | (if ?c then _ else _) = _ => destruct c
                end.
    + rewrite bool_decide_eq_false_2 in Hrep by done. simpl in Hrep.
      injection Hrep as Hstage Hlocs.
      apply set_choose_L in Hne as [loc Hloc].
      apply duplicateLocations_spec in Hloc
        as (i & j & si & sj & Hlt & Hi & Hj & Hsi & Hsj).
      subst S. rewrite Hstage in Hi, Hj.
      destruct (stageSummary_location _ _ _ _ _ Hi Hsi) as (di & Hvi & Hdi).
      destruct (stageSummary_location _ _ _ _ _ Hj Hsj) as (dj & Hvj & Hdj).
      apply (Hdisjoint i j di dj loc); [lia|done..].
Qed.

(** C6.  When no layout visible to a stage of the pipeline claims a
    location twice by itself (the condition the code asserts), the
    validation writes an overlap line for a stage exactly when the stage
    is that of one of the shaders, the device is D3D11, no duplicate
    bindings were found for the stage, and some pair of layouts [i < j] has,
    for one of the four classes, ranges that are both non-empty and whose
    closed intervals share a slot; the class flags of the line are exactly
    the classes for which such a pair exists. *)
Theorem range_overlap_reported
    (bindingLayouts : list (option BindingLayout)) (shaders : list Shader)
    (stage : ShaderType) (srv sampler uav cb : bool)
    (Hassert : assertionsHold bindingLayouts shaders) :
  let bindingsPerLayout := map (stageSummary stage) bindingLayouts in
  F_OverlappingRanges stage srv sampler uav cb
    ∈ findings (trace (validatePipelineBindingLayouts bindingLayouts shaders))
  <-> (exists shader, shader ∈ shaders /\ stageOf shader = stage)
      /\ dev_getGraphicsAPI m_Device = D3D11
      /\ duplicateLocations bindingsPerLayout = ∅
      /\ (exists c, overlappingPair c bindingsPerLayout)
      /\ (forall c, overlapOf c (mkOverlaps srv sampler uav cb) = true
                    <-> overlappingPair c bindingsPerLayout).
Proof.
  intros S.
  assert (forall c, overlapOf c (overlappingRanges S noOverlaps) = true
                    <-> overlappingPair c S) as Hpair.
  { intros c. rewrite overlappingRanges_spec, noOverlaps_false. naive_solver. }
  destruct (validatePipelineBindingLayouts_report bindingLayouts shaders)
    as (Hlines & _ & _).
  rewrite Hlines by done. split.
  - intros (_ & sh & Hsh & Hrep). unfold stageReport in Hrep.
    destruct (decide (duplicateLocations
                        (map (stageSummary (stageOf sh)) bindingLayouts) = ∅))
      as [He|Hne].
    2: { by rewrite bool_decide_eq_false_2 in Hrep by done. }
    rewrite He, bool_decide_eq_true_2 in Hrep by done. simpl in Hrep.
    case_bool_decide as Hapi; [|done].
    destruct (anyOverlap _) eqn:Hany; [|done].
    injection Hrep as Hstage <- <- <- <-. rewrite Hstage in *. fold S in He, Hany.
    split; [by exists sh|]. split; [done|]. split; [done|]. split.
    + apply anyOverlap_spec in Hany as [c Hc]. exists c. by apply Hpair.
    + intros c. rewrite <- Hpair. fold S. by destruct c.
  - intros ((sh & Hsh & Hstage) & Hapi & He & (c0 & Hc0) & Hflags).
    split; [done|]. exists sh. split; [done|]. unfold stageReport. rewrite Hstage. fold S.
    rewrite He, bool_decide_eq_true_2 by done. simpl.
    rewrite bool_decide_eq_true_2 by done.
    assert (anyOverlap (overlappingRanges S noOverlaps) = true) as ->.
    { apply anyOverlap_spec. exists c0. by apply Hpair. }
    f_equal.
    assert (forall c, overlapOf c (overlappingRanges S noOverlaps)
                      = overlapOf c (mkOverlaps srv sampler uav cb)) as Heq.
    { intros c. apply bool_eq_iff. by rewrite Hpair, Hflags. }
    pose proof (Heq SRV) as H1. pose proof (Heq GSampler) as H2.
    pose proof (Heq UAV) as H3. pose proof (Heq CB) as H4.
    simpl in H1, H2, H3, H4. by rewrite H1, H2, H3, H4.
Qed.

(** * Further properties of the validation layer *)

(** ** Set helpers and ranges *)

(** X1.  The three loops over [std::unordered_set] compute the set
    difference, the intersection and the union of their arguments. *)
Theorem set_helpers_membership (a b : BindingLocationSet) (x : BindingLocation) :
  (x ∈ SetDifference a b <-> x ∈ a /\ x ∉ b)
  /\ (x ∈ SetIntersection a b <-> x ∈ a /\ x ∈ b)
  /\ (x ∈ SetUnionInplace a b <-> x ∈ a \/ x ∈ b).
Proof.
  rewrite SetDifference_spec, SetIntersection_spec, SetUnionInplace_spec.
  set_solver.
Qed.

(** X2.  [Range::add] yields a non-empty range that contains the added slot
    and everything the range contained before; [Range::overlapsWith] is
    symmetric, never holds for an empty range, and holds between a range
    and itself exactly when the range is not empty. *)
Theorem Range_add_and_overlap (r other : Range) (item : Z) :
  Range.empty (Range.add r item) = false
  /\ r_min (Range.add r item) <= item <= r_max (Range.add r item)
  /\ r_min (Range.add r item) <= r_min r
  /\ r_max r <= r_max (Range.add r item)
  /\ Range.overlapsWith r other = Range.overlapsWith other r
  /\ (Range.empty r = true -> Range.overlapsWith r other = false)
  /\ Range.overlapsWith r r = negb (Range.empty r).
Proof.
  unfold Range.overlapsWith, Range.empty, Range.add. simpl.
  split; [apply Z.ltb_ge; lia|]. split; [lia|]. split; [lia|]. split; [lia|].
  split; [|split].
  - Zeqb_cases; simpl; try done; lia.
  - by intros ->.
  - Zeqb_cases; simpl; try done; lia.
Qed.

(** ** Memory binding *)

Ltac bind_cases :=
  unfold call, error, emit, ret, bind, placementAccepted; simpl;
  repeat match goal with
         | |- context [Z.ltb ?a ?b] => destruct (Z.ltb_spec a b); simpl
         | |- context [negb (Z.eqb ?a ?b)] => destruct (Z.eqb_spec a b); simpl
         end.

(** X14.  [bindTextureMemory], [bindBufferMemory] and
    [bindAccelStructMemory] reach the wrapped device's bind method exactly
    when the resource was created virtual and the placement is accepted:
    the 64-bit end of the resource is within the heap capacity and the
    offset is a multiple of the reported alignment (an alignment of 0
    switches that check off).  When the end does not wrap, an accepted
    placement lies inside the heap. *)
Theorem bind_memory_forwarded_iff (heap : Heap) (offset : Z) :
  (forall texture,
     let req := dev_getTextureMemoryRequirements m_Device texture in
     bindTextureMemory (Some texture) (Some heap) offset
     = (Done (dev_bindTextureMemory m_Device texture heap offset),
        [Backend (Call_getTextureMemoryRequirements texture);
         Backend (Call_bindTextureMemory texture heap offset)])
     <-> td_isVirtual (tex_desc texture) = true
         /\ placementAccepted req (heap_desc heap) offset)
  /\ (forall buffer,
        let req := dev_getBufferMemoryRequirements m_Device buffer in
        bindBufferMemory (Some buffer) (Some heap) offset
        = (Done (dev_bindBufferMemory m_Device buffer heap offset),
           [Backend (Call_getBufferMemoryRequirements buffer);
            Backend (Call_bindBufferMemory buffer heap offset)])
        <-> bd_isVirtual (buf_desc buffer) = true
            /\ placementAccepted req (heap_desc heap) offset)
  /\ (forall as_,
        let a := unwrapAccelStruct as_ in
        let req := dev_getAccelStructMemoryRequirements m_Device a in
        bindAccelStructMemory (Some as_) (Some heap) offset
        = (Done (dev_bindAccelStructMemory m_Device a heap offset),
           [Backend (Call_getAccelStructMemoryRequirements a);
            Backend (Call_bindAccelStructMemory a heap offset)])
        <-> asd_isVirtual (AccelStruct_getDesc a) = true
            /\ placementAccepted req (heap_desc heap) offset)
  /\ (forall req, 0 <= offset -> 0 <= mr_size req ->
        offset + mr_size req < 2 ^ 64 ->
        placementAccepted req (heap_desc heap) offset ->
        offset + mr_size req <= hd_capacity (heap_desc heap)).
Proof.
  split; [|split; [|split]].
  - intros texture req. subst req. unfold bindTextureMemory.
    destruct (td_isVirtual (tex_desc texture)); bind_cases;
      split; try done; try (intros [_ [? [?|?]]]; lia); try (intros [? _]; done);
      intros _; (split; [done|]); (split; [lia|]); auto.
  - intros buffer req. subst req. unfold bindBufferMemory.
    destruct (bd_isVirtual (buf_desc buffer)); bind_cases;
      split; try done; try (intros [_ [? [?|?]]]; lia); try (intros [? _]; done);
      intros _; (split; [done|]); (split; [lia|]); auto.
  - intros as_ a req. subst req a. unfold bindAccelStructMemory.
    destruct (asd_isVirtual (AccelStruct_getDesc (unwrapAccelStruct as_)));
      bind_cases;
      split; try done; try (intros [_ [? [?|?]]]; lia); try (intros [? _]; done);
      intros _; (split; [done|]); (split; [lia|]); auto.
  - intros req H0 H1 H2 [Hfit _]. unfold wrap64 in Hfit.
    rewrite Z.mod_small in Hfit by lia. done.
Qed.

(** ** createBuffer *)

(** X15.  [createBuffer] forwards the descriptor (patched with a generated
    name when it has none) to the wrapped device exactly when the
    descriptor is acceptable: volatile buffers are constant buffers with a
    non-zero version count, no CPU access and no other usage; virtual
    buffers need the device's support; [keepInitialState] needs a known
    initial state.  Every other descriptor is answered with null and
    exactly one error message, and [m_Device->createBuffer] is not called. *)
Theorem createBuffer_forwards_iff_acceptable (d : BufferDesc) :
  (bufferAcceptable d = true ->
   result (createBuffer d) = Done (dev_createBuffer m_Device (patchBufferDesc d))
   /\ createBufferCalls (trace (createBuffer d)) = [patchBufferDesc d]
   /\ messages (trace (createBuffer d)) = [])
  /\ (bufferAcceptable d = false ->
      result (createBuffer d) = Done None
      /\ createBufferCalls (trace (createBuffer d)) = []
      /\ exists f, messages (trace (createBuffer d)) = [(Error, [f])]).
Proof.
  unfold createBuffer, bufferAcceptable, volatileUnsupportedUsage,
    device_queryFeatureSupport, call.
  destruct (bd_isVolatile d), (bd_isConstantBuffer d); simpl;
    try (split; [done|intros _; split; [done|split; [done|by eexists]]]).
  all: destruct (Z.eqb_spec (bd_maxVersions d) 0); simpl;
    try (split; [done|intros _; split; [done|split; [done|by eexists]]]).
  all: try (destruct (bd_isVertexBuffer d || bd_isIndexBuffer d
                      || bd_isDrawIndirectArgs d || bd_canHaveUAVs d
                      || bd_isAccelStructBuildInput d || bd_isAccelStructStorage d
                      || bd_isShaderBindingTable d || bd_isVirtual d) eqn:Hflags;
            simpl;
            [split; [done|intros _; split; [done|split; [done|by eexists]]]|];
            case_bool_decide; simpl;
            [|split; [done|intros _; split; [done|split; [done|by eexists]]]]).
  all: destruct (bd_isVirtual d); simpl;
    try destruct (dev_queryFeatureSupport m_Device Feature_VirtualResources);
    simpl;
    try (split; [done|intros _; split; [done|split; [done|by eexists]]]).
  all: destruct (bd_keepInitialState d
                 && bool_decide (bd_initialState d = ResourceStates_Unknown));
    simpl; split; try done; intros _; split; try done; split; try done;
    by eexists.
Qed.

(** ** Sampler feedback textures on other backends *)

(** X17.  On a device that is not D3D12 both sampler-feedback creators
    return null after one error message that names the device's API,
    without reaching the wrapped creator; [createSamplerFeedbackTexture]
    forwards once on D3D12. *)
Theorem samplerFeedback_requires_D3D12 (pairedTexture : option ITexture) :
  (dev_getGraphicsAPI m_Device = D3D12 ->
   createSamplerFeedbackTexture pairedTexture
   = (Done (dev_createSamplerFeedbackTexture m_Device pairedTexture),
      [Backend Call_getGraphicsAPI;
       Backend (Call_createSamplerFeedbackTexture pairedTexture)]))
  /\ (dev_getGraphicsAPI m_Device <> D3D12 ->
      let rejected : M (option Z) :=
        (Done None,
         [Backend Call_getGraphicsAPI; Backend Call_getGraphicsAPI;
          Message Error [F_ApiDoesNotSupport (dev_getGraphicsAPI m_Device)]]) in
      createSamplerFeedbackTexture pairedTexture = rejected
      /\ forall fuel,
           createSamplerFeedbackForNativeTexture (S fuel) pairedTexture = rejected).
Proof.
  unfold createSamplerFeedbackTexture. simpl.
  unfold device_getGraphicsAPI, call. simpl.
  split.
  - intros ->. done.
  - intros Hapi. rewrite bool_decide_eq_false_2 by done. simpl. done.
Qed.

(** ** createTexture: rejections *)

(** X16.  A texture descriptor of a recognised dimension with a zero
    width, height, depth, array size or mip count is rejected at once: one
    message, and no call on the wrapped device at all.  A multisampled
    descriptor that asks for UAV access is rejected whatever its sample
    count, and so is a cube array whose array size is not a multiple of 6;
    neither reaches [m_Device->createTexture]. *)
Theorem createTexture_rejections (d : TextureDesc) :
  (recognizedDimension (td_dimension d) = true ->
   td_width d = 0 \/ td_height d = 0 \/ td_depth d = 0
   \/ td_arraySize d = 0 \/ td_mipLevels d = 0 ->
   createTexture d = (Done None, [Message Error [F_ExtentsMustNotBeZero]]))
  /\ (isMultisampled (td_dimension d) = true -> td_isUAV d = true ->
      result (createTexture d) = Done None
      /\ createTextureCalls (trace (createTexture d)) = [])
  /\ (td_dimension d = TextureCubeArray -> td_arraySize d mod 6 <> 0 ->
      result (createTexture d) = Done None
      /\ createTextureCalls (trace (createTexture d)) = []).
Proof.
  split; [|split].
  - intros Hdim Hzero. unfold createTexture. rewrite Hdim. simpl.
    assert ((td_width d =? 0) || (td_height d =? 0) || (td_depth d =? 0)
            || (td_arraySize d =? 0) || (td_mipLevels d =? 0) = true) as ->; [|done].
    Zeqb_cases; simpl; try done. lia.
  - intros Hms Huav.
    destruct (createTexture_returns d) as (r & t & -> & _ & Hfail & _). simpl.
    enough (textureViolations d <> []) as Hne
      by (by destruct (Hfail Hne) as [-> ?]).
    unfold textureViolations.
    assert (recognizedDimension (td_dimension d) = true) as ->.
    { unfold isMultisampled in Hms. destruct (td_dimension d); done. }
    simpl. case_bool_decide; [done|]. rewrite Hms, Huav. simpl.
    intros Hnil.
    repeat match type of Hnil with
           | context [if ?c then _ else _] => destruct c
           end; done.
  - intros Hdim Hsize.
    destruct (createTexture_returns d) as (r & t & -> & _ & Hfail & _). simpl.
    enough (textureViolations d <> []) as Hne
      by (by destruct (Hfail Hne) as [-> ?]).
    unfold textureViolations. rewrite Hdim. simpl.
    case_bool_decide; [done|].
    rewrite (bool_decide_eq_false_2 (td_arraySize d mod 6 = 0)) by done.
    simpl. intros Hnil.
    repeat match type of Hnil with
           | context [if ?c then _ else _] => destruct c
           end; done.
Qed.

(** ** A null layout in a pipeline *)

Lemma checkSpaces_null bindingLayouts layoutIndex st :
  None ∈ bindingLayouts ->
  result (checkSpaces bindingLayouts layoutIndex st) = Undefined.
Proof.
  revert layoutIndex st.
  induction bindingLayouts as [|layout rest IH]; intros idx st Hin.
  - by apply elem_of_nil in Hin.
  - simpl. rewrite result_bind.
    destruct layout as [layout|].
    + apply elem_of_cons in Hin as [|Hin]; [done|].
      destruct (result (checkSpace (Some layout) idx st)) as [st'| | |] eqn:Hr;
        [by apply IH|done|exfalso..].
      all: revert Hr; unfold checkSpace.
      all: destruct (BindingLayout_getDesc layout) as [desc|]; [|done].
      all: destruct (countPushConstants _ _ _).
      all: destruct (ld_registerSpaceIsDescriptorSet desc); [|done].
      all: destruct (c_MaxBindingLayouts <=? ld_registerSpace desc); [done|].
      all: rewrite result_bind; by destruct (negb _).
    + done.
Qed.

Lemma accumulateStage_null stage bindingLayouts layoutIndex i :
  Forall (assertionHolds stage) bindingLayouts ->
  bindingLayouts !! i = Some None ->
  Message Error [F_LayoutIsNull (layoutIndex + i)]
  ∈ trace (accumulateStage stage bindingLayouts layoutIndex).
Proof.
  intros Hassert. revert layoutIndex i.
  induction Hassert as [|layout rest Hhead Hrest IH]; intros idx i Hi; [done|].
  destruct (accumulateStage_returns stage rest (S idx) Hrest) as (r & t & Heq & _).
  specialize (IH (S idx)). rewrite Heq in IH. simpl in IH.
  simpl. rewrite Heq.
  destruct i as [|i]; simpl in Hi.
  - injection Hi as ->. simpl. destruct r. simpl.
    rewrite Nat.add_0_r. apply elem_of_cons. by left.
  - specialize (IH i Hi). replace (idx + S i)%nat with (S idx + i)%nat by lia.
    match goal with
    | |- _ ∈ trace (bind ?m _) =>
        assert (exists a t0, m = (Done a, t0)) as (a & t0 & ->)
    end.
    { destruct layout as [[id desc|id desc]|]; simpl; try by eexists _, _.
      destruct (visibleTo (ld_visibility desc) stage) eqn:Hvis; [|by eexists _, _].
      destruct (FillBindingLayoutSummary_alone desc) as (d & -> & Hd).
      assert (d = ∅) as -> by (by apply Hd, Hhead).
      simpl. by eexists _, _. }
    rewrite bind_Done. simpl. destruct a, r. simpl.
    apply elem_of_app. right. rewrite app_nil_r. done.
Qed.

Lemma checkStage_null bindingLayouts shader st i :
  Forall (assertionHolds (stageOf shader)) bindingLayouts ->
  bindingLayouts !! i = Some None ->
  exists st' t, checkStage bindingLayouts shader st = (Done st', t)
    /\ Message Error [F_LayoutIsNull i] ∈ t.
Proof.
  intros Hassert Hi.
  pose proof (accumulateStage_null (stageOf shader) bindingLayouts 0 i Hassert Hi)
    as Hin.
  destruct (checkStage_passes bindingLayouts shader st Hassert)
    as (st' & t' & -> & _).
  eexists _, _. split; [reflexivity|]. apply elem_of_app. by left.
Qed.

Lemma stages_loop_passes bindingLayouts shaders st :
  assertionsHold bindingLayouts shaders ->
  exists st' t, forM (checkStage bindingLayouts) shaders st = (Done st', t).
Proof.
  intros Hassert. revert st.
  induction Hassert as [|shader shaders Hhead _ IH]; intros st; simpl.
  - by eexists _, _.
  - destruct (checkStage_passes bindingLayouts shader st Hhead)
      as (st1 & t1 & -> & _).
    rewrite bind_Done. destruct (IH st1) as (st' & t & ->). by eexists _, _.
Qed.

Lemma stages_loop_null bindingLayouts shaders shader st i :
  assertionsHold bindingLayouts shaders ->
  shader ∈ shaders -> bindingLayouts !! i = Some None ->
  exists st' t, forM (checkStage bindingLayouts) shaders st = (Done st', t)
    /\ Message Error [F_LayoutIsNull i] ∈ t.
Proof.
  intros Hassert Hin Hi. revert st.
  induction Hassert as [|sh shaders Hhead Htail IH]; intros st;
    [by apply elem_of_nil in Hin|].
  simpl.
  destruct (checkStage_null bindingLayouts sh st i Hhead Hi)
    as (st1 & t1 & Heq1 & Hin1).
  rewrite Heq1, bind_Done.
  apply elem_of_cons in Hin as [->|Hin].
  - destruct (stages_loop_passes bindingLayouts shaders st1 Htail)
      as (st' & t & Heq).
    rewrite Heq. eexists _, _. split; [reflexivity|]. apply elem_of_app. by left.
  - destruct (IH Hin st1) as (st' & t & Heq & Hin'). rewrite Heq.
    eexists _, _. split; [reflexivity|]. apply elem_of_app. by right.
Qed.

Lemma findings_message sev text t f :
  Message sev text ∈ t -> f ∈ text -> f ∈ findings t.
Proof.
  intros Hin Hf. induction t as [|e t IH]; [by apply elem_of_nil in Hin|].
  apply elem_of_cons in Hin as [<-|Hin].
  - unfold findings. simpl. apply elem_of_app. by left.
  - destruct e; unfold findings; simpl; [by apply IH|].
    apply elem_of_app. right. by apply IH.
Qed.

(** X6.  A null handle among the binding layouts of a pipeline is reported
    by the loop over the shaders, but the loop over the layouts that
    follows dereferences every handle: with a null layout, and no failed
    assertion before that ([Hassert]: no layout visible to a stage of the
    pipeline claims a location twice by itself),
    [validatePipelineBindingLayouts] runs into undefined behaviour after
    it has reported every null slot. *)
Theorem validatePipelineBindingLayouts_null_layout
    (bindingLayouts : list (option BindingLayout)) (shaders : list Shader)
    (Hnull : None ∈ bindingLayouts)
    (Hassert : assertionsHold bindingLayouts shaders) :
  result (validatePipelineBindingLayouts bindingLayouts shaders) = Undefined
  /\ (forall shader i, shader ∈ shaders -> bindingLayouts !! i = Some None ->
        F_LayoutIsNull i
        ∈ findings (trace (validatePipelineBindingLayouts bindingLayouts shaders))).
Proof.
  unfold validatePipelineBindingLayouts. split.
  - destruct (stages_loop_returns bindingLayouts shaders Hassert)
      as (st & t1 & -> & _ & Hst).
    destruct (reportStages_returns _ _ _ Hst) as (e & t2 & Heq2 & _).
    rewrite result_bind. simpl. rewrite result_bind, Heq2. simpl.
    unfold checkSpacesAndPushConstants. rewrite result_bind.
    by rewrite checkSpaces_null.
  - intros shader i Hin Hi.
    destruct (stages_loop_null bindingLayouts shaders shader
                (mkLayoutCheck false false false [] []) i Hassert Hin Hi)
      as (st & t & Heq & Hmsg).
    rewrite Heq, trace_bind. simpl. rewrite findings_app. apply elem_of_app. left.
    apply (findings_message _ _ _ _ Hmsg). by apply list_elem_of_singleton.
Qed.

(** ** The verdict of pipeline validation *)

Lemma accumulateStage_anyNull stage bindingLayouts layoutIndex :
  Forall (assertionHolds stage) bindingLayouts ->
  returns (accumulateStage stage bindingLayouts layoutIndex) (fun r t =>
    (fst r = true <-> None ∈ bindingLayouts)
    /\ snd r = map (stageSummary stage) bindingLayouts).
Proof.
  intros Hassert. revert layoutIndex.
  induction Hassert as [|layout rest Hhead Hrest IH]; intros idx.
  - apply returns_ret. simpl. split; [|done]. split; [done|by intros ?%elem_of_nil].
  - destruct (accumulateStage_returns stage (layout :: rest) idx)
      as ([anyNull Ss] & t & Heq & HS & _).
    { by constructor. }
    destruct (IH (S idx)) as ([nullLater S'] & t' & Heq' & Hnull & _).
    exists (anyNull, Ss), t. split; [done|]. split; [|done].
    simpl in *. rewrite Heq' in Heq. rewrite elem_of_cons, <- Hnull.
    destruct layout as [[id desc|id desc]|]; simpl in Heq.
    + destruct (visibleTo (ld_visibility desc) stage) eqn:Hvis; simpl in Heq.
      * destruct (FillBindingLayoutSummary_alone desc) as (d & Heq0 & Hd).
        assert (d = ∅) as -> by (by apply Hd, Hhead).
        rewrite Heq0 in Heq. simpl in Heq. injection Heq as <- _ _.
        naive_solver.
      * injection Heq as <- _ _. naive_solver.
    + injection Heq as <- _ _. naive_solver.
    + injection Heq as <- _ _. naive_solver.
Qed.

Lemma checkStage_flags bindingLayouts shader st :
  Forall (assertionHolds (stageOf shader)) bindingLayouts ->
  returns (checkStage bindingLayouts shader st) (fun st' t =>
    (anyErrors st' = true <-> anyErrors st = true \/ None ∈ bindingLayouts)
    /\ (anyDuplicateBindings st' = true \/ anyOverlappingBindings st' = true
        <-> anyDuplicateBindings st = true \/ anyOverlappingBindings st = true
            \/ stageReport bindingLayouts (stageOf shader) <> None)).
Proof.
  intros Hassert.
  destruct (accumulateStage_anyNull (stageOf shader) bindingLayouts 0 Hassert)
    as ([anyNull S] & t & Heq & Hnull & HS).
  simpl in Hnull, HS. unfold checkStage, Summary.any. cbn [locations].
  fold (stageOf shader). rewrite Heq, bind_Done.
  unfold stageReport. rewrite <- HS. fold noOverlaps.
  assert (forall b, anyErrors st || anyNull = b ->
            (b = true <-> anyErrors st = true \/ None ∈ bindingLayouts)) as Herr.
  { intros b <-. rewrite orb_true_iff, Hnull. done. }
  destruct (1 <? length bindingLayouts)%nat eqn:Hlen.
  2: { apply Nat.ltb_ge in Hlen.
       destruct (no_pairs_no_report S) as [HD HO].
       { subst S. by rewrite length_map. }
       rewrite HD, HO. rewrite bool_decide_eq_true_2 by done. simpl.
       eexists _, _. split; [reflexivity|]. simpl. split; [by apply Herr|].
       destruct (bool_decide _); clear; intuition congruence. }
  destruct (decide (duplicateLocations S = ∅)) as [HD|HD].
  - rewrite !(bool_decide_eq_true_2 _ HD). simpl.
    unfold device_getGraphicsAPI, call. simpl.
    destruct (bool_decide (dev_getGraphicsAPI m_Device = D3D11)); simpl.
    2: { eexists _, _. split; [reflexivity|]. simpl. split; [by apply Herr|].
         (clear; intuition congruence). }
    destruct (anyOverlap (overlappingRanges S noOverlaps)); simpl;
      eexists _, _; (split; [reflexivity|]); simpl; (split; [by apply Herr|]);
      (clear; intuition congruence).
  - rewrite !(bool_decide_eq_false_2 _ HD). simpl.
    eexists _, _. split; [reflexivity|]. simpl. split; [by apply Herr|].
    (clear; intuition congruence).
Qed.

Lemma stages_loop_flags bindingLayouts shaders :
  assertionsHold bindingLayouts shaders ->
  returns (forM (checkStage bindingLayouts) shaders
             (mkLayoutCheck false false false [] []))
    (fun st t =>
       (anyErrors st = true <-> shaders <> [] /\ None ∈ bindingLayouts)
       /\ (anyDuplicateBindings st = true \/ anyOverlappingBindings st = true
           <-> exists shader, shader ∈ shaders
                 /\ stageReport bindingLayouts (stageOf shader) <> None)).
Proof.
  intros Hassert.
  apply (returns_forM_Forall _ _ (fun seen st t =>
    (anyErrors st = true <-> seen <> [] /\ None ∈ bindingLayouts)
    /\ (anyDuplicateBindings st = true \/ anyOverlappingBindings st = true
        <-> exists shader, shader ∈ seen
              /\ stageReport bindingLayouts (stageOf shader) <> None))
    _ _ Hassert).
  - simpl. split; [naive_solver|]. split; [naive_solver|].
    intros (sh & ?%elem_of_nil & _). done.
  - intros seen shader st t Hsh [Herr Hflags].
    eapply returns_weaken; [by apply checkStage_flags|].
    intros st' t' [Herr' Hflags']. split.
    + rewrite Herr', Herr. split.
      * intros [[_ ?]|?]; (split; [by destruct seen|done]).
      * intros [_ ?]. by right.
    + rewrite Hflags'. split.
      * intros [Hd|[Ho|Hr]].
        -- destruct (proj1 Hflags (or_introl Hd)) as (sh & Hin & Hr).
           exists sh. split; [apply elem_of_app; by left|done].
        -- destruct (proj1 Hflags (or_intror Ho)) as (sh & Hin & Hr).
           exists sh. split; [apply elem_of_app; by left|done].
        -- exists shader. split; [apply elem_of_app; right;
                                  by apply list_elem_of_singleton|done].
      * intros (sh & [Hin| ->%list_elem_of_singleton]%elem_of_app & Hr).
        -- destruct (proj2 Hflags) as [?|?]; [by exists sh|by left|right; by left].
        -- right. by right.
Qed.

Lemma reportStages_value st :
  returns (reportStages st) (fun e t =>
    e = anyErrors st || anyDuplicateBindings st || anyOverlappingBindings st
    /\ (anyDuplicateBindings st = true \/ anyOverlappingBindings st = true ->
        exists text, Message Error text ∈ t)).
Proof.
  unfold reportStages, error, emit.
  destruct (anyErrors st), (anyDuplicateBindings st), (anyOverlappingBindings st);
    simpl; eexists _, _; (split; [reflexivity|]); (split; [done|]);
    intros [?|?]; try done; eexists; apply elem_of_cons; by left.
Qed.

Lemma countPushConstants_spec items count size :
  let isPush := fun item => li_type item = PushConstants in
  let r := countPushConstants items count size in
  fst r = count + Z.of_nat (length (filter isPush items))
  /\ size <= snd r
  /\ (forall item, item ∈ filter isPush items -> wrap32 (li_size item) <= snd r)
  /\ (snd r = size
      \/ exists item, item ∈ filter isPush items /\ snd r = wrap32 (li_size item)).
Proof.
  cbv zeta. unfold countPushConstants.
  revert count size. induction items as [|item items IH]; intros count size.
  - simpl. split; [lia|]. split; [lia|]. split; [by intros ? ?%elem_of_nil|by left].
  - simpl. rewrite filter_cons. case_bool_decide as Hpush.
    + rewrite decide_True by done.
      destruct (IH (count + 1) (Z.max size (wrap32 (li_size item))))
        as (Hc & Hs & Hall & Hex).
      rewrite Hc. simpl length. split; [lia|]. split; [lia|]. split.
      * intros it [->|Hit]%elem_of_cons; [lia|by apply Hall].
      * destruct Hex as [Hex|(it & Hit & Hex)].
        -- rewrite Hex.
           destruct (Z.max_spec size (wrap32 (li_size item))) as [[_ ->]|[_ ->]].
           ++ right. exists item. split; [by left|done].
           ++ by left.
        -- right. exists it. split; [by right|done].
    + rewrite decide_False by done. apply IH.
Qed.

Lemma pushConstantItems_snoc descs desc :
  pushConstantItems (descs ++ [desc])
  = pushConstantItems descs
    ++ filter (fun item => li_type item = PushConstants) (ld_bindings desc).
Proof.
  unfold pushConstantItems. rewrite bind_app. simpl. by rewrite app_nil_r.
Qed.

Lemma descriptorSetSpaces_snoc descs desc :
  descriptorSetSpaces (descs ++ [desc])
  = descriptorSetSpaces descs
    ++ (if ld_registerSpaceIsDescriptorSet desc then [ld_registerSpace desc]
        else []).
Proof.
  unfold descriptorSetSpaces. rewrite filter_app, map_app.
  rewrite filter_cons, filter_nil.
  destruct (ld_registerSpaceIsDescriptorSet desc); by case_decide.
Qed.

Lemma NoDup_snoc_Z (l : list Z) x : NoDup (l ++ [x]) <-> NoDup l /\ x ∉ l.
Proof.
  rewrite NoDup_app. split.
  - intros (Hl & Hx & _). split; [done|]. intros Hin.
    apply (Hx x Hin). by apply list_elem_of_singleton.
  - intros [Hl Hx]. split; [done|]. split; [|apply NoDup_singleton].
    intros y Hy ->%list_elem_of_singleton. done.
Qed.

(** One regular layout more. *)
Lemma checkSpace_step e0 descs id desc layoutIndex st :
  (ld_registerSpaceIsDescriptorSet desc = true ->
   0 <= ld_registerSpace desc < c_MaxBindingLayouts) ->
  spacesChecked e0 descs st ->
  returns (checkSpace (Some (Layout id desc)) layoutIndex st) (fun st' t =>
    spacesChecked e0 (descs ++ [desc]) st'
    /\ (sc_anyErrors st' = true ->
        sc_anyErrors st = true \/ exists text, Message Error text ∈ t)).
Proof.
  intros Hspace (Herr & Hcount & Hsizes & Hsize & Hsem & Hlen & Htable).
  unfold checkSpace. cbv beta iota delta [BindingLayout_getDesc].
  pose proof (countPushConstants_spec (ld_bindings desc)
                (pushConstantCount st) (pushConstantSize st)) as Hpush.
  cbv zeta in Hpush.
  destruct (countPushConstants (ld_bindings desc) (pushConstantCount st)
              (pushConstantSize st)) as [count size].
  simpl in Hpush. destruct Hpush as (Hc & Hs & Hall & Hex).
  assert (count = Z.of_nat (length (pushConstantItems (descs ++ [desc])))) as Hcount'.
  { rewrite pushConstantItems_snoc, length_app. lia. }
  assert (forall item, item ∈ pushConstantItems (descs ++ [desc]) ->
            wrap32 (li_size item) <= size) as Hsizes'.
  { intros item. rewrite pushConstantItems_snoc.
    intros [Hin|Hin]%elem_of_app; [|by apply Hall].
    specialize (Hsizes item Hin). lia. }
  assert (size = 0 \/ exists item, item ∈ pushConstantItems (descs ++ [desc])
                         /\ size = wrap32 (li_size item)) as Hsize'.
  { rewrite pushConstantItems_snoc.
    destruct Hex as [->|(item & Hin & ->)].
    - destruct Hsize as [?|(item & Hin & ?)]; [by left|].
      right. exists item. split; [apply elem_of_app; by left|done].
    - right. exists item. split; [apply elem_of_app; by right|done]. }
  destruct (ld_registerSpaceIsDescriptorSet desc) eqn:Hflag.
  - destruct (Hspace eq_refl) as [Hlo Hhi].
    destruct (Z.leb_spec c_MaxBindingLayouts (ld_registerSpace desc)); [lia|].
    assert (exists v, registerSpaceToLayoutIdx st !! Z.to_nat (ld_registerSpace desc)
                      = Some v) as [v Hv].
    { apply lookup_lt_is_Some. rewrite Hlen. lia. }
    rewrite Hv. simpl.
    pose proof (Htable _ _ Hv) as Hprev. rewrite Z2Nat.id in Hprev by lia.
    assert (spacesChecked e0 (descs ++ [desc])
              (mkSpaceCheck (sc_anyErrors st || negb (v =? -1)) count size
                 match registerSpaceIsDescriptorSet st with
                 | RS_False => RS_Mixed
                 | RS_Undetermined => RS_True
                 | s => s
                 end
                 (<[Z.to_nat (ld_registerSpace desc) := Z.of_nat layoutIndex]>
                    (registerSpaceToLayoutIdx st)))) as Hnew.
    { unfold spacesChecked. simpl.
      rewrite descriptorSetSpaces_snoc, Hflag.
      split; [|split; [done|split; [done|split; [done|split; [|split]]]]].
      - rewrite orb_true_iff, Herr, NoDup_snoc_Z, negb_true_iff.
        destruct (Z.eqb_spec v (-1)) as [Hm|Hm].
        + apply Hprev in Hm. clear - Hm. intuition congruence.
        + assert (ld_registerSpace desc ∈ descriptorSetSpaces descs) as Hin.
          { destruct (decide (ld_registerSpace desc ∈ descriptorSetSpaces descs));
              [done|]. destruct Hm. by apply Hprev. }
          clear - Hin. intuition.
      - destruct (registerSpaceIsDescriptorSet st).
        + destruct Hsem as [Hne Hall']. destruct descs as [|d0 descs']; [done|].
          exists desc, d0. split; [apply elem_of_app; right; by left|].
          split; [apply elem_of_app; left; by left|].
          split; [done|]. apply Hall'. by left.
        + destruct Hsem as [Hne Hall']. split; [by destruct descs|].
          intros d [?| ->%list_elem_of_singleton]%elem_of_app; [by apply Hall'|done].
        + subst descs. split; [done|].
          intros d ->%list_elem_of_singleton. done.
        + destruct Hsem as (d1 & d2 & ? & ? & ? & ?). exists d1, d2.
          split; [apply elem_of_app; by left|].
          split; [apply elem_of_app; by left|]. done.
      - by rewrite length_insert.
      - intros k w Hk.
        destruct (decide (k = Z.to_nat (ld_registerSpace desc))) as [->|Hne].
        + rewrite list_lookup_insert_eq in Hk by (rewrite Hlen; lia).
          injection Hk as <-. rewrite Z2Nat.id by lia. split; [lia|].
          intros Hnot. destruct Hnot. apply elem_of_app. right. by left.
        + rewrite list_lookup_insert_ne in Hk by done.
          rewrite (Htable _ _ Hk). rewrite elem_of_app, list_elem_of_singleton.
          split; [|naive_solver]. intros Hnot [?|Heq]; [done|]. lia. }
    destruct (Z.eqb_spec v (-1)) as [Hm|Hm]; simpl in *.
    + eexists _, _. split; [reflexivity|]. split; [done|].
      simpl. rewrite orb_false_r. auto.
    + eexists _, _. split; [reflexivity|]. split; [done|].
      intros _. right. eexists. apply elem_of_cons. by left.
  - eexists _, _. split; [reflexivity|]. simpl. split; [|auto].
    unfold spacesChecked. simpl. rewrite descriptorSetSpaces_snoc, Hflag, app_nil_r.
    split; [done|]. split; [done|]. split; [done|]. split; [done|].
    split; [|done].
    destruct (registerSpaceIsDescriptorSet st).
    + destruct Hsem as [Hne Hall']. split; [by destruct descs|].
      intros d [?| ->%list_elem_of_singleton]%elem_of_app; [by apply Hall'|done].
    + destruct Hsem as [Hne Hall']. destruct descs as [|d0 descs']; [done|].
      exists d0, desc. split; [apply elem_of_app; left; by left|].
      split; [apply elem_of_app; right; by left|].
      split; [|done]. apply Hall'. by left.
    + subst descs. split; [done|].
      intros d ->%list_elem_of_singleton. done.
    + destruct Hsem as (d1 & d2 & ? & ? & ? & ?). exists d1, d2.
      split; [apply elem_of_app; by left|].
      split; [apply elem_of_app; by left|]. done.
Qed.

Lemma checkSpaces_returns e0 rest :
  forall descs layoutIndex st,
    None ∉ rest ->
    (forall desc, desc ∈ layoutDescs rest ->
       ld_registerSpaceIsDescriptorSet desc = true ->
       0 <= ld_registerSpace desc < c_MaxBindingLayouts) ->
    spacesChecked e0 descs st ->
    returns (checkSpaces rest layoutIndex st) (fun st' t =>
      spacesChecked e0 (descs ++ layoutDescs rest) st'
      /\ (sc_anyErrors st' = true ->
          sc_anyErrors st = true \/ exists text, Message Error text ∈ t)).
Proof.
  induction rest as [|layout rest IH]; intros descs idx st Hnull Hspaces Hst.
  - apply returns_ret. simpl. rewrite app_nil_r. auto.
  - assert (None ∉ rest) as Hnull'.
    { intros Hin. apply Hnull. by right. }
    destruct layout as [[id desc|id desc]|]; [| |destruct Hnull; by left].
    + cbn [checkSpaces]. eapply returns_bind.
      * apply (checkSpace_step e0 descs id desc idx st); [|done].
        apply Hspaces. simpl. by left.
      * intros st1 t1 [Hst1 Hmsg1].
        eapply returns_weaken.
        -- apply (IH (descs ++ [desc]) (S idx) st1 Hnull'); [|done].
           intros d Hd. apply Hspaces. simpl. by right.
        -- intros st2 t2 [Hst2 Hmsg2]. simpl. rewrite <- app_assoc in Hst2.
           split; [done|]. intros Herr.
           destruct (Hmsg2 Herr) as [Herr1|(text & Hin)].
           ++ destruct (Hmsg1 Herr1) as [?|(text & Hin)]; [by left|].
              right. exists text. apply elem_of_app. by left.
           ++ right. exists text. apply elem_of_app. by right.
    + cbn [checkSpaces]. unfold checkSpace.
      cbv beta iota delta [BindingLayout_getDesc].
      rewrite bind_ret_l. by apply IH.
Qed.

Lemma spacesChecked_init e0 :
  spacesChecked e0 []
    (mkSpaceCheck e0 0 0 RS_Undetermined
       (replicate (Z.to_nat c_MaxBindingLayouts) (-1))).
Proof.
  unfold spacesChecked. simpl.
  split; [split; [by left|intros [?|Hno]; [done|destruct Hno; constructor]]|].
  split; [done|]. split; [by intros ? ?%elem_of_nil|]. split; [by left|].
  split; [done|]. split; [by rewrite length_replicate|].
  intros k v [-> _]%lookup_replicate. split; [|done].
  intros _ ?%elem_of_nil. done.
Qed.

(** A check that raises [anyErrors] with a message of its own. *)
Lemma flag_raised (c : bool) text (e e0 : bool) (P : Prop) t0 :
  (e = false <-> P) ->
  (e = true -> e0 = true \/ exists text, Message Error text ∈ t0) ->
  returns (if c then error text ;; ret true else ret e) (fun e' t =>
    (e' = false <-> P /\ c = false)
    /\ (e' = true -> e0 = true \/ exists text, Message Error text ∈ t0 ++ t)).
Proof.
  intros HP Hmsg. destruct c; simpl; eexists _, _; (split; [reflexivity|]).
  - split; [clear; intuition congruence|].
    intros _. right. exists text. apply elem_of_app. right. by left.
  - rewrite app_nil_r. split; [|done]. clear - HP. intuition.
Qed.

(** The second half of the validation: its verdict, and a message whenever
    the verdict turns bad here. *)
Lemma checkSpacesAndPushConstants_verdict bindingLayouts (e0 : bool) :
  None ∉ bindingLayouts ->
  (forall desc, desc ∈ layoutDescs bindingLayouts ->
     ld_registerSpaceIsDescriptorSet desc = true ->
     0 <= ld_registerSpace desc < c_MaxBindingLayouts) ->
  0 <= c_MaxPushConstantSize ->
  returns (checkSpacesAndPushConstants bindingLayouts e0) (fun ok t =>
    (ok = true <->
     e0 = false /\ spacesAndPushConstantsAccepted (layoutDescs bindingLayouts))
    /\ (ok = false -> e0 = true \/ exists text, Message Error text ∈ t)).
Proof.
  intros Hnull Hspaces Hmax. unfold checkSpacesAndPushConstants.
  eapply returns_bind.
  { apply (checkSpaces_returns e0 bindingLayouts [] 0%nat _ Hnull Hspaces).
    apply spacesChecked_init. }
  intros sc t1 [(Herr & Hcount & Hsizes & Hsize & Hsem & _) Hmsg].
  simpl in Herr, Hcount, Hsizes, Hsize, Hsem, Hmsg.
  set (descs := layoutDescs bindingLayouts) in *.
  assert (registerSpaceIsDescriptorSet sc <> RS_Mixed <-> sameSemantics descs)
    as Hsame.
  { unfold sameSemantics. destruct (registerSpaceIsDescriptorSet sc).
    - destruct Hsem as [_ Hall]. split; [|done].
      intros _ d1 d2 H1 H2. by rewrite (Hall d1 H1), (Hall d2 H2).
    - destruct Hsem as [_ Hall]. split; [|done].
      intros _ d1 d2 H1 H2. by rewrite (Hall d1 H1), (Hall d2 H2).
    - rewrite Hsem. split; [|done]. by intros _ d1 d2 ?%elem_of_nil.
    - destruct Hsem as (d1 & d2 & H1 & H2 & Ht & Hf). split; [done|].
      intros Hall. specialize (Hall d1 d2 H1 H2). congruence. }
  assert ((1 <? pushConstantCount sc) = false
          <-> (length (pushConstantItems descs) <= 1)%nat) as Hone.
  { rewrite Z.ltb_ge, Hcount. lia. }
  assert ((c_MaxPushConstantSize <? pushConstantSize sc) = false
          <-> forall item, item ∈ pushConstantItems descs ->
                wrap32 (li_size item) <= c_MaxPushConstantSize) as Hfit.
  { rewrite Z.ltb_ge. split.
    - intros Hle item Hin. specialize (Hsizes item Hin). lia.
    - intros Hall. destruct Hsize as [->|(item & Hin & ->)]; [done|by apply Hall]. }
  assert (sc_anyErrors sc = false <-> e0 = false /\ NoDup (descriptorSetSpaces descs))
    as Hclean.
  { destruct (decide (NoDup (descriptorSetSpaces descs))) as [Hnd|Hnd];
      destruct (sc_anyErrors sc), e0; clear - Herr Hnd; intuition congruence. }
  eapply returns_bind.
  { instantiate (1 := fun e t =>
      (e = false <-> (e0 = false /\ NoDup (descriptorSetSpaces descs))
                     /\ registerSpaceIsDescriptorSet sc <> RS_Mixed)
      /\ (e = true -> e0 = true \/ exists text, Message Error text ∈ t1 ++ t)).
    destruct (registerSpaceIsDescriptorSet sc) eqn:Hrs.
    1-3: apply returns_ret; rewrite app_nil_r; rewrite Hclean;
      (split; [clear; intuition congruence|exact Hmsg]).
    eexists _, _. split; [reflexivity|]. split; [clear; intuition congruence|].
    intros _. right. eexists. apply elem_of_app. right. by left. }
  intros e1 t2 [He1 Hm1].
  eapply returns_bind.
  { apply (flag_raised _ _ e1 e0 _ (t1 ++ t2) He1 Hm1). }
  intros e2 t3 [He2 Hm2].
  eapply returns_bind.
  { apply (flag_raised _ _ e2 e0 _ ((t1 ++ t2) ++ t3) He2 Hm2). }
  intros e3 t4 [He3 Hm3].
  apply returns_ret. rewrite app_nil_r, negb_true_iff, negb_false_iff.
  split.
  2: { intros H. destruct (Hm3 H) as [?|(text & Hin)]; [by left|].
       right. exists text. rewrite <- !app_assoc in Hin. exact Hin. }
  rewrite He3, Hone, Hfit, Hsame. unfold spacesAndPushConstantsAccepted.
  fold descs. clear. intuition.
Qed.

(** X8.  The verdict of [validatePipelineBindingLayouts], for layouts that
    are not null, whose descriptor-set register spaces are below
    [c_MaxBindingLayouts] and of which none that is visible to a stage of
    the pipeline claims a location twice by itself (the cases in which the
    function returns at all: the assertion holds and there is no
    undefined behaviour): it is [true] exactly when no stage of the given shaders has a
    duplicate or overlap report, the regular layouts agree on
    [registerSpaceIsDescriptorSet], no two descriptor sets share a register
    space, there is at most one push-constant block and none is larger than
    [c_MaxPushConstantSize].  A verdict of [false] always comes with an
    error message. *)
Theorem validatePipelineBindingLayouts_verdict
    (bindingLayouts : list (option BindingLayout)) (shaders : list Shader)
    (Hnull : None ∉ bindingLayouts)
    (Hspaces : forall desc, desc ∈ layoutDescs bindingLayouts ->
       ld_registerSpaceIsDescriptorSet desc = true ->
       0 <= ld_registerSpace desc < c_MaxBindingLayouts)
    (Hmax : 0 <= c_MaxPushConstantSize)
    (Hassert : assertionsHold bindingLayouts shaders) :
  returns (validatePipelineBindingLayouts bindingLayouts shaders) (fun ok t =>
    (ok = true <-> layoutsAccepted bindingLayouts shaders)
    /\ (ok = false -> exists text, Message Error text ∈ t)).
Proof.
  unfold validatePipelineBindingLayouts.
  eapply returns_bind; [by apply stages_loop_flags|].
  intros st t1 [Herr Hflags].
  eapply returns_bind; [apply reportStages_value|].
  intros e t2 [-> Hmsg].
  assert (anyErrors st = false) as Hclean.
  { destruct (anyErrors st); [|done]. by destruct (proj1 Herr eq_refl). }
  rewrite Hclean. simpl.
  eapply returns_weaken;
    [by apply checkSpacesAndPushConstants_verdict|].
  intros ok t3 [Hok Hbad]. split.
  - rewrite Hok. unfold layoutsAccepted. rewrite orb_false_iff.
    assert (anyDuplicateBindings st = false /\ anyOverlappingBindings st = false
            <-> forall shader, shader ∈ shaders ->
                  stageReport bindingLayouts (stageOf shader) = None) as ->; [|done].
    split.
    + intros [Hd Ho] shader Hin.
      destruct (stageReport bindingLayouts (stageOf shader)) eqn:Hr; [|done].
      destruct (proj2 Hflags) as [?|?]; [|congruence..].
      exists shader. split; [done|]. by rewrite Hr.
    + intros Hall.
      destruct (anyDuplicateBindings st) eqn:Hd.
      { destruct (proj1 Hflags (or_introl eq_refl)) as (sh & Hin & Hr).
        by specialize (Hall sh Hin). }
      destruct (anyOverlappingBindings st) eqn:Ho; [|done].
      destruct (proj1 Hflags (or_intror eq_refl)) as (sh & Hin & Hr).
      by specialize (Hall sh Hin).
  - intros Hfalse. destruct (Hbad Hfalse) as [He|(text & Hin)].
    + apply orb_true_iff in He.
      destruct (Hmsg ltac:(destruct He; auto)) as (text & Hin).
      exists text. apply elem_of_app. right. apply elem_of_app. by left.
    + exists text. apply elem_of_app. right. apply elem_of_app. by right.
Qed.

(** ** Compute pipelines *)

(** X9.  [createComputePipeline] reaches [m_Device->createComputePipeline]
    exactly when the descriptor has a compute shader, the binding layouts
    validate against it and the shader's type is [Compute]; it then returns
    what the device returns.  In every other case in which it returns, it
    returns null.  The layouts are validated before the shader's type is
    looked at. *)
Theorem createComputePipeline_forwards_iff (pipelineDesc : ComputePipelineDesc) :
  (Call_createComputePipeline pipelineDesc
   ∈ backendCalls (trace (createComputePipeline pipelineDesc))
   <-> exists CS, cp_CS pipelineDesc = Some CS
         /\ result (validatePipelineBindingLayouts
                      (cp_bindingLayouts pipelineDesc) [CS]) = Done true
         /\ sh_shaderType (shader_desc CS) = ShaderType_Compute)
  /\ (forall r, result (createComputePipeline pipelineDesc) = Done r ->
        (Call_createComputePipeline pipelineDesc
         ∈ backendCalls (trace (createComputePipeline pipelineDesc)) ->
         r = dev_createComputePipeline m_Device pipelineDesc)
        /\ (Call_createComputePipeline pipelineDesc
            ∉ backendCalls (trace (createComputePipeline pipelineDesc)) ->
            r = None))
  /\ (forall CS, cp_CS pipelineDesc = Some CS ->
        exists t, trace (createComputePipeline pipelineDesc)
                  = trace (validatePipelineBindingLayouts
                             (cp_bindingLayouts pipelineDesc) [CS]) ++ t).
Proof.
  unfold createComputePipeline.
  destruct (cp_CS pipelineDesc) as [CS|].
  2: { simpl. split; [|split].
       - split; [by intros ?%elem_of_nil|by intros (? & ? & _)].
       - intros r [= <-]. split; [by intros ?%elem_of_nil|done].
       - done. }
  destruct (validatePipelineBindingLayouts_report (cp_bindingLayouts pipelineDesc) [CS])
    as (_ & _ & Hcalls).
  assert (Call_createComputePipeline pipelineDesc
          ∉ backendCalls (trace (validatePipelineBindingLayouts
                                   (cp_bindingLayouts pipelineDesc) [CS]))) as Hnot.
  { intros Hin. by specialize (Hcalls _ Hin). }
  destruct (validatePipelineBindingLayouts (cp_bindingLayouts pipelineDesc) [CS])
    as [[[]| | |] t] eqn:Heq; simpl in Hnot |- *.
  - unfold validateShaderType. case_bool_decide as Hty; simpl.
    + rewrite !backendCalls_app. simpl.
      assert (Call_createComputePipeline pipelineDesc
              ∈ backendCalls t ++ [Call_createComputePipeline pipelineDesc]) as Hin.
      { apply elem_of_app. right. by left. }
      split; [|split].
      * split; [|done]. intros _. exists CS. by rewrite Heq.
      * intros r [= <-]. split; [done|]. intros Hn. by destruct Hn.
      * intros ? [= <-]. rewrite Heq. simpl. by eexists.
    + rewrite !backendCalls_app. simpl. rewrite !app_nil_r.
      split; [|split].
      * split; [intros Hin; by destruct Hnot|].
        intros (? & [= <-] & _ & ?). congruence.
      * intros r [= <-]. split; [intros Hin; by destruct Hnot|done].
      * intros ? [= <-]. rewrite Heq. simpl. by eexists.
  - rewrite app_nil_r. split; [|split].
    + split; [intros Hin; by destruct Hnot|].
      intros (? & [= <-] & Hr & _). rewrite Heq in Hr. done.
    + intros r [= <-]. split; [intros Hin; by destruct Hnot|done].
    + intros ? [= <-]. rewrite Heq. exists []. by rewrite app_nil_r.
  - split; [|split].
    + split; [intros Hin; by destruct Hnot|].
      intros (? & [= <-] & Hr & _). rewrite Heq in Hr. done.
    + done.
    + intros ? [= <-]. rewrite Heq. exists []. by rewrite app_nil_r.
  - split; [|split].
    + split; [intros Hin; by destruct Hnot|].
      intros (? & [= <-] & Hr & _). rewrite Heq in Hr. done.
    + done.
    + intros ? [= <-]. rewrite Heq. exists []. by rewrite app_nil_r.
  - split; [|split].
    + split; [intros Hin; by destruct Hnot|].
      intros (? & [= <-] & Hr & _). rewrite Heq in Hr. done.
    + done.
    + intros ? [= <-]. rewrite Heq. exists []. by rewrite app_nil_r.
Qed.

(** ** Bindless layouts *)

Lemma checkBindlessItem_fold items (a : bool) (es : list Finding) :
  let r := fold_left (fun acc item => checkBindlessItem item acc) items (a, es) in
  (fst r = false <->
   a = false /\ forall item, item ∈ items -> bindlessTypeAllowed (li_type item) = true)
  /\ (fst r = false -> snd r = es)
  /\ (length es <= length (snd r) <= length es + length items)%nat.
Proof.
  cbv zeta. revert a es. induction items as [|item items IH]; intros a es.
  - simpl. split; [|split; [done|lia]]. split; [|by intros [? _]].
    intros ->. split; [done|]. by intros ? ?%elem_of_nil.
  - cbn [fold_left].
    assert (exists a' es',
              checkBindlessItem item (a, es) = (a', es')
              /\ (a' = false <-> a = false /\ bindlessTypeAllowed (li_type item) = true)
              /\ (a' = false -> es' = es)
              /\ (length es <= length es' <= length es + 1)%nat)
      as (a' & es' & -> & Ha & Hes & Hlen).
    { unfold checkBindlessItem, bindlessTypeAllowed.
      destruct (li_type item); simpl; eexists _, _; (split; [reflexivity|]);
        rewrite ?length_app; simpl;
        (split; [clear; intuition congruence|split; [done|lia]]). }
    destruct (IH a' es') as (Hf & Hs & Hl).
    split; [|split].
    + rewrite Hf, Ha. split.
      * intros [[? ?] Hall]. split; [done|].
        intros it [->|?]%elem_of_cons; [done|by apply Hall].
      * intros [? Hall]. split; [split; [done|apply Hall; by left]|].
        intros it Hit. apply Hall. by right.
    + intros Hfalse. rewrite (Hs Hfalse). apply Hes.
      apply Hf in Hfalse as [? _]. done.
    + simpl. lia.
Qed.

(** X10.  [createBindlessLayout] forwards the descriptor exactly when its
    visibility is not [None], it has register spaces, its capacity is not
    zero and every register space has one of the ten bindable types; then
    nothing is reported.  Any other descriptor is answered with null and
    one message that has at least one line and at most one line for each
    of the three descriptor rules and each register space. *)
Theorem createBindlessLayout_forwards_iff (desc : BindlessLayoutDesc) :
  (bindlessLayoutAcceptable desc ->
   createBindlessLayout desc
   = (Done (dev_createBindlessLayout m_Device desc),
      [Backend (Call_createBindlessLayout desc)]))
  /\ (~ bindlessLayoutAcceptable desc ->
      exists text,
        createBindlessLayout desc = (Done None, [Message Error text])
        /\ (1 <= length text <= 3 + length (bl_registerSpaces desc))%nat).
Proof.
  unfold createBindlessLayout, bindlessLayoutAcceptable.
  set (s0 := if bool_decide (bl_visibility desc = ShaderType_None)
             then (true, [] ++ [F_VisibilityNone]) else (false, [])).
  destruct s0 as [a0 e0] eqn:E0.
  set (s1 := if bool_decide (bl_registerSpaces desc = [])
             then (true, e0 ++ [F_NoRegisterSpaces]) else (a0, e0)).
  destruct s1 as [a1 e1] eqn:E1.
  set (s2 := if bl_maxCapacity desc =? 0
             then (true, e1 ++ [F_MaxCapacity0]) else (a1, e1)).
  destruct s2 as [a2 e2] eqn:E2.
  assert ((a2 = false <-> bl_visibility desc <> ShaderType_None
                          /\ bl_registerSpaces desc <> []
                          /\ bl_maxCapacity desc <> 0)
          /\ (a2 = false -> e2 = [])
          /\ (a2 = true -> e2 <> [])
          /\ (length e2 <= 3)%nat) as (Ha2 & He2 & Hne2 & Hlen2).
  { clear -E0 E1 E2. subst s0 s1 s2.
    destruct (Z.eqb_spec (bl_maxCapacity desc) 0);
      repeat case_bool_decide; simplify_eq; simpl;
      (split; [intuition congruence|split; [done|split; [done|lia]]]). }
  pose proof (checkBindlessItem_fold (bl_registerSpaces desc) a2 e2) as Hfold.
  pose proof (createBindlessLayout_items_grow (bl_registerSpaces desc) (a2, e2) Hne2)
    as Hgrow.
  cbv zeta in Hfold.
  destruct (fold_left _ _ _) as [a3 e3] eqn:E3. simpl in Hfold, Hgrow.
  destruct Hfold as (Ha3 & He3 & Hlen3).
  split.
  - intros (Hv & Hr & Hc & Hall).
    assert (a3 = false) as -> by (apply Ha3; split; [by apply Ha2|done]).
    done.
  - intros Hnot. destruct a3.
    + exists e3. split; [done|]. specialize (Hgrow eq_refl).
      destruct e3; [done|]. simpl in *. lia.
    + destruct Hnot. destruct (proj1 Ha3 eq_refl) as [Hfalse Hall].
      destruct (proj1 Ha2 Hfalse) as (? & ? & ?). done.
Qed.

(** ** Acceleration structure wrappers *)

(** X13.  What [createAccelStruct] hands out is always a wrapper whose
    flags mirror the descriptor and are consistent: never a compactable
    top-level structure, never update and compaction together.  Binding
    memory to such a wrapper is binding memory to the object of the wrapped
    device inside it: the two calls leave the same trace and return the
    same value. *)
Theorem accelStruct_wrapper_is_transparent (desc : AccelStructDesc)
    (h : IAccelStruct)
    (Hcreated : result (createAccelStruct desc) = Done (Some h)) :
  wrapperConsistent h
  /\ (exists as_, dev_createAccelStruct m_Device desc = Some as_
        /\ h = AccelStructWrapper as_ (asd_isTopLevel desc)
                 (negb (Z.land (asd_buildFlags desc) AllowUpdate =? 0))
                 (negb (Z.land (asd_buildFlags desc) AllowCompaction =? 0))
                 (asd_topLevelMaxInstances desc))
  /\ AccelStruct_getDesc h = AccelStruct_getDesc (unwrapAccelStruct h)
  /\ (forall heap offset,
        bindAccelStructMemory (Some h) heap offset
        = bindAccelStructMemory (Some (unwrapAccelStruct h)) heap offset
        \/ isAccelStructWrapper (ResAccelStruct (unwrapAccelStruct h)) = true).
Proof.
  revert Hcreated. unfold createAccelStruct, call.
  destruct (dev_createAccelStruct m_Device desc) as [as_|]; simpl; [|done].
  destruct (negb (Z.land (asd_buildFlags desc) AllowCompaction =? 0)
            && asd_isTopLevel desc) eqn:H1; simpl; [done|].
  destruct (negb (Z.land (asd_buildFlags desc) AllowUpdate =? 0)
            && negb (Z.land (asd_buildFlags desc) AllowCompaction =? 0)) eqn:H2;
    simpl; [done|].
  intros [= <-]. split; [done|]. split; [by exists as_|]. split; [done|].
  intros heap offset. simpl.
  destruct as_ as [id d|u ? ? ? ?]; [left|by right].
  done.
Qed.

(** ** Resources in binding items *)

Lemma itemVerdict_accept (P : Prop) es : P -> itemVerdict P es (true, es).
Proof. intros HP. split; [done|]. split; done. Qed.

Lemma itemVerdict_reject (P : Prop) es f : ~ P -> itemVerdict P es (false, es ++ [f]).
Proof. intros HP. split; [done|]. split; [done|]. intros _. by exists f. Qed.

Lemma textureDimensionsCompatible_spec resourceDimension viewDimension :
  textureDimensionsCompatible resourceDimension viewDimension = true
  <-> viewDimension = resourceDimension
      \/ (viewDimension = Texture2DArray
          /\ (resourceDimension = Texture3D \/ resourceDimension = TextureCube
              \/ resourceDimension = TextureCubeArray)).
Proof.
  unfold textureDimensionsCompatible.
  repeat case_bool_decide; simpl; subst; split; try done; try intuition congruence.
  all: try (intros _; by left).
  all: try (intros _; right; split; [done|]; auto).
Qed.

Ltac norm_conditions :=
  repeat match goal with
         | H : negb _ = true |- _ => apply negb_true_iff in H
         | H : negb _ = false |- _ => apply negb_false_iff in H
         | H : _ && _ = true |- _ => apply andb_true_iff in H as [? ?]
         | H : _ || _ = false |- _ => apply orb_false_iff in H as [? ?]
         | H : (_ =? _) = true |- _ => apply Z.eqb_eq in H
         | H : (_ =? _) = false |- _ => apply Z.eqb_neq in H
         | H : bool_decide _ = true |- _ => apply bool_decide_eq_true_1 in H
         | H : bool_decide _ = false |- _ => apply bool_decide_eq_false_1 in H
         end.

Ltac verdict_leaf :=
  eexists _, _; (split; [reflexivity|]);
  first [ apply itemVerdict_accept | apply itemVerdict_reject ];
  norm_conditions.

Ltac verdict_step :=
  match goal with
  | |- context [if ?c then _ else _] => destruct c eqn:?; simpl
  end.

Lemma validateBufferBinding_verdict binding desc es :
  returns (validateBufferBinding binding desc es) (fun r _ =>
    itemVerdict (bufferBindingAccepted binding desc) es r).
Proof.
  clear GenerateTextureDebugName GenerateBufferDebugName.
  unfold validateBufferBinding, queryFeatureSupport, device_queryFeatureSupport,
    call, bufferBindingAccepted, constantRangeAccepted.
  destruct (si_type binding) eqn:Hty; simpl; repeat verdict_step.
  all: verdict_leaf.
  all: try (repeat split; intros; try done; try congruence; auto; fail).
  all: try (intros (H1 & H2 & H3 & H4 & H5 & H6);
            try specialize (H1 eq_refl); try specialize (H2 eq_refl);
            try specialize (H3 eq_refl); try specialize (H4 eq_refl);
            try specialize (H5 eq_refl); try specialize (H6 eq_refl);
            intuition congruence).
  all: repeat match goal with
              | H : _ && _ = false |- _ => apply andb_false_iff in H as [H|H]
              | H : _ || _ = true |- _ => apply orb_true_iff in H as [H|H]
              end; norm_conditions.
  all: try (repeat split; intros; try done; try congruence; auto; fail).
  all: try (intros (H1 & H2 & H3 & H4 & H5 & H6);
            try specialize (H1 eq_refl); try specialize (H2 eq_refl);
            try specialize (H3 eq_refl); try specialize (H4 eq_refl);
            try specialize (H5 eq_refl); try specialize (H6 eq_refl);
            intuition congruence).
Qed.

Lemma validateBindingSetItem_verdict binding isDescriptorTable es :
  wellTyped binding ->
  returns (validateBindingSetItem binding isDescriptorTable es) (fun r _ =>
    itemVerdict (itemAccepted isDescriptorTable binding) es r).
Proof.
  clear GenerateTextureDebugName GenerateBufferDebugName.
  unfold wellTyped, validateBindingSetItem, itemAccepted, resourceAccepted,
    nullAccepted, device_getGraphicsAPI, call.
  destruct (si_type binding) eqn:Hty;
    destruct (si_resourceHandle binding) as [[]|] eqn:Hres; simpl; try done;
    intros _; try apply validateBufferBinding_verdict.
  all: repeat verdict_step.
  all: verdict_leaf.
  all: unfold textureBindingAccepted.
  all: try rewrite Hty.
  all: repeat (first
         [ progress norm_conditions
         | match goal with
           | H : _ && _ = false |- _ => apply andb_false_iff in H as [H|H]
           | H : _ || _ = true |- _ => apply orb_true_iff in H as [H|H]
           | H : textureDimensionsCompatible _ _ = true |- _ =>
               apply textureDimensionsCompatible_spec in H
           | H : textureDimensionsCompatible _ _ = false |- _ =>
               apply not_true_iff_false in H;
               rewrite textureDimensionsCompatible_spec in H
           end ]).
  all: try done.
  all: try (by destruct isDescriptorTable).
  all: try (intuition congruence; fail).
  all: try (rewrite ?negb_true_iff, ?not_true_iff_false;
            first [ by apply bool_decide_eq_true_2
                  | by apply bool_decide_eq_false_2 ]).
  rewrite bool_decide_eq_true_2 by done. done.
Qed.

(** X11.  The verdict of [validateBindingSetItem] on an item whose resource
    is of the kind its type names.  A texture needs a non-empty resolved
    subresource set, UAV access for a UAV view and, when the item names a
    dimension, that dimension or a 2D-array view of a 3D or cube texture.
    A buffer needs the capability its view type asks for, a format for a
    typed view, and the constant-buffer rules (a regular constant buffer
    may be bound in part only on a device with constant-buffer ranges and
    at an aligned, non-empty range; a volatile one only whole).  A sampler
    or acceleration structure and a sampler-feedback UAV pass; push
    constants never carry a resource.  An accepted item adds nothing to
    the error stream, a rejected one exactly one line; and
    [writeDescriptorTable] forwards the item, unwrapped, exactly when the
    verdict for a descriptor table is good. *)
Theorem binding_item_verdict (binding : BindingSetItem)
    (isDescriptorTable : bool) (errorStream : list Finding)
    (descriptorTable : Z)
    (Hwt : wellTyped binding) :
  returns (validateBindingSetItem binding isDescriptorTable errorStream)
    (fun r _ =>
       (fst r = true <-> itemAccepted isDescriptorTable binding)
       /\ (fst r = true -> snd r = errorStream)
       /\ (fst r = false -> exists f, snd r = errorStream ++ [f]))
  /\ (itemAccepted true binding ->
      result (writeDescriptorTable descriptorTable binding)
      = Done (dev_writeDescriptorTable m_Device descriptorTable
                (unwrapBinding binding))
      /\ Call_writeDescriptorTable descriptorTable (unwrapBinding binding)
         ∈ backendCalls (trace (writeDescriptorTable descriptorTable binding))
      /\ messages (trace (writeDescriptorTable descriptorTable binding)) = [])
  /\ (~ itemAccepted true binding ->
      result (writeDescriptorTable descriptorTable binding) = Done false
      /\ (forall item, Call_writeDescriptorTable descriptorTable item
                       ∉ backendCalls
                           (trace (writeDescriptorTable descriptorTable binding)))
      /\ exists f, messages (trace (writeDescriptorTable descriptorTable binding))
                   = [(Error, [f])]).
Proof.
  split; [by apply validateBindingSetItem_verdict|].
  unfold writeDescriptorTable.
  destruct (validateBindingSetItem_verdict binding true [] Hwt)
    as ([ok es] & t & Heq & Hok & Hes & Hrej).
  destruct (validateBindingSetItem_returns binding true [] Hwt)
    as (r' & t' & Heq' & Hq & _).
  rewrite Heq in Heq'. injection Heq' as <- <-.
  rewrite Heq. simpl in *.
  assert (messages t = []) as Hmsgs.
  { clear - Hq. induction Hq as [|e t [->| ->] _ IH]; done. }
  assert (forall item, Call_writeDescriptorTable descriptorTable item
                       ∉ backendCalls t) as Hcalls.
  { intros item Hin. by destruct (backendCalls_query _ _ Hq Hin). }
  destruct ok; simpl.
  - split.
    + intros _. split; [done|]. rewrite backendCalls_app, messages_app, Hmsgs.
      split; [|done]. apply elem_of_app. right. by left.
    + intros Hno. destruct Hno. by apply Hok.
  - split.
    + intros Hyes. by apply Hok in Hyes.
    + intros _. destruct (Hrej eq_refl) as [f ->]. split; [done|].
      rewrite backendCalls_app, messages_app, Hmsgs. simpl. rewrite app_nil_r.
      split; [done|]. by exists f.
Qed.


(** ** Binding sets *)

Lemma FillBindingLayoutSummary_walk desc :
  returns (FillBindingLayoutSummary desc (BindingSummary_init, ∅)) (fun r t =>
    locations (fst r) = list_to_set (layoutLocations desc)
    /\ (forall loc, loc ∈ snd r <-> duplicated (layoutLocations desc) loc)
    /\ numVolatileCBs (fst r)
       = wrap32 (Z.of_nat (volatileSteps (layoutSteps desc)))
    /\ Forall isInvalidTypeMessage t).
Proof.
  destruct (FillBindingLayoutSummary_returns desc BindingSummary_init ∅)
    as (r & t & Heq & _ & Ht).
  destruct (applySteps_returns (layoutSteps desc)) as (r' & t' & Heq' & H).
  rewrite <- FillBindingLayoutSummary_steps, Heq in Heq'.
  injection Heq' as <- <-.
  destruct (H (layoutSteps_default desc)) as (Hl & Hd & _ & Hn & _).
  by exists r, t.
Qed.

Lemma FillBindingLayoutSummary_walk_exact desc :
  returns (FillBindingLayoutSummary desc (BindingSummary_init, ∅)) (fun r t =>
    locations (fst r) = list_to_set (layoutLocations desc)
    /\ (forall loc, loc ∈ snd r <-> duplicated (layoutLocations desc) loc)
    /\ numVolatileCBs (fst r)
       = wrap32 (Z.of_nat (volatileSteps (layoutSteps desc)))
    /\ t = invalidTypeEvents (layoutSteps desc)).
Proof.
  destruct (FillBindingLayoutSummary_walk desc) as (r & t & Heq & Hl & Hd & Hn & _).
  destruct (FillBindingLayoutSummary_alone desc) as (d & Heq' & _).
  rewrite Heq in Heq'. injection Heq' as -> ->.
  eexists _, _. split; [exact Heq|]. done.
Qed.

Lemma FillBindingSetSummary_walk desc registerSpace :
  returns (FillBindingSetSummary desc registerSpace (BindingSummary_init, ∅))
    (fun r t =>
       locations (fst r) = list_to_set (setLocations desc registerSpace)
       /\ (forall loc, loc ∈ snd r
                       <-> duplicated (setLocations desc registerSpace) loc)
       /\ Forall isInvalidTypeMessage t).
Proof.
  destruct (FillBindingSetSummary_returns desc registerSpace BindingSummary_init ∅)
    as (r & t & Heq & _ & Ht).
  destruct (applySteps_returns (setSteps desc registerSpace))
    as (r' & t' & Heq' & H).
  rewrite <- FillBindingSetSummary_steps, Heq in Heq'.
  injection Heq' as <- <-.
  destruct (H (setSteps_default desc registerSpace)) as (Hl & Hd & _).
  by exists r, t.
Qed.

Lemma duplicates_empty_NoDup (dup : BindingLocationSet) l :
  (forall loc, loc ∈ dup <-> duplicated l loc) -> dup = ∅ <-> NoDup l.
Proof.
  intros Hd. rewrite duplicated_NoDup. split.
  - intros -> loc. rewrite <- Hd. set_solver.
  - intros Hno. apply set_eq. intros loc. rewrite Hd. split; [|set_solver].
    intros Hdup. by destruct (Hno loc).
Qed.

Lemma validateItems_verdict bindings (a : bool) es :
  Forall wellTyped bindings ->
  returns (validateItems bindings (a, es)) (fun r t =>
    (fst r = false <->
     a = false /\ forall item, item ∈ bindings -> itemAccepted false item)
    /\ (exists extra, snd r = es ++ extra
          /\ (fst r = true -> a = true \/ extra <> []))
    /\ Forall isQuery t).
Proof.
  intros Hwt. unfold validateItems.
  revert a es. induction Hwt as [|binding bindings Hb _ IH]; intros a es.
  - apply returns_ret. simpl. split; [|split; [|done]].
    + split; [|by intros [? _]]. intros ->. split; [done|].
      by intros ? ?%elem_of_nil.
    + exists []. rewrite app_nil_r. auto.
  - cbn [forM].
    destruct (validateBindingSetItem_verdict binding false es Hb)
      as ([ok es1] & t1 & Heq & Hok & Hes & Hrej).
    destruct (validateBindingSetItem_returns binding false es Hb)
      as (r' & t1' & Heq' & Hq & _).
    rewrite Heq in Heq'. injection Heq' as <- <-. simpl in *.
    rewrite Heq, !bind_Done. simpl.
    destruct (IH (if negb ok then true else a) es1)
      as ([a2 es2] & t2 & Heq2 & Ha2 & (extra & He2 & Hextra) & Hq2).
    simpl in *. rewrite Heq2. simpl.
    eexists _, _. split; [reflexivity|]. simpl.
    split; [|split; [|repeat (apply Forall_app; split); by try constructor]].
    + rewrite Ha2. split.
      * intros [Hflag Hall]. destruct ok; simpl in Hflag; [|done].
        split; [done|]. intros item [->|?]%elem_of_cons; [by apply Hok|by apply Hall].
      * intros [-> Hall].
        assert (ok = true) as ->.
        { apply Hok. apply Hall. by left. }
        split; [done|]. intros item Hin. apply Hall. by right.
    + destruct ok; simpl in *.
      * rewrite (Hes eq_refl) in He2. exists extra. split; [done|done].
      * destruct (Hrej eq_refl) as [f ->]. exists ([f] ++ extra).
        rewrite He2, <- app_assoc. split; [done|]. intros _. by right.
Qed.

(** X12.  [createBindingSet] against a regular layout forwards the set,
    with every resource unwrapped, exactly when the set binds precisely
    the locations the layout declares, binds none of them twice and every
    item passes [validateBindingSetItem]; what the device returns is
    returned.  Otherwise it returns null, [m_Device->createBindingSet] is
    not called, and there is an error message with at least one line. *)
Theorem createBindingSet_forwards_iff (desc : BindingSetDesc) (id : Z)
    (layoutDesc : BindingLayoutDesc)
    (Hwt : Forall wellTyped (sd_bindings desc)) :
  returns (createBindingSet desc (Some (Layout id layoutDesc))) (fun r t =>
    (bindingSetAcceptable desc layoutDesc ->
     r = dev_createBindingSet m_Device
           (mkSetDesc (map unwrapBinding (sd_bindings desc)))
           (Layout id layoutDesc)
     /\ Call_createBindingSet (mkSetDesc (map unwrapBinding (sd_bindings desc)))
          (Layout id layoutDesc) ∈ backendCalls t
     /\ forall f, f ∈ findings t -> exists type, f = F_InvalidLayoutItemType type)
    /\ (~ bindingSetAcceptable desc layoutDesc ->
        r = None
        /\ (forall d l, Call_createBindingSet d l ∉ backendCalls t)
        /\ exists text, text <> [] /\ Message Error text ∈ t)).
Proof.
  unfold createBindingSet. cbv beta iota delta [BindingLayout_getDesc].
  eapply returns_bind; [apply FillBindingLayoutSummary_walk|].
  intros [lb ld] t1 (Hl1 & _ & _ & Ht1). simpl in Hl1.
  eapply returns_bind; [apply FillBindingSetSummary_walk|].
  intros [sb sd] t2 (Hl2 & Hd2 & Ht2). simpl in Hl2, Hd2.
  apply duplicates_empty_NoDup in Hd2.
  rewrite !SetDifference_spec.
  set (declared := locations lb) in *. set (bound := locations sb) in *.
  assert ((declared ∖ bound = ∅ /\ bound ∖ declared = ∅)
          <-> forall loc, loc ∈ layoutLocations layoutDesc
                <-> loc ∈ setLocations desc (ld_registerSpace layoutDesc)) as Hsame.
  { rewrite Hl1, Hl2. split.
    - intros [H1 H2] loc. rewrite <- !(elem_of_list_to_set (C:=BindingLocationSet)).
      set (A := list_to_set (layoutLocations layoutDesc) : BindingLocationSet) in *.
      set (B := list_to_set (setLocations desc (ld_registerSpace layoutDesc))
                : BindingLocationSet) in *.
      clearbody A B. clear - H1 H2.
      destruct (decide (loc ∈ A)), (decide (loc ∈ B)); set_solver.
    - intros H. split; apply set_eq; intros loc;
        rewrite elem_of_difference, !elem_of_list_to_set, H; set_solver. }
  clearbody declared bound.
  destruct (if negb (bool_decide (declared ∖ bound = ∅)) then _ else _)
    as [a1 e1] eqn:E1.
  destruct (if negb (bool_decide (bound ∖ declared = ∅)) then _ else _)
    as [a2 e2] eqn:E2.
  destruct (if negb (bool_decide (sd = ∅)) then _ else _) as [a3 e3] eqn:E3.
  assert ((a3 = false <->
           (declared ∖ bound = ∅ /\ bound ∖ declared = ∅) /\ sd = ∅)
          /\ (a3 = true -> e3 <> [])) as [Ha3 He3].
  { clear -E1 E2 E3.
    repeat case_bool_decide; simpl in *; simplify_eq; simpl;
      (split; [intuition congruence|]); try done;
      intros _; by destruct e1 || by destruct e2 || idtac.
    all: try (by intros _). }
  eapply returns_bind; [by apply validateItems_verdict|].
  intros [a4 e4] t3 (Ha4 & (extra & He4 & Hextra) & Ht3). simpl in Ha4, He4, Hextra.
  assert (a4 = false <-> bindingSetAcceptable desc layoutDesc) as Hacc.
  { rewrite Ha4, Ha3, Hsame, Hd2. unfold bindingSetAcceptable. clear. intuition. }
  destruct a4; simpl.
  - eexists _, _. split; [reflexivity|]. split.
    + intros Hyes. by apply Hacc in Hyes.
    + intros _. split; [done|]. split.
      * intros d l.
        rewrite !backendCalls_app, (backendCalls_invalid_type _ Ht1),
          (backendCalls_invalid_type _ Ht2). simpl. rewrite app_nil_r.
        intros [?|?]%(backendCalls_query _ _ Ht3); done.
      * exists e4. split.
        -- subst e4. destruct (Hextra eq_refl) as [Ha|Hne].
           ++ specialize (He3 Ha). by destruct e3.
           ++ destruct extra; [done|]. by destruct e3.
        -- rewrite !elem_of_app. right. right. right. by left.
  - eexists _, _. split; [reflexivity|]. split.
    + intros _. split; [done|]. split.
      * rewrite !backendCalls_app. rewrite !elem_of_app. right. right. right.
        by left.
      * intros f. rewrite !findings_app, !elem_of_app, (findings_query t3 Ht3).
        intros [H|[H|[H|H]]].
        -- apply (findings_invalid_type _ _ Ht1 H).
        -- apply (findings_invalid_type _ _ Ht2 H).
        -- by apply elem_of_nil in H.
        -- by apply elem_of_nil in H.
    + intros Hno. destruct Hno. by apply Hacc.
Qed.

(** ** When pipeline validation returns *)

Lemma checkSpace_usable layout layoutIndex st :
  layoutUsable layout ->
  exists st' t, checkSpace layout layoutIndex st = (Done st', t).
Proof.
  unfold layoutUsable, checkSpace.
  destruct layout as [[id desc|id desc]|]; [| |done];
    cbv beta iota delta [BindingLayout_getDesc]; [|by eexists _, _].
  intros Hspace. destruct (countPushConstants _ _ _) as [count size].
  destruct (ld_registerSpaceIsDescriptorSet desc); [|by eexists _, _].
  destruct (Z.leb_spec c_MaxBindingLayouts (ld_registerSpace desc));
    [specialize (Hspace eq_refl); lia|].
  destruct (negb _); simpl; by eexists _, _.
Qed.

Lemma checkSpace_unusable layout layoutIndex st :
  ~ layoutUsable layout ->
  result (checkSpace layout layoutIndex st) = Undefined.
Proof.
  unfold layoutUsable, checkSpace.
  destruct layout as [[id desc|id desc]|]; [| |done];
    cbv beta iota delta [BindingLayout_getDesc]; [|by intros []].
  intros Hspace. destruct (countPushConstants _ _ _) as [count size].
  destruct (ld_registerSpaceIsDescriptorSet desc); [|by destruct Hspace].
  destruct (Z.leb_spec c_MaxBindingLayouts (ld_registerSpace desc)); [done|].
  destruct Hspace. intros _. lia.
Qed.

Lemma checkSpaces_result bindingLayouts :
  forall layoutIndex st,
    (Forall layoutUsable bindingLayouts ->
     exists st' t, checkSpaces bindingLayouts layoutIndex st = (Done st', t))
    /\ (~ Forall layoutUsable bindingLayouts ->
        result (checkSpaces bindingLayouts layoutIndex st) = Undefined).
Proof.
  induction bindingLayouts as [|layout rest IH]; intros idx st.
  - split; [by eexists _, _|]. intros H. destruct H. constructor.
  - cbn [checkSpaces].
    destruct (decide (layoutUsable layout)) as [Hu|Hu].
    + destruct (checkSpace_usable layout idx st Hu) as (st1 & t1 & ->).
      destruct (IH (S idx) st1) as [Hyes Hno]. split.
      * intros [_ Hrest]%Forall_cons.
        destruct (Hyes Hrest) as (st' & t & Heq).
        rewrite bind_Done, Heq. by eexists _, _.
      * intros Hnot. rewrite result_bind. simpl. apply Hno.
        intros Hrest. apply Hnot. by constructor.
    + split; [by intros [? _]%Forall_cons|].
      intros _. rewrite result_bind. by rewrite checkSpace_unusable.
Qed.

Lemma validatePipelineBindingLayouts_ends bindingLayouts shaders :
  assertionsHold bindingLayouts shaders ->
  (Forall layoutUsable bindingLayouts ->
   exists ok, result (validatePipelineBindingLayouts bindingLayouts shaders)
              = Done ok)
  /\ (~ Forall layoutUsable bindingLayouts ->
      result (validatePipelineBindingLayouts bindingLayouts shaders) = Undefined).
Proof.
  intros Hassert.
  unfold validatePipelineBindingLayouts.
  destruct (stages_loop_returns bindingLayouts shaders Hassert)
    as (st & t1 & -> & _ & Hst).
  destruct (reportStages_returns _ _ _ Hst) as (e & t2 & Heq2 & _).
  rewrite result_bind. simpl. rewrite result_bind, Heq2. simpl.
  unfold checkSpacesAndPushConstants.
  destruct (checkSpaces_result bindingLayouts 0
              (mkSpaceCheck e 0 0 RS_Undetermined
                 (replicate (Z.to_nat c_MaxBindingLayouts) (-1)))) as [Hyes Hno].
  split.
  - intros Hall. destruct (Hyes Hall) as (sc & t3 & ->).
    rewrite bind_Done. simpl.
    destruct (registerSpaceIsDescriptorSet sc), (1 <? pushConstantCount sc),
      (c_MaxPushConstantSize <? pushConstantSize sc); simpl; by eexists.
  - intros Hnot. rewrite result_bind. by rewrite (Hno Hnot).
Qed.

(** X7.  How [validatePipelineBindingLayouts] ends is decided by its
    arguments.  When a layout visible to the stage of one of the shaders
    claims a location twice by itself, the assertion of the first loop
    fails and the call is aborted.  Otherwise the call returns a verdict
    exactly when every layout handle is usable: none is null, and no
    descriptor-set layout has a register space of [c_MaxBindingLayouts] or
    more; with an unusable handle the second loop runs into undefined
    behaviour (a null handle is dereferenced, or [registerSpaceToLayoutIdx]
    is written out of bounds). *)
Theorem validatePipelineBindingLayouts_returns_iff
    (bindingLayouts : list (option BindingLayout)) (shaders : list Shader) :
  (assertionsHold bindingLayouts shaders ->
   (Forall layoutUsable bindingLayouts ->
    exists ok, result (validatePipelineBindingLayouts bindingLayouts shaders)
               = Done ok)
   /\ (~ Forall layoutUsable bindingLayouts ->
       result (validatePipelineBindingLayouts bindingLayouts shaders) = Undefined))
  /\ (~ assertionsHold bindingLayouts shaders ->
      result (validatePipelineBindingLayouts bindingLayouts shaders) = Aborted).
Proof.
  split; [|by intros Hnot; apply validatePipelineBindingLayouts_aborts].
  intros Hassert. by apply validatePipelineBindingLayouts_ends.
Qed.

(** ** Summaries as a whole *)

Lemma Range_overlapsWith_comm (r other : Range) :
  Range.overlapsWith r other = Range.overlapsWith other r.
Proof.
  unfold Range.overlapsWith, Range.empty.
  Zeqb_cases; simpl; try done; lia.
Qed.

(** X3.  [BindingSummary::any] and [BindingSummary::overlapsWith]: a fresh
    summary holds nothing and overlaps nothing; [overlapsWith] is
    symmetric and is what the D3D11 loop of
    [validatePipelineBindingLayouts] computes for a pair of layouts; and a
    summary filled from a layout holds something exactly when the layout
    has an item with at least one array element. *)
Theorem summary_any_and_overlapsWith (a b : BindingSummary)
    (desc : BindingLayoutDesc) :
  Summary.any BindingSummary_init = false
  /\ Summary.overlapsWith BindingSummary_init a = false
  /\ Summary.overlapsWith a b = Summary.overlapsWith b a
  /\ anyOverlap (overlapPair a noOverlaps b) = Summary.overlapsWith a b
  /\ returns (FillBindingLayoutSummary desc (BindingSummary_init, ∅)) (fun r _ =>
       Summary.any (fst r) = true
       <-> exists item, item ∈ ld_bindings desc /\ 0 < getArraySize item).
Proof.
  split; [done|]. split; [done|].
  split.
  { unfold Summary.overlapsWith.
    by rewrite (Range_overlapsWith_comm (rangeSRV a)),
      (Range_overlapsWith_comm (rangeSampler a)),
      (Range_overlapsWith_comm (rangeUAV a)),
      (Range_overlapsWith_comm (rangeCB a)). }
  split; [done|].
  eapply returns_weaken; [apply FillBindingLayoutSummary_walk|].
  intros [s d] t (Hl & _). simpl in Hl. simpl.
  unfold Summary.any. rewrite negb_true_iff, bool_decide_eq_false, Hl.
  unfold layoutLocations, layoutSteps. split.
  - intros Hne.
    destruct (ld_bindings desc ≫= itemSteps (ld_registerSpace desc))
      as [|s0 l] eqn:Hsteps; [done|].
    assert (s0 ∈ ld_bindings desc ≫= itemSteps (ld_registerSpace desc)) as Hin.
    { rewrite Hsteps. by left. }
    apply list_elem_of_bind in Hin as (item & Hs & Hitem).
    apply list_elem_of_fmap in Hs as (e & _ & He%elem_of_seqZ).
    exists item. split; [done|lia].
  - intros (item & Hitem & Hsize) Hempty.
    assert (stepLocation (li_type item,
                          mkLocation defaultLocationType (ld_registerSpace desc)
                            (li_slot item) 0)
            ∈ (list_to_set
                 (map stepLocation
                    (ld_bindings desc ≫= itemSteps (ld_registerSpace desc)))
               : BindingLocationSet)) as Hin.
    { apply elem_of_list_to_set, list_elem_of_fmap. eexists. split; [done|].
      apply list_elem_of_bind. exists item. split; [|done].
      apply list_elem_of_fmap. exists 0. split; [done|].
      apply elem_of_seqZ. lia. }
    rewrite Hempty in Hin. by apply elem_of_empty in Hin.
Qed.

(** * The rest of the device interface: properties *)

Lemma resultE_bindE {A B} (m : MExt A) (f : A -> MExt B) :
  resultE (bindE m f) =
  match resultE m with
  | Done a => resultE (f a)
  | Undefined => Undefined
  | Aborted => Aborted
  | OutOfFuel => OutOfFuel
  end.
Proof. destruct m as [[a| | |] t]; simpl; try done. by destruct (f a). Qed.

Lemma bindE_Done {A B} (a : A) t (f : A -> MExt B) :
  bindE (Done a, t) f = (resultE (f a), t ++ traceE (f a)).
Proof. simpl. by destruct (f a). Qed.

Lemma returnsE_ret {A} (a : A) (Q : A -> list EventExt -> Prop) :
  Q a [] -> returnsE (retE a) Q.
Proof. intros H. by exists a, []. Qed.

Lemma returnsE_bind {A B} (m : MExt A) (f : A -> MExt B) Q1
    (Q2 : B -> list EventExt -> Prop) :
  returnsE m Q1 ->
  (forall a t1, Q1 a t1 -> returnsE (f a) (fun b t2 => Q2 b (t1 ++ t2))) ->
  returnsE (bindE m f) Q2.
Proof.
  intros (a & t1 & -> & H1) Hf.
  destruct (Hf a t1 H1) as (b & t2 & Hfa & H2).
  exists b, (t1 ++ t2). split; [|done].
  rewrite bindE_Done, Hfa. done.
Qed.

Lemma returnsE_weaken {A} (m : MExt A) (Q1 Q2 : A -> list EventExt -> Prop) :
  returnsE m Q1 -> (forall a t, Q1 a t -> Q2 a t) -> returnsE m Q2.
Proof. intros (a & t & -> & H) HQ. exists a, t. auto. Qed.

Lemma returnsE_lift {A} (m : M A) (Q : A -> list Event -> Prop) :
  returns m Q -> returnsE (lift m) (fun a t => exists t0, t = map Core t0 /\ Q a t0).
Proof. intros (a & t & -> & H). exists a, (map Core t). split; [done|]. by exists t. Qed.

Lemma backendCallsExt_app t1 t2 :
  backendCallsExt (t1 ++ t2) = backendCallsExt t1 ++ backendCallsExt t2.
Proof. unfold backendCallsExt. by rewrite omap_app. Qed.

Lemma messagesExt_app t1 t2 :
  messagesExt (t1 ++ t2) = messagesExt t1 ++ messagesExt t2.
Proof. unfold messagesExt. by rewrite omap_app. Qed.

Lemma coreEvents_app t1 t2 : coreEvents (t1 ++ t2) = coreEvents t1 ++ coreEvents t2.
Proof. unfold coreEvents. by rewrite omap_app. Qed.

Lemma backendCallsExt_Core t : backendCallsExt (map Core t) = [].
Proof. by induction t. Qed.

Lemma messagesExt_Core t : messagesExt (map Core t) = [].
Proof. by induction t. Qed.

Lemma coreEvents_Core t : coreEvents (map Core t) = t.
Proof. induction t as [|e t IH]; [done|]. simpl. by rewrite IH. Qed.

(** ** Memory requirements *)

(** X18.  The three memory-requirement getters answer a null resource with
    the default requirement and one error message, without asking the
    wrapped device.  For a resource they ask the device once and return
    its answer unchanged, for an acceleration structure about the object
    inside the wrapper; a zero size is reported for textures and buffers
    (and returned all the same), never for acceleration structures.  What
    the getter returns is the requirement [bind*Memory] places the resource
    by. *)
Theorem memory_requirements_are_the_devices
    (texture : ITexture) (buffer : IBuffer) (as_ : IAccelStruct) :
  getTextureMemoryRequirements None
  = (Done MemoryRequirements_default, [MessageExt Error [G_TextureIsNull]])
  /\ getBufferMemoryRequirements None
     = (Done MemoryRequirements_default, [MessageExt Error [G_BufferIsNull]])
  /\ getAccelStructMemoryRequirements None
     = (Done MemoryRequirements_default, [MessageExt Error [G_AccelStructIsNull]])
  /\ (let req := dev_getTextureMemoryRequirements m_Device texture in
      getTextureMemoryRequirements (Some texture)
      = (Done req,
         Core (Backend (Call_getTextureMemoryRequirements texture))
         :: (if mr_size req =? 0
             then [MessageExt Error
                     [G_TextureZeroSize (td_debugName (tex_desc texture))]]
             else [])))
  /\ (let req := dev_getBufferMemoryRequirements m_Device buffer in
      getBufferMemoryRequirements (Some buffer)
      = (Done req,
         Core (Backend (Call_getBufferMemoryRequirements buffer))
         :: (if mr_size req =? 0
             then [MessageExt Error
                     [G_BufferZeroSize (bd_debugName (buf_desc buffer))]]
             else [])))
  /\ getAccelStructMemoryRequirements (Some as_)
     = (Done (dev_getAccelStructMemoryRequirements m_Device (unwrapAccelStruct as_)),
        [Core (Backend (Call_getAccelStructMemoryRequirements
                          (unwrapAccelStruct as_)))])
  /\ (forall heap offset,
        td_isVirtual (tex_desc texture) = true ->
        (bindTextureMemory (Some texture) (Some heap) offset
         = (Done (dev_bindTextureMemory m_Device texture heap offset),
            [Backend (Call_getTextureMemoryRequirements texture);
             Backend (Call_bindTextureMemory texture heap offset)])
         <-> placementAccepted
               (valueOrE MemoryRequirements_default
                  (getTextureMemoryRequirements (Some texture)))
               (heap_desc heap) offset)).
Proof.
  split; [done|]. split; [done|]. split; [done|].
  split.
  { cbv zeta. unfold getTextureMemoryRequirements, lift, call. simpl.
    by destruct (mr_size _ =? 0). }
  split.
  { cbv zeta. unfold getBufferMemoryRequirements, lift, call. simpl.
    by destruct (mr_size _ =? 0). }
  split; [done|].
  intros heap offset Hvirtual.
  assert (valueOrE MemoryRequirements_default
            (getTextureMemoryRequirements (Some texture))
          = dev_getTextureMemoryRequirements m_Device texture) as ->.
  { unfold valueOrE, getTextureMemoryRequirements, lift, call. simpl.
    by destruct (mr_size _ =? 0). }
  unfold bindTextureMemory. rewrite Hvirtual. bind_cases;
    split; try done; try (intros [? [?|?]]; lia);
    intros _; (split; [lia|]); auto.
Qed.

(** ** Render state *)

Lemma validateRenderState_verdict renderState fb :
  returnsE (validateRenderState renderState fb) (fun ok t =>
    (ok = true <-> renderStateAcceptable renderState fb)
    /\ (ok = true -> messagesExt t = [])
    /\ (ok = false ->
        exists severity f, messagesExt t = [(severity, [f])]
          /\ (f = G_NoConservativeRaster /\ severity = Warning
              \/ f <> G_NoConservativeRaster /\ severity = Error))
    /\ backendCallsExt t = []
    /\ (coreEvents t = []
        \/ coreEvents t
           = [Backend (Call_queryFeatureSupport Feature_ConservativeRasterization)]
           /\ conservativeRasterEnable (rasterState renderState) = true)).
Proof.
  unfold validateRenderState, renderStateAcceptable.
  destruct fb as [[id [[valid readOnly]]]|].
  2: { eexists _, _. split; [reflexivity|]. simpl.
       split; [split; [done|by intros (? & ? & _)]|].
       split; [done|]. split; [|by auto].
       intros _. exists Error, G_FramebufferIsNull. split; [done|]. by right. }
  destruct renderState as [[depthTest depthWrite stencil mask] [conservative]].
  unfold lift, device_queryFeatureSupport, call. simpl.
  destruct (Z.eqb_spec mask 0) as [Hmask|Hmask];
    destruct depthTest, depthWrite, stencil, valid, readOnly, conservative;
    simpl;
    try destruct (dev_queryFeatureSupport m_Device
                    Feature_ConservativeRasterization) eqn:Hsupport;
    simpl; eexists _, _; (split; [reflexivity|]); simpl.
  all: split;
    [split;
     [try done; intros _; eexists; (split; [reflexivity|]); simpl;
      intuition congruence
     |try done; intros (f0 & [= <-] & H1 & H2 & H3); simpl in *;
      intuition congruence]
    |].
  all: split; [done|].
  all: split;
    [try done; intros _;
     first [ exists Warning, G_NoConservativeRaster; split; [done|]; by left
           | exists Error, G_NoDepthAttachment; split; [done|]; by right
           | exists Error, G_DepthAttachmentReadOnly; split; [done|]; by right ]
    |].
  all: split; [done|]; auto.
Qed.

(** X21.  [validateRenderState] passes exactly the states that fit the
    framebuffer: there is a framebuffer, it has a depth attachment when
    depth or stencil tests are on, the attachment is writable when depth or
    stencil writes are on, and the device supports conservative
    rasterization when the state asks for it.  A failure is reported with
    one message: a warning for conservative rasterization, an error
    otherwise; the device is asked about the feature only when the state
    enables it. *)
Theorem validateRenderState_passes_fitting_states (renderState : RenderState)
    (fb : option Framebuffer) :
  returnsE (validateRenderState renderState fb) (fun ok t =>
    (ok = true <-> renderStateAcceptable renderState fb)
    /\ (ok = true -> messagesExt t = [])
    /\ (ok = false ->
        exists severity f, messagesExt t = [(severity, [f])]
          /\ (f = G_NoConservativeRaster /\ severity = Warning
              \/ f <> G_NoConservativeRaster /\ severity = Error))
    /\ backendCallsExt t = []
    /\ (coreEvents t = []
        \/ coreEvents t
           = [Backend (Call_queryFeatureSupport Feature_ConservativeRasterization)]
           /\ conservativeRasterEnable (rasterState renderState) = true)).
Proof. apply validateRenderState_verdict. Qed.

(** ** Cluster operations *)

Lemma clasViolations_valid type clas :
  clasViolations type clas = [] <-> clasParamsValid clas.
Proof.
  unfold clasViolations, clasParamsValid.
  destruct (validVertexFormat (clas_vertexFormat clas)); simpl.
  2: { split; [done|]. by intros [? _]. }
  Zeqb_cases; simpl; split; try done; try lia; intros; lia.
Qed.

Lemma validateClasParams_chain type clas (isValid : bool) :
  validateClasParams type clas isValid
  = (Done (isValid && isNil (clasViolations type clas)),
     map (fun f => MessageExt Error [f]) (clasViolations type clas)).
Proof.
  unfold validateClasParams, clasViolations, clusterCheck.
  generalize (negb (validVertexFormat (clas_vertexFormat clas)))
             (kMaxGeometryIndex <? clas_maxGeometryIndex clas)
             (32 <? clas_minPositionTruncateBitCount clas)
             (kClasMaxTriangles <? clas_maxTriangleCount clas)
             (kClasMaxVertices <? clas_maxVertexCount clas)
             (clas_maxTotalTriangleCount clas <? clas_maxTriangleCount clas)
             (clas_maxTotalVertexCount clas <? clas_maxVertexCount clas)
             (clas_maxTriangleCount clas <? clas_maxUniqueGeometryCount clas).
  intros b1 b2 b3 b4 b5 b6 b7 b8.
  destruct isValid, b1, b2, b3, b4, b5, b6, b7, b8; reflexivity.
Qed.

Lemma validateClusterOperationParams_messages params :
  validateClusterOperationParams params
  = (Done (isNil (clusterViolations params)),
     map (fun f => MessageExt Error [f]) (clusterViolations params)).
Proof.
  unfold validateClusterOperationParams, clusterViolations.
  destruct (op_type params), (op_mode params); cbn -[validateClasParams];
    rewrite ?validateClasParams_chain; try reflexivity;
    by destruct (clasViolations _ _).
Qed.

(** X25.  [validateClusterOperationParams] reports every rule a cluster
    operation breaks with a message of its own, in the order of the checks,
    and returns whether there was none.  The mode is checked for every
    operation; the CLAS parameters only for the three CLAS operations: a
    [Move] or a [BlasBuild] passes whatever they hold.  The parameters
    pass exactly when the mode is known and, for a CLAS operation, the
    vertex format is one of the fourteen listed and the counts are within
    their limits and their totals.  [getClusterOperationSizeInfo] asks the
    wrapped device exactly for the operations that pass and answers the
    others with the default size info. *)
Theorem cluster_operation_params_verdict (params : OperationParams) :
  validateClusterOperationParams params
  = (Done (isNil (clusterViolations params)),
     map (fun f => MessageExt Error [f]) (clusterViolations params))
  /\ (clusterViolations params = [] <-> clusterParamsValid params)
  /\ (usesClasParams (op_type params) = false ->
      clusterViolations params = []
      <-> forall raw, op_mode params <> Mode_Unrecognized raw)
  /\ getClusterOperationSizeInfo params
     = if isNil (clusterViolations params)
       then (Done (dev_getClusterOperationSizeInfo m_DeviceExt params),
             [BackendExt (Call_getClusterOperationSizeInfo params)])
       else (Done OperationSizeInfo_default,
             map (fun f => MessageExt Error [f]) (clusterViolations params)).
Proof.
  pose proof (validateClusterOperationParams_messages params) as Hvalidate.
  split; [done|].
  split; [|split].
  - unfold clusterViolations, clusterParamsValid.
    destruct (usesClasParams (op_type params)).
    + rewrite <- (clasViolations_valid (op_type params)).
      destruct (op_mode params); simpl; split; try done;
        try (intros ->; split; [done|]; done);
        try (intros [_ H]; by apply H);
        try (intros [H _]; by destruct (H raw)).
    + rewrite app_nil_r.
      destruct (op_mode params); simpl; split; try done;
        intros [H _]; by destruct (H raw).
  - intros Hno. unfold clusterViolations. rewrite Hno, app_nil_r.
    destruct (op_mode params); simpl; split; try done.
    intros H. by destruct (H raw).
  - unfold getClusterOperationSizeInfo. rewrite Hvalidate.
    destruct (clusterViolations params); simpl; [done|].
    by rewrite app_nil_r.
Qed.

(** ** Heaps, shader specializations, descriptor tables, micromaps *)

(** X20.  Four creators and their guards.  [createHeap] never forwards a
    capacity of zero, and what it forwards has the capacity asked for and
    keeps a name that was given.  [createShaderSpecialization] asks the
    device for the feature first and forwards exactly when the device has
    it, [constants] is not null, [numConstants] is not zero and there is a
    base shader.  [createDescriptorTable] dereferences its layout
    unchecked, rejects a regular layout and forwards a bindless one.
    [createOpacityMicromap] reaches the device exactly when both buffers
    are given, and reports a null result of the device after the call. *)
Theorem creators_forward_iff_guard :
  (forall d,
     (hd_capacity d = 0 ->
      createHeap d = (Done None, [MessageExt Error [G_HeapCapacity0]]))
     /\ (hd_capacity d <> 0 ->
         createHeap d
         = (Done (dev_createHeap m_DeviceExt (patchHeapDesc d)),
            [BackendExt (Call_createHeap (patchHeapDesc d))]))
     /\ hd_capacity (patchHeapDesc d) = hd_capacity d
     /\ (hd_debugName d <> EmptyString -> patchHeapDesc d = d))
  /\ (forall baseShader constants numConstants,
        let m := createShaderSpecialization baseShader constants numConstants in
        (forall s cs n, Call_createShaderSpecialization s cs n
                        ∈ backendCallsExt (traceE m) ->
           dev_queryFeatureSupport m_Device Feature_ShaderSpecializations = true
           /\ baseShader = Some s /\ constants = Some cs
           /\ n = numConstants /\ numConstants <> 0)
        /\ (forall s cs,
              dev_queryFeatureSupport m_Device Feature_ShaderSpecializations = true ->
              numConstants <> 0 ->
              createShaderSpecialization (Some s) (Some cs) numConstants
              = (Done (dev_createShaderSpecialization m_DeviceExt s cs numConstants),
                 [Core (Backend (Call_queryFeatureSupport
                                   Feature_ShaderSpecializations));
                  BackendExt (Call_createShaderSpecialization s cs numConstants)]))
        /\ (dev_queryFeatureSupport m_Device Feature_ShaderSpecializations = false ->
            m = (Done None,
                 [Core (Backend (Call_queryFeatureSupport
                                   Feature_ShaderSpecializations));
                  Core (Backend Call_getGraphicsAPI);
                  MessageExt Error
                    [G_NoShaderSpecializations (dev_getGraphicsAPI m_Device)]])))
  /\ (resultE (createDescriptorTable None) = Undefined
      /\ (forall id desc,
            createDescriptorTable (Some (Layout id desc))
            = (Done None, [MessageExt Error [G_TableNeedsBindlessLayout]]))
      /\ forall id desc,
           createDescriptorTable (Some (Bindless id desc))
           = (Done (dev_createDescriptorTable m_DeviceExt (Bindless id desc)),
              [BackendExt (Call_createDescriptorTable (Bindless id desc))]))
  /\ (forall desc,
        let m := createOpacityMicromap desc in
        (Call_createOpacityMicromap desc ∈ backendCallsExt (traceE m)
         <-> omm_inputBuffer desc <> None /\ omm_perOmmDescs desc <> None)
        /\ (forall omm, resultE m = Done (Some omm) <->
              omm_inputBuffer desc <> None /\ omm_perOmmDescs desc <> None
              /\ dev_createOpacityMicromap m_DeviceExt desc = Some omm)
        /\ (omm_inputBuffer desc <> None -> omm_perOmmDescs desc <> None ->
            dev_createOpacityMicromap m_DeviceExt desc = None ->
            m = (Done None,
                 [BackendExt (Call_createOpacityMicromap desc);
                  MessageExt Error [G_OpacityMicromapNotCreated]]))
        /\ exists r, resultE m = Done r).
Proof.
  split; [|split; [|split]].
  - intros d. unfold createHeap, patchHeapDesc.
    destruct (Z.eqb_spec (hd_capacity d) 0) as [H0|H0].
    + split; [done|]. split; [done|].
      split; case_bool_decide; done.
    + split; [done|]. split; [done|].
      split; case_bool_decide; done.
  - intros baseShader constants numConstants. cbv zeta.
    unfold createShaderSpecialization, lift, device_queryFeatureSupport,
      device_getGraphicsAPI, call. simpl.
    destruct (dev_queryFeatureSupport m_Device Feature_ShaderSpecializations);
      simpl.
    2: { split; [|split; [done|done]].
         by intros s cs n []%elem_of_nil. }
    split; [|split; [|done]].
    + intros s cs n.
      destruct constants as [cs0|]; simpl.
      2: { by intros []%elem_of_nil. }
      destruct (Z.eqb_spec numConstants 0); simpl.
      { by intros []%elem_of_nil. }
      destruct baseShader as [s0|]; simpl.
      2: { by intros []%elem_of_nil. }
      intros [[= -> -> ->]|[]%elem_of_nil]%elem_of_cons. done.
    + intros s cs _ Hn.
      by destruct (Z.eqb_spec numConstants 0).
  - done.
  - intros desc. cbv zeta. unfold createOpacityMicromap, callE.
    destruct (omm_inputBuffer desc) as [b1|]; simpl.
    2: { split; [split; [by intros []%elem_of_nil|by intros [? _]]|].
         split; [intros omm; split; [done|by intros [? _]]|].
         split; [done|by eexists]. }
    destruct (omm_perOmmDescs desc) as [b2|]; simpl.
    2: { split; [split; [by intros []%elem_of_nil|by intros [_ ?]]|].
         split; [intros omm; split; [done|by intros (_ & ? & _)]|].
         split; [done|by eexists]. }
    destruct (dev_createOpacityMicromap m_DeviceExt desc) as [omm0|]; simpl.
    + split; [split; [done|intros _; by left]|].
      split; [intros omm; split; [by intros [= ->]|by intros (_ & _ & [= ->])]|].
      split; [done|by eexists].
    + split; [split; [done|intros _; by left]|].
      split; [intros omm; split; [done|by intros (_ & _ & ?)]|].
      split; [done|by eexists].
Qed.

(** ** Command lists *)

(** X26.  [createCommandList] on one of the three queues: the wrapped
    device is asked to create the list exactly when the queue is usable
    (the graphics queue always is; the compute and copy queues when the
    device reports the feature); a list is returned exactly when the queue
    is usable and the device returns one, and it is a wrapper around the
    device's list that carries the parameters' queue type and immediate
    flag.  An unusable queue costs one error message. *)
Theorem createCommandList_wraps_the_devices_list (params : CommandListParameters)
    (Hqueue : queueType params = Queue_Graphics \/ queueType params = Queue_Compute
              \/ queueType params = Queue_Copy) :
  returnsE (createCommandList params) (fun r t =>
    (Call_createCommandList params ∈ backendCallsExt t
     <-> queueUsable (queueType params))
    /\ (forall commandList, r = Some commandList <->
          queueUsable (queueType params)
          /\ exists underlying,
               dev_createCommandList m_DeviceExt params = Some underlying
               /\ commandList
                  = CommandListWrapper underlying
                      (enableImmediateExecution params) (queueType params))
    /\ (queueUsable (queueType params) -> messagesExt t = [])
    /\ (~ queueUsable (queueType params) ->
        exists f, messagesExt t = [(Error, [f])])).
Proof.
  unfold createCommandList, queueAvailable, queueUsable, lift,
    device_queryFeatureSupport, call, callE.
  destruct Hqueue as [->|[->| ->]]; simpl.
  - destruct (dev_createCommandList m_DeviceExt params) as [u|]; simpl;
      eexists _, _; (split; [reflexivity|]); simpl.
    + split; [split; [done|intros _; by left]|].
      split; [|done]. intros cl. split.
      * intros [= <-]. split; [done|]. by exists u.
      * intros (_ & u' & [= <-] & ->). done.
    + split; [split; [done|intros _; by left]|].
      split; [|done]. intros cl. split; [done|].
      intros (_ & u' & ? & _). done.
  - destruct (dev_queryFeatureSupport m_Device Feature_ComputeQueue); simpl.
    + destruct (dev_createCommandList m_DeviceExt params) as [u|]; simpl;
        eexists _, _; (split; [reflexivity|]); simpl.
      * split; [split; [done|intros _; by left]|].
        split; [|done]. intros cl. split.
        -- intros [= <-]. split; [done|]. by exists u.
        -- intros (_ & u' & [= <-] & ->). done.
      * split; [split; [done|intros _; by left]|].
        split; [|done]. intros cl. split; [done|].
        intros (_ & u' & ? & _). done.
    + eexists _, _. split; [reflexivity|]. simpl.
      split; [split; [by intros []%elem_of_nil|done]|].
      split; [intros cl; split; [done|by intros [? _]]|].
      split; [done|]. intros _. by eexists.
  - destruct (dev_queryFeatureSupport m_Device Feature_CopyQueue); simpl.
    + destruct (dev_createCommandList m_DeviceExt params) as [u|]; simpl;
        eexists _, _; (split; [reflexivity|]); simpl.
      * split; [split; [done|intros _; by left]|].
        split; [|done]. intros cl. split.
        -- intros [= <-]. split; [done|]. by exists u.
        -- intros (_ & u' & [= <-] & ->). done.
      * split; [split; [done|intros _; by left]|].
        split; [|done]. intros cl. split; [done|].
        intros (_ & u' & ? & _). done.
    + eexists _, _. split; [reflexivity|]. simpl.
      split; [split; [by intros []%elem_of_nil|done]|].
      split; [intros cl; split; [done|by intros [? _]]|].
      split; [done|]. intros _. by eexists.
Qed.

(** ** Graphics and meshlet pipelines *)

Lemma collectShaders_returns select stages pairs acc :
  Forall2 (fun stage p => fst p = stage /\ select stage = Some (snd p))
          stages pairs ->
  collectShaders select stages acc
  = match firstMistyped pairs with
    | None => (Done (Some (acc ++ presentShaders pairs)), [])
    | Some (stage, shader) =>
        (Done None,
         [Core (Message Error
                  [F_UnexpectedShaderType stage
                     (sh_shaderType (shader_desc shader))])])
    end.
Proof.
  intros H. revert acc.
  induction H as [|stage [stage' o] stages pairs [Hstage Hselect] _ IH];
    intros acc.
  - simpl. by rewrite app_nil_r.
  - simpl in Hstage, Hselect. subst stage'. cbn [collectShaders firstMistyped].
    rewrite Hselect. destruct o as [shader|].
    + unfold validateShaderType, lift. case_bool_decide as Hty; simpl.
      * rewrite IH. unfold presentShaders. simpl.
        destruct (firstMistyped pairs) as [[? ?]|]; [done|].
        by rewrite <- app_assoc.
      * done.
    + rewrite IH. done.
Qed.

Lemma firstMistyped_None stages :
  firstMistyped stages = None <-> stagesWellTyped stages.
Proof.
  unfold stagesWellTyped. induction stages as [|[stage o] stages IH]; simpl.
  - split; [|done]. by intros _ ? ? ?%elem_of_nil.
  - destruct o as [shader|].
    + case_bool_decide as Hty.
      * rewrite IH. split.
        -- intros H st sh [[= -> ->]|Hin]%elem_of_cons; [done|by apply H].
        -- intros H st sh Hin. apply H. by right.
      * split; [done|]. intros H. destruct Hty. symmetry. apply H. by left.
    + rewrite IH. split.
      * intros H st sh [[=]|Hin]%elem_of_cons. by apply H.
      * intros H st sh Hin. apply H. by right.
Qed.

Lemma pipeline_tail select stages pairs bindingLayouts renderState fb c r :
  Forall2 (fun stage p => fst p = stage /\ select stage = Some (snd p))
          stages pairs ->
  pipelineGuarded
    (bindE (collectShaders select stages [])
       (fun shaders =>
          match shaders with
          | None => retE None
          | Some shaders =>
              bindE (lift (validatePipelineBindingLayouts bindingLayouts shaders))
                (fun ok =>
                   if negb ok then retE None
                   else
                     bindE (validateRenderState renderState fb)
                       (fun ok => if negb ok then retE None else callE c r))
          end))
    pairs bindingLayouts renderState fb c r.
Proof.
  intros Hsel. unfold pipelineGuarded.
  rewrite (collectShaders_returns _ _ _ _ Hsel).
  pose proof (firstMistyped_None pairs) as Hwt.
  destruct (firstMistyped pairs) as [[stage shader]|] eqn:Hfirst.
  { simpl. split; [by intros ? ? [= <- <-]|]. split; [done|].
    split; [intros H%Hwt; done|]. split; [by left|]. done. }
  split; [done|]. split; [done|].
  rewrite bindE_Done. cbn [app].
  set (shaders := presentShaders pairs).
  destruct (validatePipelineBindingLayouts bindingLayouts shaders)
    as [[ok| | |] t1] eqn:Hlayouts; unfold lift; cbn [fst snd].
  2,3,4: simpl; rewrite backendCallsExt_Core;
       (split; [done|split; [by left|done]]).
  destruct ok; cbn [negb].
  2: { rewrite bindE_Done. simpl. rewrite app_nil_r, backendCallsExt_Core.
       split; [done|split; [by left|done]]. }
  destruct (validateRenderState_verdict renderState fb)
    as (ok2 & t2 & Hrs & Hok2 & _ & _ & Hcalls2 & _).
  rewrite bindE_Done, Hrs, bindE_Done. cbn [resultE traceE fst snd].
  destruct ok2; cbn [negb]; simpl;
    rewrite !backendCallsExt_app, backendCallsExt_Core, Hcalls2; simpl.
  - split; [done|]. split; [right|by intros v [= ->]].
    split; [done|]. split; [by apply Hwt|]. split; [done|]. by apply Hok2.
  - split; [|split; [by left|done]].
    intros _ _ Hacc. apply Hok2 in Hacc. done.
Qed.

Lemma graphics_stages_selected desc :
  Forall2 (fun stage p => fst p = stage
                          /\ SelectGraphicsShaderStage desc stage = Some (snd p))
          g_GraphicsShaderStages (graphicsStages desc).
Proof. repeat constructor. Qed.

Lemma meshlet_stages_selected desc :
  Forall2 (fun stage p => fst p = stage
                          /\ SelectMeshletShaderStage desc stage = Some (snd p))
          g_MeshletShaderStages (meshletStages desc).
Proof. repeat constructor. Qed.

(** X22.  [createGraphicsPipeline] and [createMeshletPipeline] look at the
    shaders first: the first shader whose type is not the stage of its
    slot ends the call with one message, before any layout is validated.
    With every shader in its slot, the wrapped device is asked to create
    the pipeline exactly when the binding layouts validate against the
    shaders present (in the order of the stages) and the render state fits
    the framebuffer; a pipeline is only ever returned from the device. *)
Theorem pipelines_created_only_when_valid
    (graphicsDesc : GraphicsPipelineDesc) (meshletDesc : MeshletPipelineDesc)
    (fb : option Framebuffer) :
  pipelineGuarded (createGraphicsPipeline graphicsDesc fb)
    (graphicsStages graphicsDesc) (gp_bindingLayouts graphicsDesc)
    (gp_renderState graphicsDesc) fb
    (Call_createGraphicsPipeline graphicsDesc fb)
    (dev_createGraphicsPipeline m_DeviceExt graphicsDesc fb)
  /\ pipelineGuarded (createMeshletPipeline meshletDesc fb)
       (meshletStages meshletDesc) (mp_bindingLayouts meshletDesc)
       (mp_renderState meshletDesc) fb
       (Call_createMeshletPipeline meshletDesc fb)
       (dev_createMeshletPipeline m_DeviceExt meshletDesc fb).
Proof.
  split.
  - apply (pipeline_tail _ _ _ _ _ _ _ _ (graphics_stages_selected graphicsDesc)).
  - apply (pipeline_tail _ _ _ _ _ _ _ _ (meshlet_stages_selected meshletDesc)).
Qed.

(** ** Regular binding layouts *)

Lemma flag_line {F} (c a : bool) (es : list F) (f : F) :
  let r := if c then (true, es ++ [f]) else (a, es) in
  (fst r = false <-> a = false /\ c = false)
  /\ ((a = true -> es <> []) -> fst r = true -> snd r <> [])
  /\ (fst r = false -> snd r = es).
Proof.
  destruct c, a; simpl; repeat split; try done; try (by intros [? ?]).
  all: try (intros _ _; by destruct es).
  all: try (intros H _; by apply H).
Qed.

Lemma checkLayoutItem_step st item :
  0 <= ic_noneItemCount st < 2 ^ 32 - 1 ->
  0 <= ic_pushConstantCount st < 2 ^ 32 - 1 ->
  0 <= ic_zeroSizeCount st < 2 ^ 32 - 1 ->
  let st' := checkLayoutItem st item in
  ic_noneItemCount st'
  = ic_noneItemCount st + Z.of_nat (length (noneItems [item]))
  /\ ic_pushConstantCount st'
     = ic_pushConstantCount st + Z.of_nat (length (pushConstantBlocks [item]))
  /\ ic_zeroSizeCount st'
     = ic_zeroSizeCount st + Z.of_nat (length (zeroSizeItems [item]))
  /\ (ic_anyErrors st' = false
      <-> ic_anyErrors st = false /\ itemLoopAccepted item)
  /\ ((ic_anyErrors st = true -> ic_errorStream st <> []) ->
      ic_anyErrors st' = true -> ic_errorStream st' <> [])
  /\ (ic_anyErrors st' = false -> ic_errorStream st' = ic_errorStream st).
Proof.
  intros Hn Hp Hz. cbv zeta.
  unfold checkLayoutItem, noneItems, pushConstantBlocks, zeroSizeItems,
    itemLoopAccepted.
  rewrite !filter_cons, !filter_nil.
  assert (forall x, 0 <= x < 2 ^ 32 - 1 -> wrap32 (x + 1) = x + 1) as Hwrap.
  { intros x Hx. unfold wrap32. apply Z.mod_small. lia. }
  rewrite (Hwrap _ Hn), (Hwrap _ Hp), (Hwrap _ Hz).
  destruct (Z.eqb_spec (li_size item) 0) as [H0|H0];
    destruct (Z.ltb_spec c_MaxPushConstantSize (li_size item)) as [H1|H1];
    destruct (Z.eqb_spec (li_size item mod 4) 0) as [H4|H4];
    destruct (Z.ltb_spec 1 (li_size item)) as [H2|H2]; try lia;
    repeat case_bool_decide; repeat case_decide; try congruence;
    simpl;
    repeat match goal with
           | |- _ /\ _ => split
           | |- _ <-> _ => split
           end;
    try lia; try done;
    try (intros; match goal with
                 | |- ?es ++ _ <> [] => by destruct es
                 end);
    try (intuition (first [done | congruence | lia])).
Qed.

Lemma checkLayoutItem_fold items :
  forall st,
    0 <= ic_noneItemCount st -> 0 <= ic_pushConstantCount st ->
    0 <= ic_zeroSizeCount st ->
    ic_noneItemCount st + Z.of_nat (length items) < 2 ^ 32 ->
    ic_pushConstantCount st + Z.of_nat (length items) < 2 ^ 32 ->
    ic_zeroSizeCount st + Z.of_nat (length items) < 2 ^ 32 ->
    let st' := fold_left checkLayoutItem items st in
    ic_noneItemCount st'
    = ic_noneItemCount st + Z.of_nat (length (noneItems items))
    /\ ic_pushConstantCount st'
       = ic_pushConstantCount st + Z.of_nat (length (pushConstantBlocks items))
    /\ ic_zeroSizeCount st'
       = ic_zeroSizeCount st + Z.of_nat (length (zeroSizeItems items))
    /\ (ic_anyErrors st' = false
        <-> ic_anyErrors st = false
            /\ forall item, item ∈ items -> itemLoopAccepted item)
    /\ ((ic_anyErrors st = true -> ic_errorStream st <> []) ->
        ic_anyErrors st' = true -> ic_errorStream st' <> [])
    /\ (ic_anyErrors st' = false -> ic_errorStream st' = ic_errorStream st).
Proof.
  induction items as [|item items IH]; intros st Hn Hp Hz Hnl Hpl Hzl; cbv zeta.
  - simpl. split; [lia|]. split; [lia|]. split; [lia|].
    split; [|done]. split; [|by intros [? _]].
    intros ?. split; [done|]. by intros ? ?%elem_of_nil.
  - cbn [fold_left]. simpl length in Hnl, Hpl, Hzl.
    destruct (checkLayoutItem_step st item) as (Hn1 & Hp1 & Hz1 & Ha1 & He1 & Hs1);
      [lia..|].
    assert (forall (P : BindingLayoutItem -> Prop) `{!forall x, Decision (P x)},
              (length (filter P [item]) <= 1)%nat) as Hone.
    { intros P ?. rewrite filter_cons, filter_nil. case_decide; simpl; lia. }
    pose proof (Hone (fun item => li_type item = RT_None) _) as Hc1.
    pose proof (Hone (fun item => li_type item = PushConstants) _) as Hc2.
    pose proof (Hone (fun item => li_type item <> PushConstants
                                  /\ li_size item = 0) _) as Hc3.
    fold (noneItems [item]) in Hc1. fold (pushConstantBlocks [item]) in Hc2.
    fold (zeroSizeItems [item]) in Hc3.
    destruct (IH (checkLayoutItem st item)) as (Hn2 & Hp2 & Hz2 & Ha2 & He2 & Hs2);
      [lia..|].
    assert (forall (P : BindingLayoutItem -> Prop) `{!forall x, Decision (P x)},
              length (filter P (item :: items))
              = (length (filter P [item]) + length (filter P items))%nat) as Hsum.
    { intros P ?. rewrite !filter_cons, filter_nil. case_decide; simpl; lia. }
    unfold noneItems, pushConstantBlocks, zeroSizeItems in *.
    rewrite !Hsum, Hn2, Hp2, Hz2, Hn1, Hp1, Hz1.
    split; [lia|]. split; [lia|]. split; [lia|].
    split; [|split].
    + rewrite Ha2, Ha1. split.
      * intros [[? ?] Hall]. split; [done|].
        intros it [->|?]%elem_of_cons; [done|by apply Hall].
      * intros [? Hall]. split; [split; [done|apply Hall; by left]|].
        intros it ?. apply Hall. by right.
    + intros H. apply He2. by apply He1.
    + intros Hfalse. rewrite (Hs2 Hfalse). apply Hs1.
      by apply Ha2 in Hfalse as [? _].
Qed.

Lemma filter_length_0 {A} (P : A -> Prop) `{!forall x, Decision (P x)} (l : list A) :
  length (filter P l) = 0%nat <-> forall x, x ∈ l -> ~ P x.
Proof.
  induction l as [|x l IH]; simpl.
  - split; [|done]. by intros _ ? ?%elem_of_nil.
  - rewrite filter_cons. case_decide as HP; simpl.
    + split; [done|]. intros Hall. destruct (Hall x); [by left|done].
    + rewrite IH. split.
      * intros Hall y [->|?]%elem_of_cons; [done|by apply Hall].
      * intros Hall y ?. apply Hall. by right.
Qed.

Lemma layout_items_acceptable (items : list BindingLayoutItem) :
  (forall item, item ∈ items -> layoutItemAcceptable item)
  <-> (forall item, item ∈ items -> itemLoopAccepted item)
      /\ length (noneItems items) = 0%nat
      /\ length (zeroSizeItems items) = 0%nat.
Proof.
  unfold noneItems, zeroSizeItems. rewrite !filter_length_0.
  unfold layoutItemAcceptable, itemLoopAccepted. split.
  - intros H. split; [|split].
    + intros item Hin. destruct (H item Hin) as (? & ? & ? & ?).
      split; [|done]. intros Hp. split; [done|]. auto.
    + intros item Hin. by destruct (H item Hin) as (? & _).
    + intros item Hin [_ ?]. by destruct (H item Hin) as (_ & ? & _).
  - intros (Hloop & Hnone & Hzero) item Hin.
    destruct (Hloop item Hin) as [Hp Hv].
    split; [by apply Hnone|]. split.
    + destruct (decide (li_type item = PushConstants)) as [Hpush|Hpush].
      * by destruct (Hp Hpush).
      * intros H0. by destruct (Hzero item Hin).
    + split; [|done]. intros Hpush. by destruct (Hp Hpush) as (_ & ? & ?).
Qed.

Lemma checkLayoutItem_nonempty items st :
  (ic_anyErrors st = true -> ic_errorStream st <> []) ->
  ic_anyErrors (fold_left checkLayoutItem items st) = true ->
  ic_errorStream (fold_left checkLayoutItem items st) <> [].
Proof.
  revert st. induction items as [|item items IH]; intros st H; [done|].
  cbn [fold_left]. apply IH. unfold checkLayoutItem.
  destruct (bool_decide (li_type item = PushConstants)).
  - destruct (li_size item =? 0), (c_MaxPushConstantSize <? li_size item),
      (negb (li_size item mod 4 =? 0)); simpl; try done;
      intros _ Hnil; apply (f_equal length) in Hnil;
      rewrite ?length_app in Hnil; simpl in Hnil; lia.
  - destruct ((1 <? li_size item)
              && bool_decide (li_type item = VolatileConstantBuffer));
      simpl; try done.
    intros _ Hnil; apply (f_equal length) in Hnil;
      rewrite ?length_app in Hnil; simpl in Hnil; lia.
Qed.

(** The whole trace of [createBindingLayout]: the messages of the summary,
    the query of the API, and then either the gathered error message or
    the call on the wrapped device. *)
Lemma createBindingLayout_verdict (desc : BindingLayoutDesc) :
  returnsE (createBindingLayout desc) (fun r t =>
    exists tail,
      t = map Core (invalidTypeEvents (layoutSteps desc))
          ++ Core (Backend Call_getGraphicsAPI) :: tail
      /\ (r = None /\ (exists text, text <> [] /\ tail = [MessageExt Error text])
          \/ r = dev_createBindingLayout m_DeviceExt desc
             /\ tail = [BackendExt (Call_createBindingLayout desc)])
      /\ (Z.of_nat (length (ld_bindings desc)) < 2 ^ 32 ->
          (layoutAcceptable desc
           <-> tail = [BackendExt (Call_createBindingLayout desc)]))).
Proof.
  unfold createBindingLayout. cbv zeta.
  eapply returnsE_bind; [apply returnsE_lift, FillBindingLayoutSummary_walk_exact|].
  intros [bindings duplicates] t1 (t0 & -> & Hl & Hd & Hn & ->).
  apply duplicates_empty_NoDup in Hd. simpl in Hn, Hd.
  destruct (if bool_decide (ld_visibility desc = ShaderType_None) then _ else _)
    as [a1 e1] eqn:E1.
  pose proof (flag_line (bool_decide (ld_visibility desc = ShaderType_None))
                false [] G_LayoutVisibilityNone) as F1.
  cbv zeta in F1. rewrite E1 in F1. simpl in F1. destruct F1 as (A1 & N1 & S1).
  destruct (if negb (bool_decide (duplicates = ∅)) then _ else _)
    as [a2 e2] eqn:E2.
  pose proof (flag_line (negb (bool_decide (duplicates = ∅))) a1 e1
                (G_LayoutDuplicates duplicates)) as F2.
  cbv zeta in F2. rewrite E2 in F2. simpl in F2. destruct F2 as (A2 & N2 & S2).
  destruct (if c_MaxVolatileConstantBuffersPerLayout <? numVolatileCBs bindings
            then _ else _) as [a3 e3] eqn:E3.
  pose proof (flag_line (c_MaxVolatileConstantBuffersPerLayout
                         <? numVolatileCBs bindings) a2 e2
                (G_TooManyVolatileCBs (numVolatileCBs bindings))) as F3.
  cbv zeta in F3. rewrite E3 in F3. simpl in F3. destruct F3 as (A3 & N3 & S3).
  pose proof (checkLayoutItem_fold (ld_bindings desc) (mkItemCheck a3 e3 0 0 0))
    as Hfold.
  cbv zeta in Hfold. simpl in Hfold.
  pose proof (checkLayoutItem_nonempty (ld_bindings desc)
                (mkItemCheck a3 e3 0 0 0)) as NL.
  simpl in NL.
  set (st := fold_left checkLayoutItem (ld_bindings desc)
               (mkItemCheck a3 e3 0 0 0)) in *.
  destruct (if negb (ic_noneItemCount st =? 0) then _ else _)
    as [a4 e4] eqn:E4.
  pose proof (flag_line (negb (ic_noneItemCount st =? 0)) (ic_anyErrors st)
                (ic_errorStream st) (G_NoneItems (ic_noneItemCount st))) as F4.
  cbv zeta in F4. rewrite E4 in F4. simpl in F4. destruct F4 as (A4 & N4 & S4).
  destruct (if negb (ic_zeroSizeCount st =? 0) then _ else _)
    as [a5 e5] eqn:E5.
  pose proof (flag_line (negb (ic_zeroSizeCount st =? 0)) a4 e4
                (G_ZeroSizeItems (ic_zeroSizeCount st))) as F5.
  cbv zeta in F5. rewrite E5 in F5. simpl in F5. destruct F5 as (A5 & N5 & S5).
  destruct (if 1 <? ic_pushConstantCount st then _ else _) as [a6 e6] eqn:E6.
  pose proof (flag_line (1 <? ic_pushConstantCount st) a5 e5
                (G_PushConstantBlocks (ic_pushConstantCount st))) as F6.
  cbv zeta in F6. rewrite E6 in F6. simpl in F6. destruct F6 as (A6 & N6 & S6).
  unfold lift, device_getGraphicsAPI, call. cbn [fst snd map].
  rewrite bindE_Done.
  set (unsupported :=
         negb (bool_decide (dev_getGraphicsAPI m_Device = D3D12)
               || bool_decide (dev_getGraphicsAPI m_Device = VULKAN)
                  && ld_registerSpaceIsDescriptorSet desc)
         && negb (ld_registerSpace desc =? 0)).
  destruct (if unsupported then _ else _) as [a7 e7] eqn:E7.
  pose proof (flag_line unsupported a6 e6
                (G_RegisterSpaceUnsupported (ld_registerSpace desc)
                   (dev_getGraphicsAPI m_Device))) as F7.
  cbv zeta in F7. rewrite E7 in F7. simpl in F7. destruct F7 as (A7 & N7 & S7).
  assert (a7 = true -> e7 <> []) as Hnonempty.
  { apply N7, N6, N5, N4, NL. simpl. apply N3, N2, N1. done. }
  assert (unsupported = false <-> registerSpaceSupported desc) as Hreg.
  { unfold unsupported, registerSpaceSupported.
    destruct (Z.eqb_spec (ld_registerSpace desc) 0);
      repeat case_bool_decide; destruct (ld_registerSpaceIsDescriptorSet desc);
      simpl; split; try done; try (intros _; auto; fail); intuition congruence. }
  assert (Z.of_nat (length (ld_bindings desc)) < 2 ^ 32 ->
          (a7 = false <-> layoutAcceptable desc)) as Hacc.
  { intros Hlen.
    destruct Hfold as (Hnone & Hpush & Hzero & AL & _ & SL); [lia..|].
    rewrite A7, A6, A5, A4, AL, Hreg. simpl. rewrite A3, A2, A1.
    unfold layoutAcceptable. rewrite layout_items_acceptable, <- Hn, <- Hd.
    rewrite negb_false_iff, !bool_decide_eq_false, bool_decide_eq_true.
    rewrite !negb_false_iff, !Z.eqb_eq, !Z.ltb_ge, Hnone, Hzero, Hpush.
    unfold pushConstantBlocks.
    clear. intuition (first [done | lia]). }
  destruct a7; simpl.
  - eexists _, _. split; [reflexivity|].
    exists [MessageExt Error e7]. split; [done|]. split.
    + left. split; [done|]. exists e7. split; [by apply Hnonempty|done].
    + intros Hlen. split; [|done]. intros Hyes. by apply (Hacc Hlen) in Hyes.
  - eexists _, _. split; [reflexivity|].
    exists [BackendExt (Call_createBindingLayout desc)]. split; [done|]. split.
    + by right.
    + intros Hlen. split; [done|]. intros _. by apply (Hacc Hlen).
Qed.

(** X23.  [createBindingLayout] forwards a descriptor exactly when its
    visibility is not [None], no two of its items claim the same location,
    it has no more volatile constant buffers than
    [c_MaxVolatileConstantBuffersPerLayout], no item has type [None] or
    size 0, a push-constant block is at most [c_MaxPushConstantSize] bytes
    and a multiple of 4, there is at most one such block, no volatile
    constant buffer is an array, and the register space is 0 unless the
    device is D3D12 or the layout is a descriptor set on Vulkan.  Every
    other descriptor is answered with null and, in place of the call of
    [m_Device->createBindingLayout], one error message that gathers the
    lines of all the rules it breaks.  In either case the trace starts
    with the messages [FillBindingLayoutSummary] sends to the sink itself,
    one for each array element of an item whose type its [switch] does not
    name, followed by the query of the API: an item of type [None] is
    reported there and again in the gathered message, and an item of
    another unnamed type is reported there without stopping the layout
    from being forwarded. *)
Theorem createBindingLayout_forwards_iff (desc : BindingLayoutDesc)
    (Hlen : Z.of_nat (length (ld_bindings desc)) < 2 ^ 32) :
  returnsE (createBindingLayout desc) (fun r t =>
    exists tail,
      t = map Core (invalidTypeEvents (layoutSteps desc))
          ++ Core (Backend Call_getGraphicsAPI) :: tail
      /\ (layoutAcceptable desc ->
          r = dev_createBindingLayout m_DeviceExt desc
          /\ tail = [BackendExt (Call_createBindingLayout desc)])
      /\ (~ layoutAcceptable desc ->
          r = None
          /\ exists text, text <> [] /\ tail = [MessageExt Error text])).
Proof.
  eapply returnsE_weaken; [apply createBindingLayout_verdict|].
  intros r t (tail & -> & Hcases & Hacc). specialize (Hacc Hlen).
  exists tail. split; [done|]. split.
  - intros Hyes. apply Hacc in Hyes as ->.
    destruct Hcases as [(_ & text & _ & [=])|[-> _]]. done.
  - intros Hno. destruct Hcases as [(-> & Htext)|[_ Htail]]; [done|].
    destruct Hno. by apply Hacc.
Qed.

(** A descriptor the wrapped device was asked to create a layout from
    claims no location twice. *)
Lemma created_layout_NoDup (desc : BindingLayoutDesc) :
  Z.of_nat (length (ld_bindings desc)) < 2 ^ 32 ->
  Call_createBindingLayout desc
  ∈ backendCallsExt (traceE (createBindingLayout desc)) ->
  NoDup (layoutLocations desc).
Proof.
  intros Hlen Hcreated.
  destruct (createBindingLayout_verdict desc)
    as (r & t & Heq & tail & -> & Hcases & Hacc).
  specialize (Hacc Hlen).
  rewrite Heq in Hcreated. simpl in Hcreated.
  rewrite backendCallsExt_app, backendCallsExt_Core in Hcreated.
  simpl in Hcreated.
  destruct Hcases as [(_ & text & _ & ->)|[_ Htail]].
  - by apply elem_of_nil in Hcreated.
  - apply Hacc in Htail. by destruct Htail as (_ & ? & _).
Qed.

(** X24.  The assertion in [validatePipelineBindingLayouts] holds of every
    layout that went through [createBindingLayout]: when the wrapped
    device was asked to create a layout from a descriptor, filling a
    summary from that descriptor finds no duplicates, for whichever
    stage; and its location set has one entry for each array element of
    each item. *)
Theorem created_layouts_have_no_duplicates (desc : BindingLayoutDesc)
    (Hlen : Z.of_nat (length (ld_bindings desc)) < 2 ^ 32)
    (Hcreated : Call_createBindingLayout desc
                ∈ backendCallsExt (traceE (createBindingLayout desc))) :
  returns (FillBindingLayoutSummary desc (BindingSummary_init, ∅)) (fun r _ =>
    snd r = ∅
    /\ size (locations (fst r)) = length (layoutSteps desc)).
Proof.
  pose proof (created_layout_NoDup desc Hlen Hcreated) as Hnodup.
  eapply returns_weaken; [apply FillBindingLayoutSummary_walk|].
  intros [b d] t' (Hl & Hd & _). simpl in *.
  split; [by apply (duplicates_empty_NoDup d (layoutLocations desc))|].
  rewrite Hl, size_list_to_set by done.
  unfold layoutLocations. by rewrite length_map.
Qed.

(** X27.  Layouts that went through [createBindingLayout] never fail the
    assertion of [validatePipelineBindingLayouts]: when every regular
    layout of a pipeline has a descriptor that the wrapped device was
    asked to create a layout from, the assertion holds for every stage,
    and the validation is not aborted, whatever the shaders: it returns a
    verdict or runs into the undefined behaviour of an unusable handle. *)
Theorem created_layouts_pass_the_assertion
    (bindingLayouts : list (option BindingLayout)) (shaders : list Shader)
    (Hcreated : forall id desc, Some (Layout id desc) ∈ bindingLayouts ->
       Z.of_nat (length (ld_bindings desc)) < 2 ^ 32
       /\ Call_createBindingLayout desc
          ∈ backendCallsExt (traceE (createBindingLayout desc))) :
  assertionsHold bindingLayouts shaders
  /\ result (validatePipelineBindingLayouts bindingLayouts shaders) <> Aborted
  /\ (Forall layoutUsable bindingLayouts ->
      exists ok, result (validatePipelineBindingLayouts bindingLayouts shaders)
                 = Done ok).
Proof.
  assert (assertionsHold bindingLayouts shaders) as Hassert.
  { apply Forall_forall. intros shader _. apply Forall_forall.
    intros [[id desc|id desc]|] Hin; simpl; try done.
    intros _. destruct (Hcreated id desc Hin) as [Hlen Hcall].
    by apply created_layout_NoDup. }
  split; [done|].
  destruct (validatePipelineBindingLayouts_ends _ _ Hassert) as [Hyes Hno].
  split; [|done].
  destruct (decide (Forall layoutUsable bindingLayouts)) as [Hu|Hu].
  - destruct (Hyes Hu) as (ok & ->). done.
  - by rewrite (Hno Hu).
Qed.

(** ** Generated debug names *)


(** * The claim about the number of sink calls *)

(** C2 (as amended).  Whether the findings of a call are gathered into one
    message depends on the method.  [createTexture] reports every rule
    violation with a sink call of its own: the messages of a call are the
    violated rules of the specification, one message for each, in order.
    The call returns null without reaching [m_Device->createTexture]
    exactly when a rule is violated, and otherwise forwards the patched
    descriptor once.  [validateClusterOperationParams] does the same: one
    message of one line for each rule broken, in the order of the checks,
    and the value [false] exactly when there is one.
    [createBindlessLayout] gathers its findings in one stream: a call
    either fails with exactly one message and no backend call, or forwards
    once with no message.  [createBindingLayout] gathers the findings of
    its own rules in one stream as well, and a failing call ends with
    exactly one message for them; before it, [FillBindingLayoutSummary]
    has invoked the sink itself, once for each array element of an item
    whose type its [switch] does not name. *)
Theorem sink_calls_per_failing_call :
  (forall d : TextureDesc,
     messages (trace (createTexture d)) = oneMessageEach (textureViolations d)
     /\ (textureViolations d <> [] ->
         result (createTexture d) = Done None
         /\ createTextureCalls (trace (createTexture d)) = [])
     /\ (textureViolations d = [] ->
         result (createTexture d)
           = Done (dev_createTexture m_Device (patchTextureDesc d))
         /\ createTextureCalls (trace (createTexture d)) = [patchTextureDesc d]))
  /\ (forall params : OperationParams,
        validateClusterOperationParams params
        = (Done (isNil (clusterViolations params)),
           map (fun f => MessageExt Error [f]) (clusterViolations params)))
  /\ (forall desc : BindlessLayoutDesc,
        (exists text, text <> []
           /\ createBindlessLayout desc = (Done None, [Message Error text]))
        \/ createBindlessLayout desc
           = (Done (dev_createBindlessLayout m_Device desc),
              [Backend (Call_createBindlessLayout desc)]))
  /\ (forall desc : BindingLayoutDesc,
        returnsE (createBindingLayout desc) (fun r t =>
          exists tail,
            t = map Core (invalidTypeEvents (layoutSteps desc))
                ++ Core (Backend Call_getGraphicsAPI) :: tail
            /\ (r = None
                /\ (exists text, text <> [] /\ tail = [MessageExt Error text])
                \/ r = dev_createBindingLayout m_DeviceExt desc
                   /\ tail = [BackendExt (Call_createBindingLayout desc)]))).
Proof.
  split; [|split; [|split]].
  - intros d. destruct (createTexture_returns d) as (r & t & -> & Hm & H1 & H2).
    simpl. split; [done|]. split.
    + intros Hne. destruct (H1 Hne) as [-> ?]. done.
    + intros He. destruct (H2 He) as [-> ?]. done.
  - apply validateClusterOperationParams_messages.
  - intros desc. unfold createBindlessLayout.
    set (s0 := if bool_decide (bl_visibility desc = ShaderType_None)
               then (true, [] ++ [F_VisibilityNone]) else (false, [])).
    destruct s0 as [a0 e0] eqn:E0.
    set (s1 := if bool_decide (bl_registerSpaces desc = [])
               then (true, e0 ++ [F_NoRegisterSpaces]) else (a0, e0)).
    destruct s1 as [a1 e1] eqn:E1.
    set (s2 := if bl_maxCapacity desc =? 0
               then (true, e1 ++ [F_MaxCapacity0]) else (a1, e1)).
    destruct s2 as [a2 e2] eqn:E2.
    assert (a2 = true -> e2 <> []) as Hpre.
    { clear -E0 E1 E2. subst s0 s1 s2.
      destruct (bool_decide (bl_visibility desc = ShaderType_None)),
        (bool_decide (bl_registerSpaces desc = [])),
        (bl_maxCapacity desc =? 0); simplify_eq; done. }
    pose proof (createBindlessLayout_items_grow (bl_registerSpaces desc) (a2, e2) Hpre) as Hg.
    destruct (fold_left _ _ _) as [a3 e3] eqn:E3. simpl in Hg.
    destruct a3; simpl.
    + left. exists e3. split; [by apply Hg|done].
    + right. done.
  - intros desc. eapply returnsE_weaken; [apply createBindingLayout_verdict|].
    intros r t (tail & -> & Hcases & _). by exists tail.
Qed.

End DeviceWrapper.

(** * The heap fit check *)

Ltac fit_cases :=
  unfold call, error, emit, ret, bind; simpl;
  repeat match goal with
         | |- context [Z.ltb ?a ?b] => destruct (Z.ltb_spec a b); simpl
         | |- context [negb (Z.eqb ?a ?b)] => destruct (Z.eqb_spec a b); simpl
         end.

(** C10.  In [bindTextureMemory], [bindBufferMemory] and
    [bindAccelStructMemory], called with a resource and a heap that are not
    null, the "does not fit" rejection happens exactly when the resource is
    virtual and [(offset + size) mod 2^64] exceeds the heap capacity, [size]
    being the requirement the wrapped device reports.  For each of the
    three there are a 64-bit offset and a 64-bit size whose true sum exceeds
    [2^64] for which the check passes and the call is forwarded. *)
Theorem heap_fit_check_wraps :
  (forall dev texture heap offset,
     bindTextureMemory dev (Some texture) (Some heap) offset
     = (Done false,
        [Backend (Call_getTextureMemoryRequirements texture);
         Message Error
           [F_DoesNotFit offset
              (mr_size (dev_getTextureMemoryRequirements dev texture))
              (hd_capacity (heap_desc heap))]])
     <-> td_isVirtual (tex_desc texture) = true
         /\ hd_capacity (heap_desc heap)
            < (offset + mr_size (dev_getTextureMemoryRequirements dev texture))
              mod 2 ^ 64)
  /\ (forall dev buffer heap offset,
        bindBufferMemory dev (Some buffer) (Some heap) offset
        = (Done false,
           [Backend (Call_getBufferMemoryRequirements buffer);
            Message Error
              [F_DoesNotFit offset
                 (mr_size (dev_getBufferMemoryRequirements dev buffer))
                 (hd_capacity (heap_desc heap))]])
        <-> bd_isVirtual (buf_desc buffer) = true
            /\ hd_capacity (heap_desc heap)
               < (offset + mr_size (dev_getBufferMemoryRequirements dev buffer))
                 mod 2 ^ 64)
  /\ (forall dev as_ heap offset,
        bindAccelStructMemory dev (Some as_) (Some heap) offset
        = (Done false,
           [Backend (Call_getAccelStructMemoryRequirements (unwrapAccelStruct as_));
            Message Error
              [F_DoesNotFit offset
                 (mr_size (dev_getAccelStructMemoryRequirements dev
                             (unwrapAccelStruct as_)))
                 (hd_capacity (heap_desc heap))]])
        <-> asd_isVirtual (AccelStruct_getDesc (unwrapAccelStruct as_)) = true
            /\ hd_capacity (heap_desc heap)
               < (offset + mr_size (dev_getAccelStructMemoryRequirements dev
                                      (unwrapAccelStruct as_)))
                 mod 2 ^ 64)
  /\ (exists dev heap offset size,
        is_uint64 offset /\ is_uint64 size /\ 2 ^ 64 < offset + size
        /\ (exists texture,
              mr_size (dev_getTextureMemoryRequirements dev texture) = size
              /\ bindTextureMemory dev (Some texture) (Some heap) offset
                 = (Done true,
                    [Backend (Call_getTextureMemoryRequirements texture);
                     Backend (Call_bindTextureMemory texture heap offset)]))
        /\ (exists buffer,
              mr_size (dev_getBufferMemoryRequirements dev buffer) = size
              /\ bindBufferMemory dev (Some buffer) (Some heap) offset
                 = (Done true,
                    [Backend (Call_getBufferMemoryRequirements buffer);
                     Backend (Call_bindBufferMemory buffer heap offset)]))
        /\ (exists as_,
              mr_size (dev_getAccelStructMemoryRequirements dev as_) = size
              /\ bindAccelStructMemory dev (Some as_) (Some heap) offset
                 = (Done true,
                    [Backend (Call_getAccelStructMemoryRequirements as_);
                     Backend (Call_bindAccelStructMemory as_ heap offset)]))).
Proof.
  split; [|split; [|split]].
  - intros dev texture heap offset. unfold bindTextureMemory, wrap64.
    destruct (td_isVirtual (tex_desc texture)); fit_cases;
      split; try done; try (intros [_ ?]; lia); try (by intros [? _]).
  - intros dev buffer heap offset. unfold bindBufferMemory, wrap64.
    destruct (bd_isVirtual (buf_desc buffer)); fit_cases;
      split; try done; try (intros [_ ?]; lia); try (by intros [? _]).
  - intros dev as_ heap offset. unfold bindAccelStructMemory, wrap64.
    destruct (asd_isVirtual (AccelStruct_getDesc (unwrapAccelStruct as_)));
      fit_cases;
      split; try done; try (intros [_ ?]; lia); try (by intros [? _]).
  - exists (Samples.device D3D12 (Samples.memReq (2 ^ 63) 256)),
      Samples.heap64k, (2 ^ 63 + 256), (2 ^ 63).
    split; [by vm_compute|]. split; [by vm_compute|]. split; [by vm_compute|].
    split; [|split].
    + exists Samples.virtualTexture. split; [done|]. by vm_compute.
    + exists Samples.virtualBuffer. split; [done|]. by vm_compute.
    + exists Samples.virtualAccelStruct. split; [done|]. by vm_compute.
Qed.

(** * The claims at concrete inputs *)

(** C2 as stated fails: a 1-D texture descriptor with [height = 2],
    [arraySize = 2] and [sampleCount = 3] makes [createTexture] invoke the
    sink three times in one failing call. *)
Lemma createTexture_three_sink_calls :
  result (createTexture Samples.d3d12 Samples.textureName Samples.texture1D_bad)
  = Done None
  /\ messages (trace (createTexture Samples.d3d12 Samples.textureName
                        Samples.texture1D_bad))
     = [(Error, [F_HeightMustBe1]); (Error, [F_ArraySizeMustBe1]);
        (Error, [F_SampleCountMustBe1])]
  /\ length (messages (trace (createTexture Samples.d3d12 Samples.textureName
                                Samples.texture1D_bad))) <> 1%nat.
Proof. by vm_compute. Qed.

(** C4 as stated fails: on Vulkan a structured buffer item with a null
    resource is accepted. *)
Lemma null_structured_buffer_accepted_on_vulkan :
  validateBindingSetItem Samples.vulkan Samples.constantBufferAlignment
    Samples.resolveSubresources Samples.isEntireBuffer Samples.resolveRange
    (Samples.nullItem StructuredBuffer_SRV) false []
  = (Done (true, []), [Backend Call_getGraphicsAPI]).
Proof. by vm_compute. Qed.

(** C8 as stated fails: a volatile constant buffer with one version, no CPU
    access and none of the usage flags is still rejected when it keeps an
    unknown initial state. *)
Lemma volatile_buffer_unknown_initial_state_rejected :
  let d := Samples.volatileCB true in
  bd_isVolatile d = true /\ bd_isVertexBuffer d = false
  /\ bd_isConstantBuffer d = true /\ bd_maxVersions d = 1
  /\ bd_cpuAccess d = CpuNone /\ volatileUnsupportedUsage d = false
  /\ createBuffer Samples.d3d12 Samples.bufferName d
     = (Done None, [Message Error [F_InitialStateUnknown]]).
Proof. by vm_compute. Qed.

(** The same descriptor without [keepInitialState] is forwarded, and a
    volatile vertex buffer is rejected. *)
Lemma createBuffer_volatile_rules_witness :
  bd_isVolatile (Samples.volatileCB false) = true
  /\ createBuffer Samples.d3d12 Samples.bufferName (Samples.volatileCB false)
     = (Done (Some (mkBuffer 4 (Samples.volatileCB false))),
        [Backend (Call_createBuffer (Samples.volatileCB false))])
  /\ exists f, createBuffer Samples.d3d12 Samples.bufferName Samples.volatileVB
               = (Done None, [Message Error [f]]).
Proof.
  split; [reflexivity|]. split.
  - apply (proj2 (createBuffer_volatile_rules Samples.d3d12 Samples.bufferName
                    (Samples.volatileCB false) eq_refl));
      [reflexivity|discriminate|reflexivity|reflexivity].
  - apply (proj1 (createBuffer_volatile_rules Samples.d3d12 Samples.bufferName
                    Samples.volatileVB eq_refl)).
    right; right; right. reflexivity.
Defined.

(** C1 at the failing input: a top-level descriptor with the compaction
    flag reaches the wrapped device before it is rejected. *)
Lemma createAccelStruct_validates_after_backend_witness :
  createAccelStruct Samples.d3d12 Samples.allowUpdate Samples.allowCompaction
    Samples.tlasCompaction
  = (Done None,
     [Backend (Call_createAccelStruct Samples.tlasCompaction);
      Message Error [F_TlasCompaction]]).
Proof.
  apply (createAccelStruct_validates_after_backend Samples.d3d12
           Samples.allowUpdate Samples.allowCompaction Samples.tlasCompaction
           (BackendAccelStruct 8 Samples.tlasCompaction));
    [reflexivity|discriminate|left; reflexivity].
Defined.

(** C3 at the failing input: on D3D12, whatever the fuel. *)
Lemma createSamplerFeedbackForNativeTexture_diverges_witness :
  dev_getGraphicsAPI Samples.d3d12 = D3D12
  /\ createSamplerFeedbackForNativeTexture Samples.d3d12 1000 None
     = (OutOfFuel, replicate 1000 (Backend Call_getGraphicsAPI)).
Proof.
  split; [reflexivity|].
  apply (createSamplerFeedbackForNativeTexture_diverges Samples.d3d12 1000 None).
  reflexivity.
Defined.

(** The sibling [createSamplerFeedbackTexture] does forward on D3D12. *)
Example createSamplerFeedbackTexture_forwards :
  createSamplerFeedbackTexture Samples.d3d12 None
  = (Done (Some 2),
     [Backend Call_getGraphicsAPI; Backend (Call_createSamplerFeedbackTexture None)]).
Proof. reflexivity. Qed.

(** C9 at a concrete input: a bottom-level structure with the update flag. *)
Lemma accelStruct_wrap_unwrap_witness :
  result (createAccelStruct Samples.d3d12 Samples.allowUpdate
            Samples.allowCompaction Samples.blasUpdate)
  = Done (Some (AccelStructWrapper (BackendAccelStruct 8 Samples.blasUpdate)
                  false true false 0))
  /\ exists as_,
       dev_createAccelStruct Samples.d3d12 Samples.blasUpdate = Some as_
       /\ unwrapResource
            (Some (ResAccelStruct
                     (AccelStructWrapper (BackendAccelStruct 8 Samples.blasUpdate)
                        false true false 0)))
          = Some (ResAccelStruct as_).
Proof.
  split; [reflexivity|].
  destruct (accelStruct_wrap_unwrap Samples.d3d12 Samples.allowUpdate
              Samples.allowCompaction Samples.blasUpdate
              (AccelStructWrapper (BackendAccelStruct 8 Samples.blasUpdate)
                 false true false 0) eq_refl)
    as [(as_ & H1 & _ & _ & H2) _].
  exists as_. split; [exact H1|exact H2].
Defined.

(** C4 at concrete inputs: a null constant buffer on D3D12 is rejected. *)
Lemma null_resource_verdict_witness :
  si_resourceHandle (Samples.nullItem ConstantBuffer) = None
  /\ exists errorStream',
       result (validateBindingSetItem Samples.d3d12
                 Samples.constantBufferAlignment Samples.resolveSubresources
                 Samples.isEntireBuffer Samples.resolveRange
                 (Samples.nullItem ConstantBuffer) false [])
       = Done (false, errorStream').
Proof.
  split; [reflexivity|].
  destruct (null_resource_verdict Samples.d3d12 Samples.constantBufferAlignment
              Samples.resolveSubresources Samples.isEntireBuffer
              Samples.resolveRange (Samples.nullItem ConstantBuffer) false []
              eq_refl) as (es & H & _).
  exists es. exact H.
Defined.

(** C7 at a concrete input: an empty binding set against a layout that
    declares the texture SRV [t3] fails, and the diagnostic lists [t3] as
    declared and not bound. *)
Lemma createBindingSet_location_diffs_witness :
  Forall wellTyped (sd_bindings (mkSetDesc []))
  /\ exists t,
       createBindingSet Samples.d3d12 Samples.arraySize SRV
         Samples.constantBufferAlignment Samples.resolveSubresources
         Samples.isEntireBuffer Samples.resolveRange
         (mkSetDesc []) (Some (Samples.srvLayout 1 3))
       = (Done None, t)
       /\ F_DeclaredNotBound {[ mkLocation SRV 0 3 0 ]} ∈ findings t.
Proof.
  split; [constructor|].
  destruct (createBindingSet_location_diffs Samples.d3d12 Samples.arraySize SRV
              Samples.constantBufferAlignment Samples.resolveSubresources
              Samples.isEntireBuffer Samples.resolveRange
              (mkSetDesc []) 1
              (mkLayoutDesc ShaderType_All 0 false [mkLayoutItem 3 Texture_SRV 1])
              (List.Forall_nil _))
    as (_ & _ & r & t & Heq & _ & _ & _ & Hsub).
  cbn [ld_registerSpace] in Hsub.
  assert (locations (layoutSummary Samples.arraySize SRV
            (mkLayoutDesc ShaderType_All 0 false [mkLayoutItem 3 Texture_SRV 1]))
          = {[ mkLocation SRV 0 3 0 ]}) as Hdeclared by (by vm_compute).
  assert (locations (setSummary SRV (mkSetDesc []) 0) = ∅) as Hbound by done.
  rewrite Hdeclared, Hbound in Hsub.
  destruct Hsub as (_ & -> & Hin); [set_solver|].
  exists t. split; [exact Heq|].
  by rewrite difference_empty_L in Hin.
Defined.

Ltac assertions_hold :=
  repeat first [apply Forall_nil_2 | apply Forall_cons_2];
  hnf;
  first [exact I | intros _; apply (bool_decide_unpack _); by vm_compute].

(** C5 at a concrete input: two layouts visible to every stage that both
    declare the texture SRV [t3] of register space 0, each of them once. *)
Lemma duplicate_bindings_across_layouts_witness :
  Samples.computeShader ∈ [Samples.computeShader]
  /\ assertionsHold Samples.arraySize SRV
       [Some (Samples.srvLayout 1 3); Some (Samples.srvLayout 2 3)]
       [Samples.computeShader]
  /\ (exists locs, mkLocation SRV 0 3 0 ∈ locs
        /\ F_DuplicateBindings ShaderType_Compute locs
           ∈ findings (trace (validatePipelineBindingLayouts Samples.d3d11
                                Samples.arraySize SRV Samples.maxBindingLayouts
                                Samples.maxPushConstantSize
                                [Some (Samples.srvLayout 1 3);
                                 Some (Samples.srvLayout 2 3)]
                                [Samples.computeShader])))
  /\ result (validatePipelineBindingLayouts Samples.d3d11 Samples.arraySize SRV
               Samples.maxBindingLayouts Samples.maxPushConstantSize
               [Some (Samples.srvLayout 1 3); Some (Samples.srvLayout 2 3)]
               [Samples.computeShader]) <> Done true.
Proof.
  assert (Samples.computeShader ∈ [Samples.computeShader]) as Hin
    by (by apply list_elem_of_singleton).
  split; [exact Hin|].
  assert (assertionsHold Samples.arraySize SRV
            [Some (Samples.srvLayout 1 3); Some (Samples.srvLayout 2 3)]
            [Samples.computeShader]) as Hassert by assertions_hold.
  split; [exact Hassert|].
  destruct (duplicate_bindings_across_layouts Samples.d3d11 Samples.arraySize SRV
              Samples.maxBindingLayouts Samples.maxPushConstantSize
              [Some (Samples.srvLayout 1 3); Some (Samples.srvLayout 2 3)]
              [Samples.computeShader] Samples.computeShader Hin) as [Hdup _].
  destruct (Hdup 0%nat 1%nat
              (mkLayoutDesc ShaderType_All 0 false [mkLayoutItem 3 Texture_SRV 1])
              (mkLayoutDesc ShaderType_All 0 false [mkLayoutItem 3 Texture_SRV 1])
              (mkLocation SRV 0 3 0)) as (Hline & Hres & _).
  - done.
  - by exists 1.
  - by exists 2.
  - exists (mkLayoutItem 3 Texture_SRV 1). split; [by apply list_elem_of_singleton|].
    split; [by vm_compute|done].
  - exists (mkLayoutItem 3 Texture_SRV 1). split; [by apply list_elem_of_singleton|].
    split; [by vm_compute|done].
  - split; [exact (Hline Hassert)|exact Hres].
Defined.

(** C6 at a concrete input: a layout with the slots 0 and 5 and a layout
    with the slot 3, on D3D11. *)
Lemma range_overlap_reported_witness :
  let wide := Layout 1 (mkLayoutDesc ShaderType_All 0 false
                          [mkLayoutItem 0 Texture_SRV 1; mkLayoutItem 5 Texture_SRV 1]) in
  let bindingLayouts := [Some wide; Some (Samples.srvLayout 2 3)] in
  assertionsHold Samples.arraySize SRV bindingLayouts [Samples.computeShader]
  /\ F_OverlappingRanges ShaderType_Compute true false false false
     ∈ findings (trace (validatePipelineBindingLayouts Samples.d3d11
                          Samples.arraySize SRV Samples.maxBindingLayouts
                          Samples.maxPushConstantSize bindingLayouts
                          [Samples.computeShader]))
  /\ overlappingPair SRV
       (map (stageSummary Samples.arraySize SRV ShaderType_Compute) bindingLayouts)
  /\ ~ overlappingPair UAV
         (map (stageSummary Samples.arraySize SRV ShaderType_Compute)
              bindingLayouts).
Proof.
  intros wide bindingLayouts.
  assert (assertionsHold Samples.arraySize SRV bindingLayouts
            [Samples.computeShader]) as Hassert by assertions_hold.
  assert (F_OverlappingRanges ShaderType_Compute true false false false
          ∈ findings (trace (validatePipelineBindingLayouts Samples.d3d11
                               Samples.arraySize SRV Samples.maxBindingLayouts
                               Samples.maxPushConstantSize bindingLayouts
                               [Samples.computeShader]))) as Hline.
  { assert (findings (trace (validatePipelineBindingLayouts Samples.d3d11
                               Samples.arraySize SRV Samples.maxBindingLayouts
                               Samples.maxPushConstantSize bindingLayouts
                               [Samples.computeShader]))
            = [F_OverlapHeader;
               F_OverlappingRanges ShaderType_Compute true false false false])
      as -> by (by vm_compute).
    apply elem_of_cons. right. apply elem_of_cons. by left. }
  split; [exact Hassert|]. split; [exact Hline|].
  destruct (proj1 (range_overlap_reported Samples.d3d11 Samples.arraySize SRV
                     Samples.maxBindingLayouts Samples.maxPushConstantSize
                     bindingLayouts [Samples.computeShader] ShaderType_Compute
                     true false false false Hassert) Hline)
    as (_ & _ & _ & _ & Hflags).
  split.
  - by apply (Hflags SRV).
  - intros Huav. apply (Hflags UAV) in Huav. discriminate.
Defined.

(** A layout that declares [t3] twice by itself fails the assertion of the
    first loop: the validation is aborted and reports nothing, whether the
    layout is alone, is followed by a layout that declares [t3] again, or
    is followed by a null handle. *)
Example duplicate_inside_a_layout_aborts :
  let twice := Layout 1 (mkLayoutDesc ShaderType_All 0 false
                           [mkLayoutItem 3 Texture_SRV 1; mkLayoutItem 3 Texture_SRV 1]) in
  validatePipelineBindingLayouts Samples.d3d11 Samples.arraySize SRV
    Samples.maxBindingLayouts Samples.maxPushConstantSize
    [Some twice] [Samples.computeShader] = (Aborted, [])
  /\ validatePipelineBindingLayouts Samples.d3d11 Samples.arraySize SRV
       Samples.maxBindingLayouts Samples.maxPushConstantSize
       [Some twice; Some (Samples.srvLayout 2 3)] [Samples.computeShader]
     = (Aborted, [])
  /\ validatePipelineBindingLayouts Samples.d3d11 Samples.arraySize SRV
       Samples.maxBindingLayouts Samples.maxPushConstantSize
       [Some twice; None] [Samples.computeShader]
     = (Aborted, [])
  /\ validatePipelineBindingLayouts Samples.d3d11 Samples.arraySize SRV
       Samples.maxBindingLayouts Samples.maxPushConstantSize
       [Some twice] [] = (Done true, []).
Proof. by vm_compute. Qed.

(** The same two layouts on disjoint slots (3 and 5) pass on D3D11 with no
    message at all. *)
Example disjoint_slots_pass :
  validatePipelineBindingLayouts Samples.d3d11 Samples.arraySize SRV
    Samples.maxBindingLayouts Samples.maxPushConstantSize
    [Some (Samples.srvLayout 1 3); Some (Samples.srvLayout 2 5)]
    [Samples.computeShader]
  = (Done true, [Backend Call_getGraphicsAPI]).
Proof. by vm_compute. Qed.

(** A layout with slots 0 and 5 and a layout with slot 3 share no location,
    but their SRV ranges [0, 5] and [3, 3] overlap: D3D11 rejects them, and
    Vulkan does not. *)
Example overlapping_ranges_on_d3d11 :
  let wide := Layout 1 (mkLayoutDesc ShaderType_All 0 false
                          [mkLayoutItem 0 Texture_SRV 1; mkLayoutItem 5 Texture_SRV 1]) in
  validatePipelineBindingLayouts Samples.d3d11 Samples.arraySize SRV
    Samples.maxBindingLayouts Samples.maxPushConstantSize
    [Some wide; Some (Samples.srvLayout 2 3)] [Samples.computeShader]
  = (Done false,
     [Backend Call_getGraphicsAPI;
      Message Error [F_OverlapHeader;
                     F_OverlappingRanges ShaderType_Compute true false false false]])
  /\ validatePipelineBindingLayouts Samples.vulkan Samples.arraySize SRV
       Samples.maxBindingLayouts Samples.maxPushConstantSize
       [Some wide; Some (Samples.srvLayout 2 3)] [Samples.computeShader]
     = (Done true, [Backend Call_getGraphicsAPI]).
Proof. by vm_compute. Qed.

(** Two ranges that are both non-empty need not overlap. *)
Example nonempty_ranges_need_not_overlap :
  Range.overlapsWith (Range.add Range_init 0) (Range.add Range_init 5) = false
  /\ Range.empty (Range.add Range_init 0) = false
  /\ Range.empty (Range.add Range_init 5) = false
  /\ Range.empty Range_init = true.
Proof. by vm_compute. Qed.

(** * The further properties at concrete inputs *)

(** A pipeline with a layout in slot 0 and a null handle in slot 1. *)
Lemma validatePipelineBindingLayouts_null_layout_witness :
  let bindingLayouts := [Some (Samples.srvLayout 1 3); None] in
  None ∈ bindingLayouts
  /\ assertionsHold Samples.arraySize SRV bindingLayouts [Samples.computeShader]
  /\ result (validatePipelineBindingLayouts Samples.d3d12 Samples.arraySize SRV
               Samples.maxBindingLayouts Samples.maxPushConstantSize
               bindingLayouts [Samples.computeShader]) = Undefined
  /\ F_LayoutIsNull 1
     ∈ findings (trace (validatePipelineBindingLayouts Samples.d3d12
                          Samples.arraySize SRV Samples.maxBindingLayouts
                          Samples.maxPushConstantSize
                          bindingLayouts [Samples.computeShader])).
Proof.
  intros bindingLayouts.
  assert (None ∈ bindingLayouts) as Hnull by (right; by left).
  assert (assertionsHold Samples.arraySize SRV bindingLayouts
            [Samples.computeShader]) as Hassert by assertions_hold.
  split; [exact Hnull|]. split; [exact Hassert|].
  destruct (validatePipelineBindingLayouts_null_layout Samples.d3d12
              Samples.arraySize SRV Samples.maxBindingLayouts
              Samples.maxPushConstantSize bindingLayouts [Samples.computeShader]
              Hnull Hassert)
    as [Hres Hmsg].
  split; [exact Hres|].
  apply (Hmsg Samples.computeShader 1%nat);
    [by apply list_elem_of_singleton|reflexivity].
Defined.

(** The three ways pipeline validation ends: a verdict, undefined
    behaviour at a null handle, and a failed assertion. *)
Example validatePipelineBindingLayouts_three_ends :
  result (validatePipelineBindingLayouts Samples.d3d12 Samples.arraySize SRV
            Samples.maxBindingLayouts Samples.maxPushConstantSize
            [Some (Samples.srvLayout 1 3)] [Samples.computeShader]) = Done true
  /\ result (validatePipelineBindingLayouts Samples.d3d12 Samples.arraySize SRV
               Samples.maxBindingLayouts Samples.maxPushConstantSize
               [None] [Samples.computeShader]) = Undefined
  /\ result (validatePipelineBindingLayouts Samples.d3d12 Samples.arraySize SRV
               Samples.maxBindingLayouts Samples.maxPushConstantSize
               [Some (Layout 1 SamplesExt.twiceLayoutDesc)]
               [Samples.computeShader]) = Aborted.
Proof. by vm_compute. Qed.

(** Two layouts on the slots 3 and 5: the verdict is good. *)
Lemma validatePipelineBindingLayouts_verdict_witness :
  exists t,
    validatePipelineBindingLayouts Samples.d3d11 Samples.arraySize SRV
      Samples.maxBindingLayouts Samples.maxPushConstantSize
      [Some (Samples.srvLayout 1 3); Some (Samples.srvLayout 2 5)]
      [Samples.computeShader]
    = (Done true, t).
Proof.
  destruct (validatePipelineBindingLayouts_verdict Samples.d3d11
              Samples.arraySize SRV Samples.maxBindingLayouts
              Samples.maxPushConstantSize
              [Some (Samples.srvLayout 1 3); Some (Samples.srvLayout 2 5)]
              [Samples.computeShader])
    as (ok & t & Heq & Hok & _).
  - intros [[=]|[[=]|[]%elem_of_nil]%elem_of_cons]%elem_of_cons.
  - intros desc [->|[->|[]%elem_of_nil]%elem_of_cons]%elem_of_cons; discriminate.
  - discriminate.
  - assertions_hold.
  - exists t. rewrite Heq. f_equal. f_equal. apply Hok.
    split.
    + intros shader ->%list_elem_of_singleton. by vm_compute.
    + split; [|split; [|split]].
      * intros d1 d2 [->|[->|[]%elem_of_nil]%elem_of_cons]%elem_of_cons
                     [->|[->|[]%elem_of_nil]%elem_of_cons]%elem_of_cons;
          reflexivity.
      * constructor.
      * simpl. lia.
      * intros item []%elem_of_nil.
Defined.

(** A bottom-level structure with the update flag. *)
Lemma accelStruct_wrapper_is_transparent_witness :
  wrapperConsistent
    (AccelStructWrapper (BackendAccelStruct 8 Samples.blasUpdate)
       false true false 0).
Proof.
  apply (accelStruct_wrapper_is_transparent Samples.d3d12 Samples.allowUpdate
           Samples.allowCompaction Samples.blasUpdate
           (AccelStructWrapper (BackendAccelStruct 8 Samples.blasUpdate)
              false true false 0) eq_refl).
Defined.

(** A null constant buffer is not written to a descriptor table on D3D12. *)
Lemma binding_item_verdict_witness :
  result (writeDescriptorTable Samples.d3d12 Samples.constantBufferAlignment
            Samples.resolveSubresources Samples.isEntireBuffer
            Samples.resolveRange 1 (Samples.nullItem ConstantBuffer))
  = Done false.
Proof.
  destruct (binding_item_verdict Samples.d3d12 Samples.constantBufferAlignment
              Samples.resolveSubresources Samples.isEntireBuffer
              Samples.resolveRange (Samples.nullItem ConstantBuffer) true [] 1 I)
    as (_ & _ & Hno).
  apply Hno. discriminate.
Defined.

(** An empty binding set against a layout that declares [t3] is rejected. *)
Lemma createBindingSet_forwards_iff_witness :
  result (createBindingSet Samples.d3d12 Samples.arraySize SRV
            Samples.constantBufferAlignment Samples.resolveSubresources
            Samples.isEntireBuffer Samples.resolveRange
            (mkSetDesc []) (Some (Samples.srvLayout 1 3)))
  = Done None.
Proof.
  destruct (createBindingSet_forwards_iff Samples.d3d12 Samples.arraySize SRV
              Samples.constantBufferAlignment Samples.resolveSubresources
              Samples.isEntireBuffer Samples.resolveRange
              (mkSetDesc []) 1 (SamplesExt.srvLayoutDesc 3) (List.Forall_nil _))
    as (r & t & Heq & _ & Hno).
  change (Samples.srvLayout 1 3) with (Layout 1 (SamplesExt.srvLayoutDesc 3)).
  rewrite Heq. simpl. f_equal. apply Hno.
  intros (Hsame & _).
  assert (mkLocation SRV 0 3 0 ∈ ([] : list BindingLocation)) as Hin.
  { apply (Hsame (mkLocation SRV 0 3 0)). by vm_compute; left. }
  by apply elem_of_nil in Hin.
Defined.

(** A command list on the graphics queue. *)
Lemma createCommandList_wraps_the_devices_list_witness :
  resultE (createCommandList Samples.d3d12 SamplesExt.device
             SamplesExt.invalidEnum SamplesExt.graphicsList)
  = Done (Some (CommandListWrapper
                  (BackendCommandList 17 SamplesExt.graphicsList)
                  false Queue_Graphics)).
Proof.
  destruct (createCommandList_wraps_the_devices_list Samples.d3d12
              SamplesExt.device SamplesExt.invalidEnum SamplesExt.graphicsList
              (or_introl eq_refl))
    as (r & t & Heq & _ & Hwrap & _).
  rewrite Heq. simpl. f_equal. apply Hwrap.
  split; [exact I|]. eexists. split; reflexivity.
Defined.

(** A layout with one texture SRV is created. *)
Lemma createBindingLayout_forwards_iff_witness :
  createBindingLayout Samples.d3d12 Samples.arraySize SRV
    Samples.maxPushConstantSize SamplesExt.device
    SamplesExt.maxVolatileConstantBuffers (SamplesExt.srvLayoutDesc 3)
  = (Done (Some (Layout 14 (SamplesExt.srvLayoutDesc 3))),
     [Core (Backend Call_getGraphicsAPI);
      BackendExt (Call_createBindingLayout (SamplesExt.srvLayoutDesc 3))]).
Proof.
  destruct (createBindingLayout_forwards_iff Samples.d3d12 Samples.arraySize SRV
              Samples.maxPushConstantSize SamplesExt.device
              SamplesExt.maxVolatileConstantBuffers (SamplesExt.srvLayoutDesc 3))
    as (r & t & Heq & tail & -> & Hyes & _).
  - by vm_compute.
  - destruct Hyes as [-> ->].
    + split; [discriminate|]. split; [by vm_compute; apply NoDup_singleton|].
      split; [by vm_compute|]. split.
      * intros item ->%list_elem_of_singleton.
        split; [discriminate|]. split; [discriminate|].
        split; [discriminate|discriminate].
      * split; [simpl; lia|]. by left.
    + exact Heq.
Defined.

(** The layout just created has no duplicate location. *)
Lemma created_layouts_have_no_duplicates_witness :
  exists r t,
    FillBindingLayoutSummary Samples.arraySize SRV (SamplesExt.srvLayoutDesc 3)
      (BindingSummary_init, ∅) = (Done r, t)
    /\ snd r = ∅.
Proof.
  destruct (created_layouts_have_no_duplicates Samples.d3d12 Samples.arraySize
              SRV Samples.maxPushConstantSize SamplesExt.device
              SamplesExt.maxVolatileConstantBuffers (SamplesExt.srvLayoutDesc 3))
    as (r & t & Heq & Hdup & _).
  - by vm_compute.
  - assert (traceE (createBindingLayout Samples.d3d12 Samples.arraySize SRV
                      Samples.maxPushConstantSize SamplesExt.device
                      SamplesExt.maxVolatileConstantBuffers
                      (SamplesExt.srvLayoutDesc 3))
            = [Core (Backend Call_getGraphicsAPI);
               BackendExt (Call_createBindingLayout (SamplesExt.srvLayoutDesc 3))])
      as -> by (by vm_compute).
    simpl. by left.
  - exists r, t. split; [exact Heq|exact Hdup].
Defined.

(** A pipeline of the layout just created. *)
Lemma created_layouts_pass_the_assertion_witness :
  result (validatePipelineBindingLayouts Samples.d3d12 Samples.arraySize SRV
            Samples.maxBindingLayouts Samples.maxPushConstantSize
            [Some (Layout 14 (SamplesExt.srvLayoutDesc 3))]
            [Samples.computeShader]) <> Aborted.
Proof.
  apply (created_layouts_pass_the_assertion Samples.d3d12 Samples.arraySize SRV
           Samples.maxBindingLayouts Samples.maxPushConstantSize
           SamplesExt.device SamplesExt.maxVolatileConstantBuffers
           [Some (Layout 14 (SamplesExt.srvLayoutDesc 3))]
           [Samples.computeShader]).
  intros id desc [= -> ->]%list_elem_of_singleton.
  split; [by vm_compute|].
  assert (traceE (createBindingLayout Samples.d3d12 Samples.arraySize SRV
                    Samples.maxPushConstantSize SamplesExt.device
                    SamplesExt.maxVolatileConstantBuffers
                    (SamplesExt.srvLayoutDesc 3))
          = [Core (Backend Call_getGraphicsAPI);
             BackendExt (Call_createBindingLayout (SamplesExt.srvLayoutDesc 3))])
    as -> by (by vm_compute).
  simpl. by left.
Defined.

(** A layout that declares [t3] twice is not created. *)
Example duplicate_layout_rejected :
  createBindingLayout Samples.d3d12 Samples.arraySize SRV
    Samples.maxPushConstantSize SamplesExt.device
    SamplesExt.maxVolatileConstantBuffers SamplesExt.twiceLayoutDesc
  = (Done None,
     [Core (Backend Call_getGraphicsAPI);
      MessageExt Error [G_LayoutDuplicates {[ mkLocation SRV 0 3 0 ]}]]).
Proof. by vm_compute. Qed.

(** An item of type [None] is reported twice, by the summary and in the
    gathered message; an item of type [Count] is reported by the summary,
    and the layout is created all the same. *)
Example unnamed_item_types_in_a_layout :
  createBindingLayout Samples.d3d12 Samples.arraySize SRV
    Samples.maxPushConstantSize SamplesExt.device
    SamplesExt.maxVolatileConstantBuffers SamplesExt.noneLayoutDesc
  = (Done None,
     [Core (Message Error [F_InvalidLayoutItemType RT_None]);
      Core (Backend Call_getGraphicsAPI);
      MessageExt Error [G_NoneItems 1]])
  /\ createBindingLayout Samples.d3d12 Samples.arraySize SRV
       Samples.maxPushConstantSize SamplesExt.device
       SamplesExt.maxVolatileConstantBuffers SamplesExt.countLayoutDesc
     = (Done (Some (Layout 14 SamplesExt.countLayoutDesc)),
        [Core (Message Error [F_InvalidLayoutItemType RT_Count]);
         Core (Backend Call_getGraphicsAPI);
         BackendExt (Call_createBindingLayout SamplesExt.countLayoutDesc)]).
Proof. by vm_compute. Qed.
